(** * fiora: session, registration, deletion and AI-responder routes

    A shallow embedding of the server routes of [packages/server/src/routes]
    (the bot routes and the user routes), of [services/llm.ts] and of
    [utils/ldap.ts], followed by the properties proved about them.

    Conventions of the embedding
    - A Mongo collection is the list of its documents in natural order;
      [findOne] returns the first match, [deleteMany] filters, [save]
      replaces the stored copy that has the same [_id].
    - A Mongoose document held in a local variable is a value: mutating it
      changes nothing in the store until [save] is called.
    - Redis is a finite map from keys to a value with an optional expiry.
    - A route runs in the monad [M]: it reads an environment (clock, fresh
      ids, the outside services, the faults of this run) and threads the
      world (store, Redis, live sockets, emitted events, log); it returns a
      value or throws.
    - JS numbers are integers ([Z]) except the sampling temperature ([Q]).
    - A string is the sequence of the bytes of its UTF-8 encoding; white
      space is the white space of ECMAScript, in this encoding. *)

From Stdlib Require Import ZArith QArith List String Ascii Bool Lia.
From stdpp Require Import base option list gmap strings.

Open Scope Z_scope.

(** ** JavaScript primitives used by the routes *)

Module JS.

(** [if (s)] on a string. *)
Definition truthy (s : string) : bool :=
  match s with EmptyString => false | String _ _ => true end.

(** [s || d] on strings. *)
Definition or_else (s d : string) : string := if truthy s then s else d.

(** [n || d] on integers. *)
Definition or_elseZ (n d : Z) : Z := if n =? 0 then d else n.

(** [q || d] on the temperature. *)
Definition or_elseQ (q d : Q) : Q := if Qeq_bool q 0 then d else q.

(** The white space of [trim], of [parseInt] and of the class [\s]: the
    codes 9 to 13 and 32, which take one byte, U+00A0, which takes two,
    and U+1680, U+2000 to U+200A, U+2028, U+2029, U+202F, U+205F, U+3000
    and U+FEFF, which take three. *)
Definition is_space (c : ascii) : bool :=
  let n := nat_of_ascii c in
  ((9 <=? n)%nat && (n <=? 13)%nat) || (n =? 32)%nat.

Definition is_space2 (c d : ascii) : bool :=
  (nat_of_ascii c =? 194)%nat && (nat_of_ascii d =? 160)%nat.

Definition is_space3 (c d f : ascii) : bool :=
  let a := nat_of_ascii c in
  let b := nat_of_ascii d in
  let x := nat_of_ascii f in
  ((a =? 225)%nat && (b =? 154)%nat && (x =? 128)%nat)
  || ((a =? 226)%nat && (b =? 128)%nat
      && (((128 <=? x)%nat && (x <=? 138)%nat) || (x =? 168)%nat || (x =? 169)%nat
          || (x =? 175)%nat))
  || ((a =? 226)%nat && (b =? 129)%nat && (x =? 159)%nat)
  || ((a =? 227)%nat && (b =? 128)%nat && (x =? 128)%nat)
  || ((a =? 239)%nat && (b =? 187)%nat && (x =? 191)%nat).

(** What follows the first character of [s], when this character is a
    white space. *)
Definition after_one_space (s : string) : option string :=
  match s with
  | String c r =>
      if is_space c then Some r
      else match r with
           | String d r2 =>
               if is_space2 c d then Some r2
               else match r2 with
                    | String f r3 => if is_space3 c d f then Some r3 else None
                    | EmptyString => None
                    end
           | EmptyString => None
           end
  | EmptyString => None
  end.

(** [s] without the white space at its head; [backwards] when [s] is a
    string read from its end, in which the bytes of a character come in
    the reverse order. *)
Fixpoint strip (backwards : bool) (s : string) : string :=
  match s with
  | EmptyString => EmptyString
  | String c r =>
      if is_space c then strip backwards r
      else match r with
           | String d r2 =>
               if (if backwards then is_space2 d c else is_space2 c d)
               then strip backwards r2
               else match r2 with
                    | String f r3 =>
                        if (if backwards then is_space3 f d c else is_space3 c d f)
                        then strip backwards r3
                        else s
                    | EmptyString => s
                    end
           | EmptyString => s
           end
  end.

Definition trimStart (s : string) : string := strip false s.

Definition rev_string (s : string) : string :=
  string_of_list_ascii (List.rev (list_ascii_of_string s)).

Definition trimEnd (s : string) : string :=
  rev_string (strip true (rev_string s)).

(** [s.trim()] *)
Definition trim (s : string) : string := trimEnd (trimStart s).

Definition digit (c : ascii) : option Z :=
  let n := nat_of_ascii c in
  if ((48 <=? n)%nat && (n <=? 57)%nat) then Some (Z.of_nat n - 48) else None.

(** The longest prefix of decimal digits, read as a number; [acc] is the
    value read so far, [None] while no digit was seen. *)
Fixpoint digits (acc : option Z) (s : string) : option Z :=
  match s with
  | EmptyString => acc
  | String c r =>
      match digit c with
      | Some d => digits (Some (10 * default 0 acc + d)) r
      | None => acc
      end
  end.

(** [parseInt(s, 10)]; [None] is [NaN]. *)
Definition parseInt (s : string) : option Z :=
  match trimStart s with
  | String "-" r => Z.opp <$> digits None r
  | String "+" r => digits None r
  | t => digits None t
  end.

(** [n.toString()] for an integer. *)
Definition digit_char (d : Z) : ascii := ascii_of_nat (Z.to_nat (48 + d)).

Fixpoint pos_digits (fuel : nat) (n : Z) (acc : string) : string :=
  match fuel with
  | O => acc
  | S f =>
      let acc' := String (digit_char (n mod 10)) acc in
      if n / 10 =? 0 then acc' else pos_digits f (n / 10) acc'
  end.

Definition toString (n : Z) : string :=
  if n <? 0 then String "-" (pos_digits (S (Z.to_nat (Z.log2 (- n)))) (- n) EmptyString)
  else pos_digits (S (Z.to_nat (Z.log2 n))) n EmptyString.

(** [a.slice(start)]: a negative [start] counts from the end, and [-0] is
    [0], so [a.slice(-0)] is the whole array. *)
Definition slice {A} (start : Z) (a : list A) : list A :=
  let len := Z.of_nat (length a) in
  let k := if start <? 0 then Z.max (len + start) 0 else Z.min start len in
  drop (Z.to_nat k) a.

(** [a.indexOf(x)] *)
Fixpoint indexOf (x : string) (a : list string) : option nat :=
  match a with
  | [] => None
  | y :: r => if String.eqb y x then Some O else S <$> indexOf x r
  end.

(** [a.splice(i, 1)] *)
Definition splice1 {A} (i : nat) (a : list A) : list A := take i a ++ drop (S i) a.

(** What follows the prefix [p] of [s], when [s] starts with [p]. *)
Fixpoint strip_prefix (p s : string) : option string :=
  match p, s with
  | EmptyString, _ => Some s
  | String a p', String b s' => if Ascii.eqb a b then strip_prefix p' s' else None
  | String _ _, EmptyString => None
  end.

(** The text that replaces a match in [s.replace(pattern, replacement)],
    for a pattern without groups: [$$] is a dollar, [$&] the match, and
    the dollar followed by a backquote or a quote is what stands before
    or after the match. *)
Fixpoint expand (replacement before matched after : string) : string :=
  match replacement with
  | EmptyString => EmptyString
  | String c r =>
      match r with
      | String d r' =>
          if Ascii.eqb c "$" then
            if Ascii.eqb d "$" then String "$" (expand r' before matched after)
            else if Ascii.eqb d "&" then matched +:+ expand r' before matched after
            else if Ascii.eqb d "`" then before +:+ expand r' before matched after
            else if Ascii.eqb d "'" then after +:+ expand r' before matched after
            else String c (expand r before matched after)
          else String c (expand r before matched after)
      | EmptyString => String c EmptyString
      end
  end.

(** [s.replace(/p/g, replacement)] for a literal, non-empty [p]: [skip]
    counts the characters of the current match still to pass, [before] is
    the part of the string already passed. *)
Fixpoint replace_from (p replacement : string) (skip : nat) (before s : string) : string :=
  match s with
  | EmptyString => EmptyString
  | String c r =>
      match skip with
      | S k => replace_from p replacement k (before +:+ String c EmptyString) r
      | O =>
          match strip_prefix p s with
          | Some after =>
              expand replacement before p after
              +:+ replace_from p replacement (String.length p - 1)
                    (before +:+ String c EmptyString) r
          | None => String c (replace_from p replacement O (before +:+ String c EmptyString) r)
          end
      end
  end.

Definition replaceAll (p replacement s : string) : string :=
  replace_from p replacement O EmptyString s.

End JS.

(** ** Documents *)

Definition ObjectId := string.

Inductive Role := role_user | role_assistant | role_system.

(** [ConversationMessage] of models/conversation.ts *)
Record ConversationMessage := {
  role : Role;
  content : string;
  createTime : Z }.

(** [ConversationDocument]; [c_group = None] is a private conversation. *)
Record ConversationDocument := {
  c_id : ObjectId;
  c_createTime : Z;
  c_lastActiveTime : Z;
  c_user : ObjectId;
  c_bot : ObjectId;
  c_group : option ObjectId;
  c_messages : list ConversationMessage }.

(** The [config] of a [BotDocument]. *)
Record BotConfig := {
  llmUrl : string;
  apiKey : string;
  model : string;
  systemPrompt : string;
  temperature : Q;
  maxTokens : Z;
  maxHistory : Z }.

(** [BotDocument]; its [type] is always ['ai']. *)
Record BotDocument := {
  b_id : ObjectId;
  b_createTime : Z;
  b_name : string;
  b_avatar : string;
  b_enabled : bool;
  b_config : BotConfig;
  b_creator : ObjectId }.

(** The fields of a user document that the routes read or write. *)
Record UserDocument := {
  u_id : ObjectId;
  u_username : string;
  u_salt : string;
  u_password : string;
  u_avatar : string;
  u_tag : string;
  u_createTime : Z;
  u_lastLoginTime : Z;
  u_lastLoginIp : string;
  u_authProvider : option string }.

Record GroupDocument := {
  g_id : ObjectId;
  g_name : string;
  g_avatar : string;
  g_creator : option ObjectId;
  g_createTime : Z;
  g_isDefault : bool;
  g_members : list ObjectId }.

Record FriendDocument := {
  f_from : ObjectId;
  f_to : ObjectId }.

(** The persisted record of a connection. *)
Record SocketDocument := {
  s_id : string;
  s_user : option ObjectId;
  s_os : string;
  s_browser : string;
  s_environment : string;
  s_ip : string }.

Record MessageDocument := {
  m_id : ObjectId;
  m_from : ObjectId;
  m_to : string;
  m_type : string;
  m_content : string;
  m_createTime : Z }.

Record HistoryDocument := {
  h_id : ObjectId;
  h_message : ObjectId }.

Record NotificationDocument := {
  n_user : ObjectId;
  n_token : string }.

(** ** Redis *)

(** The keys built by [getSealUserKey], [getBannedUsernameKey],
    [getNewUserKey], [getNewRegisteredUserIpKey] and the constant
    [DisableRegisterKey]: keys of different kinds or arguments differ. *)
Inductive RedisKey :=
| SealUserKey (userId : string)
| BannedUsernameKey (username : string)
| NewUserKey (userId : string)
| NewRegisteredUserIpKey (ip : string)
| DisableRegisterKey.

#[global] Instance RedisKey_eq_dec : EqDecision RedisKey.
Proof. solve_decision. Defined.

#[global] Instance RedisKey_countable : Countable RedisKey.
Proof.
  refine (inj_countable'
    (fun k => match k with
              | SealUserKey i => inl i
              | BannedUsernameKey u => inr (inl u)
              | NewUserKey i => inr (inr (inl i))
              | NewRegisteredUserIpKey a => inr (inr (inr (inl a)))
              | DisableRegisterKey => inr (inr (inr (inr tt)))
              end)
    (fun s => match s with
              | inl i => SealUserKey i
              | inr (inl u) => BannedUsernameKey u
              | inr (inr (inl i)) => NewUserKey i
              | inr (inr (inr (inl a))) => NewRegisteredUserIpKey a
              | inr (inr (inr (inr _))) => DisableRegisterKey
              end) _).
  by intros [].
Defined.

(** A stored value and the instant at which it expires, if it does. *)
Record RedisEntry := {
  r_value : string;
  r_expires : option Z }.

(** One day, in milliseconds ([OneDay], and the [Redis.Day] time to live). *)
Definition OneDay : Z := 1000 * 60 * 60 * 24.

(** ** The external services *)

(** [LLMMessage], [LLMConfig] of services/llm.ts; an absent optional field
    is [None]. *)
Record LLMMessage := {
  lm_role : Role;
  lm_content : string }.

Record LLMConfig := {
  lc_llmUrl : string;
  lc_apiKey : string;
  lc_model : string;
  lc_temperature : option Q;
  lc_maxTokens : option Z;
  lc_stream : option bool }.

(** The request that [chat] posts: the url, the bearer credential and the
    JSON body. *)
Record LLMRequest := {
  rq_url : string;
  rq_bearer : string;
  rq_model : string;
  rq_messages : list LLMMessage;
  rq_temperature : Q;
  rq_max_tokens : Z;
  rq_stream : bool }.

(** One [data: ] line of an incremental response, after [JSON.parse] and
    the read of [choices[0]?.delta?.content]: a fragment, a line that is
    skipped (parse error, no content), or the [[DONE]] marker. *)
Inductive Frame :=
| Delta (fragment : string)
| Skipped
| Done.

(** How the response stream stops: its [end] event, or an [error] event. *)
Inductive StreamEnd :=
| StreamEnds
| StreamError (message : string).

(** What the read of [choices[0].message.content] gives on a JSON body:
    it throws (there is no choice, or the choice has no message), it
    gives no text (the message has no content), or it gives a text. *)
Inductive ContentRead :=
| Unreadable
| NoContent
| Content (text : string).

(** The body of the response: a JSON body, or a stream of frames. *)
Inductive ResponseData :=
| JsonBody (read : ContentRead)
| StreamBody (frames : list Frame) (stop : StreamEnd).

(** The result of [axios.post]: a response, or a rejection with the
    message of the error and the [response.data.error.message] it may
    carry. *)
Inductive HttpResult :=
| HttpOk (data : ResponseData)
| HttpFails (message : string) (response_error_message : option string).

(** [LdapConfig], [LdapUser] of utils/ldap.ts *)
Record LdapConfig := {
  enable : bool;
  url : string;
  bindDN : string;
  bindCredentials : string;
  searchBase : string;
  searchFilter : string }.

Record LdapUser := {
  dn : string;
  attributes : list (string * string) }.

(** The directory server as the client sees it: which binds it accepts,
    what a search returns ([None]: the search rejects), whether unbind
    succeeds. *)
Record Directory := {
  ldap_bind : string -> string -> bool;
  ldap_search : string -> string -> option (list LdapUser);
  ldap_unbind : bool }.

(** The payload of a bearer token, and a symbolic model of [jwt-simple]: a
    token is a payload signed with a key, or any other text; decoding
    returns the payload exactly when the key is the signing key. *)
Record TokenPayload := {
  tp_user : string;
  tp_environment : string;
  tp_expires : Z }.

Inductive Token :=
| Signed (payload : TokenPayload) (key : string)
| Text (text : string).

Module jwt.

Definition encode (payload : TokenPayload) (key : string) : Token := Signed payload key.

(** [None]: [decode] throws. *)
Definition decode (token : Token) (key : string) : option TokenPayload :=
  match token with
  | Signed payload k => if String.eqb k key then Some payload else None
  | Text _ => None
  end.

End jwt.

(** [if (token)]: only the empty text is falsy. *)
Definition token_truthy (t : Token) : bool :=
  match t with
  | Signed _ _ => true
  | Text s => JS.truthy s
  end.

(** [config/server]: the fields the routes read. *)
Record ServerConfig := {
  jwtSecret : string;
  tokenExpiresTime : Z;
  disableRegister : bool;
  ldap : option LdapConfig;
  administrator : list string }.

(** ** The world *)

(** The message object sent with [botMessageComplete]. *)
Record BotMessageView := {
  v_id : ObjectId;
  v_from_id : ObjectId;
  v_from_username : string;
  v_from_avatar : string;
  v_from_tag : string;
  v_to : string;
  v_type : string;
  v_content : string;
  v_createTime : Z }.

(** What the server sends or does on the transport: [ctx.socket.emit]
    to a user id or a group id, [socket.emit] and [socket.disconnect] on a
    live connection, [ctx.socket.join]. *)
Inductive Event :=
| botMessageStream (target tempMessageId chunk : string) (botId : ObjectId) (groupId : option string)
| botMessageComplete (target tempMessageId : string) (message : BotMessageView)
| botMessageError (target tempMessageId error : string)
| forceLogout (socketId reason : string)
| disconnect (socketId : string)
| join (socketId room : string).

Inductive LogLevel := info | warn | error.

Record LogEntry := {
  level : LogLevel;
  tag : string;
  text : string }.

(** [ctx.socket]: the connection that called the route. *)
Record CtxSocket := {
  sk_id : string;
  sk_user : string;
  sk_isAdmin : bool;
  sk_ip : string }.

Record World := {
  users : list UserDocument;
  groups : list GroupDocument;
  friends : list FriendDocument;
  sockets : list SocketDocument;
  messages : list MessageDocument;
  histories : list HistoryDocument;
  notifications : list NotificationDocument;
  conversations : list ConversationDocument;
  bots : list BotDocument;
  redis : gmap RedisKey RedisEntry;
  io_sockets : list string;
  events : list Event;
  logs : list LogEntry;
  socket : CtxSocket }.

Definition set_users (f : list UserDocument -> list UserDocument) (w : World) : World :=
  {| users := f (users w); groups := groups w; friends := friends w; sockets := sockets w;
     messages := messages w; histories := histories w; notifications := notifications w;
     conversations := conversations w; bots := bots w; redis := redis w;
     io_sockets := io_sockets w; events := events w; logs := logs w; socket := socket w |}.

Definition set_groups (f : list GroupDocument -> list GroupDocument) (w : World) : World :=
  {| users := users w; groups := f (groups w); friends := friends w; sockets := sockets w;
     messages := messages w; histories := histories w; notifications := notifications w;
     conversations := conversations w; bots := bots w; redis := redis w;
     io_sockets := io_sockets w; events := events w; logs := logs w; socket := socket w |}.

Definition set_friends (f : list FriendDocument -> list FriendDocument) (w : World) : World :=
  {| users := users w; groups := groups w; friends := f (friends w); sockets := sockets w;
     messages := messages w; histories := histories w; notifications := notifications w;
     conversations := conversations w; bots := bots w; redis := redis w;
     io_sockets := io_sockets w; events := events w; logs := logs w; socket := socket w |}.

Definition set_sockets (f : list SocketDocument -> list SocketDocument) (w : World) : World :=
  {| users := users w; groups := groups w; friends := friends w; sockets := f (sockets w);
     messages := messages w; histories := histories w; notifications := notifications w;
     conversations := conversations w; bots := bots w; redis := redis w;
     io_sockets := io_sockets w; events := events w; logs := logs w; socket := socket w |}.

Definition set_messages (f : list MessageDocument -> list MessageDocument) (w : World) : World :=
  {| users := users w; groups := groups w; friends := friends w; sockets := sockets w;
     messages := f (messages w); histories := histories w; notifications := notifications w;
     conversations := conversations w; bots := bots w; redis := redis w;
     io_sockets := io_sockets w; events := events w; logs := logs w; socket := socket w |}.

Definition set_histories (f : list HistoryDocument -> list HistoryDocument) (w : World) : World :=
  {| users := users w; groups := groups w; friends := friends w; sockets := sockets w;
     messages := messages w; histories := f (histories w); notifications := notifications w;
     conversations := conversations w; bots := bots w; redis := redis w;
     io_sockets := io_sockets w; events := events w; logs := logs w; socket := socket w |}.

Definition set_notifications (f : list NotificationDocument -> list NotificationDocument) (w : World) : World :=
  {| users := users w; groups := groups w; friends := friends w; sockets := sockets w;
     messages := messages w; histories := histories w; notifications := f (notifications w);
     conversations := conversations w; bots := bots w; redis := redis w;
     io_sockets := io_sockets w; events := events w; logs := logs w; socket := socket w |}.

Definition set_conversations (f : list ConversationDocument -> list ConversationDocument) (w : World) : World :=
  {| users := users w; groups := groups w; friends := friends w; sockets := sockets w;
     messages := messages w; histories := histories w; notifications := notifications w;
     conversations := f (conversations w); bots := bots w; redis := redis w;
     io_sockets := io_sockets w; events := events w; logs := logs w; socket := socket w |}.

Definition set_bots (f : list BotDocument -> list BotDocument) (w : World) : World :=
  {| users := users w; groups := groups w; friends := friends w; sockets := sockets w;
     messages := messages w; histories := histories w; notifications := notifications w;
     conversations := conversations w; bots := f (bots w); redis := redis w;
     io_sockets := io_sockets w; events := events w; logs := logs w; socket := socket w |}.

Definition set_redis (f : gmap RedisKey RedisEntry -> gmap RedisKey RedisEntry) (w : World) : World :=
  {| users := users w; groups := groups w; friends := friends w; sockets := sockets w;
     messages := messages w; histories := histories w; notifications := notifications w;
     conversations := conversations w; bots := bots w; redis := f (redis w);
     io_sockets := io_sockets w; events := events w; logs := logs w; socket := socket w |}.

Definition set_io_sockets (f : list string -> list string) (w : World) : World :=
  {| users := users w; groups := groups w; friends := friends w; sockets := sockets w;
     messages := messages w; histories := histories w; notifications := notifications w;
     conversations := conversations w; bots := bots w; redis := redis w;
     io_sockets := f (io_sockets w); events := events w; logs := logs w; socket := socket w |}.

Definition set_events (f : list Event -> list Event) (w : World) : World :=
  {| users := users w; groups := groups w; friends := friends w; sockets := sockets w;
     messages := messages w; histories := histories w; notifications := notifications w;
     conversations := conversations w; bots := bots w; redis := redis w;
     io_sockets := io_sockets w; events := f (events w); logs := logs w; socket := socket w |}.

Definition set_logs (f : list LogEntry -> list LogEntry) (w : World) : World :=
  {| users := users w; groups := groups w; friends := friends w; sockets := sockets w;
     messages := messages w; histories := histories w; notifications := notifications w;
     conversations := conversations w; bots := bots w; redis := redis w;
     io_sockets := io_sockets w; events := events w; logs := f (logs w); socket := socket w |}.

Definition set_socket (f : CtxSocket -> CtxSocket) (w : World) : World :=
  {| users := users w; groups := groups w; friends := friends w; sockets := sockets w;
     messages := messages w; histories := histories w; notifications := notifications w;
     conversations := conversations w; bots := bots w; redis := redis w;
     io_sockets := io_sockets w; events := events w; logs := logs w; socket := f (socket w) |}.

(** What a run of a route takes from outside: the clock, the ids and
    avatar it draws, the server configuration, the answers of the
    completion service and of the directory, bcrypt, the validation of the
    user schema, and the operations on a store or a service that reject
    in this run, named by call site. *)
Record Env := {
  now : Z;
  fault : string -> bool;
  newObjectId : string -> ObjectId;
  getRandomAvatar : string;
  config : ServerConfig;
  axios_post : LLMRequest -> HttpResult;
  directory : Directory;
  genSalt : string;
  hash : string -> string -> string;
  compareSync : string -> string -> bool;
  user_schema_accepts : string -> bool }.

(** ** The monad of routes *)

Inductive Exn :=
| AssertionError (message : string)
| Error (message : string)
| ValidationError (message : string)
| TypeError (message : string)
| HttpError (message : string) (response_error_message : option string)
| Unavailable (site : string).

(** [err.message]; a rejected operation reports its call site. *)
Definition message_of (x : Exn) : string :=
  match x with
  | AssertionError m | Error m | ValidationError m | TypeError m
  | HttpError m _ | Unavailable m => m
  end.

Inductive Outcome (A : Type) :=
| Return (a : A)
| Throw (x : Exn).

Arguments Return {A} a.
Arguments Throw {A} x.

Definition M (A : Type) : Type := Env -> World -> Outcome A * World.

Definition ret {A} (a : A) : M A := fun _ w => (Return a, w).

Definition throw {A} (x : Exn) : M A := fun _ w => (Throw x, w).

Definition bind {A B} (m : M A) (k : A -> M B) : M B :=
  fun e w =>
    match m e w with
    | (Return a, w') => k a e w'
    | (Throw x, w') => (Throw x, w')
    end.

Notation "'let*' x ':=' m 'in' k" := (bind m (fun x => k))
  (at level 10, x pattern, m at level 100, k at level 200).

(** [try { m } catch (err) { h err }]: what [m] did before it threw stays done. *)
Definition try_catch {A} (m : M A) (h : Exn -> M A) : M A :=
  fun e w =>
    match m e w with
    | (Return a, w') => (Return a, w')
    | (Throw x, w') => h x e w'
    end.

(** [try { m } finally { f }]: a throw of [f] replaces the outcome of [m]. *)
Definition try_finally {A} (m : M A) (f : M unit) : M A :=
  fun e w =>
    match m e w with
    | (r, w') =>
        match f e w' with
        | (Return _, w'') => (r, w'')
        | (Throw x, w'') => (Throw x, w'')
        end
    end.

Definition ask : M Env := fun e w => (Return e, w).

Definition gets {A} (f : World -> A) : M A := fun _ w => (Return (f w), w).

Definition modify (f : World -> World) : M unit := fun _ w => (Return tt, f w).

(** [assert(b, message)] *)
Definition assert (b : bool) (message : string) : M unit :=
  if b then ret tt else throw (AssertionError message).

(** An awaited operation on a store or a service: it rejects when the run
    has a fault at this call site. *)
Definition await (site : string) : M unit :=
  fun e w => if fault e site then (Throw (Unavailable site), w) else (Return tt, w).

Definition emit (ev : Event) : M unit := modify (set_events (fun l => l ++ [ev])).

Definition logger (l : LogLevel) (tg tx : string) : M unit :=
  modify (set_logs (fun ls => ls ++ [{| level := l; tag := tg; text := tx |}])).

(** [for (const x of xs) body(x)] *)
Fixpoint forEach {A} (xs : list A) (body : A -> M unit) : M unit :=
  match xs with
  | [] => ret tt
  | x :: r => let* _ := body x in forEach r body
  end.

(** ** Collections *)

Definition findOne {A} (p : A -> bool) (l : list A) : option A := List.find p l.

Definition find {A} (p : A -> bool) (l : list A) : list A := List.filter p l.

Definition deleteMany {A} (p : A -> bool) (l : list A) : list A :=
  List.filter (fun x => negb (p x)) l.

Fixpoint deleteOne {A} (p : A -> bool) (l : list A) : list A :=
  match l with
  | [] => []
  | x :: r => if p x then r else x :: deleteOne p r
  end.

Fixpoint updateOne {A} (p : A -> bool) (f : A -> A) (l : list A) : list A :=
  match l with
  | [] => []
  | x :: r => if p x then f x :: r else x :: updateOne p f r
  end.

(** [doc.save()]: the stored document with the [_id] of [doc] becomes [doc]. *)
Definition save {A} (id : A -> ObjectId) (doc : A) (l : list A) : list A :=
  updateOne (fun x => String.eqb (id x) (id doc)) (fun _ => doc) l.

(** ** Redis operations *)

Module Redis.

Definition live (t : Z) (en : RedisEntry) : bool :=
  match r_expires en with
  | None => true
  | Some x => t <? x
  end.

Definition read (t : Z) (k : RedisKey) (m : gmap RedisKey RedisEntry) : option string :=
  match m !! k with
  | Some en => if live t en then Some (r_value en) else None
  | None => None
  end.

(** [Redis.get(key)]: [None] is [null]. *)
Definition get (site : string) (k : RedisKey) : M (option string) :=
  let* _ := await site in
  let* e := ask in
  gets (fun w => read (now e) k (redis w)).

(** [Redis.has(key)] *)
Definition has (site : string) (k : RedisKey) : M bool :=
  let* v := get site k in ret (bool_decide (is_Some v)).

(** [Redis.set(key, value, Redis.Day)] *)
Definition set (site : string) (k : RedisKey) (v : string) : M unit :=
  let* _ := await site in
  let* e := ask in
  modify (set_redis (insert k {| r_value := v; r_expires := Some (now e + OneDay) |})).

(** [Redis.del(key)] *)
Definition del (site : string) (k : RedisKey) : M unit :=
  let* _ := await site in
  modify (set_redis (delete k)).

End Redis.

(** ** services/llm.ts *)

Module llmService.

(** [handleStreamResponse]: the frames are handled in order; a fragment is
    added to [fullContent] and passed to [onChunk] (a throw of [onChunk] is
    swallowed with the parse errors); [[DONE]] or the end of the stream
    resolves with the text so far, an error event rejects. The function
    follows the stream until its promise settles. In the source the
    listeners stay attached after [[DONE]]: a fragment of a later chunk
    is still passed to [onChunk] and an error is still logged, at a time
    that the caller does not wait for; this is outside of the model,
    and the statements on the events of a whole exchange are about the
    streams where nothing follows [[DONE]]. *)
Fixpoint handleStreamResponse (frames : list Frame) (stop : StreamEnd)
  (onChunk : string -> M unit) (fullContent : string) : M string :=
  match frames with
  | [] =>
      match stop with
      | StreamEnds => ret fullContent
      | StreamError m =>
          let* _ := logger error "[LLMService] Stream error:" m in
          throw (Error m)
      end
  | Done :: _ => ret fullContent
  | Skipped :: rest => handleStreamResponse rest stop onChunk fullContent
  | Delta content :: rest =>
      if JS.truthy content then
        let* _ := try_catch (onChunk content) (fun _ => ret tt) in
        handleStreamResponse rest stop onChunk (fullContent +:+ content)
      else handleStreamResponse rest stop onChunk fullContent
  end.

(** [err.response?.data?.error?.message || err.message]. With
    [responseType: 'stream'] the data of a refused request is a stream,
    which holds no [error]: the cause is then the message of the error. *)
Definition cause_of (stream : bool) (err : Exn) : string :=
  match err with
  | HttpError m (Some r) => if stream then m else JS.or_else r m
  | _ => message_of err
  end.

(** [chat]. The body of the response is what [responseType] asks for: a
    stream when [stream] is set, in which a JSON body is text without any
    [data: ] line; else the parsed JSON, or the text of a body that is no
    JSON. The value that the read without streaming gives for a message
    without content is [undefined]; no caller reads it, and it stands
    here as the empty text. *)
Definition chat (messages : list LLMMessage) (config : LLMConfig)
  (onChunk : option (string -> M unit)) : M string :=
  let temperature := default (7 # 10)%Q (lc_temperature config) in
  let maxTokens := default 2000 (lc_maxTokens config) in
  let stream := default (bool_decide (is_Some onChunk)) (lc_stream config) in
  try_catch
    (let* e := ask in
     match axios_post e {| rq_url := lc_llmUrl config;
                           rq_bearer := lc_apiKey config;
                           rq_model := lc_model config;
                           rq_messages := messages;
                           rq_temperature := temperature;
                           rq_max_tokens := maxTokens;
                           rq_stream := stream |} with
     | HttpFails m r => throw (HttpError m r)
     | HttpOk data =>
         match stream, onChunk with
         | true, Some cb =>
             match data with
             | StreamBody frames stop => handleStreamResponse frames stop cb EmptyString
             | JsonBody _ => handleStreamResponse [] StreamEnds cb EmptyString
             end
         | true, None => throw (TypeError "Cannot read properties of undefined")
         | false, _ =>
             match data with
             | JsonBody (Content text) => ret text
             | JsonBody NoContent => ret EmptyString
             | _ => throw (TypeError "Cannot read properties of undefined")
             end
         end
     end)
    (fun err =>
       let* _ := logger error "[LLMService] Chat error:" (message_of err) in
       throw (Error ("LLM调用失败: " +:+ cause_of stream err))).

(** [buildContext] *)
Definition buildContext (systemPrompt : string) (history : list LLMMessage)
  (userMessage : string) (maxHistory : Z) : list LLMMessage :=
  let context := [{| lm_role := role_system; lm_content := systemPrompt |}] in
  let recentHistory := JS.slice (- maxHistory * 2) history in
  let context := context ++ recentHistory in
  context ++ [{| lm_role := role_user; lm_content := userMessage |}].

(** [testConnection]: one call of [chat] without streaming and without
    [onChunk]; [true] when it returns, [false] when it rejects. *)
Definition testConnection (config : LLMConfig) : M bool :=
  try_catch
    (let testMessages := [{| lm_role := role_user; lm_content := "Hello" |}] in
     let* _ := chat testMessages
                 {| lc_llmUrl := lc_llmUrl config; lc_apiKey := lc_apiKey config;
                    lc_model := lc_model config; lc_temperature := lc_temperature config;
                    lc_maxTokens := lc_maxTokens config; lc_stream := Some false |}
                 None in
     ret true)
    (fun err =>
       let* _ := logger error "[LLMService] Connection test failed:" (message_of err) in
       ret false).

(** The first occurrence of the non-empty [p] in [s]: what stands before
    it and what follows it. *)
Fixpoint split_at (p s : string) : option (string * string) :=
  match JS.strip_prefix p s with
  | Some after => Some (EmptyString, after)
  | None =>
      match s with
      | EmptyString => None
      | String c r =>
          match split_at p r with
          | Some (before, after) => Some (String c before, after)
          | None => None
          end
      end
  end.

(** The successive matches of [/<think>([\s\S]*?)<\/think>/g] in [s]: the
    leftmost opening tag and the first closing tag after it, then the same
    on what follows. The result is [s] without the matches, and the groups
    of the matches. A match is at least fifteen characters long: [fuel]
    bounds the number of matches. *)
Fixpoint think_blocks (fuel : nat) (s : string) : string * list string :=
  match fuel with
  | O => (s, [])
  | S f =>
      match split_at "<think>" s with
      | None => (s, [])
      | Some (before, rest) =>
          match split_at "</think>" rest with
          | None => (s, [])
          | Some (inner, after) =>
              let (text, thinks) := think_blocks f after in
              (before +:+ text, inner :: thinks)
          end
      end
  end.

(** [parseThinkTags]; returns [{ text, thinks }]. *)
Definition parseThinkTags (content : string) : string * list string :=
  let (text, thinks) := think_blocks (String.length content) content in
  (JS.trim text, List.map JS.trim thinks).

End llmService.

(** ** Schemas of the bot and conversation models *)

Definition defaultSystemPrompt : string :=
  "你是一个友好的AI助手，请用简洁、准确的语言回答用户的问题。".

(** [BotSchema]: [name] is required and unique, [temperature] lies
    between 0 and 2. *)
Definition BotSchema_accepts (others : list BotDocument) (b : BotDocument) : bool :=
  JS.truthy (b_name b)
  && negb (existsb (fun o => String.eqb (b_name o) (b_name b)
                             && negb (String.eqb (b_id o) (b_id b))) others)
  && Qle_bool 0 (temperature (b_config b))
  && Qle_bool (temperature (b_config b)) 2.

(** [ConversationSchema]: [user] and [bot] are required, and in every
    message [content] is required (an empty string is refused). *)
Definition ConversationSchema_accepts (c : ConversationDocument) : bool :=
  JS.truthy (c_user c) && JS.truthy (c_bot c)
  && forallb (fun m => JS.truthy (content m)) (c_messages c).

(** [Types.ObjectId.isValid] on a string: twelve characters, or
    twenty-four hexadecimal digits. *)
Definition is_hex (c : ascii) : bool :=
  let n := nat_of_ascii c in
  ((48 <=? n)%nat && (n <=? 57)%nat) || ((65 <=? n)%nat && (n <=? 70)%nat)
  || ((97 <=? n)%nat && (n <=? 102)%nat).

Definition isValid (s : string) : bool :=
  (String.length s =? 12)%nat
  || ((String.length s =? 24)%nat && forallb is_hex (list_ascii_of_string s)).

(** ** routes/bot.ts *)

Module bot.

Record BotConfigData := {
  d_llmUrl : string;
  d_apiKey : string;
  d_model : string;
  d_systemPrompt : option string;
  d_temperature : option Q;
  d_maxTokens : option Z;
  d_maxHistory : option Z }.

Record ConfigureBotData := {
  d_name : string;
  d_avatar : option string;
  d_config : BotConfigData }.

(** What [configureBot] and [getBotConfig] return. *)
Record BotView := {
  bv_id : ObjectId;
  bv_name : string;
  bv_avatar : string;
  bv_enabled : bool;
  bv_config : BotConfig }.

(** [{ ...config, apiKey: key }] *)
Definition with_apiKey (key : string) (c : BotConfig) : BotConfig :=
  {| llmUrl := llmUrl c; apiKey := key; model := model c;
     systemPrompt := systemPrompt c; temperature := temperature c;
     maxTokens := maxTokens c; maxHistory := maxHistory c |}.

(** [{ ...bot.config, ...config }] *)
Definition spread_config (old : BotConfig) (c : BotConfigData) : BotConfig :=
  {| llmUrl := d_llmUrl c; apiKey := d_apiKey c; model := d_model c;
     systemPrompt := default (systemPrompt old) (d_systemPrompt c);
     temperature := default (temperature old) (d_temperature c);
     maxTokens := default (maxTokens old) (d_maxTokens c);
     maxHistory := default (maxHistory old) (d_maxHistory c) |}.

(** [bot.save()] and [Bot.create]: the schema trims the name and validates. *)
Definition Bot_save (site : string) (b : BotDocument) : M unit :=
  let* _ := await site in
  let* others := gets bots in
  if BotSchema_accepts others b
  then modify (set_bots (save b_id b))
  else throw (ValidationError "Bot validation failed").

Definition Bot_create (site : string) (b : BotDocument) : M unit :=
  let* _ := await site in
  let* others := gets bots in
  if BotSchema_accepts others b
  then modify (set_bots (fun l => l ++ [b]))
  else throw (ValidationError "Bot validation failed").

Definition view (key : string) (b : BotDocument) : BotView :=
  {| bv_id := b_id b; bv_name := b_name b; bv_avatar := b_avatar b;
     bv_enabled := b_enabled b; bv_config := with_apiKey key (b_config b) |}.

(** [configureBot] *)
Definition configureBot (data : ConfigureBotData) : M BotView :=
  let* sk := gets socket in
  let* _ := assert (sk_isAdmin sk) "只有管理员可以配置AI机器人" in
  let name := d_name data in
  let avatar := d_avatar data in
  let config := d_config data in
  let* _ := assert (JS.truthy name) "机器人名称不能为空" in
  let* _ := assert (JS.truthy (d_llmUrl config)) "LLM URL不能为空" in
  let* _ := assert (JS.truthy (d_apiKey config)) "API Key不能为空" in
  let* _ := assert (JS.truthy (d_model config)) "模型名称不能为空" in
  let* _ := await "configureBot/Bot.findOne" in
  let* found := gets (fun w => head (bots w)) in
  let* e := ask in
  let* bot :=
    match found with
    | Some bot =>
        let bot :=
          {| b_id := b_id bot; b_createTime := b_createTime bot;
             b_name := JS.trim name;
             b_avatar := match avatar with
                         | Some a => if JS.truthy a then a else b_avatar bot
                         | None => b_avatar bot
                         end;
             b_enabled := b_enabled bot;
             b_config := spread_config (b_config bot) config;
             b_creator := sk_user sk |} in
        let* _ := Bot_save "configureBot/bot.save" bot in
        ret bot
    | None =>
        let bot :=
          {| b_id := newObjectId e "Bot"; b_createTime := now e;
             b_name := JS.trim name;
             b_avatar := JS.or_else (default EmptyString avatar) (getRandomAvatar e);
             b_enabled := false;
             b_config :=
               {| llmUrl := d_llmUrl config;
                  apiKey := d_apiKey config;
                  model := d_model config;
                  systemPrompt := JS.or_else (default EmptyString (d_systemPrompt config))
                                             defaultSystemPrompt;
                  temperature := JS.or_elseQ (default 0%Q (d_temperature config)) (7 # 10)%Q;
                  maxTokens := JS.or_elseZ (default 0 (d_maxTokens config)) 2000;
                  maxHistory := JS.or_elseZ (default 0 (d_maxHistory config)) 10 |};
             b_creator := sk_user sk |} in
        let* _ := Bot_create "configureBot/Bot.create" bot in
        ret bot
    end in
  let* _ := logger info "[configureBot]" (b_id bot) in
  ret (view "***" bot).

(** [getBotConfig]; [None] is [null]. *)
Definition getBotConfig : M (option BotView) :=
  let* _ := await "getBotConfig/Bot.findOne" in
  let* found := gets (fun w => head (bots w)) in
  match found with
  | None => ret None
  | Some bot =>
      let* sk := gets socket in
      ret (Some (view (if sk_isAdmin sk then apiKey (b_config bot) else "***") bot))
  end.

(** The filter [{ user, bot, group }] of [Conversation.findOne]; the
    private conversation is the one without a group. *)
Definition of_triple (userId botId : ObjectId) (group : option ObjectId)
  (c : ConversationDocument) : bool :=
  String.eqb (c_user c) userId && String.eqb (c_bot c) botId
  && bool_decide (c_group c = group).

(** [conversation.messages.map(m => ({ role: m.role, content: m.content }))] *)
Definition as_history (ms : list ConversationMessage) : list LLMMessage :=
  List.map (fun m => {| lm_role := role m; lm_content := content m |}) ms.

(** [conversation.messages.push(...)] on the local document. *)
Definition push (m : ConversationMessage) (c : ConversationDocument) : ConversationDocument :=
  {| c_id := c_id c; c_createTime := c_createTime c; c_lastActiveTime := c_lastActiveTime c;
     c_user := c_user c; c_bot := c_bot c; c_group := c_group c;
     c_messages := c_messages c ++ [m] |}.

(** The trim of both routes: [if (messages.length > maxMessages)
    messages = messages.slice(-maxMessages)]. *)
Definition keep_recent (maxMessages : Z) (ms : list ConversationMessage) : list ConversationMessage :=
  if Z.of_nat (length ms) >? maxMessages then JS.slice (- maxMessages) ms else ms.

Definition with_messages (ms : list ConversationMessage) (t : Z) (c : ConversationDocument)
  : ConversationDocument :=
  {| c_id := c_id c; c_createTime := c_createTime c; c_lastActiveTime := t;
     c_user := c_user c; c_bot := c_bot c; c_group := c_group c;
     c_messages := ms |}.

(** [Conversation.create({ user, bot, group, messages: [] })] *)
Definition Conversation_create (site : string) (userId botId : ObjectId)
  (group : option ObjectId) : M ConversationDocument :=
  let* _ := await site in
  let* e := ask in
  let c := {| c_id := newObjectId e "Conversation"; c_createTime := now e;
              c_lastActiveTime := now e; c_user := userId; c_bot := botId;
              c_group := group; c_messages := [] |} in
  if ConversationSchema_accepts c
  then let* _ := modify (set_conversations (fun l => l ++ [c])) in ret c
  else throw (ValidationError "Conversation validation failed").

(** [conversation.save()] *)
Definition Conversation_save (site : string) (c : ConversationDocument) : M unit :=
  let* _ := await site in
  if ConversationSchema_accepts c
  then modify (set_conversations (save c_id c))
  else throw (ValidationError "Conversation validation failed").

(** [Message.create({ from, to, type: 'text', content })] *)
Definition Message_create (site : string) (from to text : string) : M MessageDocument :=
  let* _ := await site in
  let* e := ask in
  let m := {| m_id := newObjectId e "Message"; m_from := from; m_to := to;
              m_type := "text"; m_content := text; m_createTime := now e |} in
  let* _ := modify (set_messages (fun l => l ++ [m])) in
  ret m.

Definition chat_config (b : BotDocument) : LLMConfig :=
  {| lc_llmUrl := llmUrl (b_config b);
     lc_apiKey := apiKey (b_config b);
     lc_model := model (b_config b);
     lc_temperature := Some (temperature (b_config b));
     lc_maxTokens := Some (maxTokens (b_config b));
     lc_stream := Some true |}.

Definition complete_view (b : BotDocument) (to : string) (text : string) (m : MessageDocument)
  : BotMessageView :=
  {| v_id := m_id m; v_from_id := b_id b; v_from_username := b_name b;
     v_from_avatar := b_avatar b; v_from_tag := "bot"; v_to := to;
     v_type := "text"; v_content := text; v_createTime := m_createTime m |}.

(** [sendMessageToBot]; returns [messageId]. *)
Definition sendMessageToBot (content : string) : M ObjectId :=
  let* userId := gets (fun w => sk_user (socket w)) in
  let* _ := assert (JS.truthy content) "消息内容不能为空" in
  let* _ := await "sendMessageToBot/Bot.findOne" in
  let* found := gets (fun w => findOne b_enabled (bots w)) in
  match found with
  | None => throw (AssertionError "AI机器人未启用")
  | Some bot =>
      let* _ := await "sendMessageToBot/Conversation.findOne" in
      let* stored := gets (fun w =>
        findOne (of_triple userId (b_id bot) None) (conversations w)) in
      let* conversation :=
        match stored with
        | Some c => ret c
        | None => Conversation_create "sendMessageToBot/Conversation.create" userId (b_id bot) None
        end in
      let* e := ask in
      let conversation :=
        push {| role := role_user; content := content; createTime := now e |} conversation in
      let context := llmService.buildContext (systemPrompt (b_config bot))
                       (as_history (c_messages conversation)) content
                       (maxHistory (b_config bot)) in
      let tempMessageId := newObjectId e "tempMessageId" in
      try_catch
        (let* fullResponse :=
           llmService.chat context (chat_config bot)
             (Some (fun chunk => emit (botMessageStream userId tempMessageId chunk (b_id bot) None))) in
         let conversation :=
           push {| role := role_assistant; content := fullResponse; createTime := now e |}
                conversation in
         let maxMessages := maxHistory (b_config bot) * 2 in
         let conversation :=
           with_messages (keep_recent maxMessages (c_messages conversation)) (now e) conversation in
         let* _ := Conversation_save "sendMessageToBot/conversation.save" conversation in
         let* message := Message_create "sendMessageToBot/Message.create" (b_id bot) userId
                           fullResponse in
         let* _ := emit (botMessageComplete userId tempMessageId
                           (complete_view bot userId fullResponse message)) in
         let* _ := logger info "[sendMessageToBot]" userId in
         ret (m_id message))
        (fun err =>
           let* _ := logger error "[sendMessageToBot]" (message_of err) in
           let* _ := emit (botMessageError userId tempMessageId (message_of err)) in
           throw (AssertionError ("AI回复失败: " +:+ message_of err)))
  end.

(** The whitespace at the head of [s]: the number of its characters, the
    last of them and what follows it. *)
Definition one_more (l : string) (later : nat * option string * string)
  : nat * option string * string :=
  match later with
  | (n, Some l', rest) => (S n, Some l', rest)
  | (n, None, rest) => (S n, Some l, rest)
  end.

Fixpoint span_space (s : string) : nat * option string * string :=
  match s with
  | String c r =>
      if JS.is_space c then one_more (String c EmptyString) (span_space r)
      else match r with
           | String d r2 =>
               if JS.is_space2 c d
               then one_more (String c (String d EmptyString)) (span_space r2)
               else match r2 with
                    | String f r3 =>
                        if JS.is_space3 c d f
                        then one_more (String c (String d (String f EmptyString)))
                               (span_space r3)
                        else (O, None, s)
                    | EmptyString => (O, None, s)
                    end
           | EmptyString => (O, None, s)
           end
  | EmptyString => (O, None, s)
  end.

(** [\\s+(.+)] at the head of [s]: the whitespace is taken greedily, and
    gives back its last character when nothing follows it. *)
Definition after_space (s : string) : option string :=
  match span_space s with
  | (O, _, _) => None
  | (S O, _, EmptyString) => None
  | (S (S _), Some l, EmptyString) => Some l
  | (_, _, rest) => Some rest
  end.

Fixpoint exec_mention (p s : string) : option string :=
  match (match JS.strip_prefix p s with
         | Some r => after_space r
         | None => None
         end) with
  | Some g => Some g
  | None =>
      match s with
      | EmptyString => None
      | String _ r => exec_mention p r
      end
  end.

(** [content.match(new RegExp(`@${name}\\s+(.+)`, 's'))], for a name that
    holds no metacharacter of regular expressions: the leftmost [@name]
    that is followed by whitespace and then by at least one character; the
    result is the group [(.+)]. The source does not escape the name: a
    name with a metacharacter is compiled as a pattern of its own, or is
    refused with a [SyntaxError]; this is outside of the model, and the
    statements on what is a mention are about the names without
    metacharacter. *)
Definition match_mention (name content : string) : option string :=
  exec_mention (String "@" name) content.

(** [mentionBotInGroup]; returns [messageId]. *)
Definition mentionBotInGroup (groupId content : string) : M ObjectId :=
  let* userId := gets (fun w => sk_user (socket w)) in
  let* _ := assert (isValid groupId) "无效的群组ID" in
  let* _ := assert (JS.truthy content) "消息内容不能为空" in
  let* _ := await "mentionBotInGroup/Group.findOne" in
  let* group := gets (fun w => findOne (fun g => String.eqb (g_id g) groupId) (groups w)) in
  match group with
  | None => throw (AssertionError "群组不存在")
  | Some group =>
  let isMember := existsb (fun m => String.eqb m userId) (g_members group) in
  let* _ := assert isMember "你不是该群组成员" in
  let* _ := await "mentionBotInGroup/Bot.findOne" in
  let* found := gets (fun w => findOne b_enabled (bots w)) in
  match found with
  | None => throw (AssertionError "AI机器人未启用")
  | Some bot =>
  match match_mention (b_name bot) content with
  | None => throw (AssertionError "消息格式错误，请使用 @机器人名 消息内容")
  | Some group1 =>
      let userMessage := JS.trim group1 in
      let* _ := await "mentionBotInGroup/Conversation.findOne" in
      let* stored := gets (fun w =>
        findOne (of_triple userId (b_id bot) (Some groupId)) (conversations w)) in
      let* conversation :=
        match stored with
        | Some c => ret c
        | None => Conversation_create "mentionBotInGroup/Conversation.create" userId (b_id bot)
                    (Some groupId)
        end in
      let* e := ask in
      let conversation :=
        push {| role := role_user; content := userMessage; createTime := now e |} conversation in
      let context := llmService.buildContext (systemPrompt (b_config bot))
                       (as_history (c_messages conversation)) userMessage
                       (maxHistory (b_config bot)) in
      let tempMessageId := newObjectId e "tempMessageId" in
      try_catch
        (let* fullResponse :=
           llmService.chat context (chat_config bot)
             (Some (fun chunk =>
                emit (botMessageStream groupId tempMessageId chunk (b_id bot) (Some groupId)))) in
         let conversation :=
           push {| role := role_assistant; content := fullResponse; createTime := now e |}
                conversation in
         let maxMessages := maxHistory (b_config bot) * 2 in
         let conversation :=
           with_messages (keep_recent maxMessages (c_messages conversation)) (now e) conversation in
         let* _ := Conversation_save "mentionBotInGroup/conversation.save" conversation in
         let* _ := await "mentionBotInGroup/User.findById" in
         let* user := gets (fun w => findOne (fun u => String.eqb (u_id u) userId) (users w)) in
         let username := match user with
                         | Some u => JS.or_else (u_username u) "user"
                         | None => "user"
                         end in
         let* message := Message_create "mentionBotInGroup/Message.create" (b_id bot) groupId
                           ("@" +:+ username +:+ " " +:+ fullResponse) in
         let* _ := emit (botMessageComplete groupId tempMessageId
                           (complete_view bot groupId (m_content message) message)) in
         let* _ := logger info "[mentionBotInGroup]" userId in
         ret (m_id message))
        (fun err =>
           let* _ := logger error "[mentionBotInGroup]" (message_of err) in
           let* _ := emit (botMessageError groupId tempMessageId (message_of err)) in
           throw (AssertionError ("AI回复失败: " +:+ message_of err)))
  end end end.

(** [bot.enabled = enabled] on the local document. *)
Definition with_enabled (enabled : bool) (b : BotDocument) : BotDocument :=
  {| b_id := b_id b; b_createTime := b_createTime b; b_name := b_name b;
     b_avatar := b_avatar b; b_enabled := enabled; b_config := b_config b;
     b_creator := b_creator b |}.

(** [toggleBot]; returns [enabled]. *)
Definition toggleBot (enabled : bool) : M bool :=
  let* sk := gets socket in
  let* _ := assert (sk_isAdmin sk) "只有管理员可以启用/禁用AI机器人" in
  let* _ := await "toggleBot/Bot.findOne" in
  let* found := gets (fun w => head (bots w)) in
  match found with
  | None => throw (AssertionError "AI机器人未配置")
  | Some bot =>
      let bot := with_enabled enabled bot in
      let* _ := Bot_save "toggleBot/bot.save" bot in
      let* _ := logger info "[toggleBot]" (sk_user sk) in
      ret (b_enabled bot)
  end.

(** [testLLMConnection]; returns [{ success, message }]. *)
Definition testLLMConnection (llmUrl apiKey model : string) : M (bool * string) :=
  let* sk := gets socket in
  let* _ := assert (sk_isAdmin sk) "只有管理员可以测试LLM连接" in
  try_catch
    (let* success := llmService.testConnection
                       {| lc_llmUrl := llmUrl; lc_apiKey := apiKey; lc_model := model;
                          lc_temperature := None; lc_maxTokens := None; lc_stream := None |} in
     ret (success, if success then "连接成功" else "连接失败"))
    (fun err =>
       let* _ := logger error "[testLLMConnection]" (message_of err) in
       ret (false, message_of err)).

(** [clearConversation]; returns [success]. The filter is
    [{ user, bot, group: groupId || undefined }]: with no [groupId], or an
    empty one, it selects the private conversation; a [groupId] that is no
    ObjectId makes the query reject with a cast error, of which the
    message is abridged. *)
Definition clearConversation (groupId : option string) : M bool :=
  let* userId := gets (fun w => sk_user (socket w)) in
  let* _ := await "clearConversation/Bot.findOne" in
  let* found := gets (fun w => head (bots w)) in
  match found with
  | None => throw (AssertionError "AI机器人不存在")
  | Some bot =>
      let group := match groupId with
                   | Some g => if JS.truthy g then Some g else None
                   | None => None
                   end in
      let* _ := match group with
                | Some g => if isValid g then ret tt
                            else throw (Error "Cast to ObjectId failed")
                | None => ret tt
                end in
      let* _ := await "clearConversation/Conversation.findOne" in
      let* conversation := gets (fun w =>
        findOne (of_triple userId (b_id bot) group) (conversations w)) in
      let* e := ask in
      let* _ := match conversation with
                | Some c =>
                    Conversation_save "clearConversation/conversation.save"
                      (with_messages [] (now e) c)
                | None => ret tt
                end in
      let* _ := logger info "[clearConversation]" userId in
      ret true
  end.

End bot.

(** ** utils/ldap.ts *)

Module ldap.

Definition formatSearchFilter (template username : string) : string :=
  JS.replaceAll "{{username}}" username template.

(** [try { m } finally { client.unbind() }] *)
Definition unbind : M unit :=
  let* e := ask in
  if ldap_unbind (directory e) then ret tt else throw (Error "unbind failed").

(** [authenticateWithLdap]; [None] is [null]. *)
Definition authenticateWithLdap (config : LdapConfig) (username password : string)
  : M (option LdapUser) :=
  if negb (enable config) then ret None
  else
    try_finally
      (let* e := ask in
       let* _ := if ldap_bind (directory e) (bindDN config) (bindCredentials config)
                 then ret tt else throw (Error "bind failed") in
       let filter := formatSearchFilter (searchFilter config) username in
       match ldap_search (directory e) (searchBase config) filter with
       | None => throw (Error "search failed")
       | Some searchEntries =>
           match searchEntries with
           | [] => ret None
           | entry :: _ =>
               let userDn := dn entry in
               let* _ := if ldap_bind (directory e) userDn password
                         then ret tt else throw (Error "bind failed") in
               ret (Some {| dn := userDn; attributes := attributes entry |})
           end
       end)
      unbind.

End ldap.

(** ** routes/user.ts *)

Module user.

(** The client environment sent with every login. *)
Record Environment := {
  os : string;
  browser : string;
  environment : string }.

Record GroupView := {
  gv_id : ObjectId;
  gv_name : string;
  gv_avatar : string;
  gv_creator : option ObjectId;
  gv_createTime : Z }.

(** A friend edge with its populated [to]: id, avatar, username. *)
Record FriendView := {
  fv_from : ObjectId;
  fv_to : option (ObjectId * string * string) }.

(** What [register], [login] and [loginByToken] return on success. *)
Record Session := {
  ss_id : ObjectId;
  ss_avatar : string;
  ss_username : string;
  ss_tag : string;
  ss_groups : list GroupView;
  ss_friends : list FriendView;
  ss_token : option Token;
  ss_isAdmin : bool;
  ss_notificationTokens : list string;
  ss_authProvider : option string }.

(** A route answers with data, or with a string that the client shows as
    an error. *)
Inductive Reply (A : Type) :=
| Data (a : A)
| Message (text : string).

Arguments Data {A} a.
Arguments Message {A} text.

(** [generateToken] *)
Definition generateToken (user environment : string) : M Token :=
  let* e := ask in
  ret (jwt.encode {| tp_user := user; tp_environment := environment;
                     tp_expires := now e + tokenExpiresTime (config e) |}
                  (jwtSecret (config e))).

(** [(parseInt(registeredCount || '0', 10) + 1).toString()] *)
Definition next_count (registeredCount : option string) : string :=
  match JS.parseInt (JS.or_else (default EmptyString registeredCount) "0") with
  | Some n => JS.toString (n + 1)
  | None => "NaN"
  end.

(** [handleNewUser]; the default of [ip] is the empty string. *)
Definition handleNewUser (user : UserDocument) (ip : string) : M unit :=
  let* e := ask in
  if now e - u_createTime user <? OneDay then
    let userId := u_id user in
    let* _ := Redis.set "handleNewUser/Redis.set:newUser" (NewUserKey userId) userId in
    if JS.truthy ip then
      let* registeredCount := Redis.get "handleNewUser/Redis.get" (NewRegisteredUserIpKey ip) in
      Redis.set "handleNewUser/Redis.set:ip" (NewRegisteredUserIpKey ip)
        (next_count registeredCount)
    else ret tt
  else ret tt.

(** [getUserNotificationTokens] *)
Definition getUserNotificationTokens (user : UserDocument) : M (list string) :=
  let* _ := await "getUserNotificationTokens/Notification.find" in
  let* notifications := gets (fun w =>
    find (fun n => String.eqb (n_user n) (u_id user)) (notifications w)) in
  ret (List.map n_token notifications).

Definition group_view (g : GroupDocument) : GroupView :=
  {| gv_id := g_id g; gv_name := g_name g; gv_avatar := g_avatar g;
     gv_creator := g_creator g; gv_createTime := g_createTime g |}.

(** [if (!defaultGroup.creator) defaultGroup.creator = id;
     defaultGroup.members.push(id)] on the local document. *)
Definition join_default (id : ObjectId) (g : GroupDocument) : GroupDocument :=
  {| g_id := g_id g; g_name := g_name g; g_avatar := g_avatar g;
     g_creator := match g_creator g with
                  | Some c => Some c
                  | None => Some id
                  end;
     g_createTime := g_createTime g; g_isDefault := g_isDefault g;
     g_members := g_members g ++ [id] |}.

Definition Group_save (site : string) (g : GroupDocument) : M unit :=
  let* _ := await site in
  modify (set_groups (save g_id g)).

(** [User.create]: the schema validates the user name. *)
Definition User_create (site : string) (u : UserDocument) : M UserDocument :=
  let* _ := await site in
  let* e := ask in
  if user_schema_accepts e (u_username u)
  then let* _ := modify (set_users (fun l => l ++ [u])) in ret u
  else throw (ValidationError "User validation failed").

Definition User_save (site : string) (u : UserDocument) : M unit :=
  let* _ := await site in
  modify (set_users (save u_id u)).

(** [ctx.socket.user = id; Socket.updateOne({ id: ctx.socket.id },
     { user, os, browser, environment })] *)
Definition bind_socket (site : string) (id : ObjectId) (env : Environment) : M unit :=
  let* _ := modify (set_socket (fun sk =>
    {| sk_id := sk_id sk; sk_user := id; sk_isAdmin := sk_isAdmin sk; sk_ip := sk_ip sk |})) in
  let* sk := gets socket in
  let* _ := await site in
  modify (set_sockets (updateOne (fun s => String.eqb (s_id s) (sk_id sk))
    (fun s => {| s_id := s_id s; s_user := Some id; s_os := os env;
                 s_browser := browser env; s_environment := environment env;
                 s_ip := s_ip s |}))).

Definition new_user (e : Env) (username salt password ip : string)
  (authProvider : option string) : UserDocument :=
  {| u_id := newObjectId e "User"; u_username := username; u_salt := salt;
     u_password := password; u_avatar := getRandomAvatar e; u_tag := EmptyString;
     u_createTime := now e; u_lastLoginTime := now e; u_lastLoginIp := ip;
     u_authProvider := authProvider |}.

Record RegisterData := {
  rd_username : string;
  rd_password : string;
  rd_env : Environment }.

(** The check of [register] on the registrations of the last 24 hours
    from the address of the connection: the read of the counter in its
    [try], then the assertion, which is made only when a counter was
    read. *)
Definition registration_limit (ip : string) : M unit :=
  let* registeredCountWithin24Hours :=
    try_catch
      (Redis.get "register/Redis.get:ip" (NewRegisteredUserIpKey ip))
      (fun redisError =>
         let* _ := logger error "[register] Redis error when checking registration limit:"
                     (message_of redisError) in
         ret None) in
  match registeredCountWithin24Hours with
  | Some v =>
      let count := JS.parseInt (JS.or_else v "0") in
      assert (match count with Some n => n <? 3 | None => false end)
        "24小时内同一IP地址最多只能注册3个账号，请稍后再试"
  | None => ret tt
  end.

(** [register] *)
Definition register (data : RegisterData) : M (Reply Session) :=
  let* e := ask in
  let* disableRegisterRedis := Redis.get "register/Redis.get:disable" DisableRegisterKey in
  let disableRegister :=
    match disableRegisterRedis with
    | Some v => String.eqb v "true"
    | None => disableRegister (config e)
    end in
  let* _ := assert (negb disableRegister) "注册功能已被禁用, 请联系管理员开通账号" in
  let username := rd_username data in
  let password := rd_password data in
  let* _ := assert (JS.truthy username) "用户名不能为空" in
  let* _ := assert (JS.truthy password) "密码不能为空" in
  let* _ :=
    try_catch
      (let* isBanned := Redis.has "register/Redis.has:banned" (BannedUsernameKey username) in
       assert (negb isBanned) "该用户名已被封禁，无法使用")
      (fun redisError =>
         logger error "[register] Redis error when checking banned username:"
           (message_of redisError)) in
  let* _ := await "register/User.findOne" in
  let* user := gets (fun w => findOne (fun u => String.eqb (u_username u) username) (users w)) in
  let* _ := assert (bool_decide (user = None)) "该用户名已存在" in
  let* sk := gets socket in
  let* _ := registration_limit (sk_ip sk) in
  let* _ := await "register/Group.findOne" in
  let* defaultGroup := gets (fun w => findOne g_isDefault (groups w)) in
  match defaultGroup with
  | None => throw (AssertionError "默认群组不存在")
  | Some defaultGroup =>
      let salt := genSalt e in
      let hashed := hash e password salt in
      let* created :=
        try_catch
          (let* u := User_create "register/User.create"
                       (new_user e username salt hashed (sk_ip sk) None) in
           ret (Some u))
          (fun err =>
             match err with
             | ValidationError _ => ret None
             | _ => throw err
             end) in
      match created with
      | None => ret (Message "用户名包含不支持的字符或者长度超过限制")
      | Some newUser =>
          let* _ := handleNewUser newUser (sk_ip sk) in
          let defaultGroup := join_default (u_id newUser) defaultGroup in
          let* _ := Group_save "register/defaultGroup.save" defaultGroup in
          let* token := generateToken (u_id newUser) (environment (rd_env data)) in
          let* _ := bind_socket "register/Socket.updateOne" (u_id newUser) (rd_env data) in
          ret (Data {| ss_id := u_id newUser;
                       ss_avatar := u_avatar newUser;
                       ss_username := u_username newUser;
                       ss_tag := EmptyString;
                       ss_groups := [group_view defaultGroup];
                       ss_friends := [];
                       ss_token := Some token;
                       ss_isAdmin := false;
                       ss_notificationTokens := [];
                       ss_authProvider := None |})
      end
  end.

Inductive AuthType := auth_ldap | auth_local.

#[global] Instance AuthType_eq_dec : EqDecision AuthType.
Proof. solve_decision. Defined.

Record LoginData := {
  ld_username : string;
  ld_password : string;
  ld_authType : option AuthType;
  ld_env : Environment }.

(** A statement of a [try] block: when it throws, the block stops there
    and the local variables keep the values assigned so far; the block
    yields these values and the error, if one was thrown. *)
Definition attempt {L A} (locals : L) (m : M A) (k : A -> M (L * option Exn))
  : M (L * option Exn) :=
  fun e w =>
    match m e w with
    | (Return a, w') => k a e w'
    | (Throw x, w') => (Return (locals, Some x), w')
    end.

Definition with_authProvider (p : string) (u : UserDocument) : UserDocument :=
  {| u_id := u_id u; u_username := u_username u; u_salt := u_salt u;
     u_password := u_password u; u_avatar := u_avatar u; u_tag := u_tag u;
     u_createTime := u_createTime u; u_lastLoginTime := u_lastLoginTime u;
     u_lastLoginIp := u_lastLoginIp u; u_authProvider := Some p |}.

Definition with_lastLogin (t : Z) (ip : string) (u : UserDocument) : UserDocument :=
  {| u_id := u_id u; u_username := u_username u; u_salt := u_salt u;
     u_password := u_password u; u_avatar := u_avatar u; u_tag := u_tag u;
     u_createTime := u_createTime u; u_lastLoginTime := t;
     u_lastLoginIp := ip; u_authProvider := u_authProvider u |}.

(** The body of the [try] of [login] that asks the directory first; its
    local variables are [user] and [isLdapAuthenticated]. *)
Definition ldap_first (cfg : LdapConfig) (username password : string)
  (user : option UserDocument) : M (option UserDocument * bool * option Exn) :=
  attempt (user, false) (ldap.authenticateWithLdap cfg username password) (fun ldapUser =>
  match ldapUser with
  | None => ret (user, false, None)
  | Some _ =>
      match user with
      | Some u =>
          ret (Some (if bool_decide (u_authProvider u = Some "ldap") then u
                     else with_authProvider "ldap" u), true, None)
      | None =>
          attempt (None, true) (await "login/Group.findOne") (fun _ =>
          attempt (None, true) (gets (fun w => findOne g_isDefault (groups w))) (fun defaultGroup =>
          match defaultGroup with
          | None => ret (None, true, Some (AssertionError "默认群组不存在"))
          | Some defaultGroup =>
              attempt (None, true)
                (let* e := ask in
                 let* sk := gets socket in
                 User_create "login/User.create"
                   (new_user e username EmptyString EmptyString (sk_ip sk) (Some "ldap")))
                (fun created =>
              attempt (Some created, true)
                (let* sk := gets socket in handleNewUser created (sk_ip sk)) (fun _ =>
              attempt (Some created, true)
                (Group_save "login/defaultGroup.save" (join_default (u_id created) defaultGroup))
                (fun _ => ret (Some created, true, None))))
          end))
      end
  end).

Definition friend_view (us : list UserDocument) (f : FriendDocument) : FriendView :=
  {| fv_from := f_from f;
     fv_to := match findOne (fun u => String.eqb (u_id u) (f_to f)) us with
              | Some u => Some (u_id u, u_avatar u, u_username u)
              | None => None
              end |}.

(** What [login] and [loginByToken] do once the user is known: load the
    groups and join their rooms, load the friends. *)
Definition load_groups (site : string) (u : UserDocument) : M (list GroupView) :=
  let* _ := await site in
  let* gs := gets (fun w =>
    find (fun g => existsb (String.eqb (u_id u)) (g_members g)) (groups w)) in
  let* sk := gets socket in
  let* _ := forEach gs (fun g => emit (join (sk_id sk) (g_id g))) in
  ret (List.map group_view gs).

Definition load_friends (site : string) (u : UserDocument) : M (list FriendView) :=
  let* _ := await site in
  gets (fun w => List.map (friend_view (users w))
                   (find (fun f => String.eqb (f_from f) (u_id u)) (friends w))).

(** [login] *)
Definition login (data : LoginData) : M Session :=
  let username := ld_username data in
  let password := ld_password data in
  let* _ := assert (JS.truthy username) "用户名不能为空" in
  let* _ := assert (JS.truthy password) "密码不能为空" in
  let* _ := await "login/User.findOne" in
  let* user := gets (fun w => findOne (fun u => String.eqb (u_username u) username) (users w)) in
  let* e := ask in
  let* (user, isLdapAuthenticated) :=
    match ldap (config e) with
    | Some cfg =>
        if enable cfg && negb (bool_decide (ld_authType data = Some auth_local)) then
          let* (user, isLdapAuthenticated, thrown) := ldap_first cfg username password user in
          match thrown with
          | Some err =>
              let* _ := logger warn "[login] LDAP authentication failed, fallback to local:"
                          (message_of err) in
              ret (user, isLdapAuthenticated)
          | None => ret (user, isLdapAuthenticated)
          end
        else ret (user, false)
    | None => ret (user, false)
    end in
  match user with
  | None => throw (AssertionError "该用户不存在")
  | Some user =>
      let* _ :=
        if negb isLdapAuthenticated then
          let isPasswordCorrect := compareSync e password (u_password user) in
          let* _ := assert isPasswordCorrect "密码错误" in
          handleNewUser user EmptyString
        else ret tt in
      let* sk := gets socket in
      let user := with_lastLogin (now e) (sk_ip sk) user in
      let* _ := User_save "login/user.save" user in
      let* groups := load_groups "login/Group.find" user in
      let* friends := load_friends "login/Friend.find" user in
      let* token := generateToken (u_id user) (environment (ld_env data)) in
      let* _ := bind_socket "login/Socket.updateOne" (u_id user) (ld_env data) in
      let* notificationTokens := getUserNotificationTokens user in
      ret {| ss_id := u_id user;
             ss_avatar := u_avatar user;
             ss_username := u_username user;
             ss_tag := u_tag user;
             ss_groups := groups;
             ss_friends := friends;
             ss_token := Some token;
             ss_isAdmin := existsb (String.eqb (u_id user)) (administrator (config e));
             ss_notificationTokens := notificationTokens;
             ss_authProvider := Some (JS.or_else (default EmptyString (u_authProvider user))
                                                 "local") |}
  end.

Record TokenData := {
  td_token : Token;
  td_env : Environment }.

(** [loginByToken] *)
Definition loginByToken (data : TokenData) : M (Reply Session) :=
  let token := td_token data in
  let* _ := assert (token_truthy token) "token不能为空" in
  let* e := ask in
  match jwt.decode token (jwtSecret (config e)) with
  | None => ret (Message "非法token")
  | Some payload =>
      let* _ := assert (now e <? tp_expires payload) "token已过期" in
      let* _ := assert (String.eqb (environment (td_env data)) (tp_environment payload))
                  "非法登录" in
      let* _ := await "loginByToken/User.findOne" in
      let* user := gets (fun w =>
        findOne (fun u => String.eqb (u_id u) (tp_user payload)) (users w)) in
      match user with
      | None => throw (AssertionError "用户不存在")
      | Some user =>
          let* _ := handleNewUser user EmptyString in
          let* sk := gets socket in
          let user := with_lastLogin (now e) (sk_ip sk) user in
          let* _ := User_save "loginByToken/user.save" user in
          let* groups := load_groups "loginByToken/Group.find" user in
          let* friends := load_friends "loginByToken/Friend.find" user in
          let* _ := bind_socket "loginByToken/Socket.updateOne" (u_id user) (td_env data) in
          let* notificationTokens := getUserNotificationTokens user in
          ret (Data {| ss_id := u_id user;
                       ss_avatar := u_avatar user;
                       ss_username := u_username user;
                       ss_tag := u_tag user;
                       ss_groups := groups;
                       ss_friends := friends;
                       ss_token := None;
                       ss_isAdmin := existsb (String.eqb (u_id user))
                                       (administrator (config e));
                       ss_notificationTokens := notificationTokens;
                       ss_authProvider := None |})
      end
  end.

(** [Promise.all(ms)]: every operation is started and runs to its end;
    the result rejects with the first rejection, if there is one. *)
Fixpoint settle (ms : list (M unit)) (first : option Exn) : M (option Exn) :=
  match ms with
  | [] => ret first
  | m :: rest =>
      fun e w =>
        match m e w with
        | (Return _, w') => settle rest first e w'
        | (Throw x, w') =>
            settle rest (match first with Some y => Some y | None => Some x end) e w'
        end
  end.

Definition Promise_all (ms : list (M unit)) : M unit :=
  let* rejected := settle ms None in
  match rejected with
  | Some x => throw x
  | None => ret tt
  end.

(** The body of [groups.map(async (group) => ...)] in [deleteUser]: the
    first occurrence of the user leaves [members], the creator is cleared
    when it is the user, the group is saved. *)
Definition without_member (userId : ObjectId) (g : GroupDocument) : GroupDocument :=
  {| g_id := g_id g; g_name := g_name g; g_avatar := g_avatar g;
     g_creator := match g_creator g with
                  | Some c => if String.eqb c userId then None else Some c
                  | None => None
                  end;
     g_createTime := g_createTime g; g_isDefault := g_isDefault g;
     g_members := match JS.indexOf userId (g_members g) with
                  | Some index => JS.splice1 index (g_members g)
                  | None => g_members g
                  end |}.

(** [deleteUser]; returns [{ msg: 'ok' }]. *)
Definition deleteUser (username : string) : M string :=
  let* _ := assert (JS.truthy username) "username不能为空" in
  let* _ := await "deleteUser/User.findOne" in
  let* user := gets (fun w => findOne (fun u => String.eqb (u_username u) username) (users w)) in
  match user with
  | None => throw (AssertionError "用户不存在")
  | Some user =>
      let userId := u_id user in
      let* _ :=
        try_catch
          (Promise_all
             [Redis.del "deleteUser/Redis.del:sealUser" (SealUserKey userId);
              Redis.del "deleteUser/Redis.del:bannedUsername" (BannedUsernameKey username);
              Redis.del "deleteUser/Redis.del:newUser" (NewUserKey userId)])
          (fun err => logger warn "[deleteUser] 清理 Redis 相关 key 失败:" (message_of err)) in
      let* _ := await "deleteUser/Socket.find" in
      let* userSockets := gets (fun w =>
        find (fun s => bool_decide (s_user s = Some userId)) (sockets w)) in
      let socketIds := List.map s_id userSockets in
      let* _ := forEach socketIds (fun socketId =>
        let* connected := gets (fun w => existsb (String.eqb socketId) (io_sockets w)) in
        if connected then
          let* _ := emit (forceLogout socketId "账户已被管理员删除") in
          let* _ := emit (disconnect socketId) in
          modify (set_io_sockets (List.filter (fun i => negb (String.eqb i socketId))))
        else ret tt) in
      let* _ := await "deleteUser/Message.find" in
      let* authored := gets (fun w =>
        find (fun m => String.eqb (m_from m) userId) (messages w)) in
      let* _ :=
        match authored with
        | [] => ret tt
        | _ :: _ =>
            let ids := List.map m_id authored in
            let* _ := await "deleteUser/History.deleteMany" in
            let* _ := modify (set_histories (deleteMany (fun h =>
                        existsb (String.eqb (h_message h)) ids))) in
            let* _ := await "deleteUser/Message.deleteMany" in
            modify (set_messages (deleteMany (fun m => String.eqb (m_from m) userId)))
        end in
      let* _ := await "deleteUser/Group.find" in
      let* joined := gets (fun w =>
        find (fun g => existsb (String.eqb userId) (g_members g)) (groups w)) in
      let* _ := Promise_all (List.map (fun group =>
        Group_save ("deleteUser/group.save:" +:+ g_id group) (without_member userId group))
        joined) in
      let* _ := await "deleteUser/Friend.deleteMany:from" in
      let* _ := modify (set_friends (deleteMany (fun f => String.eqb (f_from f) userId))) in
      let* _ := await "deleteUser/Friend.deleteMany:to" in
      let* _ := modify (set_friends (deleteMany (fun f => String.eqb (f_to f) userId))) in
      let* _ := await "deleteUser/Socket.deleteMany" in
      let* _ := modify (set_sockets (deleteMany (fun s => bool_decide (s_user s = Some userId)))) in
      let* _ := await "deleteUser/Notification.deleteMany" in
      let* _ := modify (set_notifications (deleteMany (fun n => String.eqb (n_user n) userId))) in
      let* _ := await "deleteUser/User.deleteOne" in
      let* _ := modify (set_users (deleteOne (fun u => String.eqb (u_id u) userId))) in
      ret "ok"
  end.

(** [hardDeleteUser] *)
Definition hardDeleteUser (userId : string) : M string :=
  let* _ := assert (JS.truthy userId) "userId不能为空" in
  let* sk := gets socket in
  let* _ := assert (sk_isAdmin sk) "你不是管理员" in
  let* _ := await "hardDeleteUser/User.findOne" in
  let* user := gets (fun w => findOne (fun u => String.eqb (u_id u) userId) (users w)) in
  match user with
  | None => throw (AssertionError "用户不存在")
  | Some user => deleteUser (u_username user)
  end.

(** [changeAvatar]; returns [avatar]. The assertion of the second branch
    is the one of the source. *)
Definition with_avatar (avatar : string) (u : UserDocument) : UserDocument :=
  {| u_id := u_id u; u_username := u_username u; u_salt := u_salt u;
     u_password := u_password u; u_avatar := avatar; u_tag := u_tag u;
     u_createTime := u_createTime u; u_lastLoginTime := u_lastLoginTime u;
     u_lastLoginIp := u_lastLoginIp u; u_authProvider := u_authProvider u |}.

Definition changeAvatar (avatar : string) : M string :=
  let* e := ask in
  let* avatarUrl :=
    if negb (JS.truthy avatar) || String.eqb (JS.trim avatar) EmptyString
    then ret (getRandomAvatar e)
    else
      let* _ := assert (JS.truthy (JS.trim avatar)) "新头像链接不能为空" in
      ret (JS.trim avatar) in
  let* sk := gets socket in
  let* _ := await "changeAvatar/User.updateOne" in
  let* _ := modify (set_users (updateOne (fun u => String.eqb (u_id u) (sk_user sk))
                                 (with_avatar avatarUrl))) in
  ret avatarUrl.

(** What [addFriend] returns. *)
Record FriendReply := {
  fr_id : ObjectId;
  fr_username : string;
  fr_avatar : string;
  fr_from : ObjectId;
  fr_to : ObjectId }.

(** The filter [{ from, to }] on the friend edges. *)
Definition edge (from to : ObjectId) (f : FriendDocument) : bool :=
  String.eqb (f_from f) from && String.eqb (f_to f) to.

(** [addFriend]. The ids of the store are compared in the spelling of
    [toString]. The source compares the id of the caller with the raw
    [userId] and then lets the query cast [userId]: for an id in another
    spelling (digits in upper case, twelve characters) the query finds
    the user whose id has this value; this cast is outside of the model,
    and the statements on [addFriend] are about the ids in the spelling
    of the store. *)
Definition addFriend (userId : string) : M FriendReply :=
  let* _ := assert (isValid userId) "无效的用户ID" in
  let* sk := gets socket in
  let* _ := assert (negb (String.eqb (sk_user sk) userId)) "不能添加自己为好友" in
  let* _ := await "addFriend/User.findOne" in
  let* user := gets (fun w => findOne (fun u => String.eqb (u_id u) userId) (users w)) in
  match user with
  | None => throw (AssertionError "添加好友失败, 用户不存在")
  | Some user =>
      let* _ := await "addFriend/Friend.find" in
      let* friend := gets (fun w => find (edge (sk_user sk) (u_id user)) (friends w)) in
      let* _ := assert (length friend =? 0)%nat "你们已经是好友了" in
      let* _ := await "addFriend/Friend.create" in
      let newFriend := {| f_from := sk_user sk; f_to := u_id user |} in
      let* _ := modify (set_friends (fun l => l ++ [newFriend])) in
      ret {| fr_id := u_id user; fr_username := u_username user; fr_avatar := u_avatar user;
             fr_from := f_from newFriend; fr_to := f_to newFriend |}
  end.

(** [deleteFriend] *)
Definition deleteFriend (userId : string) : M unit :=
  let* _ := assert (isValid userId) "无效的用户ID" in
  let* _ := await "deleteFriend/User.findOne" in
  let* user := gets (fun w => findOne (fun u => String.eqb (u_id u) userId) (users w)) in
  match user with
  | None => throw (AssertionError "用户不存在")
  | Some user =>
      let* sk := gets socket in
      let* _ := await "deleteFriend/Friend.deleteOne" in
      modify (set_friends (deleteOne (edge (sk_user sk) (u_id user))))
  end.

(** [user.salt = salt; user.password = hash] on the local document; the
    salt is left alone when [salt] is [None]. *)
Definition with_password (salt : option string) (hashed : string) (u : UserDocument)
  : UserDocument :=
  {| u_id := u_id u; u_username := u_username u; u_salt := default (u_salt u) salt;
     u_password := hashed; u_avatar := u_avatar u; u_tag := u_tag u;
     u_createTime := u_createTime u; u_lastLoginTime := u_lastLoginTime u;
     u_lastLoginIp := u_lastLoginIp u; u_authProvider := u_authProvider u |}.

(** [changePassword]; returns [msg]. *)
Definition changePassword (oldPassword newPassword : string) : M string :=
  let* _ := assert (JS.truthy newPassword) "新密码不能为空" in
  let* _ := assert (negb (String.eqb oldPassword newPassword)) "新密码不能与旧密码相同" in
  let* sk := gets socket in
  let* _ := await "changePassword/User.findOne" in
  let* user := gets (fun w => findOne (fun u => String.eqb (u_id u) (sk_user sk)) (users w)) in
  match user with
  | None => throw (AssertionError "用户不存在")
  | Some user =>
      let* _ := assert (negb (bool_decide (u_authProvider user = Some "ldap")))
                  "LDAP 账号不支持修改密码" in
      let* e := ask in
      let isPasswordCorrect := compareSync e oldPassword (u_password user) in
      let* _ := assert isPasswordCorrect "旧密码不正确" in
      let salt := genSalt e in
      let hashed := hash e newPassword salt in
      let* _ := User_save "changePassword/user.save" (with_password None hashed user) in
      ret "ok"
  end.

(** [self.username = username] on the local document. *)
Definition with_username (username : string) (u : UserDocument) : UserDocument :=
  {| u_id := u_id u; u_username := username; u_salt := u_salt u;
     u_password := u_password u; u_avatar := u_avatar u; u_tag := u_tag u;
     u_createTime := u_createTime u; u_lastLoginTime := u_lastLoginTime u;
     u_lastLoginIp := u_lastLoginIp u; u_authProvider := u_authProvider u |}.

(** [changeUsername]; returns [msg]. The save validates the new name
    against the schema, as [User.create] does. *)
Definition changeUsername (username : string) : M string :=
  let* _ := assert (JS.truthy username) "新用户名不能为空" in
  let* _ := await "changeUsername/User.findOne:username" in
  let* user := gets (fun w => findOne (fun u => String.eqb (u_username u) username) (users w)) in
  let* _ := assert (bool_decide (user = None)) "该用户名已存在, 换一个试试吧" in
  let* sk := gets socket in
  let* _ := await "changeUsername/User.findOne:self" in
  let* self := gets (fun w => findOne (fun u => String.eqb (u_id u) (sk_user sk)) (users w)) in
  match self with
  | None => throw (AssertionError "用户不存在")
  | Some self =>
      let self := with_username username self in
      let* _ := await "changeUsername/self.save" in
      let* e := ask in
      if user_schema_accepts e (u_username self)
      then let* _ := modify (set_users (save u_id self)) in ret "ok"
      else throw (ValidationError "User validation failed")
  end.

(** [resetUserPassword]; returns [newPassword]. *)
Definition resetUserPassword (username : string) : M string :=
  let* _ := assert (negb (String.eqb username EmptyString)) "username不能为空" in
  let* _ := await "resetUserPassword/User.findOne" in
  let* user := gets (fun w => findOne (fun u => String.eqb (u_username u) username) (users w)) in
  match user with
  | None => throw (AssertionError "用户不存在")
  | Some user =>
      let* _ := assert (negb (bool_decide (u_authProvider user = Some "ldap")))
                  "LDAP 账号不支持重置密码" in
      let newPassword := "helloworld" in
      let* e := ask in
      let salt := genSalt e in
      let hashed := hash e newPassword salt in
      let* _ := User_save "resetUserPassword/user.save"
                  (with_password (Some salt) hashed user) in
      ret newPassword
  end.

(** [Array.from(new Set(l))]: the elements of [l] in the order of their
    first occurrence; [seen] holds the elements already in the set. *)
Fixpoint from_Set (seen l : list string) : list string :=
  match l with
  | [] => []
  | x :: r =>
      if existsb (String.eqb x) seen then from_Set seen r
      else x :: from_Set (x :: seen) r
  end.

(** [getUserIps] *)
Definition getUserIps (userId : string) : M (list string) :=
  let* _ := assert (JS.truthy userId) "userId不能为空" in
  let* _ := assert (isValid userId) "不合法的userId" in
  let* _ := await "getUserIps/Socket.find" in
  let* sockets := gets (fun w => find (fun s => bool_decide (s_user s = Some userId)) (sockets w)) in
  let ipList := List.map s_ip sockets in
  ret (from_Set [] ipList).

(** [getUserOnlineStatus]: the closure [getUserOnlineStatusWrapper] keeps
    a [cache] from user ids to an answer and the instant at which it
    expires; the route takes the cache and returns it with its answer. *)
Definition UserOnlineStatusCacheExpireTime : Z := 1000 * 60.

Record CacheEntry := {
  value : bool;
  expireTime : Z }.

Definition getUserOnlineStatus (cache : gmap string CacheEntry) (userId : string)
  : M (bool * gmap string CacheEntry) :=
  let* _ := assert (JS.truthy userId) "userId不能为空" in
  let* _ := assert (isValid userId) "不合法的userId" in
  let* e := ask in
  let read_the_store :=
    let* _ := await "getUserOnlineStatus/Socket.find" in
    let* sockets := gets (fun w => find (fun s => bool_decide (s_user s = Some userId)) (sockets w)) in
    let isOnline := (0 <? length sockets)%nat in
    ret (isOnline,
         <[userId := {| value := isOnline;
                        expireTime := now e + UserOnlineStatusCacheExpireTime |}]> cache) in
  match cache !! userId with
  | Some en => if now e <? expireTime en then ret (value en, cache) else read_the_store
  | None => read_the_store
  end.

End user.

(** ** Vocabulary of the statements *)

(** The store of two worlds is the same: they may differ in the emitted
    events and in the log only. *)
Definition same_store (w w' : World) : Prop :=
  users w' = users w /\ groups w' = groups w /\ friends w' = friends w
  /\ sockets w' = sockets w /\ messages w' = messages w
  /\ histories w' = histories w /\ notifications w' = notifications w
  /\ conversations w' = conversations w /\ bots w' = bots w
  /\ redis w' = redis w /\ io_sockets w' = io_sockets w /\ socket w' = socket w.

(** No operation on a store rejects in this run. *)
Definition available (e : Env) : Prop := forall site, fault e site = false.

(** The fragments that a stream passes to [onChunk], and how its promise
    settles: the full text, or the message of the error. *)
Fixpoint stream_outcome (frames : list Frame) (stop : StreamEnd) (full : string)
  : list string * (string + string) :=
  match frames with
  | [] => ([], match stop with StreamEnds => inl full | StreamError m => inr m end)
  | Done :: _ => ([], inl full)
  | Skipped :: rest => stream_outcome rest stop full
  | Delta c :: rest =>
      if JS.truthy c then
        let (fs, o) := stream_outcome rest stop (full +:+ c) in (c :: fs, o)
      else stream_outcome rest stop full
  end.

(** Nothing follows the [[DONE]] marker of a stream: the marker, when the
    stream holds one, is its last line, and the stream ends after it. *)
Fixpoint closes_at_done (frames : list Frame) (stop : StreamEnd) : bool :=
  match frames with
  | [] => true
  | [Done] => match stop with StreamEnds => true | StreamError _ => false end
  | Done :: _ => false
  | _ :: rest => closes_at_done rest stop
  end.

(** The same for the result of a request; a request that is refused and
    a JSON body hold no marker. *)
Definition nothing_after_done (r : HttpResult) : bool :=
  match r with
  | HttpOk (StreamBody frames stop) => closes_at_done frames stop
  | _ => true
  end.

(** The same for a streaming call of [chat], from the result of the
    request: the text, or the error caught by [chat]. A JSON body holds
    no [data: ] line: read as a stream it gives the empty text. *)
Definition chat_outcome (r : HttpResult) : list string * (string + Exn) :=
  match r with
  | HttpFails m resp => ([], inr (HttpError m resp))
  | HttpOk (JsonBody _) => ([], inl EmptyString)
  | HttpOk (StreamBody frames stop) =>
      match stream_outcome frames stop EmptyString with
      | (fs, inl text) => (fs, inl text)
      | (fs, inr m) => (fs, inr (Error m))
      end
  end.

(** The request that a streaming [chat] posts. *)
Definition request_of (messages : list LLMMessage) (c : LLMConfig) : LLMRequest :=
  {| rq_url := lc_llmUrl c; rq_bearer := lc_apiKey c; rq_model := lc_model c;
     rq_messages := messages;
     rq_temperature := default (7 # 10)%Q (lc_temperature c);
     rq_max_tokens := default 2000 (lc_maxTokens c);
     rq_stream := true |}.

(** The turns of the stored conversation of a user with a bot, in a group
    or in private; none when no conversation is stored. *)
Definition stored_turns (w : World) (userId botId : ObjectId) (group : option ObjectId)
  : list ConversationMessage :=
  match findOne (bot.of_triple userId botId group) (conversations w) with
  | Some c => c_messages c
  | None => []
  end.

(** The request that a route posts for the text [text] of a user: the
    context is built from the stored turns and the new user turn. *)
Definition relay_request (e : Env) (w : World) (b : BotDocument) (userId : ObjectId)
  (group : option ObjectId) (text : string) : LLMRequest :=
  request_of
    (llmService.buildContext (systemPrompt (b_config b))
       (bot.as_history (stored_turns w userId (b_id b) group
                        ++ [{| role := role_user; content := text; createTime := now e |}]))
       text (maxHistory (b_config b)))
    (bot.chat_config b).

(** What a streaming [chat] reports to the route when the request or the
    stream fails with [x]: the fixed prefix and the message of [x]. *)
Definition failure_text (x : Exn) : string :=
  "LLM调用失败: "
  +:+ match x with
      | HttpError m _ => m
      | AssertionError m | Error m | ValidationError m | TypeError m | Unavailable m => m
      end.

(** The fragments of a list of frames: the texts that are not empty. *)
Definition fragments (frames : list Frame) : list string :=
  flat_map (fun f => match f with
                     | Delta c => if JS.truthy c then [c] else []
                     | _ => []
                     end) frames.


Definition stream_events (target tempMessageId : string) (botId : ObjectId)
  (groupId : option string) (fragments : list string) : list Event :=
  List.map (fun chunk => botMessageStream target tempMessageId chunk botId groupId) fragments.




(** Two worlds differ at most in the API keys of their bots. *)
Definition without_apiKey (b : BotDocument) : BotDocument :=
  {| b_id := b_id b; b_createTime := b_createTime b; b_name := b_name b;
     b_avatar := b_avatar b; b_enabled := b_enabled b;
     b_config := bot.with_apiKey EmptyString (b_config b); b_creator := b_creator b |}.

Definition same_but_apiKey (w1 w2 : World) : Prop :=
  set_bots (List.map without_apiKey) w1 = set_bots (List.map without_apiKey) w2.

(** The documents of two worlds are the same: they may differ in Redis,
    the live connections, the events, the log and the calling socket. *)
Definition same_documents (w w' : World) : Prop :=
  users w' = users w /\ groups w' = groups w /\ friends w' = friends w
  /\ sockets w' = sockets w /\ messages w' = messages w
  /\ histories w' = histories w /\ notifications w' = notifications w
  /\ conversations w' = conversations w /\ bots w' = bots w.

(** The invariants of the store that the deletion relies on: ids and
    user names identify a user, ids identify a group, and the members of a
    group are a set. *)
Definition well_formed (w : World) : Prop :=
  List.NoDup (List.map u_id (users w))
  /\ List.NoDup (List.map u_username (users w))
  /\ List.NoDup (List.map g_id (groups w))
  /\ (forall g, In g (groups w) -> List.NoDup (g_members g)).

(** No reference to the identity [uid] is left in [w'], the world after
    its deletion from [w]: in the members of a group, in a friendship
    edge, in the author of a message, in the history records of the
    messages it wrote, in a record of a connection, in a notification
    subscription; the groups are the same groups, and a group that the
    identity belonged to has lost it as creator; the record of the
    identity is gone. *)
Definition purged (uid : ObjectId) (w w' : World) : Prop :=
  (forall g, In g (groups w') -> ~ In uid (g_members g))
  /\ (forall f, In f (friends w') -> f_from f <> uid /\ f_to f <> uid)
  /\ (forall m, In m (messages w') -> m_from m <> uid)
  /\ (forall h m, In h (histories w') -> In m (messages w) -> m_from m = uid ->
        h_message h <> m_id m)
  /\ (forall s, In s (sockets w') -> s_user s <> Some uid)
  /\ (forall n, In n (notifications w') -> n_user n <> uid)
  /\ List.map g_id (groups w') = List.map g_id (groups w)
  /\ (forall g, In g (groups w) -> In uid (g_members g) ->
        exists g', In g' (groups w') /\ g_id g' = g_id g /\ g_name g' = g_name g
                   /\ g_creator g' = (if bool_decide (g_creator g = Some uid)
                                      then None else g_creator g))
  /\ (forall u, In u (users w') -> u_id u <> uid).

(** The call sites of [deleteUser] on the durable store that every run
    reaches once the user is found, in the order of the procedure. *)
Definition deletion_steps : list string :=
  ["deleteUser/Socket.find"; "deleteUser/Message.find"; "deleteUser/Group.find";
   "deleteUser/Friend.deleteMany:from"; "deleteUser/Friend.deleteMany:to";
   "deleteUser/Socket.deleteMany"; "deleteUser/Notification.deleteMany";
   "deleteUser/User.deleteOne"].

(** The call sites of the first step, the cleaning of the Redis keys. *)
Definition redis_steps : list string :=
  ["deleteUser/Redis.del:sealUser"; "deleteUser/Redis.del:bannedUsername";
   "deleteUser/Redis.del:newUser"].

(** The message of [register] when the limit is reached. *)
Definition limit_reached : string :=
  "24小时内同一IP地址最多只能注册3个账号，请稍后再试".

(** The count that a stored counter stands for: [parseInt(v || '0', 10)]. *)
Definition count_of (v : string) : option Z := JS.parseInt (JS.or_else v "0").

(** What the check of the limit answers for an address: it lets the
    registration go on when the counter cannot be read, when there is no
    counter, and when the counter stands for less than three. *)
Definition limit_outcome (ip : string) (e : Env) (w : World) : Outcome unit :=
  if fault e "register/Redis.get:ip" then Return tt
  else match Redis.read (now e) (NewRegisteredUserIpKey ip) (redis w) with
       | None => Return tt
       | Some v => match count_of v with
                   | Some n => if n <? 3 then Return tt
                               else Throw (AssertionError limit_reached)
                   | None => Throw (AssertionError limit_reached)
                   end
       end.

(** An attempt to register that is valid by itself: the store is
    available, registration is not disabled by the configuration, name
    and password are given and the schema accepts the name. *)
Definition valid_attempt (e : Env) (d : user.RegisterData) : Prop :=
  available e
  /\ disableRegister (config e) = false
  /\ JS.truthy (user.rd_username d) = true
  /\ JS.truthy (user.rd_password d) = true
  /\ user_schema_accepts e (user.rd_username d) = true.

(** A valid attempt that passes, in the world [w], every check of
    [register] but the limit by address: no override disables the
    registration, the name is free, the default group exists. *)
Definition registrable (e : Env) (w : World) (d : user.RegisterData) : Prop :=
  valid_attempt e d
  /\ redis w !! DisableRegisterKey = None
  /\ findOne (fun u => String.eqb (u_username u) (user.rd_username d)) (users w) = None
  /\ (exists g, findOne g_isDefault (groups w) = Some g).


(** The user that the login binds: the stored user, stamped with the
    instant and the address of the login. *)
Definition logged_in (e : Env) (w : World) (u : UserDocument) : UserDocument :=
  user.with_lastLogin (now e) (sk_ip (socket w)) u.

(** The request that [testConnection] posts for a url, a key and a model. *)
Definition probe_request (llmUrl apiKey model : string) : LLMRequest :=
  {| rq_url := llmUrl; rq_bearer := apiKey; rq_model := model;
     rq_messages := [{| lm_role := role_user; lm_content := "Hello" |}];
     rq_temperature := (7 # 10)%Q; rq_max_tokens := 2000; rq_stream := false |}.

(** The service answers a request with a JSON body of which
    [choices[0].message] can be read, with or without a text in it. *)
Definition answers_json (r : HttpResult) : bool :=
  match r with
  | HttpOk (JsonBody Unreadable) => false
  | HttpOk (JsonBody _) => true
  | _ => false
  end.

(** The conversation that [clearConversation] selects for a [groupId]:
    the private one when there is no [groupId] or an empty one. *)
Definition selected_group (groupId : option string) : option string :=
  match groupId with
  | Some g => if JS.truthy g then Some g else None
  | None => None
  end.

(** Every turn holds a text, as the schema of the conversations requires. *)
Definition valid_turns (ms : list ConversationMessage) : Prop :=
  forallb (fun m => JS.truthy (content m)) ms = true.

(** The fragments of a stream, put together. *)
Definition joined (fragments : list string) : string :=
  fold_right String.append EmptyString fragments.

(** The two turns that a completed exchange adds. *)
Definition exchange (e : Env) (text answer : string) : list ConversationMessage :=
  [{| role := role_user; content := text; createTime := now e |};
   {| role := role_assistant; content := answer; createTime := now e |}].

(** The name by which the group relay addresses the caller in its
    answer: the user name of the account, or [user] when the account is
    gone or has an empty name. *)
Definition addressed_as (w : World) (userId : ObjectId) : string :=
  match findOne (fun u => String.eqb (u_id u) userId) (users w) with
  | Some u => JS.or_else (u_username u) "user"
  | None => "user"
  end.

(** The character [c] does not occur in [s]. *)
Definition without_char (c : ascii) (s : string) : Prop :=
  forall x, In x (list_ascii_of_string s) -> x <> c.

(** An id in the spelling of the store, the one of [toString]:
    twenty-four hexadecimal digits, the letters in lower case. *)
Definition canonical_id (s : string) : bool :=
  (String.length s =? 24)%nat
  && forallb (fun c => let n := nat_of_ascii c in
                       ((48 <=? n)%nat && (n <=? 57)%nat)
                       || ((97 <=? n)%nat && (n <=? 102)%nat))
       (list_ascii_of_string s).

(** The characters that have a meaning of their own in the source of a
    regular expression. *)
Definition metacharacters : list ascii :=
  list_ascii_of_string "\^$.|?*+()[]{}".

(** A name that holds none of them: as the source of a regular expression
    it matches itself and nothing else. *)
Definition plain_name (name : string) : bool :=
  forallb (fun c => negb (existsb (Ascii.eqb c) metacharacters))
    (list_ascii_of_string name).

(** The login does not ask the directory: there is no directory, it is
    disabled, or the client asks for the local account. *)
Definition local_only (e : Env) (d : user.LoginData) : Prop :=
  match ldap (config e) with
  | Some cfg => enable cfg = false \/ user.ld_authType d = Some user.auth_local
  | None => True
  end.

(** The operation [m] never changes the part [f] of the world, whether
    it returns or raises. *)
Definition keeps {A B} (f : World -> B) (m : M A) : Prop :=
  forall e w, f (m e w).2 = f w.

(** The accounts and what belongs to them: the users, the groups, the
    friends, the connections and their records, the notifications, the
    history marks, Redis and the calling connection. *)
Definition accounts (w : World) :=
  (users w, groups w, friends w, sockets w, notifications w, histories w, redis w,
   io_sockets w, socket w).

(** The registration is open in the world [w]: the switch in Redis, when
    it is set, is not [true]; when it is not set, the configuration does
    not disable the registration. *)
Definition registration_open (e : Env) (w : World) : Prop :=
  match Redis.read (now e) DisableRegisterKey (redis w) with
  | Some v => v <> "true"
  | None => disableRegister (config e) = false
  end.

(** The entry that [register] logs when the name is banned. *)
Definition banned_name_entry : LogEntry :=
  {| level := error; tag := "[register] Redis error when checking banned username:";
     text := "该用户名已被封禁，无法使用" |}.

(** The token [tok] reopens the session of the user [uid] for a client
    that presents the environment [E], until the instant [expires], on a
    server that signs with [key] and whose store is available: from
    [expires] on [loginByToken] raises [token expired]; before, with
    another environment it raises [environment mismatch], and with [E]
    it returns the session of [uid] and binds the connection to it, when
    a user with this id is stored. *)
Definition reopens (tok : Token) (uid : ObjectId) (E : string) (expires : Z)
  (key : string) : Prop :=
  forall e w env,
    available e ->
    jwtSecret (config e) = key ->
    (expires <= now e ->
     user.loginByToken {| user.td_token := tok; user.td_env := env |} e w
     = (Throw (AssertionError "token已过期"), w))
    /\ (now e < expires ->
        user.environment env <> E ->
        user.loginByToken {| user.td_token := tok; user.td_env := env |} e w
        = (Throw (AssertionError "非法登录"), w))
    /\ (now e < expires ->
        user.environment env = E ->
        forall u,
          findOne (fun u => String.eqb (u_id u) uid) (users w) = Some u ->
          exists s w',
            user.loginByToken {| user.td_token := tok; user.td_env := env |} e w
            = (Return (user.Data s), w')
            /\ user.ss_id s = uid
            /\ sk_user (socket w') = uid).

(** ** Sample runs

    Concrete environments and worlds, on which the statements below are
    run. *)

Module Sample.

Definition server : ServerConfig :=
  {| jwtSecret := "server-secret"; tokenExpiresTime := 1000 * 60 * 60 * 24 * 30;
     disableRegister := false; ldap := None; administrator := ["admin"] |}.

Definition no_directory : Directory :=
  {| ldap_bind := fun _ _ => false; ldap_search := fun _ _ => None; ldap_unbind := true |}.

Definition env (t : Z) (cfg : ServerConfig) (post : LLMRequest -> HttpResult)
  (dir : Directory) (faults : string -> bool) : Env :=
  {| now := t; fault := faults; newObjectId := fun kind => "new" +:+ kind;
     getRandomAvatar := "avatar.png"; config := cfg; axios_post := post;
     directory := dir; genSalt := "salt";
     hash := fun password salt => salt +:+ password;
     compareSync := fun password hashed => String.eqb ("salt" +:+ password) hashed;
     user_schema_accepts := fun _ => true |}.

Definition never : string -> bool := fun _ => false.

(** The completion service is down; it answers two fragments and then
    breaks; it answers [Hi there]. *)
Definition down : LLMRequest -> HttpResult :=
  fun _ => HttpFails "connect ECONNREFUSED" None.


Definition answers : LLMRequest -> HttpResult :=
  fun _ => HttpOk (StreamBody [Delta "Hi"; Delta " there"; Done] StreamEnds).

Definition robot (pairs : Z) : BotDocument :=
  {| b_id := "bot1"; b_createTime := 0; b_name := "robot"; b_avatar := "robot.png";
     b_enabled := true;
     b_config := {| llmUrl := "http://llm/v1/chat"; apiKey := "sk-real"; model := "m1";
                    systemPrompt := "be brief"; temperature := (7 # 10)%Q;
                    maxTokens := 2000; maxHistory := pairs |};
     b_creator := "admin" |}.

Definition turn (r : Role) (s : string) (t : Z) : ConversationMessage :=
  {| role := r; content := s; createTime := t |}.

Definition talk (group : option ObjectId) (ms : list ConversationMessage) : ConversationDocument :=
  {| c_id := "conv1"; c_createTime := 0; c_lastActiveTime := 2; c_user := "u1";
     c_bot := "bot1"; c_group := group; c_messages := ms |}.

Definition member (id name : string) (t : Z) : UserDocument :=
  {| u_id := id; u_username := name; u_salt := "salt"; u_password := "salt" +:+ "pw";
     u_avatar := "a.png"; u_tag := EmptyString; u_createTime := t; u_lastLoginTime := t;
     u_lastLoginIp := "1.2.3.4"; u_authProvider := None |}.

Definition room (id : string) (creator : option ObjectId) (isDefault : bool)
  (members : list ObjectId) : GroupDocument :=
  {| g_id := id; g_name := id; g_avatar := "g.png"; g_creator := creator;
     g_createTime := 0; g_isDefault := isDefault; g_members := members |}.

Definition caller (userId : string) (isAdmin : bool) (ip : string) : CtxSocket :=
  {| sk_id := "socket1"; sk_user := userId; sk_isAdmin := isAdmin; sk_ip := ip |}.

Definition nothing (sk : CtxSocket) : World :=
  {| users := []; groups := []; friends := []; sockets := []; messages := [];
     histories := []; notifications := []; conversations := []; bots := [];
     redis := ∅; io_sockets := []; events := []; logs := []; socket := sk |}.

Definition groupId : string := "0123456789abcdef01234567".

(** A user [u1] who talked once with the bot, in private and in a group. *)
Definition chatting (pairs : Z) : World :=
  set_bots (fun _ => [robot pairs])
    (set_conversations (fun _ =>
       [talk None [turn role_user "a" 1; turn role_assistant "b" 2]])
    (set_groups (fun _ => [room groupId (Some "u1") true ["u1"]])
    (set_users (fun _ => [member "u1" "ann" 0])
    (nothing (caller "u1" false "1.2.3.4"))))).

(** The user [ann] ([u1]) created the group [g1] and belongs to [g2]; she
    has a friend, and a user has her as friend; she wrote three messages,
    two of them with a history record; she has a connection and a
    notification subscription. *)
Definition note (id from to : string) : MessageDocument :=
  {| m_id := id; m_from := from; m_to := to; m_type := "text"; m_content := "hi";
     m_createTime := 1 |}.

Definition connection (id : string) (userId : option ObjectId) : SocketDocument :=
  {| s_id := id; s_user := userId; s_os := "linux"; s_browser := "firefox";
     s_environment := "envA"; s_ip := "1.2.3.4" |}.

Definition social : World :=
  {| users := [member "u1" "ann" 0; member "u2" "bob" 0; member "u3" "cid" 0];
     groups := [room "g1" (Some "u1") true ["u1"; "u2"]; room "g2" (Some "u2") false ["u2"; "u1"];
                room "g3" (Some "u3") false ["u3"]];
     friends := [{| f_from := "u1"; f_to := "u2" |}; {| f_from := "u3"; f_to := "u1" |};
                 {| f_from := "u2"; f_to := "u3" |}];
     sockets := [connection "s1" (Some "u1"); connection "s2" (Some "u2")];
     messages := [note "m1" "u1" "g1"; note "m2" "u2" "g1"; note "m3" "u1" "g2";
                  note "m4" "u1" "u2"];
     histories := [{| h_id := "h1"; h_message := "m1" |}; {| h_id := "h2"; h_message := "m2" |};
                   {| h_id := "h3"; h_message := "m4" |}];
     notifications := [{| n_user := "u1"; n_token := "t1" |}; {| n_user := "u2"; n_token := "t2" |}];
     conversations := []; bots := [];
     redis := <[SealUserKey "u1" := {| r_value := "u1"; r_expires := None |}]> ∅;
     io_sockets := ["s1"; "s2"]; events := []; logs := [];
     socket := caller "admin" true "9.9.9.9" |}.

(** The runs in which exactly the call site [site] is rejected. *)
Definition only (site : string) : string -> bool := String.eqb site.

(** The same environment with other fresh ids. *)
Definition with_ids (mark : string) (e : Env) : Env :=
  {| now := now e; fault := fault e; newObjectId := fun kind => kind +:+ mark;
     getRandomAvatar := getRandomAvatar e; config := config e; axios_post := axios_post e;
     directory := directory e; genSalt := genSalt e; hash := hash e;
     compareSync := compareSync e; user_schema_accepts := user_schema_accepts e |}.

(** A server with its default group and no user yet, and a connection
    from the address [1.2.3.4] that has not logged in. *)
Definition lobby : World :=
  set_groups (fun _ => [room "g0" None true []]) (nothing (caller EmptyString false "1.2.3.4")).

Definition signup (name : string) : user.RegisterData :=
  {| user.rd_username := name; user.rd_password := "pw";
     user.rd_env := {| user.os := "linux"; user.browser := "firefox";
                       user.environment := "envA" |} |}.

(** The registration at the instant [t] of the user number [mark]. *)
Definition at_time (t : Z) (mark : string) : Env :=
  with_ids mark (env t server down no_directory never).




Definition signin (name password : string) : user.LoginData :=
  {| user.ld_username := name; user.ld_password := password; user.ld_authType := None;
     user.ld_env := {| user.os := "linux"; user.browser := "firefox";
                       user.environment := "envA" |} |}.


End Sample.

(** ** Further sample runs

    Users with ids that are ObjectIds, an administrator, and the
    settings of the responder. *)

Module Scenario.

Definition ann : ObjectId := "aaaaaaaaaaaaaaaaaaaaaaaa".
Definition bob : ObjectId := "bbbbbbbbbbbbbbbbbbbbbbbb".

(** The run at the instant 5 in which no operation is rejected and the
    completion service answers [Hi there]. *)
Definition normal : Env :=
  Sample.env 5 Sample.server Sample.answers Sample.no_directory Sample.never.

(** The completion service ends its stream at once. *)
Definition silent : LLMRequest -> HttpResult :=
  fun _ => HttpOk (StreamBody [Done] StreamEnds).

(** The completion service refuses the request whose messages hold the
    texts [texts], and answers every other request. *)
Definition refuses_only (texts : list string) : LLMRequest -> HttpResult :=
  fun rq => if bool_decide (List.map lm_content (rq_messages rq) = texts)
            then HttpFails "busy" None else Sample.answers rq.

(** The settings that an administrator sends for the bot. *)
Definition settings (pairs : option Z) : bot.ConfigureBotData :=
  {| bot.d_name := "robot"; bot.d_avatar := None;
     bot.d_config :=
       {| bot.d_llmUrl := "http://llm/v1/chat"; bot.d_apiKey := "sk-real";
          bot.d_model := "m1"; bot.d_systemPrompt := None; bot.d_temperature := None;
          bot.d_maxTokens := None; bot.d_maxHistory := pairs |} |}.

Definition admin : CtxSocket := Sample.caller "admin" true "9.9.9.9".

(** The world of [Sample.chatting], with an administrator as caller. *)
Definition managed : World := set_socket (fun _ => admin) (Sample.chatting 10).

(** [ann] and [bob] in the default group; [bob] has [ann] as friend;
    [ann] is connected twice from one address; the caller is [ann]. *)
Definition pair : World :=
  {| users := [Sample.member ann "ann" 0; Sample.member bob "bob" 0];
     groups := [Sample.room Sample.groupId (Some ann) true [ann; bob]];
     friends := [{| f_from := bob; f_to := ann |}];
     sockets := [Sample.connection "s1" (Some ann); Sample.connection "s2" (Some ann);
                 Sample.connection "s3" (Some bob)];
     messages := []; histories := []; notifications := [];
     conversations := []; bots := [Sample.robot 10];
     redis := ∅; io_sockets := ["s1"; "s2"; "s3"]; events := []; logs := [];
     socket := Sample.caller ann false "1.2.3.4" |}.

(** A server whose configuration disables the registration. *)
Definition closed : ServerConfig :=
  {| jwtSecret := "server-secret"; tokenExpiresTime := 1000 * 60 * 60 * 24 * 30;
     disableRegister := true; ldap := None; administrator := ["admin"] |}.

(** The lobby with one more key in Redis, without expiry. *)
Definition lobby_with (k : RedisKey) (v : string) : World :=
  set_redis (insert k {| r_value := v; r_expires := None |}) Sample.lobby.

(** A run in which every operation on a store is rejected. *)
Definition always : string -> bool := fun _ => true.

End Scenario.

(** * Properties *)

(** ** Running a route step by step *)

Section Steps.
Context {A B : Type}.
Implicit Types (e : Env) (w : World) (k : A -> M B).

Lemma bind_ret (a : A) k e w : bind (ret a) k e w = k a e w.
Proof. reflexivity. Qed.

Lemma bind_throw x k e w : bind (throw x) k e w = (Throw x, w).
Proof. reflexivity. Qed.

Lemma bind_gets (f : World -> A) k e w : bind (gets f) k e w = k (f w) e w.
Proof. reflexivity. Qed.

Lemma bind_ask (k : Env -> M B) e w : bind ask k e w = k e e w.
Proof. reflexivity. Qed.

Lemma bind_modify f (k : unit -> M B) e w : bind (modify f) k e w = k tt e (f w).
Proof. reflexivity. Qed.

Lemma bind_emit ev (k : unit -> M B) e w :
  bind (emit ev) k e w = k tt e (set_events (fun l => l ++ [ev]) w).
Proof. reflexivity. Qed.

Lemma bind_logger l tg tx (k : unit -> M B) e w :
  bind (logger l tg tx) k e w
  = k tt e (set_logs (fun ls => ls ++ [{| level := l; tag := tg; text := tx |}]) w).
Proof. reflexivity. Qed.

Lemma bind_await site (k : unit -> M B) e w :
  fault e site = false -> bind (await site) k e w = k tt e w.
Proof. intros H. unfold bind, await. rewrite H. reflexivity. Qed.


Lemma bind_assert b msg (k : unit -> M B) e w :
  b = true -> bind (assert b msg) k e w = k tt e w.
Proof. intros ->. reflexivity. Qed.

Lemma bind_assert_fails b msg (k : unit -> M B) e w :
  b = false -> bind (assert b msg) k e w = (Throw (AssertionError msg), w).
Proof. intros ->. reflexivity. Qed.

Lemma bind_run (m : M A) k e w :
  bind m k e w = match m e w with
                 | (Return a, w') => k a e w'
                 | (Throw x, w') => (Throw x, w')
                 end.
Proof. reflexivity. Qed.

Lemma try_catch_run (m : M A) h e w :
  try_catch m h e w = match m e w with
                      | (Return a, w') => (Return a, w')
                      | (Throw x, w') => h x e w'
                      end.
Proof. reflexivity. Qed.

End Steps.

Lemma bind_assoc {A B C} (m : M A) (f : A -> M B) (k : B -> M C) e w :
  bind (bind m f) k e w = bind m (fun a => bind (f a) k) e w.
Proof. unfold bind. destruct (m e w) as [[a|x] w']; reflexivity. Qed.

Lemma try_catch_bind {A B} (m : M A) (k : A -> M B) h e w :
  try_catch (bind m k) h e w = match m e w with
                               | (Return a, w') => try_catch (k a) h e w'
                               | (Throw x, w') => h x e w'
                               end.
Proof. unfold try_catch, bind. destruct (m e w) as [[a|x] w']; reflexivity. Qed.

(** One step of a run in which no store operation rejects. *)
Ltac mstep Hav :=
  first
    [ rewrite bind_assoc
    | rewrite bind_gets | rewrite bind_ask | rewrite bind_modify | rewrite bind_emit
    | rewrite bind_logger | rewrite bind_ret | rewrite bind_throw
    | rewrite (bind_await _ _ _ _ (Hav _))
    | rewrite bind_assert by (first [assumption | reflexivity]) ];
  cbn beta iota.

Ltac mrun Hav := repeat mstep Hav.

(** ** Facts about collections *)

Lemma findOne_app_None {A} (p : A -> bool) l l' :
  findOne p l = None -> findOne p (l ++ l') = findOne p l'.
Proof.
  unfold findOne. induction l as [|a l IH]; simpl; [reflexivity|].
  destruct (p a); [discriminate|exact IH].
Qed.

Lemma findOne_app_Some {A} (p : A -> bool) l l' a :
  findOne p l = Some a -> findOne p (l ++ l') = Some a.
Proof.
  unfold findOne. induction l as [|b l IH]; simpl; [discriminate|].
  destruct (p b); [trivial|exact IH].
Qed.

(** ** The completion service *)

Ltac munfold :=
  unfold emit, logger, assert, await, try_catch, bind, ret, throw, gets, modify, ask in *.

Lemma same_store_refl w : same_store w w.
Proof. unfold same_store; tauto. Qed.

Lemma handleStream_emit frames stop (ev : string -> Event) full e w :
  llmService.handleStreamResponse frames stop (fun c => emit (ev c)) full e w =
  match stream_outcome frames stop full with
  | (fs, inl text) => (Return text, set_events (fun l => l ++ List.map ev fs) w)
  | (fs, inr m) =>
      (Throw (Error m),
       set_logs (fun l => l ++ [{| level := error; tag := "[LLMService] Stream error:"; text := m |}])
         (set_events (fun l => l ++ List.map ev fs) w))
  end.
Proof.
  revert full w. induction frames as [|f rest IH]; intros full w.
  - destruct stop; simpl; munfold; destruct w; simpl; unfold set_events, set_logs; simpl;
      rewrite ?app_nil_r; reflexivity.
  - destruct f as [c| |]; simpl.
    + destruct (JS.truthy c).
      * munfold. cbn beta iota. rewrite IH.
        destruct (stream_outcome rest stop (full +:+ c)) as [fs [t|m]];
          destruct w; unfold set_events, set_logs; simpl; rewrite <- ?app_assoc; reflexivity.
      * apply IH.
    + apply IH.
    + munfold. destruct w; unfold set_events; simpl; rewrite app_nil_r; reflexivity.
Qed.

(** A streaming [chat] settles as [chat_outcome] says: the fragments are
    emitted in order, the store is left alone. *)
Lemma chat_streaming messages c (ev : string -> Event) e w :
  lc_stream c = Some true ->
  exists w',
    same_store w w'
    /\ events w' = events w ++ List.map ev (chat_outcome (axios_post e (request_of messages c))).1
    /\ llmService.chat messages c (Some (fun chunk => emit (ev chunk))) e w =
       (match (chat_outcome (axios_post e (request_of messages c))).2 with
        | inl text => Return text
        | inr x => Throw (Error (failure_text x))
        end, w').
Proof.
  intros Hs. unfold llmService.chat, request_of. rewrite Hs. simpl.
  unfold try_catch at 1. unfold bind at 1. unfold ask at 1.
  destruct (axios_post e _) as [[mc|frames stop]|m resp]; simpl.
  - munfold. simpl. eexists; split; [|split; [|reflexivity]].
    + unfold same_store; simpl; tauto.
    + simpl. rewrite app_nil_r. reflexivity.
  - rewrite handleStream_emit.
    destruct (stream_outcome frames stop EmptyString) as [fs [t|m]]; simpl.
    + eexists; split; [|split; [|reflexivity]]; [unfold same_store; simpl; tauto|reflexivity].
    + munfold. simpl. eexists; split; [|split; [|reflexivity]]; [unfold same_store; simpl; tauto|reflexivity].
  - munfold. simpl. destruct resp; (eexists; split; [|split; [|reflexivity]]);
      first [ unfold same_store; simpl; tauto | simpl; rewrite app_nil_r; reflexivity ].
Qed.

Lemma sendMessageToBot_rejected e w content b fs x :
  available e ->
  JS.truthy content = true ->
  findOne b_enabled (bots w) = Some b ->
  JS.truthy (sk_user (socket w)) = true ->
  JS.truthy (b_id b) = true ->
  chat_outcome (axios_post e (relay_request e w b (sk_user (socket w)) None content))
    = (fs, inr x) ->
  exists w',
    bot.sendMessageToBot content e w
      = (Throw (AssertionError ("AI回复失败: " +:+ failure_text x)), w')
    /\ events w' = events w
         ++ stream_events (sk_user (socket w)) (newObjectId e "tempMessageId") (b_id b) None fs
         ++ [botMessageError (sk_user (socket w)) (newObjectId e "tempMessageId") (failure_text x)]
    /\ messages w' = messages w
    /\ (conversations w' = conversations w
        \/ exists c, c_messages c = [] /\ conversations w' = conversations w ++ [c])
    /\ stored_turns w' (sk_user (socket w)) (b_id b) None
       = stored_turns w (sk_user (socket w)) (b_id b) None.
Proof.
  intros Hav Hc Hb Hu Hbid Hout.
  unfold bot.sendMessageToBot.
  unfold relay_request, stored_turns in Hout. unfold stored_turns.
  mrun Hav. rewrite Hb. cbn beta iota. mrun Hav.
  destruct (findOne _ (conversations w)) as [c|] eqn:Hfind.
  - mrun Hav. rewrite try_catch_bind.
    match goal with |- context [llmService.chat ?m ?c _ e ?w0] =>
      destruct (chat_streaming m c
        (fun chunk => botMessageStream (sk_user (socket w)) (newObjectId e "tempMessageId") chunk (b_id b) None)
        e w0 eq_refl) as (w1 & Hsame & Hev & Hchat);
      change (chat_outcome (axios_post e (request_of m c)) = (fs, inr x)) in Hout
    end.
    rewrite Hout in Hchat, Hev. cbn [fst snd] in Hchat, Hev.
    rewrite Hchat. mrun Hav.
    destruct Hsame as (?&?&?&?&?&?&?&Hcv&?&?&?&?).
    eexists; split; [reflexivity|]. simpl. rewrite Hev. rewrite Hcv.
    split; [rewrite <- app_assoc; reflexivity|]. split; [assumption|].
    split; [left; reflexivity|]. rewrite Hfind. reflexivity.
  - unfold bot.Conversation_create. mrun Hav.
    unfold ConversationSchema_accepts. cbn [c_user c_bot c_messages forallb].
    rewrite Hu, Hbid. cbn [andb]. mrun Hav. rewrite try_catch_bind.
    match goal with |- context [llmService.chat ?m ?c _ e ?w0] =>
      destruct (chat_streaming m c
        (fun chunk => botMessageStream (sk_user (socket w)) (newObjectId e "tempMessageId") chunk (b_id b) None)
        e w0 eq_refl) as (w1 & Hsame & Hev & Hchat);
      change (chat_outcome (axios_post e (request_of m c)) = (fs, inr x)) in Hout
    end.
    rewrite Hout in Hchat, Hev. cbn [fst snd] in Hchat, Hev.
    rewrite Hchat. mrun Hav.
    destruct Hsame as (?&?&?&?&?&?&?&Hcv&?&?&?&?). simpl in *.
    eexists; split; [reflexivity|]. simpl. rewrite Hev. rewrite Hcv.
    split; [rewrite <- app_assoc; reflexivity|]. split; [assumption|].
    split; [right; eexists; split; [|reflexivity]; reflexivity|].
    rewrite (findOne_app_None _ _ _ Hfind). unfold findOne, bot.of_triple. simpl.
    rewrite !String.eqb_refl. simpl. reflexivity.
Qed.

Lemma mentionBotInGroup_rejected e w groupId content g b group1 fs x :
  available e ->
  isValid groupId = true ->
  JS.truthy content = true ->
  findOne (fun g => String.eqb (g_id g) groupId) (groups w) = Some g ->
  existsb (fun m => String.eqb m (sk_user (socket w))) (g_members g) = true ->
  findOne b_enabled (bots w) = Some b ->
  bot.match_mention (b_name b) content = Some group1 ->
  JS.truthy (sk_user (socket w)) = true ->
  JS.truthy (b_id b) = true ->
  chat_outcome (axios_post e
    (relay_request e w b (sk_user (socket w)) (Some groupId) (JS.trim group1)))
    = (fs, inr x) ->
  exists w',
    bot.mentionBotInGroup groupId content e w
      = (Throw (AssertionError ("AI回复失败: " +:+ failure_text x)), w')
    /\ events w' = events w
         ++ stream_events groupId (newObjectId e "tempMessageId") (b_id b) (Some groupId) fs
         ++ [botMessageError groupId (newObjectId e "tempMessageId") (failure_text x)]
    /\ messages w' = messages w
    /\ (conversations w' = conversations w
        \/ exists c, c_messages c = [] /\ conversations w' = conversations w ++ [c])
    /\ stored_turns w' (sk_user (socket w)) (b_id b) (Some groupId)
       = stored_turns w (sk_user (socket w)) (b_id b) (Some groupId).
Proof.
  intros Hav Hv Hc Hg Hm Hb Hmatch Hu Hbid Hout.
  unfold bot.mentionBotInGroup.
  unfold relay_request, stored_turns in Hout. unfold stored_turns.
  mrun Hav. rewrite Hg. cbn beta iota. mrun Hav. rewrite Hb. cbn beta iota.
  rewrite Hmatch. cbn beta iota. mrun Hav.
  destruct (findOne _ (conversations w)) as [c|] eqn:Hfind.
  - mrun Hav. rewrite try_catch_bind.
    match goal with |- context [llmService.chat ?m ?c _ e ?w0] =>
      destruct (chat_streaming m c
        (fun chunk => botMessageStream groupId (newObjectId e "tempMessageId") chunk (b_id b) (Some groupId))
        e w0 eq_refl) as (w1 & Hsame & Hev & Hchat);
      change (chat_outcome (axios_post e (request_of m c)) = (fs, inr x)) in Hout
    end.
    rewrite Hout in Hchat, Hev. cbn [fst snd] in Hchat, Hev.
    rewrite Hchat. mrun Hav.
    destruct Hsame as (?&?&?&?&?&?&?&Hcv&?&?&?&?).
    eexists; split; [reflexivity|]. simpl. rewrite Hev. rewrite Hcv.
    split; [rewrite <- app_assoc; reflexivity|]. split; [assumption|].
    split; [left; reflexivity|]. rewrite Hfind. reflexivity.
  - unfold bot.Conversation_create. mrun Hav.
    unfold ConversationSchema_accepts. cbn [c_user c_bot c_messages forallb].
    rewrite Hu, Hbid. cbn [andb]. mrun Hav. rewrite try_catch_bind.
    match goal with |- context [llmService.chat ?m ?c _ e ?w0] =>
      destruct (chat_streaming m c
        (fun chunk => botMessageStream groupId (newObjectId e "tempMessageId") chunk (b_id b) (Some groupId))
        e w0 eq_refl) as (w1 & Hsame & Hev & Hchat);
      change (chat_outcome (axios_post e (request_of m c)) = (fs, inr x)) in Hout
    end.
    rewrite Hout in Hchat, Hev. cbn [fst snd] in Hchat, Hev.
    rewrite Hchat. mrun Hav.
    destruct Hsame as (?&?&?&?&?&?&?&Hcv&?&?&?&?). simpl in *.
    eexists; split; [reflexivity|]. simpl. rewrite Hev. rewrite Hcv.
    split; [rewrite <- app_assoc; reflexivity|]. split; [assumption|].
    split; [right; eexists; split; [|reflexivity]; reflexivity|].
    rewrite (findOne_app_None _ _ _ Hfind). unfold findOne, bot.of_triple. simpl.
    rewrite !String.eqb_refl. simpl. rewrite bool_decide_eq_true_2 by reflexivity. reflexivity.
Qed.

(** ** Failure of the completion call (C1, C2) *)







(** C1, as the claim states it, fails: after a private exchange whose
    completion call is refused, the stored conversation holds its two
    former turns and not the turn [hello] of the user. *)
Lemma user_turn_is_not_stored_when_the_call_fails :
  (exists x,
     (bot.sendMessageToBot "hello"
        (Sample.env 5 Sample.server Sample.down Sample.no_directory Sample.never)
        (Sample.chatting 10)).1 = Throw x)
  /\ conversations
       (bot.sendMessageToBot "hello"
          (Sample.env 5 Sample.server Sample.down Sample.no_directory Sample.never)
          (Sample.chatting 10)).2
     = [Sample.talk None [Sample.turn role_user "a" 1; Sample.turn role_assistant "b" 2]]
  /\ ~ In (Sample.turn role_user "hello" 5)
          (stored_turns
             (bot.sendMessageToBot "hello"
                (Sample.env 5 Sample.server Sample.down Sample.no_directory Sample.never)
                (Sample.chatting 10)).2 "u1" "bot1" None).
Proof.
  split; [eexists; vm_compute; reflexivity|].
  split; [vm_compute; reflexivity|].
  vm_compute. intros [H|[H|[]]]; discriminate H.
Qed.

(** C1, amended. When the completion call of a private exchange fails, the
    route raises and the stored conversation of the user with the bot
    holds the turns it held before: no assistant turn is added, and the
    turn of the user, pushed on the document in memory, is not saved. *)
Theorem failed_exchange_leaves_the_stored_turns e w content b fs x :
  available e ->
  JS.truthy content = true ->
  findOne b_enabled (bots w) = Some b ->
  JS.truthy (sk_user (socket w)) = true ->
  JS.truthy (b_id b) = true ->
  chat_outcome (axios_post e (relay_request e w b (sk_user (socket w)) None content))
    = (fs, inr x) ->
  (exists err, (bot.sendMessageToBot content e w).1 = Throw err)
  /\ stored_turns (bot.sendMessageToBot content e w).2 (sk_user (socket w)) (b_id b) None
     = stored_turns w (sk_user (socket w)) (b_id b) None.
Proof.
  intros Hav Hc Hb Hu Hbid Hout.
  destruct (sendMessageToBot_rejected e w content b fs x Hav Hc Hb Hu Hbid Hout)
    as (w' & Hrun & _ & _ & _ & Hturns).
  rewrite Hrun. simpl. split; [eexists; reflexivity|exact Hturns].
Qed.

Lemma failed_exchange_leaves_the_stored_turns_run :
  (exists err,
     (bot.sendMessageToBot "hello"
        (Sample.env 5 Sample.server Sample.down Sample.no_directory Sample.never)
        (Sample.chatting 10)).1 = Throw err)
  /\ stored_turns
       (bot.sendMessageToBot "hello"
          (Sample.env 5 Sample.server Sample.down Sample.no_directory Sample.never)
          (Sample.chatting 10)).2 "u1" "bot1" None
     = stored_turns (Sample.chatting 10) "u1" "bot1" None.
Proof.
  apply (failed_exchange_leaves_the_stored_turns
           (Sample.env 5 Sample.server Sample.down Sample.no_directory Sample.never)
           (Sample.chatting 10) "hello" (Sample.robot 10) [] (HttpError "connect ECONNREFUSED" None));
    first [ intros site; reflexivity | reflexivity ].
Defined.

(** ** The trim of the history (C3) *)

(** What the trim keeps is the end of the sequence: the turns dropped
    are the oldest, the others keep their order. *)
Lemma keep_recent_is_a_suffix maxMessages ms :
  exists dropped, ms = dropped ++ bot.keep_recent maxMessages ms.
Proof.
  unfold bot.keep_recent, JS.slice. destruct (_ >? _).
  - eexists. symmetry. apply take_drop.
  - exists []. reflexivity.
Qed.

(** For a positive bound the trim keeps at most that many turns. *)
Lemma keep_recent_length maxMessages ms :
  0 < maxMessages ->
  Z.of_nat (length (bot.keep_recent maxMessages ms)) <= maxMessages.
Proof.
  intros Hpos. unfold bot.keep_recent, JS.slice.
  destruct (Z.of_nat (length ms) >? maxMessages) eqn:Hgt.
  - apply Z.gtb_lt in Hgt.
    destruct (- maxMessages <? 0) eqn:Hneg; [|apply Z.ltb_ge in Hneg; lia].
    rewrite length_drop. lia.
  - rewrite Z.gtb_ltb in Hgt. apply Z.ltb_ge in Hgt. exact Hgt.
Qed.

(** With the bound zero the trim keeps every turn: [slice(-0)] is the
    whole array. *)
Lemma keep_recent_zero ms : bot.keep_recent 0 ms = ms.
Proof.
  unfold bot.keep_recent, JS.slice. destruct (_ >? _); [|reflexivity].
  simpl. rewrite Z.min_l by lia. reflexivity.
Qed.

(** C3, on the code: with [maxHistory] zero, a private exchange that
    completes leaves the four turns of the conversation in the store,
    where the bound [maxHistory * 2] is zero. *)
Theorem exchange_with_maxHistory_zero_keeps_every_turn :
  (bot.sendMessageToBot "hello"
     (Sample.env 5 Sample.server Sample.answers Sample.no_directory Sample.never)
     (Sample.chatting 0)).1 = Return "newMessage"
  /\ maxHistory (b_config (Sample.robot 0)) * 2 = 0
  /\ stored_turns
       (bot.sendMessageToBot "hello"
          (Sample.env 5 Sample.server Sample.answers Sample.no_directory Sample.never)
          (Sample.chatting 0)).2 "u1" "bot1" None
     = [Sample.turn role_user "a" 1; Sample.turn role_assistant "b" 2;
        Sample.turn role_user "hello" 5; Sample.turn role_assistant "Hi there" 5].
Proof. vm_compute. repeat split. Qed.

(** ** The API key in the bot configuration (C9) *)

Lemma masked_view_ignores_apiKey b1 b2 :
  without_apiKey b1 = without_apiKey b2 -> bot.view "***" b1 = bot.view "***" b2.
Proof.
  destruct b1 as [i1 t1 n1 a1 e1 [u1 k1 m1 p1 q1 x1 h1] c1].
  destruct b2 as [i2 t2 n2 a2 e2 [u2 k2 m2 p2 q2 x2 h2] c2].
  unfold without_apiKey, bot.view, bot.with_apiKey. simpl.
  intros H. injection H as -> -> -> -> -> -> -> -> -> -> -> ->. reflexivity.
Qed.

(** C9. To a caller that is no administrator [getBotConfig] returns the
    configuration with [apiKey] equal to [***], and returns the same for
    two stores that differ in the API keys only; what [configureBot]
    returns has [apiKey] equal to [***] for every caller; an administrator
    reads the stored key with [getBotConfig]. *)
Theorem apiKey_is_masked :
  (forall e w v w',
     sk_isAdmin (socket w) = false ->
     bot.getBotConfig e w = (Return (Some v), w') ->
     apiKey (bot.bv_config v) = "***")
  /\ (forall e w1 w2,
        sk_isAdmin (socket w1) = false ->
        same_but_apiKey w1 w2 ->
        (bot.getBotConfig e w1).1 = (bot.getBotConfig e w2).1)
  /\ (forall e w data v w',
        bot.configureBot data e w = (Return v, w') ->
        apiKey (bot.bv_config v) = "***")
  /\ (forall e w v w',
        sk_isAdmin (socket w) = true ->
        bot.getBotConfig e w = (Return (Some v), w') ->
        exists b, head (bots w) = Some b /\ apiKey (bot.bv_config v) = apiKey (b_config b)).
Proof.
  repeat split.
  - intros e w v w' Hna. unfold bot.getBotConfig. rewrite bind_run. unfold await.
    destruct (fault e _); [discriminate|]. rewrite bind_gets.
    destruct (head (bots w)); [|discriminate].
    rewrite bind_gets. rewrite Hna. intros [= <- _]. reflexivity.
  - intros e w1 w2 Hna Hsame. unfold same_but_apiKey, set_bots in Hsame.
    injection Hsame as _ _ _ _ _ _ _ _ Hbots _ _ _ _ Hsock.
    unfold bot.getBotConfig. rewrite !bind_run. unfold await.
    destruct (fault e _); [reflexivity|]. rewrite !bind_gets.
    destruct (bots w1) as [|b1 l1], (bots w2) as [|b2 l2]; try discriminate Hbots;
      [reflexivity|].
    cbn [List.map] in Hbots.
    assert (Hb : without_apiKey b1 = without_apiKey b2) by congruence.
    cbn [head]. rewrite ?bind_gets.
    rewrite <- Hsock, Hna.
    unfold ret. simpl. rewrite (masked_view_ignores_apiKey _ _ Hb). reflexivity.
  - intros e w data v w'.
    unfold bot.configureBot, bot.Bot_save, bot.Bot_create.
    unfold emit, logger, assert, await, try_catch, bind, ret, throw, gets, modify, ask.
    intros H. repeat (case_match; simplify_eq/=); reflexivity.
  - intros e w v w' Ha. unfold bot.getBotConfig. rewrite bind_run. unfold await.
    destruct (fault e _); [discriminate|]. rewrite bind_gets.
    destruct (head (bots w)) as [b|]; [|discriminate].
    rewrite bind_gets. rewrite Ha. intros [= <- _]. exists b. split; reflexivity.
Qed.

(** The user [u1], no administrator, reads the configuration of the bot;
    an administrator configures the bot and reads it. *)
Lemma apiKey_is_masked_run :
  apiKey (bot.bv_config (bot.view "***" (Sample.robot 10))) = "***"
  /\ (bot.getBotConfig
        (Sample.env 5 Sample.server Sample.down Sample.no_directory Sample.never)
        (Sample.chatting 10)).1
     = (bot.getBotConfig
          (Sample.env 5 Sample.server Sample.down Sample.no_directory Sample.never)
          (set_bots (List.map (fun b => Sample.robot 10)) (Sample.chatting 10))).1.
Proof.
  split.
  - apply (proj1 apiKey_is_masked
             (Sample.env 5 Sample.server Sample.down Sample.no_directory Sample.never)
             (Sample.chatting 10) (bot.view "***" (Sample.robot 10)) (Sample.chatting 10));
      reflexivity.
  - apply (proj1 (proj2 apiKey_is_masked)); reflexivity.
Defined.

Lemma deleteMany_In {A} (p : A -> bool) l x :
  In x (deleteMany p l) <-> In x l /\ p x = false.
Proof.
  unfold deleteMany. rewrite filter_In. rewrite negb_true_iff. reflexivity.
Qed.

Lemma deleteMany_none {A} (p : A -> bool) l :
  find p l = [] -> deleteMany p l = l.
Proof.
  unfold find, deleteMany. induction l as [|a l IH]; simpl; [reflexivity|].
  destruct (p a); simpl; [discriminate|]. intros H. rewrite (IH H). reflexivity.
Qed.

Lemma find_In {A} (p : A -> bool) l x : In x (find p l) <-> In x l /\ p x = true.
Proof. unfold find. apply filter_In. Qed.

Lemma findOne_Some {A} (p : A -> bool) l x :
  findOne p l = Some x -> In x l /\ p x = true.
Proof. unfold findOne. apply find_some. Qed.

Lemma existsb_eqb_In x (l : list string) :
  existsb (String.eqb x) l = true <-> In x l.
Proof.
  rewrite existsb_exists. split.
  - intros (y & Hy & He). apply String.eqb_eq in He. subst. exact Hy.
  - intros H. exists x. split; [exact H|apply String.eqb_refl].
Qed.

(** In a collection whose documents have distinct ids, the document with
    a given id is unique. *)
Lemma unique_id {A} (id : A -> ObjectId) l x y :
  List.NoDup (List.map id l) -> In x l -> In y l -> id x = id y -> x = y.
Proof.
  induction l as [|a l IH]; simpl; [tauto|].
  intros Hnd [Hx|Hx] [Hy|Hy] He; inversion Hnd as [|? ? Hni Hnd']; subst.
  - reflexivity.
  - exfalso. apply Hni. rewrite He. apply in_map. exact Hy.
  - exfalso. apply Hni. rewrite <- He. apply in_map. exact Hx.
  - apply IH; assumption.
Qed.

Lemma deleteOne_id {A} (id : A -> ObjectId) k l x :
  List.NoDup (List.map id l) ->
  In x (deleteOne (fun u => String.eqb (id u) k) l) -> id x <> k.
Proof.
  induction l as [|a l IH]; simpl; [tauto|].
  intros Hnd. inversion Hnd as [|? ? Hni Hnd']; subst.
  destruct (String.eqb (id a) k) eqn:He.
  - apply String.eqb_eq in He. intros Hx Hk. apply Hni. rewrite He, <- Hk.
    apply in_map. exact Hx.
  - apply String.eqb_neq in He. intros [Hx|Hx]; [subst; exact He|apply IH; assumption].
Qed.

(** Saving a document in such a collection replaces the document that has
    its id, and no other. *)
Lemma save_as_map {A} (id : A -> ObjectId) d l :
  List.NoDup (List.map id l) ->
  save id d l = List.map (fun x => if String.eqb (id x) (id d) then d else x) l.
Proof.
  unfold save. induction l as [|a l IH]; simpl; [reflexivity|].
  intros Hnd. inversion Hnd as [|? ? Hni Hnd']; subst.
  destruct (String.eqb (id a) (id d)) eqn:He.
  - f_equal. rewrite <- (map_id l) at 1. apply map_ext_in. intros x Hx.
    destruct (String.eqb (id x) (id d)) eqn:Hx'; [|reflexivity].
    exfalso. apply Hni. apply String.eqb_eq in He, Hx'. rewrite He, <- Hx'.
    apply in_map. exact Hx.
  - f_equal. apply IH. exact Hnd'.
Qed.

Lemma save_ids {A} (id : A -> ObjectId) d l :
  List.map id (save id d l) = List.map id l.
Proof.
  unfold save. induction l as [|a l IH]; simpl; [reflexivity|].
  destruct (String.eqb (id a) (id d)) eqn:He; simpl.
  - apply String.eqb_eq in He. rewrite He. reflexivity.
  - rewrite IH. reflexivity.
Qed.

(** Saving, one after the other, changed copies of documents of the
    collection changes exactly these documents. *)
Lemma saves_as_map {A} (id : A -> ObjectId) (f : A -> A) (gs l : list A) :
  (forall x, id (f x) = id x) ->
  List.NoDup (List.map id l) ->
  List.NoDup (List.map id gs) ->
  (forall g, In g gs -> In g l) ->
  fold_left (fun acc g => save id (f g) acc) gs l
  = List.map (fun x => if existsb (fun g => String.eqb (id g) (id x)) gs then f x else x) l.
Proof.
  intros Hid. revert l. induction gs as [|g gs IH]; intros l Hl Hgs Hin; simpl.
  - symmetry. apply map_id.
  - inversion Hgs as [|? ? Hni Hgs']; subst.
    assert (Hg : In g l) by (apply Hin; left; reflexivity).
    rewrite IH.
    + rewrite (save_as_map id (f g) l Hl). rewrite map_map. apply map_ext_in.
      intros x Hx. rewrite Hid.
      destruct (String.eqb (id x) (id g)) eqn:He.
      * apply String.eqb_eq in He. rewrite (unique_id id l x g Hl Hx Hg He).
        rewrite String.eqb_refl. simpl. rewrite Hid.
        destruct (existsb _ gs) eqn:Hex; [|reflexivity].
        exfalso. apply existsb_exists in Hex. destruct Hex as (g' & Hg' & He').
        apply String.eqb_eq in He'. apply Hni. rewrite <- He'. apply in_map. exact Hg'.
      * rewrite String.eqb_sym, He. reflexivity.
    + rewrite save_ids. exact Hl.
    + exact Hgs'.
    + intros g' Hg'. rewrite (save_as_map id (f g) l Hl). apply in_map_iff.
      exists g'. split; [|apply Hin; right; exact Hg'].
      destruct (String.eqb (id g') (id (f g))) eqn:He; [|reflexivity].
      exfalso. apply String.eqb_eq in He. rewrite Hid in He. apply Hni.
      rewrite <- He. apply in_map. exact Hg'.
Qed.

Lemma NoDup_map_filter {A} (id : A -> ObjectId) (p : A -> bool) l :
  List.NoDup (List.map id l) -> List.NoDup (List.map id (List.filter p l)).
Proof.
  induction l as [|a l IH]; simpl; [trivial|].
  intros Hnd. inversion Hnd as [|? ? Hni Hnd']; subst.
  destruct (p a); simpl; [|apply IH; exact Hnd'].
  constructor; [|apply IH; exact Hnd'].
  intros Hin. apply Hni. apply in_map_iff in Hin. destruct Hin as (x & Hx & Hin).
  apply filter_In in Hin. rewrite <- Hx. apply in_map. tauto.
Qed.

Lemma saves_of_found {A} (id : A -> ObjectId) (f : A -> A) (p : A -> bool) (l : list A) :
  (forall x, id (f x) = id x) ->
  List.NoDup (List.map id l) ->
  fold_left (fun acc g => save id (f g) acc) (find p l) l
  = List.map (fun x => if p x then f x else x) l.
Proof.
  intros Hid Hl. unfold find.
  rewrite (saves_as_map id f (List.filter p l) l Hid Hl (NoDup_map_filter id p l Hl)).
  - apply map_ext_in. intros x Hx.
    destruct (p x) eqn:Hp.
    + replace (existsb _ _) with true; [reflexivity|]. symmetry. apply existsb_exists.
      exists x. split; [apply filter_In; tauto|apply String.eqb_refl].
    + replace (existsb _ _) with false; [reflexivity|]. symmetry.
      apply not_true_is_false. intros Hex. apply existsb_exists in Hex.
      destruct Hex as (g & Hg & He). apply filter_In in Hg. apply String.eqb_eq in He.
      rewrite (unique_id id l g x Hl (proj1 Hg) Hx He) in Hg. destruct Hg as [_ Hg].
      congruence.
  - intros g Hg. apply filter_In in Hg. tauto.
Qed.

(** [indexOf] and [splice] take a member out of a set. *)
Lemma splice_indexOf x l :
  List.NoDup l ->
  ~ In x (match JS.indexOf x l with
          | Some index => JS.splice1 index l
          | None => l
          end).
Proof.
  induction l as [|y r IH]; simpl; [tauto|].
  intros Hnd. inversion Hnd as [|? ? Hni Hnd']; subst.
  destruct (String.eqb y x) eqn:He.
  - apply String.eqb_eq in He. subst. unfold JS.splice1. simpl. rewrite drop_0. exact Hni.
  - apply String.eqb_neq in He. specialize (IH Hnd').
    destruct (JS.indexOf x r) as [i|]; simpl.
    + unfold JS.splice1 in *. simpl. intros [H|H]; [exact (He H)|exact (IH H)].
    + intros [H|H]; [exact (He H)|exact (IH H)].
Qed.

(** ** The deletion of a user (C4, C5) *)

Lemma bind_await_cases {B} site (k : unit -> M B) e w :
  bind (await site) k e w
  = if fault e site then (Throw (Unavailable site), w) else k tt e w.
Proof. unfold bind, await. destruct (fault e site); reflexivity. Qed.

Lemma same_documents_refl w : same_documents w w.
Proof. unfold same_documents. tauto. Qed.

Lemma same_documents_trans w1 w2 w3 :
  same_documents w1 w2 -> same_documents w2 w3 -> same_documents w1 w3.
Proof.
  unfold same_documents.
  intros (?&?&?&?&?&?&?&?&?) (?&?&?&?&?&?&?&?&?). repeat split; congruence.
Qed.

(** The first step of [deleteUser] never rejects: it leaves the documents
    alone and logs a warning when a deletion of a key was rejected. *)
Lemma redis_cleanup_run userId username e w :
  exists w1,
    try_catch
      (user.Promise_all
         [Redis.del "deleteUser/Redis.del:sealUser" (SealUserKey userId);
          Redis.del "deleteUser/Redis.del:bannedUsername" (BannedUsernameKey username);
          Redis.del "deleteUser/Redis.del:newUser" (NewUserKey userId)])
      (fun err => logger warn "[deleteUser] 清理 Redis 相关 key 失败:" (message_of err)) e w
    = (Return tt, w1)
    /\ same_documents w w1
    /\ logs w1 = logs w
         ++ match List.find (fault e) redis_steps with
            | Some site => [{| level := warn; tag := "[deleteUser] 清理 Redis 相关 key 失败:";
                               text := site |}]
            | None => []
            end.
Proof.
  unfold try_catch, user.Promise_all, user.settle, Redis.del, bind, await, modify, logger,
    throw, ret, redis_steps. simpl.
  destruct (fault e "deleteUser/Redis.del:sealUser");
    destruct (fault e "deleteUser/Redis.del:bannedUsername");
    destruct (fault e "deleteUser/Redis.del:newUser"); simpl;
    (eexists; split; [reflexivity|split; [apply same_documents_refl || (unfold same_documents; simpl; tauto)|]]);
    simpl; rewrite ?app_nil_r; reflexivity.
Qed.

(** The forced logout of the live connections never rejects and leaves
    the documents and the log alone. *)
Lemma force_logout_run (ids : list string) e w :
  exists w1,
    forEach ids (fun socketId =>
      let* connected := gets (fun w => existsb (String.eqb socketId) (io_sockets w)) in
      if connected then
        let* _ := emit (forceLogout socketId "账户已被管理员删除") in
        let* _ := emit (disconnect socketId) in
        modify (set_io_sockets (List.filter (fun i => negb (String.eqb i socketId))))
      else ret tt) e w
    = (Return tt, w1)
    /\ same_documents w w1 /\ logs w1 = logs w.
Proof.
  revert w. induction ids as [|i ids IH]; intros w; simpl.
  - exists w. split; [reflexivity|split; [apply same_documents_refl|reflexivity]].
  - rewrite bind_assoc, bind_gets.
    destruct (existsb (String.eqb i) (io_sockets w)).
    + rewrite bind_assoc, bind_emit, bind_assoc, bind_emit, bind_modify.
      match goal with |- context [forEach ids ?b e ?w0] =>
        destruct (IH w0) as (w1 & Hrun & Hsame & Hlogs) end.
      exists w1. split; [exact Hrun|]. split; [|exact Hlogs].
      eapply same_documents_trans; [|exact Hsame]. unfold same_documents. simpl. tauto.
    + rewrite bind_ret. apply IH.
Qed.

(** The saves of the groups of the user, under [Promise.all]: whatever
    the outcome, only the groups change; when none is rejected, each of
    the groups was saved. *)
Lemma group_saves_run userId (gs : list GroupDocument) first e w r w' :
  user.settle
    (List.map (fun group =>
       user.Group_save ("deleteUser/group.save:" +:+ g_id group)
         (user.without_member userId group)) gs) first e w = (r, w') ->
  exists v,
    r = Return v
    /\ users w' = users w /\ friends w' = friends w /\ sockets w' = sockets w
    /\ messages w' = messages w /\ histories w' = histories w
    /\ notifications w' = notifications w /\ logs w' = logs w
    /\ (is_Some first -> is_Some v)
    /\ (v = None ->
        first = None
        /\ groups w' = fold_left (fun acc g => save g_id (user.without_member userId g) acc)
                         gs (groups w)).
Proof.
  revert first w. induction gs as [|g gs IH]; intros first w; simpl.
  - unfold ret. intros [= <- <-]. exists first. split_and!; eauto.
  - unfold user.Group_save at 1. rewrite bind_await_cases.
    destruct (fault e _).
    + intros H. apply IH in H.
      destruct H as (v & Hr & ? & ? & ? & ? & ? & ? & ? & Hsome & Hnone).
      assert (Hv : is_Some v) by (apply Hsome; destruct first; eauto).
      exists v. split_and!; try assumption.
      * intros _. exact Hv.
      * intros ->. destruct Hv as [? Hv]. discriminate Hv.
    + unfold modify. intros H. apply IH in H. simpl in H.
      destruct H as (v & Hr & ? & ? & ? & ? & ? & ? & ? & Hsome & Hnone).
      exists v. split_and!; assumption.
Qed.

Lemma group_saves_rejected userId (gs : list GroupDocument) first e w v w' :
  user.settle
    (List.map (fun group =>
       user.Group_save ("deleteUser/group.save:" +:+ g_id group)
         (user.without_member userId group)) gs) first e w = (Return (Some v), w') ->
  first = None ->
  exists g, fault e ("deleteUser/group.save:" +:+ g_id g) = true.
Proof.
  revert first w. induction gs as [|g gs IH]; intros first w; simpl.
  - unfold ret. intros [= -> _] H. discriminate H.
  - unfold user.Group_save at 1. rewrite bind_await_cases.
    destruct (fault e _) eqn:Hf; [intros _ _; exists g; exact Hf|].
    unfold modify. intros H ->. eapply IH; [exact H|reflexivity].
Qed.

Lemma deleteMany_false {A} (l : list A) : deleteMany (fun _ => false) l = l.
Proof.
  unfold deleteMany. induction l as [|a l IH]; simpl; [reflexivity|]. f_equal. exact IH.
Qed.

(** A run of [deleteUser] on a user that exists: either a step on the
    durable store was rejected, the route raised and the record of the
    user is still there; or no such step was rejected, the route returned
    and every collection was cleaned. *)
Lemma deleteUser_outcome e w username u r w' :
  JS.truthy username = true ->
  findOne (fun u => String.eqb (u_username u) username) (users w) = Some u ->
  user.deleteUser username e w = (r, w') ->
  (exists site x,
     fault e site = true /\ ~ In site redis_steps /\ r = Throw x /\ users w' = users w)
  \/ (r = Return "ok"
      /\ fault e "deleteUser/User.findOne" = false
      /\ (forall site, In site deletion_steps -> fault e site = false)
      /\ users w' = deleteOne (fun v => String.eqb (u_id v) (u_id u)) (users w)
      /\ notifications w' = deleteMany (fun n => String.eqb (n_user n) (u_id u)) (notifications w)
      /\ sockets w' = deleteMany (fun s => bool_decide (s_user s = Some (u_id u))) (sockets w)
      /\ friends w' = deleteMany (fun f => String.eqb (f_to f) (u_id u))
                        (deleteMany (fun f => String.eqb (f_from f) (u_id u)) (friends w))
      /\ messages w' = deleteMany (fun m => String.eqb (m_from m) (u_id u)) (messages w)
      /\ histories w'
         = deleteMany (fun h => existsb (String.eqb (h_message h))
                                  (List.map m_id (find (fun m => String.eqb (m_from m) (u_id u))
                                                    (messages w))))
             (histories w)
      /\ groups w'
         = fold_left (fun acc g => save g_id (user.without_member (u_id u) g) acc)
             (find (fun g => existsb (String.eqb (u_id u)) (g_members g)) (groups w))
             (groups w)
      /\ logs w' = logs w
           ++ match List.find (fault e) redis_steps with
              | Some site => [{| level := warn; tag := "[deleteUser] 清理 Redis 相关 key 失败:";
                                 text := site |}]
              | None => []
              end).
Proof.
  intros Hname Hfind. unfold user.deleteUser.
  rewrite bind_assert by exact Hname.
  rewrite bind_await_cases. destruct (fault e "deleteUser/User.findOne") eqn:F0.
  { intros [= <- <-]. left. do 2 eexists. split; [exact F0|].
    split; [|split; reflexivity]. intros [H|[H|[H|[]]]]; discriminate H. }
  rewrite bind_gets, Hfind.
  destruct (redis_cleanup_run (u_id u) username e w) as (w1 & Hr & D1 & L1).
  rewrite bind_run, Hr.
  rewrite bind_await_cases. destruct (fault e "deleteUser/Socket.find") eqn:F1.
  { intros [= <- <-]. left. do 2 eexists. split; [exact F1|].
    split; [intros [H|[H|[H|[]]]]; discriminate H|]. split; [reflexivity|apply D1]. }
  rewrite bind_gets.
  match goal with |- context [forEach ?ids _] =>
    destruct (force_logout_run ids e w1) as (w2 & Hfl & D2 & L2) end.
  rewrite bind_run, Hfl.
  pose proof (same_documents_trans _ _ _ D1 D2) as D.
  destruct D as (Du & Dg & Df & Ds & Dm & Dh & Dn & Dc & Db).
  rewrite bind_await_cases. destruct (fault e "deleteUser/Message.find") eqn:F2.
  { intros [= <- <-]. left. do 2 eexists. split; [exact F2|].
    split; [intros [H|[H|[H|[]]]]; discriminate H|]. split; [reflexivity|exact Du]. }
  rewrite bind_gets. rewrite Dm.
  set (uid := u_id u) in *.
  set (authored := find (fun m => String.eqb (m_from m) uid) (messages w)).
  (* the messages and their history *)
  assert (Hmsg : forall (k : unit -> M string),
    (let* x := match authored with
               | [] => ret tt
               | _ :: _ =>
                   let* _ := await "deleteUser/History.deleteMany" in
                   let* _ := modify (set_histories (deleteMany (fun h =>
                               existsb (String.eqb (h_message h)) (List.map m_id authored)))) in
                   let* _ := await "deleteUser/Message.deleteMany" in
                   modify (set_messages (deleteMany (fun m => String.eqb (m_from m) uid)))
               end in k x) e w2 = (r, w') ->
    (exists site x, fault e site = true /\ ~ In site redis_steps /\ r = Throw x
                    /\ users w' = users w)
    \/ exists w3, k tt e w3 = (r, w')
                  /\ users w3 = users w /\ groups w3 = groups w /\ friends w3 = friends w
                  /\ sockets w3 = sockets w /\ notifications w3 = notifications w
                  /\ logs w3 = logs w2
                  /\ messages w3 = deleteMany (fun m => String.eqb (m_from m) uid) (messages w)
                  /\ histories w3 = deleteMany (fun h =>
                       existsb (String.eqb (h_message h)) (List.map m_id authored))
                       (histories w)).
  { intros k. destruct authored as [|m ms] eqn:Ha.
    - rewrite bind_ret. intros H. right. exists w2. split; [exact H|].
      split_and!; try assumption; try reflexivity.
      + rewrite Dm. symmetry. apply deleteMany_none. exact Ha.
      + rewrite Dh. simpl. symmetry. apply deleteMany_false.
    - rewrite bind_assoc, bind_await_cases.
      destruct (fault e "deleteUser/History.deleteMany") eqn:F3.
      { intros [= <- <-]. left. do 2 eexists. split; [exact F3|].
        split; [intros [H|[H|[H|[]]]]; discriminate H|]. split; [reflexivity|exact Du]. }
      rewrite bind_assoc, bind_modify, bind_assoc, bind_await_cases.
      destruct (fault e "deleteUser/Message.deleteMany") eqn:F4.
      { intros [= <- <-]. left. do 2 eexists. split; [exact F4|].
        split; [intros [H|[H|[H|[]]]]; discriminate H|]. split; [reflexivity|exact Du]. }
      rewrite bind_modify. intros H. right. eexists. split; [exact H|].
      simpl. rewrite Dm, Dh. split_and!; try assumption; reflexivity. }
  intros H. apply Hmsg in H. clear Hmsg.
  destruct H as [H|(w3 & H & Eu & Eg & Ef & Es & En & El & Em & Eh)]; [left; exact H|].
  revert H.
  rewrite bind_await_cases. destruct (fault e "deleteUser/Group.find") eqn:F5.
  { intros [= <- <-]. left. do 2 eexists. split; [exact F5|].
    split; [intros [H|[H|[H|[]]]]; discriminate H|]. split; [reflexivity|exact Eu]. }
  rewrite bind_gets, Eg. unfold user.Promise_all. rewrite bind_assoc, bind_run.
  destruct (user.settle _ None e w3) as [rs w4] eqn:Hs.
  pose proof (group_saves_run _ _ _ _ _ _ _ Hs)
    as (v & -> & Gu & Gf & Gs & Gm & Gh & Gn & Gl & _ & Gnone).
  destruct v as [x|].
  { destruct (group_saves_rejected _ _ _ _ _ _ _ Hs eq_refl) as (g & Fg).
    rewrite bind_throw. intros [= <- <-]. left. do 2 eexists. split; [exact Fg|].
    split; [simpl; intros [H|[H|[H|[]]]]; discriminate H|].
    split; [reflexivity|]. rewrite Gu. exact Eu. }
  destruct (Gnone eq_refl) as (_ & Gg). rewrite bind_ret.
  rewrite bind_await_cases. destruct (fault e "deleteUser/Friend.deleteMany:from") eqn:F6.
  { intros [= <- <-]. left. do 2 eexists. split; [exact F6|].
    split; [intros [H|[H|[H|[]]]]; discriminate H|]. split; [reflexivity|congruence]. }
  rewrite bind_modify.
  rewrite bind_await_cases. destruct (fault e "deleteUser/Friend.deleteMany:to") eqn:F7.
  { intros [= <- <-]. left. do 2 eexists. split; [exact F7|].
    split; [intros [H|[H|[H|[]]]]; discriminate H|]. split; [reflexivity|simpl; congruence]. }
  rewrite bind_modify.
  rewrite bind_await_cases. destruct (fault e "deleteUser/Socket.deleteMany") eqn:F8.
  { intros [= <- <-]. left. do 2 eexists. split; [exact F8|].
    split; [intros [H|[H|[H|[]]]]; discriminate H|]. split; [reflexivity|simpl; congruence]. }
  rewrite bind_modify.
  rewrite bind_await_cases. destruct (fault e "deleteUser/Notification.deleteMany") eqn:F9.
  { intros [= <- <-]. left. do 2 eexists. split; [exact F9|].
    split; [intros [H|[H|[H|[]]]]; discriminate H|]. split; [reflexivity|simpl; congruence]. }
  rewrite bind_modify.
  rewrite bind_await_cases. destruct (fault e "deleteUser/User.deleteOne") eqn:F10.
  { intros [= <- <-]. left. do 2 eexists. split; [exact F10|].
    split; [intros [H|[H|[H|[]]]]; discriminate H|]. split; [reflexivity|simpl; congruence]. }
  rewrite bind_modify. unfold ret. intros [= <- <-]. right. simpl.
  split; [reflexivity|]. split; [reflexivity|].
  split.
  { unfold deletion_steps. intros site Hin. simpl in Hin.
    repeat (destruct Hin as [<-|Hin]; [assumption|]). destruct Hin. }
  rewrite Gu, Eu, Gn, En, Gs, Es, Gf, Ef, Gm, Em, Gh, Eh, Gg, Eg, Gl, El, L2, L1.
  split_and!; reflexivity.
Qed.

Lemma findOne_exists {A} (p : A -> bool) l x :
  In x l -> p x = true -> exists y, findOne p l = Some y.
Proof.
  intros Hin Hp. unfold findOne. destruct (List.find p l) as [y|] eqn:Hf; [eauto|].
  exfalso. pose proof (find_none _ _ Hf x Hin). congruence.
Qed.

Lemma deleted_user_is_purged w w' u :
  well_formed w ->
  In u (users w) ->
  users w' = deleteOne (fun v => String.eqb (u_id v) (u_id u)) (users w) ->
  notifications w' = deleteMany (fun n => String.eqb (n_user n) (u_id u)) (notifications w) ->
  sockets w' = deleteMany (fun s => bool_decide (s_user s = Some (u_id u))) (sockets w) ->
  friends w' = deleteMany (fun f => String.eqb (f_to f) (u_id u))
                 (deleteMany (fun f => String.eqb (f_from f) (u_id u)) (friends w)) ->
  messages w' = deleteMany (fun m => String.eqb (m_from m) (u_id u)) (messages w) ->
  histories w'
  = deleteMany (fun h => existsb (String.eqb (h_message h))
                           (List.map m_id (find (fun m => String.eqb (m_from m) (u_id u))
                                             (messages w))))
      (histories w) ->
  groups w'
  = fold_left (fun acc g => save g_id (user.without_member (u_id u) g) acc)
      (find (fun g => existsb (String.eqb (u_id u)) (g_members g)) (groups w))
      (groups w) ->
  purged (u_id u) w w'.
Proof.
  intros (Wu & _ & Wg & Wm) Hu Eu En Es Ef Em Eh Eg.
  rewrite (saves_of_found g_id (user.without_member (u_id u)) _ (groups w)
             (fun _ => eq_refl) Wg) in Eg.
  unfold purged. split_and!.
  - intros g'. rewrite Eg. intros Hin. apply in_map_iff in Hin.
    destruct Hin as (g & <- & Hg).
    destruct (existsb (String.eqb (u_id u)) (g_members g)) eqn:Hp.
    + simpl. apply splice_indexOf. apply Wm. exact Hg.
    + intros Hin. apply existsb_eqb_In in Hin. congruence.
  - intros f. rewrite Ef. intros Hin. apply deleteMany_In in Hin. destruct Hin as (Hin & Hto).
    apply deleteMany_In in Hin. destruct Hin as (_ & Hfrom).
    apply String.eqb_neq in Hto, Hfrom. tauto.
  - intros m. rewrite Em. intros Hin. apply deleteMany_In in Hin.
    apply String.eqb_neq. tauto.
  - intros h m. rewrite Eh. intros Hin Hm Hfrom Heq. apply deleteMany_In in Hin.
    destruct Hin as (_ & Hex).
    assert (existsb (String.eqb (h_message h))
              (List.map m_id (find (fun m => String.eqb (m_from m) (u_id u)) (messages w)))
            = true); [|congruence].
    apply existsb_eqb_In. rewrite Heq. apply in_map. apply find_In.
    split; [exact Hm|]. apply String.eqb_eq. exact Hfrom.
  - intros s. rewrite Es. intros Hin. apply deleteMany_In in Hin. destruct Hin as (_ & Hs).
    apply bool_decide_eq_false in Hs. exact Hs.
  - intros n. rewrite En. intros Hin. apply deleteMany_In in Hin.
    apply String.eqb_neq. tauto.
  - rewrite Eg. rewrite map_map. apply map_ext. intros g.
    destruct (existsb _ _); reflexivity.
  - intros g Hg Hin. exists (user.without_member (u_id u) g). split_and!; try reflexivity.
    + rewrite Eg. apply in_map_iff. exists g. split; [|exact Hg].
      apply existsb_eqb_In in Hin. rewrite Hin. reflexivity.
    + simpl. destruct (g_creator g) as [c|]; [|rewrite bool_decide_eq_false_2; congruence].
      destruct (String.eqb c (u_id u)) eqn:Hc.
      * apply String.eqb_eq in Hc. subst. rewrite bool_decide_eq_true_2; reflexivity.
      * apply String.eqb_neq in Hc. rewrite bool_decide_eq_false_2; congruence.
  - intros v. rewrite Eu. apply deleteOne_id. exact Wu.
Qed.

Lemma deleteUser_raises_keeps_user e w username x w' :
  user.deleteUser username e w = (Throw x, w') -> users w' = users w.
Proof.
  destruct (JS.truthy username) eqn:Hn.
  - destruct (findOne (fun u => String.eqb (u_username u) username) (users w)) as [u|] eqn:Hf.
    + intros H. destruct (deleteUser_outcome e w username u _ _ Hn Hf H)
        as [(_ & _ & _ & _ & _ & Hu)|(H' & _)]; [exact Hu|discriminate H'].
    + unfold user.deleteUser. rewrite bind_assert by exact Hn.
      rewrite bind_await_cases. destruct (fault e _); [intros [= _ <-]; reflexivity|].
      rewrite bind_gets, Hf. intros [= _ <-]. reflexivity.
  - unfold user.deleteUser. rewrite bind_assert_fails by exact Hn.
    intros [= _ <-]. reflexivity.
Qed.

Lemma deleteUser_returns e w username r w' :
  user.deleteUser username e w = (Return r, w') ->
  JS.truthy username = true
  /\ exists u, findOne (fun u => String.eqb (u_username u) username) (users w) = Some u.
Proof.
  unfold user.deleteUser. destruct (JS.truthy username) eqn:Hn.
  - rewrite bind_assert by reflexivity. rewrite bind_await_cases.
    destruct (fault e _); [discriminate|]. rewrite bind_gets.
    destruct (findOne _ (users w)) as [u|]; [eauto|discriminate].
  - rewrite bind_assert_fails by reflexivity. discriminate.
Qed.

(** [hardDeleteUser] either raises before it touches anything, or runs
    [deleteUser] on the name of the user with this id. *)
Lemma hardDeleteUser_run e w userId :
  (exists x, user.hardDeleteUser userId e w = (Throw x, w))
  \/ exists u, findOne (fun u => String.eqb (u_id u) userId) (users w) = Some u
               /\ user.hardDeleteUser userId e w = user.deleteUser (u_username u) e w.
Proof.
  unfold user.hardDeleteUser.
  destruct (JS.truthy userId) eqn:Hn;
    [rewrite bind_assert by reflexivity
    |rewrite bind_assert_fails by reflexivity; left; eauto].
  rewrite bind_gets.
  destruct (sk_isAdmin (socket w)) eqn:Ha;
    [rewrite bind_assert by reflexivity
    |rewrite bind_assert_fails by reflexivity; left; eauto].
  rewrite bind_await_cases. destruct (fault e _); [left; eauto|].
  rewrite bind_gets.
  destruct (findOne _ (users w)) as [u|]; [right; eauto|left; eauto].
Qed.

(** C4. After a deletion that returned, by [deleteUser] or by
    [hardDeleteUser], in a store that is well formed: the user existed, and
    no reference to its id is left in the members of a group, in a
    friendship edge of either direction, in the author of a message or in
    the history records of the messages it wrote, in a connection record,
    in a notification subscription; every group is still there, and a
    group it belonged to has no creator when the user was its creator;
    the record of the user is gone. A deletion that raises has not deleted
    the record of the user: this deletion is the last step. *)
Theorem deletion_leaves_no_reference :
  (forall e w username r w',
     well_formed w ->
     user.deleteUser username e w = (Return r, w') ->
     exists u, findOne (fun u => String.eqb (u_username u) username) (users w) = Some u
               /\ purged (u_id u) w w')
  /\ (forall e w userId r w',
        well_formed w ->
        user.hardDeleteUser userId e w = (Return r, w') ->
        (exists u, findOne (fun u => String.eqb (u_id u) userId) (users w) = Some u)
        /\ purged userId w w')
  /\ (forall e w username x w',
        user.deleteUser username e w = (Throw x, w') -> users w' = users w)
  /\ (forall e w userId x w',
        user.hardDeleteUser userId e w = (Throw x, w') -> users w' = users w).
Proof.
  assert (Hdel : forall e w username r w',
     well_formed w ->
     user.deleteUser username e w = (Return r, w') ->
     exists u, findOne (fun u => String.eqb (u_username u) username) (users w) = Some u
               /\ purged (u_id u) w w').
  { intros e w username r w' Hwf Hrun.
    destruct (deleteUser_returns _ _ _ _ _ Hrun) as (Hn & u & Hf).
    exists u. split; [exact Hf|].
    destruct (deleteUser_outcome e w username u _ _ Hn Hf Hrun)
      as [(? & ? & _ & _ & H' & _)|(_ & _ & _ & Eu & En & Es & Ef & Em & Eh & Eg & _)];
      [discriminate H'|].
    apply deleted_user_is_purged; try assumption.
    apply (findOne_Some _ _ _ Hf). }
  split_and!.
  - exact Hdel.
  - intros e w userId r w' Hwf Hrun.
    destruct (hardDeleteUser_run e w userId) as [(x & Hx)|(u & Hf & Heq)];
      [rewrite Hx in Hrun; discriminate Hrun|].
    rewrite Heq in Hrun. split; [eauto|].
    destruct (Hdel _ _ _ _ _ Hwf Hrun) as (u' & Hf' & Hp).
    destruct (findOne_Some _ _ _ Hf) as (Hin & Hid).
    destruct (findOne_Some _ _ _ Hf') as (Hin' & Hname).
    apply String.eqb_eq in Hid, Hname.
    destruct Hwf as (_ & Wn & _).
    rewrite (unique_id u_username (users w) u' u Wn Hin' Hin Hname) in Hp.
    rewrite Hid in Hp. exact Hp.
  - apply deleteUser_raises_keeps_user.
  - intros e w userId x w' Hrun.
    destruct (hardDeleteUser_run e w userId) as [(y & Hy)|(u & Hf & Heq)].
    + rewrite Hy in Hrun. injection Hrun as _ <-. reflexivity.
    + rewrite Heq in Hrun. eapply deleteUser_raises_keeps_user. exact Hrun.
Qed.

Lemma social_is_well_formed : well_formed Sample.social.
Proof.
  unfold well_formed. simpl. split_and!.
  - repeat (constructor; [simpl; intuition discriminate|]). constructor.
  - repeat (constructor; [simpl; intuition discriminate|]). constructor.
  - repeat (constructor; [simpl; intuition discriminate|]). constructor.
  - intros g [<-|[<-|[<-|[]]]]; simpl;
      repeat (constructor; [simpl; intuition discriminate|]); constructor.
Defined.

(** An administrator deletes [ann], by name and by id. *)
Lemma deletion_of_ann :
  (exists u, findOne (fun u => String.eqb (u_username u) "ann") (users Sample.social) = Some u
             /\ purged (u_id u) Sample.social
                  (user.deleteUser "ann"
                     (Sample.env 5 Sample.server Sample.down Sample.no_directory Sample.never)
                     Sample.social).2)
  /\ purged "u1" Sample.social
       (user.hardDeleteUser "u1"
          (Sample.env 5 Sample.server Sample.down Sample.no_directory Sample.never)
          Sample.social).2.
Proof.
  split.
  - apply (proj1 deletion_leaves_no_reference
             (Sample.env 5 Sample.server Sample.down Sample.no_directory Sample.never)
             Sample.social "ann" "ok").
    + exact social_is_well_formed.
    + vm_compute. reflexivity.
  - apply (proj1 (proj2 deletion_leaves_no_reference)
             (Sample.env 5 Sample.server Sample.down Sample.no_directory Sample.never)
             Sample.social "u1" "ok").
    + exact social_is_well_formed.
    + vm_compute. reflexivity.
Defined.

(** C5, as the claim states it, fails: when the search of the messages of
    the user is rejected, the deletion raises there; the friendship edges,
    the notification subscriptions and the record of the user are still
    in the store, so the later steps were not executed. *)
Lemma deletion_stops_at_a_rejected_step :
  (user.deleteUser "ann"
     (Sample.env 5 Sample.server Sample.down Sample.no_directory
        (Sample.only "deleteUser/Message.find"))
     Sample.social).1 = Throw (Unavailable "deleteUser/Message.find")
  /\ friends (user.deleteUser "ann"
       (Sample.env 5 Sample.server Sample.down Sample.no_directory
          (Sample.only "deleteUser/Message.find"))
       Sample.social).2 = friends Sample.social
  /\ notifications (user.deleteUser "ann"
       (Sample.env 5 Sample.server Sample.down Sample.no_directory
          (Sample.only "deleteUser/Message.find"))
       Sample.social).2 = notifications Sample.social
  /\ In (Sample.member "u1" "ann" 0)
        (users (user.deleteUser "ann"
           (Sample.env 5 Sample.server Sample.down Sample.no_directory
              (Sample.only "deleteUser/Message.find"))
           Sample.social).2).
Proof. vm_compute. split_and!; try reflexivity. left. reflexivity. Qed.

(** When the first step on the durable store is rejected, no document was
    touched. *)
Lemma deleteUser_rejected_at_first_step e w username u :
  JS.truthy username = true ->
  findOne (fun u => String.eqb (u_username u) username) (users w) = Some u ->
  fault e "deleteUser/User.findOne" = false ->
  fault e "deleteUser/Socket.find" = true ->
  (user.deleteUser username e w).1 = Throw (Unavailable "deleteUser/Socket.find")
  /\ same_documents w (user.deleteUser username e w).2.
Proof.
  intros Hn Hf F0 F1. unfold user.deleteUser.
  rewrite bind_assert by exact Hn.
  rewrite bind_await_cases, F0, bind_gets, Hf.
  destruct (redis_cleanup_run (u_id u) username e w) as (w1 & Hr & D1 & L1).
  rewrite bind_run, Hr, bind_await_cases, F1. simpl. split; [reflexivity|exact D1].
Qed.

(** C5, amended. Of the steps of the deletion only the first, the
    cleaning of the Redis keys, is best-effort: when the other steps are
    not rejected, the deletion returns and removes the record of the user,
    and a warning is logged if a key could not be deleted. A rejected step
    on the durable store makes the deletion raise, and the record of the
    user is kept; when this is the step after the cleaning of the keys, no
    document was changed. *)
Theorem only_the_redis_step_is_best_effort e w username u :
  JS.truthy username = true ->
  findOne (fun u => String.eqb (u_username u) username) (users w) = Some u ->
  ((forall site, ~ In site redis_steps -> fault e site = false) ->
     (user.deleteUser username e w).1 = Return "ok"
     /\ users (user.deleteUser username e w).2
        = deleteOne (fun v => String.eqb (u_id v) (u_id u)) (users w)
     /\ logs (user.deleteUser username e w).2
        = logs w
          ++ match List.find (fault e) redis_steps with
             | Some site => [{| level := warn; tag := "[deleteUser] 清理 Redis 相关 key 失败:";
                                text := site |}]
             | None => []
             end)
  /\ (forall site,
        In site ("deleteUser/User.findOne" :: deletion_steps) ->
        fault e site = true ->
        (exists x, (user.deleteUser username e w).1 = Throw x)
        /\ users (user.deleteUser username e w).2 = users w)
  /\ (fault e "deleteUser/User.findOne" = false ->
      fault e "deleteUser/Socket.find" = true ->
      same_documents w (user.deleteUser username e w).2).
Proof.
  intros Hn Hf.
  destruct (user.deleteUser username e w) as [r w'] eqn:Hrun.
  pose proof (deleteUser_outcome e w username u r w' Hn Hf Hrun) as Hcases.
  split_and!.
  - intros Hav. destruct Hcases as [(site & x & Hs & Hnot & _)|(-> & _ & _ & Eu & _ & _ & _ & _ & _ & _ & El)].
    + rewrite (Hav site Hnot) in Hs. discriminate Hs.
    + simpl. split_and!; [reflexivity|exact Eu|exact El].
  - intros site Hin Hfault.
    destruct Hcases as [(? & x & _ & _ & -> & Hu)|(_ & F0 & Hsteps & _)].
    + simpl. split; [eauto|exact Hu].
    + destruct Hin as [<-|Hin]; [congruence|]. rewrite (Hsteps site Hin) in Hfault.
      discriminate Hfault.
  - intros F0 F1.
    pose proof (deleteUser_rejected_at_first_step e w username u Hn Hf F0 F1) as [_ H].
    rewrite Hrun in H. exact H.
Qed.

(** The deletion of [ann] when only the deletion of a Redis key is
    rejected, and when only the search of her messages is rejected. *)
Lemma deletion_of_ann_with_a_rejected_step :
  ((user.deleteUser "ann"
      (Sample.env 5 Sample.server Sample.down Sample.no_directory
         (Sample.only "deleteUser/Redis.del:sealUser"))
      Sample.social).1 = Return "ok"
   /\ users (user.deleteUser "ann"
        (Sample.env 5 Sample.server Sample.down Sample.no_directory
           (Sample.only "deleteUser/Redis.del:sealUser"))
        Sample.social).2
      = deleteOne (fun v => String.eqb (u_id v) "u1") (users Sample.social)
   /\ logs (user.deleteUser "ann"
        (Sample.env 5 Sample.server Sample.down Sample.no_directory
           (Sample.only "deleteUser/Redis.del:sealUser"))
        Sample.social).2
      = [{| level := warn; tag := "[deleteUser] 清理 Redis 相关 key 失败:";
            text := "deleteUser/Redis.del:sealUser" |}])
  /\ ((exists x,
         (user.deleteUser "ann"
            (Sample.env 5 Sample.server Sample.down Sample.no_directory
               (Sample.only "deleteUser/Message.find"))
            Sample.social).1 = Throw x)
      /\ users (user.deleteUser "ann"
           (Sample.env 5 Sample.server Sample.down Sample.no_directory
              (Sample.only "deleteUser/Message.find"))
           Sample.social).2 = users Sample.social).
Proof.
  split.
  - apply (proj1 (only_the_redis_step_is_best_effort
             (Sample.env 5 Sample.server Sample.down Sample.no_directory
                (Sample.only "deleteUser/Redis.del:sealUser"))
             Sample.social "ann" (Sample.member "u1" "ann" 0) eq_refl eq_refl)).
    intros site Hnot. change (String.eqb "deleteUser/Redis.del:sealUser" site = false).
    apply String.eqb_neq. intros <-. apply Hnot. left. reflexivity.
  - apply (proj1 (proj2 (only_the_redis_step_is_best_effort
             (Sample.env 5 Sample.server Sample.down Sample.no_directory
                (Sample.only "deleteUser/Message.find"))
             Sample.social "ann" (Sample.member "u1" "ann" 0) eq_refl eq_refl))
             "deleteUser/Message.find").
    + simpl. tauto.
    + reflexivity.
Defined.

(** ** Login by token (C6) *)

Lemma forEach_emit {A} (f : A -> Event) (xs : list A) e w :
  forEach xs (fun x => emit (f x)) e w
  = (Return tt, set_events (fun l => l ++ List.map f xs) w).
Proof.
  revert w. induction xs as [|x xs IH]; intros w; simpl.
  - unfold ret. f_equal. destruct w; unfold set_events; simpl. rewrite app_nil_r. reflexivity.
  - rewrite bind_emit, IH. f_equal. destruct w; unfold set_events; simpl.
    rewrite <- app_assoc. reflexivity.
Qed.

(** [handleNewUser] without an address, when the store is available: it
    returns and changes Redis only. *)
Lemma handleNewUser_run u e w :
  available e ->
  exists w1,
    user.handleNewUser u EmptyString e w = (Return tt, w1)
    /\ same_documents w w1 /\ socket w1 = socket w /\ events w1 = events w
    /\ logs w1 = logs w /\ io_sockets w1 = io_sockets w.
Proof.
  intros Hav. unfold user.handleNewUser. rewrite bind_ask.
  destruct (now e - u_createTime u <? OneDay).
  - unfold Redis.set. mrun Hav. simpl. eexists. split; [reflexivity|].
    unfold same_documents. simpl. tauto.
  - exists w. unfold same_documents. tauto.
Qed.

(** What [loginByToken] does once the three checks on the token passed
    and the user was found, when the store is available. *)
Lemma rebind_run (u : UserDocument) env e w :
  available e ->
  exists s w',
    (let* _ := user.handleNewUser u EmptyString in
     let* sk := gets socket in
     let user := user.with_lastLogin (now e) (sk_ip sk) u in
     let* _ := user.User_save "loginByToken/user.save" user in
     let* groups := user.load_groups "loginByToken/Group.find" user in
     let* friends := user.load_friends "loginByToken/Friend.find" user in
     let* _ := user.bind_socket "loginByToken/Socket.updateOne" (u_id user) env in
     let* notificationTokens := user.getUserNotificationTokens user in
     ret (user.Data {| user.ss_id := u_id user;
                  user.ss_avatar := u_avatar user;
                  user.ss_username := u_username user;
                  user.ss_tag := u_tag user;
                  user.ss_groups := groups;
                  user.ss_friends := friends;
                  user.ss_token := None;
                  user.ss_isAdmin := existsb (String.eqb (u_id user)) (administrator (config e));
                  user.ss_notificationTokens := notificationTokens;
                  user.ss_authProvider := None |})) e w
    = (Return (user.Data s), w')
    /\ user.ss_id s = u_id u
    /\ sk_user (socket w') = u_id u
    /\ sk_id (socket w') = sk_id (socket w)
    /\ sockets w'
       = updateOne (fun r => String.eqb (s_id r) (sk_id (socket w)))
           (fun r => {| s_id := s_id r; s_user := Some (u_id u); s_os := user.os env;
                        s_browser := user.browser env;
                        s_environment := user.environment env; s_ip := s_ip r |})
           (sockets w).
Proof.
  intros Hav.
  destruct (handleNewUser_run u e w Hav) as (w1 & Hh & (Du & Dg & Df & Ds & _) & Dsk & _).
  rewrite bind_run, Hh.
  unfold user.User_save, user.load_groups, user.load_friends, user.bind_socket,
    user.getUserNotificationTokens.
  mrun Hav. rewrite bind_run, forEach_emit. mrun Hav.
  do 2 eexists. split; [reflexivity|]. simpl. rewrite Dsk, Ds. split_and!; reflexivity.
Qed.

(** C6, as the claim states it, fails: a token issued to [ann] for the
    environment [envA], not expired and presented with [envA] after [ann]
    was deleted, passes the three checks, and the login then raises
    [user not found]; the connection is not bound to the identity of the
    token. *)
Lemma token_of_a_deleted_user_binds_nothing :
  (user.generateToken "u1" "envA"
     (Sample.env 0 Sample.server Sample.down Sample.no_directory Sample.never)
     Sample.social).1
  = Return (Signed {| tp_user := "u1"; tp_environment := "envA";
                      tp_expires := 2592000000 |} "server-secret")
  /\ (user.loginByToken
        {| user.td_token := Signed {| tp_user := "u1"; tp_environment := "envA";
                                      tp_expires := 2592000000 |} "server-secret";
           user.td_env := {| user.os := "linux"; user.browser := "firefox";
                             user.environment := "envA" |} |}
        (Sample.env 9 Sample.server Sample.down Sample.no_directory Sample.never)
        (user.deleteUser "ann"
           (Sample.env 5 Sample.server Sample.down Sample.no_directory Sample.never)
           Sample.social).2).1
     = Throw (AssertionError "用户不存在")
  /\ sk_user (socket (user.loginByToken
        {| user.td_token := Signed {| tp_user := "u1"; tp_environment := "envA";
                                      tp_expires := 2592000000 |} "server-secret";
           user.td_env := {| user.os := "linux"; user.browser := "firefox";
                             user.environment := "envA" |} |}
        (Sample.env 9 Sample.server Sample.down Sample.no_directory Sample.never)
        (user.deleteUser "ann"
           (Sample.env 5 Sample.server Sample.down Sample.no_directory Sample.never)
           Sample.social).2).2)
     <> "u1".
Proof. vm_compute. split_and!; [reflexivity|reflexivity|discriminate]. Qed.

(** C6, amended. A token that is not empty and does not decode (it is
    malformed, or signed with another key) is answered with [invalid
    token]. For a token issued by [generateToken] with the environment
    [E]: once its expiry has passed the login raises [token expired],
    whatever the environment presented; before, it raises [environment
    mismatch] when the environment presented differs from [E]; presented
    with [E] the token passes the three checks, and then the connection is
    bound to the identity of the token when this identity still exists
    (the store being available), and the login raises [user not found]
    when it does not. *)
Theorem loginByToken_checks_the_token :
  (forall e w data,
     token_truthy (user.td_token data) = true ->
     jwt.decode (user.td_token data) (jwtSecret (config e)) = None ->
     user.loginByToken data e w = (Return (user.Message "非法token"), w))
  /\
  (forall e0 w0 uid E tok w0' e w env,
     user.generateToken uid E e0 w0 = (Return tok, w0') ->
     jwtSecret (config e) = jwtSecret (config e0) ->
     (now e0 + tokenExpiresTime (config e0) <= now e ->
        user.loginByToken {| user.td_token := tok; user.td_env := env |} e w
        = (Throw (AssertionError "token已过期"), w))
     /\ (now e < now e0 + tokenExpiresTime (config e0) ->
         user.environment env <> E ->
         user.loginByToken {| user.td_token := tok; user.td_env := env |} e w
         = (Throw (AssertionError "非法登录"), w))
     /\ (now e < now e0 + tokenExpiresTime (config e0) ->
         user.environment env = E ->
         available e ->
         match findOne (fun u => String.eqb (u_id u) uid) (users w) with
         | Some u =>
             exists s w',
               user.loginByToken {| user.td_token := tok; user.td_env := env |} e w
               = (Return (user.Data s), w')
               /\ user.ss_id s = uid
               /\ sk_user (socket w') = uid
               /\ sockets w'
                  = updateOne (fun r => String.eqb (s_id r) (sk_id (socket w)))
                      (fun r => {| s_id := s_id r; s_user := Some uid; s_os := user.os env;
                                   s_browser := user.browser env;
                                   s_environment := user.environment env; s_ip := s_ip r |})
                      (sockets w)
         | None =>
             user.loginByToken {| user.td_token := tok; user.td_env := env |} e w
             = (Throw (AssertionError "用户不存在"), w)
         end)).
Proof.
  split.
  - intros e w data Ht Hd. unfold user.loginByToken.
    rewrite bind_assert by exact Ht. rewrite bind_ask, Hd. reflexivity.
  - intros e0 w0 uid E tok w0' e w env Hgen Hkey.
    unfold user.generateToken in Hgen. rewrite bind_ask in Hgen.
    unfold ret, jwt.encode in Hgen. injection Hgen as <- _.
    unfold user.loginByToken. cbn [user.td_token user.td_env token_truthy].
    rewrite bind_assert by reflexivity. rewrite bind_ask.
    unfold jwt.decode. rewrite Hkey, String.eqb_refl.
    cbn [tp_expires tp_environment tp_user].
    split_and!.
    + intros Hexp. rewrite bind_assert_fails; [reflexivity|]. apply Z.ltb_ge. exact Hexp.
    + intros Hlive Henv. rewrite bind_assert by (apply Z.ltb_lt; exact Hlive).
      rewrite bind_assert_fails; [reflexivity|]. apply String.eqb_neq. exact Henv.
    + intros Hlive Henv Hav. rewrite bind_assert by (apply Z.ltb_lt; exact Hlive).
      rewrite bind_assert by (apply String.eqb_eq; exact Henv).
      rewrite (bind_await _ _ _ _ (Hav _)), bind_gets.
      destruct (findOne _ (users w)) as [u|] eqn:Hf; [|reflexivity].
      destruct (findOne_Some _ _ _ Hf) as (_ & Hid). apply String.eqb_eq in Hid.
      destruct (rebind_run u env e w Hav) as (s & w' & Hrun & Hs & Hsk & _ & Hso).
      exists s, w'. rewrite <- Hid. split_and!; assumption.
Qed.

(** The token issued to [ann] for [envA]: presented after its expiry,
    with [envB], and with [envA]. *)
Lemma loginByToken_of_ann :
  user.loginByToken
    {| user.td_token := Signed {| tp_user := "u1"; tp_environment := "envA";
                                  tp_expires := 2592000000 |} "server-secret";
       user.td_env := {| user.os := "linux"; user.browser := "firefox";
                         user.environment := "envB" |} |}
    (Sample.env 2592000000 Sample.server Sample.down Sample.no_directory Sample.never)
    Sample.social
  = (Throw (AssertionError "token已过期"), Sample.social)
  /\ user.loginByToken
       {| user.td_token := Signed {| tp_user := "u1"; tp_environment := "envA";
                                     tp_expires := 2592000000 |} "server-secret";
          user.td_env := {| user.os := "linux"; user.browser := "firefox";
                            user.environment := "envB" |} |}
       (Sample.env 9 Sample.server Sample.down Sample.no_directory Sample.never)
       Sample.social
     = (Throw (AssertionError "非法登录"), Sample.social)
  /\ match findOne (fun u => String.eqb (u_id u) "u1") (users Sample.social) with
     | Some u =>
         exists s w',
           user.loginByToken
             {| user.td_token := Signed {| tp_user := "u1"; tp_environment := "envA";
                                           tp_expires := 2592000000 |} "server-secret";
                user.td_env := {| user.os := "linux"; user.browser := "firefox";
                                  user.environment := "envA" |} |}
             (Sample.env 9 Sample.server Sample.down Sample.no_directory Sample.never)
             Sample.social
           = (Return (user.Data s), w')
           /\ user.ss_id s = "u1"
           /\ sk_user (socket w') = "u1"
           /\ sockets w'
              = updateOne (fun r => String.eqb (s_id r) (sk_id (socket Sample.social)))
                  (fun r => {| s_id := s_id r; s_user := Some "u1"; s_os := "linux";
                               s_browser := "firefox"; s_environment := "envA";
                               s_ip := s_ip r |})
                  (sockets Sample.social)
     | None => False
     end.
Proof.
  split_and!.
  - apply (proj1 (proj2 loginByToken_checks_the_token
             (Sample.env 0 Sample.server Sample.down Sample.no_directory Sample.never)
             Sample.social "u1" "envA" _ Sample.social
             (Sample.env 2592000000 Sample.server Sample.down Sample.no_directory Sample.never)
             Sample.social _ eq_refl eq_refl)).
    vm_compute. discriminate.
  - apply (proj1 (proj2 (proj2 loginByToken_checks_the_token
             (Sample.env 0 Sample.server Sample.down Sample.no_directory Sample.never)
             Sample.social "u1" "envA" _ Sample.social
             (Sample.env 9 Sample.server Sample.down Sample.no_directory Sample.never)
             Sample.social _ eq_refl eq_refl))).
    + reflexivity.
    + discriminate.
  - apply (proj2 (proj2 (proj2 loginByToken_checks_the_token
             (Sample.env 0 Sample.server Sample.down Sample.no_directory Sample.never)
             Sample.social "u1" "envA" _ Sample.social
             (Sample.env 9 Sample.server Sample.down Sample.no_directory Sample.never)
             Sample.social
             {| user.os := "linux"; user.browser := "firefox"; user.environment := "envA" |}
             eq_refl eq_refl))).
    + reflexivity.
    + reflexivity.
    + intros site. reflexivity.
Defined.

(** ** Registration and its limit by address (C7) *)

Lemma read_absent t k (m : gmap RedisKey RedisEntry) :
  m !! k = None -> Redis.read t k m = None.
Proof. unfold Redis.read. intros ->. reflexivity. Qed.

Lemma read_insert t t' k v (m : gmap RedisKey RedisEntry) :
  t < t' ->
  Redis.read t k (<[k := {| r_value := v; r_expires := Some t' |}]> m) = Some v.
Proof.
  intros Ht. unfold Redis.read. rewrite lookup_insert_eq. unfold Redis.live. simpl.
  apply Z.ltb_lt in Ht. rewrite Ht. reflexivity.
Qed.

Lemma read_insert_ne t k k' en (m : gmap RedisKey RedisEntry) :
  k <> k' -> Redis.read t k' (<[k := en]> m) = Redis.read t k' m.
Proof. intros Hne. unfold Redis.read. rewrite lookup_insert_ne by exact Hne. reflexivity. Qed.

(** The check of the limit, for every run: it answers as [limit_outcome]
    says and leaves the store alone. *)
Lemma registration_limit_run ip e w :
  exists w',
    same_store w w'
    /\ user.registration_limit ip e w = (limit_outcome ip e w, w').
Proof.
  unfold user.registration_limit, Redis.get, limit_outcome, count_of, limit_reached.
  unfold try_catch, bind, await, ask, gets, logger, modify, ret, assert, throw.
  destruct (fault e "register/Redis.get:ip").
  - eexists. split; [|reflexivity]. unfold same_store. simpl. tauto.
  - destruct (Redis.read _ _ _) as [v|]; [|exists w; split; [apply same_store_refl|reflexivity]].
    destruct (JS.parseInt _) as [n|]; [destruct (n <? 3)|];
      exists w; (split; [apply same_store_refl|reflexivity]).
Qed.

Lemma limit_outcome_same ip e w w' :
  redis w' = redis w -> limit_outcome ip e w' = limit_outcome ip e w.
Proof. unfold limit_outcome. intros ->. reflexivity. Qed.

(** The check of the banned names never stops a registration. *)
Lemma banned_check_run username e w :
  exists w1,
    try_catch
      (let* isBanned := Redis.has "register/Redis.has:banned" (BannedUsernameKey username) in
       assert (negb isBanned) "该用户名已被封禁，无法使用")
      (fun redisError =>
         logger error "[register] Redis error when checking banned username:"
           (message_of redisError)) e w
    = (Return tt, w1)
    /\ same_store w w1.
Proof.
  unfold Redis.has, Redis.get.
  unfold try_catch, bind, await, ask, gets, logger, modify, ret, assert, throw.
  destruct (fault e _).
  - eexists. split; [reflexivity|]. unfold same_store. simpl. tauto.
  - destruct (bool_decide _); simpl.
    + eexists. split; [reflexivity|]. unfold same_store. simpl. tauto.
    + exists w. split; [reflexivity|apply same_store_refl].
Qed.

Lemma findOne_save_default (g g' : GroupDocument) l :
  findOne g_isDefault l = Some g ->
  g_isDefault g' = true ->
  g_id g' = g_id g ->
  findOne g_isDefault (save g_id g' l) = Some g'.
Proof.
  intros Hf Hd Hid. unfold save, findOne in *. rewrite Hid.
  induction l as [|a l IH]; simpl in *; [discriminate|].
  destruct (String.eqb (g_id a) (g_id g)) eqn:He; simpl.
  - rewrite Hd. reflexivity.
  - destruct (g_isDefault a) eqn:Ha.
    + injection Hf as ->. rewrite String.eqb_refl in He. discriminate He.
    + apply IH. exact Hf.
Qed.

Lemma User_create_run site u h e w :
  fault e site = false ->
  user_schema_accepts e (u_username u) = true ->
  try_catch (let* created := user.User_create site u in ret (Some created)) h e w
  = (Return (Some u), set_users (fun l => l ++ [u]) w).
Proof.
  intros Hf Hs. unfold user.User_create.
  unfold try_catch, bind, await, ask, modify, ret. rewrite Hf, Hs. reflexivity.
Qed.

(** A registration that passes the other checks, from an address whose
    counter admits it. *)
Lemma register_admitted e w d g :
  registrable e w d ->
  findOne g_isDefault (groups w) = Some g ->
  JS.truthy (sk_ip (socket w)) = true ->
  (user.registration_limit (sk_ip (socket w)) e w).1 = Return tt ->
  exists s w',
    user.register d e w = (Return (user.Data s), w')
    /\ user.ss_id s = newObjectId e "User"
    /\ users w' = users w
         ++ [user.new_user e (user.rd_username d) (genSalt e)
               (hash e (user.rd_password d) (genSalt e)) (sk_ip (socket w)) None]
    /\ groups w' = save g_id (user.join_default (newObjectId e "User") g) (groups w)
    /\ redis w'
       = <[NewRegisteredUserIpKey (sk_ip (socket w)) :=
             {| r_value := user.next_count
                             (Redis.read (now e) (NewRegisteredUserIpKey (sk_ip (socket w)))
                                (redis w));
                r_expires := Some (now e + OneDay) |}]>
           (<[NewUserKey (newObjectId e "User") :=
                {| r_value := newObjectId e "User"; r_expires := Some (now e + OneDay) |}]>
              (redis w))
    /\ sk_ip (socket w') = sk_ip (socket w).
Proof.
  intros ((Hav & Hcfg & Hn & Hp & Hschema) & Hdis & Hfree & _) Hg Hip Hlimit.
  unfold user.register. rewrite bind_ask.
  unfold Redis.get at 1. mrun Hav. rewrite (read_absent _ _ _ Hdis), Hcfg. cbn [negb].
  mrun Hav.
  destruct (banned_check_run (user.rd_username d) e w) as (w1 & Hb & S1).
  rewrite bind_run, Hb.
  destruct S1 as (Su & Sg & Sf & Ss & Sm & Sh & Sn & Sc & Sb & Sr & Si & Sk).
  mrun Hav. rewrite Su, Hfree. rewrite bind_assert by reflexivity. rewrite bind_gets, Sk.
  destruct (registration_limit_run (sk_ip (socket w)) e w1) as (w2 & S2 & Hl2).
  destruct (registration_limit_run (sk_ip (socket w)) e w) as (w2' & _ & Hl).
  rewrite Hl in Hlimit. cbn [fst] in Hlimit.
  rewrite (limit_outcome_same _ _ _ _ Sr), Hlimit in Hl2. rewrite bind_run, Hl2.
  destruct S2 as (Tu & Tg & Tf & Ts & Tm & Th & Tn & Tc & Tb & Tr & Ti & Tk).
  mrun Hav. rewrite Tg, Sg, Hg.
  rewrite bind_run.
  match goal with |- context [user.User_create _ ?u] =>
    rewrite (User_create_run _ u _ _ _ (Hav _) Hschema) end.
  unfold user.handleNewUser. rewrite bind_assoc, bind_ask.
  cbn [u_createTime u_id]. rewrite Z.sub_diag. change (0 <? OneDay) with true. cbn iota.
  rewrite Hip. unfold Redis.set, Redis.get. mrun Hav.
  unfold user.Group_save, user.generateToken, user.bind_socket. mrun Hav.
  do 2 eexists. split; [reflexivity|]. cbn.
  rewrite Tu, Su, Tg, Sg, Tr, Sr, Tk, Sk.
  rewrite (read_insert_ne (now e) (NewUserKey _) (NewRegisteredUserIpKey _)) by discriminate.
  split_and!; reflexivity.
Qed.

Lemma bind_assert_cases {B} b msg (k : unit -> M B) e w :
  bind (assert b msg) k e w = if b then k tt e w else (Throw (AssertionError msg), w).
Proof. destruct b; reflexivity. Qed.

(** The steps of a run that cannot be rejected. *)
Ltac mnorm :=
  repeat first
    [ rewrite bind_assoc | rewrite bind_gets | rewrite bind_ask | rewrite bind_modify
    | rewrite bind_emit | rewrite bind_logger | rewrite bind_ret ];
  cbn beta iota.

(** One awaited operation of a run that is known to return. *)
Ltac await_returned :=
  rewrite bind_await_cases;
  match goal with |- context [fault ?e ?s] => destruct (fault e s) eqn:? end;
  [intros [=]|].

Ltac assert_returned :=
  rewrite bind_assert_cases;
  match goal with |- context [if ?b then _ else (Throw _, _)] => destruct b eqn:? end;
  [|intros [=]].

Lemma User_create_cases site u e w :
  try_catch (let* created := user.User_create site u in ret (Some created))
    (fun err => match err with
                | ValidationError _ => ret None
                | _ => throw err
                end) e w
  = if fault e site then (Throw (Unavailable site), w)
    else if user_schema_accepts e (u_username u)
         then (Return (Some u), set_users (fun l => l ++ [u]) w)
         else (Return None, w).
Proof.
  unfold user.User_create. unfold try_catch, bind, await, ask, modify, ret, throw.
  destruct (fault e site); [reflexivity|].
  destruct (user_schema_accepts e (u_username u)); reflexivity.
Qed.

(** What a registration that returned the new session has done. *)
Lemma register_returned e w d s w' :
  user.register d e w = (Return (user.Data s), w') ->
  user.ss_id s = newObjectId e "User"
  /\ (exists g, findOne g_isDefault (groups w) = Some g
                /\ groups w' = save g_id (user.join_default (user.ss_id s) g) (groups w))
  /\ (JS.truthy (sk_ip (socket w)) = true ->
      redis w'
      = <[NewRegisteredUserIpKey (sk_ip (socket w)) :=
            {| r_value := user.next_count
                            (Redis.read (now e) (NewRegisteredUserIpKey (sk_ip (socket w)))
                               (redis w));
               r_expires := Some (now e + OneDay) |}]>
          (<[NewUserKey (newObjectId e "User") :=
               {| r_value := newObjectId e "User"; r_expires := Some (now e + OneDay) |}]>
             (redis w))).
Proof.
  unfold user.register. rewrite bind_ask.
  unfold Redis.get at 1. rewrite bind_assoc. await_returned.
  rewrite bind_assoc, bind_ask, bind_gets.
  assert_returned. assert_returned. assert_returned.
  destruct (banned_check_run (user.rd_username d) e w) as (w1 & Hb & S1).
  rewrite bind_run, Hb.
  destruct S1 as (Su & Sg & Sf & Ss & Sm & Sh & Sn & Sc & Sb & Sr & Si & Sk).
  await_returned. rewrite bind_gets. assert_returned. rewrite bind_gets, Sk.
  destruct (registration_limit_run (sk_ip (socket w)) e w1) as (w2 & S2 & Hl2).
  rewrite bind_run, Hl2. destruct (limit_outcome _ e w1) as [[]|x]; [|intros [=]].
  destruct S2 as (Tu & Tg & Tf & Ts & Tm & Th & Tn & Tc & Tb & Tr & Ti & Tk).
  await_returned. rewrite bind_gets, Tg, Sg.
  destruct (findOne g_isDefault (groups w)) as [g|] eqn:Hg; [|intros [=]].
  rewrite bind_run, User_create_cases.
  destruct (fault e "register/User.create"); [intros [=]|].
  cbn [user.new_user u_username].
  destruct (user_schema_accepts e (user.rd_username d)); [|intros [=]].
  unfold user.handleNewUser. rewrite bind_assoc, bind_ask.
  cbn [u_createTime u_id]. rewrite Z.sub_diag. change (0 <? OneDay) with true. cbn iota.
  unfold Redis.set, Redis.get. mnorm. await_returned. mnorm.
  destruct (JS.truthy (sk_ip (socket w))) eqn:Hip.
  - mnorm. await_returned. mnorm. await_returned. mnorm.
    unfold user.Group_save, user.generateToken, user.bind_socket.
    mnorm. await_returned. mnorm. await_returned.
    rewrite bind_modify. unfold ret. intros [= <- <-]. cbn.
    rewrite Tr, Sr, Tg, Sg.
    rewrite (read_insert_ne (now e) (NewUserKey _) (NewRegisteredUserIpKey _))
      by discriminate.
    split_and!; [reflexivity| |reflexivity].
    exists g. split; reflexivity.
  - mnorm.
    unfold user.Group_save, user.generateToken, user.bind_socket.
    mnorm. await_returned. mnorm. await_returned.
    rewrite bind_modify. unfold ret. intros [= <- <-]. cbn.
    rewrite Tg, Sg.
    split_and!; [reflexivity| |discriminate].
    exists g. split; reflexivity.
Qed.

Lemma registration_limit_outcome ip e w :
  (user.registration_limit ip e w).1 = limit_outcome ip e w.
Proof.
  destruct (registration_limit_run ip e w) as (w' & _ & ->). reflexivity.
Qed.

(** A registration that passes the other checks, from an address whose
    counter does not admit it. *)
Lemma register_rejected e w d :
  registrable e w d ->
  limit_outcome (sk_ip (socket w)) e w = Throw (AssertionError limit_reached) ->
  exists w', user.register d e w = (Throw (AssertionError limit_reached), w')
             /\ same_store w w'.
Proof.
  intros ((Hav & Hcfg & Hn & Hp & Hschema) & Hdis & Hfree & _) Hlimit.
  unfold user.register. rewrite bind_ask.
  unfold Redis.get at 1. mrun Hav. rewrite (read_absent _ _ _ Hdis), Hcfg. cbn [negb].
  mrun Hav.
  destruct (banned_check_run (user.rd_username d) e w) as (w1 & Hb & S1).
  rewrite bind_run, Hb.
  pose proof S1 as (Su & Sg & Sf & Ss & Sm & Sh & Sn & Sc & Sb & Sr & Si & Sk).
  mrun Hav. rewrite Su, Hfree. rewrite bind_assert by reflexivity. rewrite bind_gets, Sk.
  destruct (registration_limit_run (sk_ip (socket w)) e w1) as (w2 & S2 & Hl2).
  rewrite (limit_outcome_same _ _ _ _ Sr), Hlimit in Hl2. rewrite bind_run, Hl2.
  exists w2. split; [reflexivity|].
  unfold same_store in *. intuition congruence.
Qed.

(** One registration of a sequence, from the address [ip]: it returns,
    and the world it leaves is ready for the next. *)
Lemma register_next e w d :
  registrable e w d ->
  JS.truthy (sk_ip (socket w)) = true ->
  limit_outcome (sk_ip (socket w)) e w = Return tt ->
  exists s w',
    user.register d e w = (Return (user.Data s), w')
    /\ redis w' !! DisableRegisterKey = None
    /\ (exists nu, users w' = users w ++ [nu] /\ u_username nu = user.rd_username d)
    /\ (exists g, findOne g_isDefault (groups w') = Some g)
    /\ sk_ip (socket w') = sk_ip (socket w)
    /\ redis w' !! NewRegisteredUserIpKey (sk_ip (socket w))
       = Some {| r_value := user.next_count
                              (Redis.read (now e) (NewRegisteredUserIpKey (sk_ip (socket w)))
                                 (redis w));
                 r_expires := Some (now e + OneDay) |}
    /\ (forall ip', ip' <> sk_ip (socket w) ->
          redis w' !! NewRegisteredUserIpKey ip' = redis w !! NewRegisteredUserIpKey ip').
Proof.
  intros Hreg Hip Hlimit.
  pose proof Hreg as (_ & Hdis & _ & g & Hg).
  rewrite <- registration_limit_outcome in Hlimit.
  destruct (register_admitted e w d g Hreg Hg Hip Hlimit)
    as (s & w' & Hrun & _ & Hu & Hgr & Hr & Hsk).
  exists s, w'. split; [exact Hrun|]. rewrite Hr. split_and!.
  - rewrite !lookup_insert_ne by discriminate. exact Hdis.
  - eexists. split; [exact Hu|reflexivity].
  - eexists. rewrite Hgr. apply (findOne_save_default g); [exact Hg| |reflexivity].
    simpl. apply (findOne_Some _ _ _ Hg).
  - exact Hsk.
  - apply lookup_insert_eq.
  - intros ip' Hne. rewrite !lookup_insert_ne; [reflexivity|discriminate|congruence].
Qed.

Lemma read_stored t k v t' (m : gmap RedisKey RedisEntry) :
  m !! k = Some {| r_value := v; r_expires := Some t' |} ->
  t < t' ->
  Redis.read t k m = Some v.
Proof.
  intros Hm Ht. unfold Redis.read. rewrite Hm. unfold Redis.live. simpl.
  apply Z.ltb_lt in Ht. rewrite Ht. reflexivity.
Qed.

Lemma name_is_free name (us : list UserDocument) nu :
  findOne (fun u => String.eqb (u_username u) name) us = None ->
  u_username nu <> name ->
  findOne (fun u => String.eqb (u_username u) name) (us ++ [nu]) = None.
Proof.
  intros Hf Hne. rewrite (findOne_app_None _ _ _ Hf). unfold findOne. simpl.
  apply String.eqb_neq in Hne. rewrite Hne. reflexivity.
Qed.

(** Four registrations in a row from one address, within 24 hours, when
    the address has no counter: three return, the fourth is refused. *)
Lemma four_registrations w0 e1 e2 e3 e4 d1 d2 d3 d4 :
  JS.truthy (sk_ip (socket w0)) = true ->
  valid_attempt e1 d1 -> valid_attempt e2 d2 -> valid_attempt e3 d3 -> valid_attempt e4 d4 ->
  redis w0 !! DisableRegisterKey = None ->
  (exists g, findOne g_isDefault (groups w0) = Some g) ->
  Redis.read (now e1) (NewRegisteredUserIpKey (sk_ip (socket w0))) (redis w0) = None ->
  now e1 <= now e2 <= now e3 ->
  now e3 <= now e4 < now e1 + OneDay ->
  List.NoDup [user.rd_username d1; user.rd_username d2; user.rd_username d3;
              user.rd_username d4] ->
  (forall d, In d [d1; d2; d3; d4] ->
     findOne (fun u => String.eqb (u_username u) (user.rd_username d)) (users w0) = None) ->
  exists s1 w1 s2 w2 s3 w3 w4,
    user.register d1 e1 w0 = (Return (user.Data s1), w1)
    /\ user.register d2 e2 w1 = (Return (user.Data s2), w2)
    /\ user.register d3 e3 w2 = (Return (user.Data s3), w3)
    /\ user.register d4 e4 w3 = (Throw (AssertionError limit_reached), w4)
    /\ (forall ip', ip' <> sk_ip (socket w0) ->
          redis w3 !! NewRegisteredUserIpKey ip' = redis w0 !! NewRegisteredUserIpKey ip').
Proof.
  intros Hip V1 V2 V3 V4 Hdis Hg Hread [T12 T23] [T34 T41] Hnd Hfree.
  set (ip := sk_ip (socket w0)) in *.
  assert (A1 : fault e1 "register/Redis.get:ip" = false) by apply V1.
  assert (A2 : fault e2 "register/Redis.get:ip" = false) by apply V2.
  assert (A3 : fault e3 "register/Redis.get:ip" = false) by apply V3.
  assert (A4 : fault e4 "register/Redis.get:ip" = false) by apply V4.
  inversion Hnd as [|? ? N1 Hnd1]; subst. inversion Hnd1 as [|? ? N2 Hnd2]; subst.
  inversion Hnd2 as [|? ? N3 _]; subst. simpl in N1, N2, N3.
  (* first *)
  destruct (register_next e1 w0 d1) as (s1 & w1 & R1 & D1 & (u1 & U1 & Un1) & G1 & K1 & C1 & O1).
  { split; [exact V1|]. split_and!; [exact Hdis|apply Hfree; simpl; tauto|exact Hg]. }
  { exact Hip. }
  { unfold limit_outcome. fold ip. rewrite A1, Hread. reflexivity. }
  fold ip in C1, K1, O1. rewrite Hread in C1.
  (* second *)
  destruct (register_next e2 w1 d2) as (s2 & w2 & R2 & D2 & (u2 & U2 & Un2) & G2 & K2 & C2 & O2).
  { split; [exact V2|]. split_and!; [exact D1| |exact G1].
    rewrite U1. apply name_is_free; [apply Hfree; simpl; tauto|]. rewrite Un1. intuition congruence. }
  { rewrite K1. exact Hip. }
  { unfold limit_outcome. rewrite K1, A2.
    rewrite (read_stored _ _ _ _ _ C1) by lia. reflexivity. }
  rewrite K1 in C2, K2, O2. rewrite (read_stored _ _ _ _ _ C1) in C2 by lia.
  (* third *)
  destruct (register_next e3 w2 d3) as (s3 & w3 & R3 & D3 & (u3 & U3 & Un3) & G3 & K3 & C3 & O3).
  { split; [exact V3|]. split_and!; [exact D2| |exact G2].
    rewrite U2, U1. apply name_is_free; [apply name_is_free|].
    - apply Hfree. simpl. tauto.
    - rewrite Un1. intuition congruence.
    - rewrite Un2. intuition congruence. }
  { rewrite K2. exact Hip. }
  { unfold limit_outcome. rewrite K2, A3.
    rewrite (read_stored _ _ _ _ _ C2) by lia. reflexivity. }
  rewrite K2 in C3, K3, O3. rewrite (read_stored _ _ _ _ _ C2) in C3 by lia.
  (* fourth *)
  destruct (register_rejected e4 w3 d4) as (w4 & R4 & _).
  { split; [exact V4|]. split_and!; [exact D3| |exact G3].
    rewrite U3, U2, U1. apply name_is_free; [apply name_is_free; [apply name_is_free|]|].
    - apply Hfree. simpl. tauto.
    - rewrite Un1. intuition congruence.
    - rewrite Un2. intuition congruence.
    - rewrite Un3. intuition congruence. }
  { unfold limit_outcome. rewrite K3, A4.
    rewrite (read_stored _ _ _ _ _ C3) by lia. reflexivity. }
  exists s1, w1, s2, w2, s3, w3, w4. split_and!; try assumption.
  intros ip' Hne. rewrite (O3 ip' Hne), (O2 ip' Hne), (O1 ip' Hne). reflexivity.
Qed.

Lemma next_count_absent : user.next_count None = "1".
Proof. reflexivity. Qed.

Lemma next_count_stored v n :
  count_of v = Some n -> user.next_count (Some v) = JS.toString (n + 1).
Proof. unfold count_of, user.next_count. simpl. intros ->. reflexivity. Qed.

(** C7. The check of [register] on the address of the connection lets
    the registration go on exactly when the counter of the address cannot
    be read, is absent, or stands for a count below three; otherwise it
    raises [limit reached]. A registration that passes the other checks
    returns or is refused as the check decides. Hence, of four
    registrations from one address within 24 hours, starting without a
    counter, three return and the fourth is refused, and the check answers
    for another address as it did before them. A registration that
    returned has written the counter of its address: one when there was
    none, the count plus one otherwise, for 24 hours; the counters of the
    other addresses are as they were. *)
Theorem registration_limit_by_address :
  (forall ip e w,
     ((user.registration_limit ip e w).1 = Return tt
      \/ (user.registration_limit ip e w).1 = Throw (AssertionError limit_reached))
     /\ ((user.registration_limit ip e w).1 = Return tt
         <-> (fault e "register/Redis.get:ip" = true
              \/ Redis.read (now e) (NewRegisteredUserIpKey ip) (redis w) = None
              \/ exists v n,
                   Redis.read (now e) (NewRegisteredUserIpKey ip) (redis w) = Some v
                   /\ count_of v = Some n /\ n < 3)))
  /\ (forall e w d,
        registrable e w d ->
        JS.truthy (sk_ip (socket w)) = true ->
        ((exists s, (user.register d e w).1 = Return (user.Data s))
         <-> (user.registration_limit (sk_ip (socket w)) e w).1 = Return tt)
        /\ ((user.register d e w).1 = Throw (AssertionError limit_reached)
            <-> (user.registration_limit (sk_ip (socket w)) e w).1
                = Throw (AssertionError limit_reached)))
  /\ (forall w0 e1 e2 e3 e4 d1 d2 d3 d4,
        JS.truthy (sk_ip (socket w0)) = true ->
        valid_attempt e1 d1 -> valid_attempt e2 d2 ->
        valid_attempt e3 d3 -> valid_attempt e4 d4 ->
        redis w0 !! DisableRegisterKey = None ->
        (exists g, findOne g_isDefault (groups w0) = Some g) ->
        Redis.read (now e1) (NewRegisteredUserIpKey (sk_ip (socket w0))) (redis w0) = None ->
        now e1 <= now e2 <= now e3 ->
        now e3 <= now e4 < now e1 + OneDay ->
        List.NoDup [user.rd_username d1; user.rd_username d2; user.rd_username d3;
                    user.rd_username d4] ->
        (forall d, In d [d1; d2; d3; d4] ->
           findOne (fun u => String.eqb (u_username u) (user.rd_username d)) (users w0)
           = None) ->
        exists s1 w1 s2 w2 s3 w3 w4,
          user.register d1 e1 w0 = (Return (user.Data s1), w1)
          /\ user.register d2 e2 w1 = (Return (user.Data s2), w2)
          /\ user.register d3 e3 w2 = (Return (user.Data s3), w3)
          /\ user.register d4 e4 w3 = (Throw (AssertionError limit_reached), w4)
          /\ (forall ip' e, ip' <> sk_ip (socket w0) ->
                (user.registration_limit ip' e w3).1 = (user.registration_limit ip' e w0).1))
  /\ (forall e w d s w',
        user.register d e w = (Return (user.Data s), w') ->
        JS.truthy (sk_ip (socket w)) = true ->
        (exists value,
           redis w' !! NewRegisteredUserIpKey (sk_ip (socket w))
           = Some {| r_value := value; r_expires := Some (now e + OneDay) |}
           /\ (Redis.read (now e) (NewRegisteredUserIpKey (sk_ip (socket w))) (redis w) = None ->
               value = "1")
           /\ (forall v n,
                 Redis.read (now e) (NewRegisteredUserIpKey (sk_ip (socket w))) (redis w)
                 = Some v ->
                 count_of v = Some n -> value = JS.toString (n + 1)))
        /\ (forall ip', ip' <> sk_ip (socket w) ->
              redis w' !! NewRegisteredUserIpKey ip' = redis w !! NewRegisteredUserIpKey ip')).
Proof.
  split_and!.
  - intros ip e w. rewrite registration_limit_outcome. unfold limit_outcome.
    destruct (fault e "register/Redis.get:ip");
      [split; [left; reflexivity|split; [intros _; left; reflexivity|reflexivity]]|].
    destruct (Redis.read _ _ _) as [v|];
      [|split; [left; reflexivity|split; [intros _; right; left; reflexivity|reflexivity]]].
    destruct (count_of v) as [n|] eqn:Hcv.
    + destruct (n <? 3) eqn:Hn.
      * apply Z.ltb_lt in Hn. split; [left; reflexivity|]. split; [|reflexivity].
        intros _. right. right. exists v, n. split_and!; [reflexivity|exact Hcv|exact Hn].
      * apply Z.ltb_ge in Hn. split; [right; reflexivity|]. split; [discriminate|].
        intros [H|[H|(v' & n' & Hv & Hc & Hlt)]]; try discriminate.
        injection Hv as <-. rewrite Hcv in Hc. injection Hc as <-. lia.
    + split; [right; reflexivity|]. split; [discriminate|].
      intros [H|[H|(v' & n' & Hv & Hc & Hlt)]]; try discriminate.
      injection Hv as <-. rewrite Hcv in Hc. discriminate Hc.
  - intros e w d Hreg Hip. rewrite registration_limit_outcome.
    pose proof Hreg as (_ & _ & _ & g & Hg).
    destruct (limit_outcome (sk_ip (socket w)) e w) as [[]|x] eqn:Hl.
    + rewrite <- registration_limit_outcome in Hl.
      destruct (register_admitted e w d g Hreg Hg Hip Hl) as (s & w' & -> & _).
      simpl. split; split; eauto; discriminate.
    + assert (Hx : x = AssertionError limit_reached).
      { unfold limit_outcome in Hl. destruct (fault e _); [discriminate|].
        destruct (Redis.read _ _ _) as [v|]; [|discriminate].
        destruct (count_of v) as [n|]; [destruct (n <? 3)|]; congruence. }
      subst x. destruct (register_rejected e w d Hreg Hl) as (w' & -> & _).
      simpl. split; split; try reflexivity; try discriminate. intros (s & Hs). discriminate Hs.
  - intros w0 e1 e2 e3 e4 d1 d2 d3 d4 Hip V1 V2 V3 V4 Hdis Hg Hread T1 T2 Hnd Hfree.
    destruct (four_registrations w0 e1 e2 e3 e4 d1 d2 d3 d4 Hip V1 V2 V3 V4 Hdis Hg Hread
                T1 T2 Hnd Hfree) as (s1 & w1 & s2 & w2 & s3 & w3 & w4 & R1 & R2 & R3 & R4 & Ho).
    exists s1, w1, s2, w2, s3, w3, w4. split_and!; try assumption.
    intros ip' e Hne. rewrite !registration_limit_outcome. unfold limit_outcome, Redis.read.
    rewrite (Ho ip' Hne). reflexivity.
  - intros e w d s w' Hrun Hip.
    destruct (register_returned e w d s w' Hrun) as (_ & _ & Hr). rewrite (Hr Hip). split.
    + eexists. split; [apply lookup_insert_eq|]. split.
      * intros ->. apply next_count_absent.
      * intros v n -> Hc. apply next_count_stored. exact Hc.
    + intros ip' Hne. rewrite !lookup_insert_ne; [reflexivity|discriminate|congruence].
Qed.

Lemma sample_attempt t mark name :
  JS.truthy name = true -> valid_attempt (Sample.at_time t mark) (Sample.signup name).
Proof.
  intros Hn. unfold valid_attempt. split_and!; try reflexivity; [|exact Hn].
  intros site. reflexivity.
Defined.

(** Four registrations from [1.2.3.4] within an hour. *)
Lemma four_registrations_from_one_address :
  exists s1 w1 s2 w2 s3 w3 w4,
    user.register (Sample.signup "ann") (Sample.at_time 0 "1") Sample.lobby
    = (Return (user.Data s1), w1)
    /\ user.register (Sample.signup "bob") (Sample.at_time 1000 "2") w1
       = (Return (user.Data s2), w2)
    /\ user.register (Sample.signup "cid") (Sample.at_time 2000 "3") w2
       = (Return (user.Data s3), w3)
    /\ user.register (Sample.signup "dan") (Sample.at_time 3600000 "4") w3
       = (Throw (AssertionError limit_reached), w4)
    /\ (forall ip' e, ip' <> sk_ip (socket Sample.lobby) ->
          (user.registration_limit ip' e w3).1
          = (user.registration_limit ip' e Sample.lobby).1).
Proof.
  apply (proj1 (proj2 (proj2 registration_limit_by_address)) Sample.lobby
           (Sample.at_time 0 "1") (Sample.at_time 1000 "2") (Sample.at_time 2000 "3")
           (Sample.at_time 3600000 "4")
           (Sample.signup "ann") (Sample.signup "bob") (Sample.signup "cid")
           (Sample.signup "dan")).
  - reflexivity.
  - apply sample_attempt. reflexivity.
  - apply sample_attempt. reflexivity.
  - apply sample_attempt. reflexivity.
  - apply sample_attempt. reflexivity.
  - reflexivity.
  - eexists. reflexivity.
  - reflexivity.
  - simpl. lia.
  - simpl. unfold OneDay. lia.
  - repeat (constructor; [simpl; intuition discriminate|]). constructor.
  - intros d _. reflexivity.
Defined.

(** ** Login through the directory (C8, C10) *)











(** The save of the default group is the one operation that is rejected. *)
Section RejectedSave.

Variable e : Env.
Hypothesis Hok : forall site, site <> "login/defaultGroup.save" -> fault e site = false.
Hypothesis Hbad : fault e "login/defaultGroup.save" = true.





End RejectedSave.









(** * Further properties of the routes *)

(** ** Enabling the bot *)

Lemma save_head {A} (id : A -> ObjectId) d x l :
  id d = id x -> save id d (x :: l) = d :: l.
Proof. intros H. unfold save. simpl. rewrite H, String.eqb_refl. reflexivity. Qed.

(** A run of [toggleBot] that returned. *)
Lemma toggleBot_returned flag e w r w' :
  bot.toggleBot flag e w = (Return r, w') ->
  r = flag
  /\ sk_isAdmin (socket w) = true
  /\ (exists b rest,
        bots w = b :: rest
        /\ bots w' = bot.with_enabled flag b :: rest
        /\ BotSchema_accepts (bots w) (bot.with_enabled flag b) = true)
  /\ conversations w' = conversations w /\ messages w' = messages w
  /\ users w' = users w /\ groups w' = groups w /\ events w' = events w.
Proof.
  unfold bot.toggleBot.
  rewrite bind_gets. rewrite bind_assert_cases.
  destruct (sk_isAdmin (socket w)); [|intros [=]].
  rewrite bind_await_cases. destruct (fault e _); [intros [=]|].
  rewrite bind_gets. destruct (bots w) as [|b rest] eqn:Hb; [intros [=]|].
  cbn [head]. unfold bot.Bot_save. rewrite !bind_assoc, bind_await_cases.
  destruct (fault e _); [intros [=]|].
  rewrite bind_assoc, bind_gets.
  destruct (BotSchema_accepts _ _) eqn:Hs; [|intros [=]].
  rewrite bind_modify, bind_logger. unfold ret. intros [= <- <-]. cbn.
  rewrite Hb, save_head by reflexivity.
  split_and!; try reflexivity. exists b, rest. split_and!; try reflexivity. congruence.
Qed.

(** The run of [toggleBot] by an administrator on an available store. *)
Lemma toggleBot_run flag e w b rest :
  available e ->
  sk_isAdmin (socket w) = true ->
  bots w = b :: rest ->
  BotSchema_accepts (bots w) (bot.with_enabled flag b) = true ->
  exists w', bot.toggleBot flag e w = (Return flag, w')
             /\ bots w' = bot.with_enabled flag b :: rest.
Proof.
  intros Hav Ha Hb Hs. unfold bot.toggleBot.
  rewrite bind_gets, Ha. rewrite bind_assert by reflexivity.
  rewrite (bind_await _ _ _ _ (Hav _)), bind_gets, Hb. cbn [head].
  unfold bot.Bot_save. rewrite !bind_assoc, (bind_await _ _ _ _ (Hav _)).
  rewrite bind_assoc, bind_gets, Hb. rewrite Hb in Hs. rewrite Hs.
  rewrite bind_modify, bind_logger. eexists. split; [reflexivity|].
  cbn. rewrite Hb. apply save_head. reflexivity.
Qed.

(** X1. [toggleBot] refuses a caller that is no administrator, and an
    administrator when no bot is configured, and then changes nothing; a
    run that returned has returned the requested flag, the caller was an
    administrator, the configured bot holds the flag and is otherwise the
    same, no other bot and no conversation, message, user or group has
    changed; on an available store the run of an administrator returns
    when the schema accepts the bot. *)
Theorem toggleBot_sets_the_flag :
  (forall flag e w,
     sk_isAdmin (socket w) = false ->
     bot.toggleBot flag e w
     = (Throw (AssertionError "只有管理员可以启用/禁用AI机器人"), w))
  /\ (forall flag e w,
        sk_isAdmin (socket w) = true ->
        fault e "toggleBot/Bot.findOne" = false ->
        bots w = [] ->
        bot.toggleBot flag e w = (Throw (AssertionError "AI机器人未配置"), w))
  /\ (forall flag e w r w',
        bot.toggleBot flag e w = (Return r, w') ->
        r = flag
        /\ sk_isAdmin (socket w) = true
        /\ (exists b b' rest,
              bots w = b :: rest
              /\ bots w' = b' :: rest
              /\ b_enabled b' = flag
              /\ b_id b' = b_id b /\ b_name b' = b_name b /\ b_avatar b' = b_avatar b
              /\ b_config b' = b_config b /\ b_creator b' = b_creator b)
        /\ conversations w' = conversations w /\ messages w' = messages w
        /\ users w' = users w /\ groups w' = groups w /\ events w' = events w)
  /\ (forall flag e w b rest,
        available e ->
        sk_isAdmin (socket w) = true ->
        bots w = b :: rest ->
        BotSchema_accepts (bots w) (bot.with_enabled flag b) = true ->
        exists w', bot.toggleBot flag e w = (Return flag, w')).
Proof.
  split_and!.
  - intros flag e w Ha. unfold bot.toggleBot. rewrite bind_gets, Ha. reflexivity.
  - intros flag e w Ha Hf Hb. unfold bot.toggleBot.
    rewrite bind_gets, Ha. rewrite bind_assert by reflexivity.
    rewrite (bind_await _ _ _ _ Hf), bind_gets, Hb. reflexivity.
  - intros flag e w r w' Hrun.
    destruct (toggleBot_returned _ _ _ _ _ Hrun)
      as (-> & Ha & (b & rest & Hb & Hb' & _) & Hc & Hm & Hu & Hg & He).
    split_and!; try assumption; try reflexivity.
    exists b, (bot.with_enabled flag b), rest. split_and!; try assumption; reflexivity.
  - intros flag e w b rest Hav Ha Hb Hs.
    destruct (toggleBot_run flag e w b rest Hav Ha Hb Hs) as (w' & Hrun & _). eauto.
Qed.

(** An administrator disables the bot of [Scenario.managed]. *)
Lemma admin_disables_the_bot :
  exists w',
    bot.toggleBot false Scenario.normal Scenario.managed = (Return false, w')
    /\ findOne b_enabled (bots w') = None.
Proof.
  assert (Hav : available Scenario.normal) by (intros site; reflexivity).
  assert (Hs : BotSchema_accepts (bots Scenario.managed)
                 (bot.with_enabled false (Sample.robot 10)) = true)
    by (vm_compute; reflexivity).
  destruct (proj2 (proj2 (proj2 toggleBot_sets_the_flag)) false Scenario.normal
              Scenario.managed (Sample.robot 10) [] Hav eq_refl eq_refl Hs) as (w' & Hrun).
  destruct (proj1 (proj2 (proj2 toggleBot_sets_the_flag)) _ _ _ _ _ Hrun)
    as (_ & _ & (b & b' & rest & Hb & Hb' & Hen & _) & _).
  change (bots Scenario.managed) with [Sample.robot 10] in Hb.
  injection Hb as <- <-.
  exists w'. split; [exact Hrun|]. rewrite Hb'. unfold findOne. cbn [List.find]. rewrite Hen. reflexivity.
Defined.

(** While no bot is enabled both relays raise before they read a
    conversation, and change nothing. *)
Lemma relays_need_an_enabled_bot w :
  findOne b_enabled (bots w) = None ->
  (forall content e, exists x, bot.sendMessageToBot content e w = (Throw x, w))
  /\ (forall groupId content e, exists x, bot.mentionBotInGroup groupId content e w = (Throw x, w)).
Proof.
  intros Hb. split.
  - intros content e. unfold bot.sendMessageToBot.
    rewrite bind_gets, bind_assert_cases. destruct (JS.truthy content); [|eauto].
    rewrite bind_await_cases. destruct (fault e _); [eauto|].
    rewrite bind_gets, Hb. unfold throw. eauto.
  - intros groupId content e. unfold bot.mentionBotInGroup.
    rewrite bind_gets, bind_assert_cases. destruct (isValid groupId); [|eauto].
    rewrite bind_assert_cases. destruct (JS.truthy content); [|eauto].
    rewrite bind_await_cases. destruct (fault e _); [eauto|].
    rewrite bind_gets. destruct (findOne _ (groups w)) as [g|]; [|unfold throw; eauto].
    rewrite bind_assert_cases. destruct (existsb _ _); [|eauto].
    rewrite bind_await_cases. destruct (fault e _); [eauto|].
    rewrite bind_gets, Hb. unfold throw. eauto.
Qed.

(** What a run of [configureBot] that returned has stored, by the case
    of the store: no bot before (the bot is created) or a bot before (it
    is updated). *)
Lemma configureBot_returned data e w v w' :
  bot.configureBot data e w = (Return v, w') ->
  sk_isAdmin (socket w) = true
  /\ socket w' = socket w
  /\ exists b,
       v = bot.view "***" b
       /\ BotSchema_accepts (bots w) b = true
       /\ b_name b = JS.trim (bot.d_name data)
       /\ b_creator b = sk_user (socket w)
       /\ llmUrl (b_config b) = bot.d_llmUrl (bot.d_config data)
       /\ apiKey (b_config b) = bot.d_apiKey (bot.d_config data)
       /\ model (b_config b) = bot.d_model (bot.d_config data)
       /\ match bots w with
          | [] =>
              bots w' = [b]
              /\ b_enabled b = false
              /\ b_id b = newObjectId e "Bot"
              /\ b_avatar b = JS.or_else (default EmptyString (bot.d_avatar data))
                                (getRandomAvatar e)
              /\ systemPrompt (b_config b)
                 = JS.or_else (default EmptyString (bot.d_systemPrompt (bot.d_config data)))
                     defaultSystemPrompt
              /\ temperature (b_config b)
                 = JS.or_elseQ (default 0%Q (bot.d_temperature (bot.d_config data))) (7 # 10)%Q
              /\ maxTokens (b_config b)
                 = JS.or_elseZ (default 0 (bot.d_maxTokens (bot.d_config data))) 2000
              /\ maxHistory (b_config b)
                 = JS.or_elseZ (default 0 (bot.d_maxHistory (bot.d_config data))) 10
          | old :: rest =>
              bots w' = b :: rest
              /\ b_enabled b = b_enabled old
              /\ b_id b = b_id old
              /\ b_avatar b = (match bot.d_avatar data with
                               | Some a => if JS.truthy a then a else b_avatar old
                               | None => b_avatar old
                               end)
              /\ systemPrompt (b_config b)
                 = default (systemPrompt (b_config old)) (bot.d_systemPrompt (bot.d_config data))
              /\ temperature (b_config b)
                 = default (temperature (b_config old)) (bot.d_temperature (bot.d_config data))
              /\ maxTokens (b_config b)
                 = default (maxTokens (b_config old)) (bot.d_maxTokens (bot.d_config data))
              /\ maxHistory (b_config b)
                 = default (maxHistory (b_config old)) (bot.d_maxHistory (bot.d_config data))
          end.
Proof.
  unfold bot.configureBot. rewrite bind_gets, bind_assert_cases.
  destruct (sk_isAdmin (socket w)); [|intros [=]].
  do 4 (rewrite bind_assert_cases;
        match goal with |- context [if ?b then _ else (Throw _, _)] => destruct b end;
        [|intros [=]]).
  rewrite bind_await_cases. destruct (fault e _); [intros [=]|].
  rewrite bind_gets, bind_ask. cbn beta.
  destruct (bots w) as [|old rest] eqn:Hb; cbn beta iota delta [head].
  - rewrite bind_assoc. unfold bot.Bot_create. rewrite !bind_assoc, bind_await_cases.
    destruct (fault e _); [intros [=]|].
    rewrite bind_assoc, bind_gets, Hb.
    destruct (BotSchema_accepts _ _) eqn:Hs; [|intros [=]].
    mnorm. unfold ret. intros [= <- <-].
    split; [reflexivity|]. split; [reflexivity|]. eexists. split; [reflexivity|]. cbn.
    rewrite Hb. split_and!; try reflexivity. exact Hs.
  - rewrite bind_assoc. unfold bot.Bot_save. rewrite !bind_assoc, bind_await_cases.
    destruct (fault e _); [intros [=]|].
    rewrite bind_assoc, bind_gets, Hb.
    destruct (BotSchema_accepts _ _) eqn:Hs; [|intros [=]].
    mnorm. unfold ret. intros [= <- <-].
    split; [reflexivity|]. split; [reflexivity|]. eexists. split; [reflexivity|]. cbn.
    rewrite Hb, save_head by reflexivity. split_and!; try reflexivity. exact Hs.
Qed.

(** X2. A bot that [configureBot] has just created is disabled: both relays
    raise and change nothing, for every message and in every run, until
    an administrator enables the bot; on an available store
    [toggleBot(true)] then returns, and the relays find this bot, with
    the configuration that [configureBot] reported. *)
Theorem created_bot_is_disabled_until_toggled e w data v w1 :
  bots w = [] ->
  bot.configureBot data e w = (Return v, w1) ->
  bot.bv_enabled v = false
  /\ (forall content e1, exists x, bot.sendMessageToBot content e1 w1 = (Throw x, w1))
  /\ (forall groupId content e1,
        exists x, bot.mentionBotInGroup groupId content e1 w1 = (Throw x, w1))
  /\ (forall e2,
        available e2 ->
        exists w2 b,
          bot.toggleBot true e2 w1 = (Return true, w2)
          /\ findOne b_enabled (bots w2) = Some b
          /\ b_id b = bot.bv_id v
          /\ bot.with_apiKey "***" (b_config b) = bot.bv_config v).
Proof.
  intros Hb Hrun.
  destruct (configureBot_returned _ _ _ _ _ Hrun) as (Ha & Hsk & b & -> & Hs & _ & _ & _ & _ & _ & H).
  rewrite Hb in H, Hs. destruct H as (Hb1 & Hen & _).
  assert (Hnone : findOne b_enabled (bots w1) = None).
  { rewrite Hb1. unfold findOne. simpl. rewrite Hen. reflexivity. }
  split_and!.
  - exact Hen.
  - apply (relays_need_an_enabled_bot w1 Hnone).
  - apply (relays_need_an_enabled_bot w1 Hnone).
  - intros e2 Hav.
    destruct (toggleBot_run true e2 w1 b [] Hav) as (w2 & Ht & Hb2).
    + rewrite Hsk. exact Ha.
    + exact Hb1.
    + rewrite Hb1. unfold BotSchema_accepts in *. cbn [existsb bot.with_enabled b_name b_id b_config].
      rewrite !String.eqb_refl. cbn [negb andb orb] in *. exact Hs.
    + exists w2, (bot.with_enabled true b). split; [exact Ht|]. rewrite Hb2.
      split_and!; reflexivity.
Qed.

(** An administrator creates the bot in an empty store. *)
Lemma new_bot_waits_for_the_administrator :
  exists v w1,
    bot.configureBot (Scenario.settings None) Scenario.normal (Sample.nothing Scenario.admin)
    = (Return v, w1)
    /\ bot.bv_enabled v = false
    /\ (exists x, bot.sendMessageToBot "hello" Scenario.normal w1 = (Throw x, w1))
    /\ exists w2, bot.toggleBot true Scenario.normal w1 = (Return true, w2).
Proof.
  assert (exists v w1,
            bot.configureBot (Scenario.settings None) Scenario.normal
              (Sample.nothing Scenario.admin) = (Return v, w1)) as (v & w1 & Hrun)
    by (vm_compute; eexists; eexists; reflexivity).
  destruct (created_bot_is_disabled_until_toggled Scenario.normal
              (Sample.nothing Scenario.admin) (Scenario.settings None) v w1 eq_refl Hrun)
    as (Hd & Hs & _ & Ht).
  assert (Hav : available Scenario.normal) by (intros site; reflexivity).
  destruct (Ht Scenario.normal Hav) as (w2 & b & Ht2 & _).
  exists v, w1. split_and!; [exact Hrun|exact Hd|apply Hs|exists w2; exact Ht2].
Defined.

(** X3. The settings that [configureBot] stores. When it creates the bot, a
    setting that is absent, zero or empty is replaced by its default: the
    stored [maxHistory] and [maxTokens] are not zero, the stored
    [temperature] is not zero and the stored prompt is not empty. When it
    updates the bot, an absent setting keeps the stored value and a given
    one is stored as it is, zero included; the id, the enabled flag and
    the other bots are kept. *)
Theorem configureBot_stores_the_settings e w data v w' :
  bot.configureBot data e w = (Return v, w') ->
  match bots w with
  | [] =>
      exists b,
        bots w' = [b]
        /\ maxHistory (b_config b) <> 0
        /\ maxTokens (b_config b) <> 0
        /\ Qeq_bool (temperature (b_config b)) 0 = false
        /\ systemPrompt (b_config b) <> EmptyString
        /\ (forall n, bot.d_maxHistory (bot.d_config data) = Some n -> n <> 0 ->
              maxHistory (b_config b) = n)
        /\ (bot.d_maxHistory (bot.d_config data) = None
            \/ bot.d_maxHistory (bot.d_config data) = Some 0 ->
            maxHistory (b_config b) = 10)
  | old :: rest =>
      exists b,
        bots w' = b :: rest
        /\ b_id b = b_id old
        /\ b_enabled b = b_enabled old
        /\ (forall n, bot.d_maxHistory (bot.d_config data) = Some n ->
              maxHistory (b_config b) = n)
        /\ (bot.d_maxHistory (bot.d_config data) = None ->
            maxHistory (b_config b) = maxHistory (b_config old))
        /\ (forall n, bot.d_maxTokens (bot.d_config data) = Some n ->
              maxTokens (b_config b) = n)
        /\ (bot.d_maxTokens (bot.d_config data) = None ->
            maxTokens (b_config b) = maxTokens (b_config old))
        /\ (forall p, bot.d_systemPrompt (bot.d_config data) = Some p ->
              systemPrompt (b_config b) = p)
        /\ (bot.d_systemPrompt (bot.d_config data) = None ->
            systemPrompt (b_config b) = systemPrompt (b_config old))
  end.
Proof.
  intros Hrun.
  destruct (configureBot_returned _ _ _ _ _ Hrun)
    as (_ & _ & b & _ & _ & _ & _ & _ & _ & _ & H).
  destruct (bots w) as [|old rest].
  - destruct H as (Hb & _ & _ & _ & Hp & Ht & Hk & Hh). exists b.
    split; [exact Hb|]. rewrite Hp, Ht, Hk, Hh.
    unfold JS.or_elseZ, JS.or_elseQ, JS.or_else. split_and!.
    + destruct (_ =? 0) eqn:E; [discriminate|]. apply Z.eqb_neq in E. exact E.
    + destruct (_ =? 0) eqn:E; [discriminate|]. apply Z.eqb_neq in E. exact E.
    + set (q := default 0%Q _). destruct (Qeq_bool q 0) eqn:E; [reflexivity|exact E].
    + destruct (JS.truthy _) eqn:E; [|discriminate].
      intros Hx. rewrite Hx in E. discriminate E.
    + intros n -> Hn. simpl. apply Z.eqb_neq in Hn. rewrite Hn. reflexivity.
    + intros [->| ->]; reflexivity.
  - destruct H as (Hb & Hen & Hid & _ & Hp & _ & Hk & Hh). exists b.
    rewrite Hp, Hk, Hh. split_and!; try assumption.
    + intros n ->. reflexivity.
    + intros ->. reflexivity.
    + intros n ->. reflexivity.
    + intros ->. reflexivity.
    + intros p ->. reflexivity.
    + intros ->. reflexivity.
Qed.

(** An administrator sets [maxHistory] to zero on the configured bot. *)
Lemma zero_is_stored_on_update :
  exists v w',
    bot.configureBot (Scenario.settings (Some 0)) Scenario.normal Scenario.managed
    = (Return v, w')
    /\ exists b, bots w' = [b] /\ maxHistory (b_config b) = 0.
Proof.
  assert (exists v w',
            bot.configureBot (Scenario.settings (Some 0)) Scenario.normal Scenario.managed
            = (Return v, w')) as (v & w' & Hrun)
    by (vm_compute; eexists; eexists; reflexivity).
  pose proof (configureBot_stores_the_settings _ _ _ _ _ Hrun) as H.
  change (bots Scenario.managed) with [Sample.robot 10] in H.
  destruct H as (b & Hb & _ & _ & Hn & _).
  exists v, w'. split; [exact Hrun|]. exists b. split; [exact Hb|exact (Hn 0 eq_refl)].
Defined.

(** ** Testing the connection *)

Lemma testConnection_run c e w :
  exists w',
    llmService.testConnection c e w
    = (Return (answers_json (axios_post e
                 {| rq_url := lc_llmUrl c; rq_bearer := lc_apiKey c; rq_model := lc_model c;
                    rq_messages := [{| lm_role := role_user; lm_content := "Hello" |}];
                    rq_temperature := default (7 # 10)%Q (lc_temperature c);
                    rq_max_tokens := default 2000 (lc_maxTokens c);
                    rq_stream := false |})), w')
    /\ same_store w w' /\ events w' = events w.
Proof.
  unfold llmService.testConnection, llmService.chat. cbn [lc_stream lc_temperature lc_maxTokens
    lc_llmUrl lc_apiKey lc_model default].
  unfold try_catch, bind, ask, logger, modify, ret, throw.
  destruct (axios_post e _) as [[[| |t]|frames stop]|m resp]; cbn;
    (eexists; split; [reflexivity|split; [unfold same_store; cbn; tauto|reflexivity]]).
Qed.

(** X4. [testLLMConnection] refuses a caller that is no administrator. For an
    administrator it never raises, whatever the service does and whatever
    store operation is rejected: it answers [success] with the message
    of success exactly when the service answers the probe (one user
    message [Hello], no streaming, temperature 0.7, 2000 tokens) with a
    JSON body of which [choices[0].message] can be read, with or without
    a text in it, and answers the fixed message of failure otherwise,
    never the cause of the failure; the store and the events are left
    alone. *)
Theorem testLLMConnection_never_raises :
  (forall llmUrl apiKey model e w,
     sk_isAdmin (socket w) = false ->
     bot.testLLMConnection llmUrl apiKey model e w
     = (Throw (AssertionError "只有管理员可以测试LLM连接"), w))
  /\ (forall llmUrl apiKey model e w,
        sk_isAdmin (socket w) = true ->
        exists w',
          bot.testLLMConnection llmUrl apiKey model e w
          = (Return (if answers_json (axios_post e (probe_request llmUrl apiKey model))
                     then (true, "连接成功") else (false, "连接失败")), w')
          /\ same_store w w' /\ events w' = events w).
Proof.
  split.
  - intros llmUrl apiKey model e w Ha. unfold bot.testLLMConnection.
    rewrite bind_gets, Ha. reflexivity.
  - intros llmUrl apiKey model e w Ha. unfold bot.testLLMConnection.
    rewrite bind_gets, Ha. rewrite bind_assert by reflexivity.
    rewrite try_catch_bind.
    destruct (testConnection_run
                {| lc_llmUrl := llmUrl; lc_apiKey := apiKey; lc_model := model;
                   lc_temperature := None; lc_maxTokens := None; lc_stream := None |} e w)
      as (w' & Hrun & Hs & He).
    rewrite Hrun. cbn [lc_llmUrl lc_apiKey lc_model lc_temperature lc_maxTokens default].
    change (axios_post e _) with (axios_post e (probe_request llmUrl apiKey model)).
    exists w'. split; [|split; assumption].
    destruct (answers_json _); reflexivity.
Qed.

(** An administrator probes a service that is down. *)
Lemma probe_of_a_dead_service :
  exists w',
    bot.testLLMConnection "http://llm/v1/chat" "sk-real" "m1"
      (Sample.env 5 Sample.server Sample.down Sample.no_directory Sample.never)
      Scenario.managed
    = (Return (false, "连接失败"), w')
    /\ events w' = [].
Proof.
  destruct (proj2 testLLMConnection_never_raises "http://llm/v1/chat" "sk-real" "m1"
              (Sample.env 5 Sample.server Sample.down Sample.no_directory Sample.never)
              Scenario.managed eq_refl) as (w' & Hrun & _ & He).
  exists w'. split; [exact Hrun|exact He].
Defined.

(** ** Clearing a conversation *)

Lemma findOne_map {A} (p : A -> bool) (f : A -> A) l :
  (forall x, In x l -> p (f x) = p x) ->
  findOne p (List.map f l) = f <$> findOne p l.
Proof.
  unfold findOne. induction l as [|a l IH]; simpl; [reflexivity|].
  intros H. rewrite (H a) by (left; reflexivity).
  destruct (p a); [reflexivity|]. apply IH. intros x Hx. apply H. right. exact Hx.
Qed.

Lemma of_triple_true u b g c :
  bot.of_triple u b g c = true <-> c_user c = u /\ c_bot c = b /\ c_group c = g.
Proof.
  unfold bot.of_triple. rewrite !andb_true_iff, !String.eqb_eq, bool_decide_eq_true. tauto.
Qed.

(** A run of [clearConversation] that returned. *)
Lemma clearConversation_returned groupId e w r w' :
  bot.clearConversation groupId e w = (Return r, w') ->
  r = true
  /\ exists b,
       head (bots w) = Some b
       /\ conversations w'
          = match findOne (bot.of_triple (sk_user (socket w)) (b_id b) (selected_group groupId))
                    (conversations w) with
            | Some c => save c_id (bot.with_messages [] (now e) c) (conversations w)
            | None => conversations w
            end
       /\ messages w' = messages w /\ bots w' = bots w /\ users w' = users w
       /\ groups w' = groups w /\ events w' = events w.
Proof.
  unfold bot.clearConversation. rewrite bind_gets, bind_await_cases.
  destruct (fault e _); [intros [=]|].
  rewrite bind_gets. destruct (head (bots w)) as [b|]; [|intros [=]].
  cbn beta iota zeta. fold (selected_group groupId).
  rewrite bind_run.
  destruct (selected_group groupId) as [g|] eqn:Hg.
  - destruct (isValid g); [|intros [=]]. unfold ret at 1. cbn beta iota.
    rewrite bind_await_cases. destruct (fault e _); [intros [=]|].
    rewrite bind_gets, bind_ask.
    destruct (findOne _ (conversations w)) as [c|] eqn:Hf.
    + unfold bot.Conversation_save. rewrite !bind_assoc, bind_await_cases.
      destruct (fault e _); [intros [=]|].
      cbn beta iota. destruct (ConversationSchema_accepts _); [|intros [=]].
      rewrite bind_modify, bind_logger. unfold ret. intros [= <- <-].
      split; [reflexivity|]. exists b. cbn. rewrite Hf. split_and!; reflexivity.
    + rewrite bind_ret, bind_logger. unfold ret. intros [= <- <-].
      split; [reflexivity|]. exists b. cbn. rewrite Hf. split_and!; reflexivity.
  - unfold ret at 1. cbn beta iota.
    rewrite bind_await_cases. destruct (fault e _); [intros [=]|].
    rewrite bind_gets, bind_ask.
    destruct (findOne _ (conversations w)) as [c|] eqn:Hf.
    + unfold bot.Conversation_save. rewrite !bind_assoc, bind_await_cases.
      destruct (fault e _); [intros [=]|].
      cbn beta iota. destruct (ConversationSchema_accepts _); [|intros [=]].
      rewrite bind_modify, bind_logger. unfold ret. intros [= <- <-].
      split; [reflexivity|]. exists b. cbn. rewrite Hf. split_and!; reflexivity.
    + rewrite bind_ret, bind_logger. unfold ret. intros [= <- <-].
      split; [reflexivity|]. exists b. cbn. rewrite Hf. split_and!; reflexivity.
Qed.

(** X5. After [clearConversation] returned, in a store where the ids of the
    conversations are distinct: the conversation of the caller with the
    bot, in the selected group or in private, holds no turn; the turns of
    every other conversation are the same; no conversation was created
    or deleted, and the messages of the bot that were stored as chat
    messages are all kept. *)
Theorem clearConversation_empties_one_conversation groupId e w r w' :
  List.NoDup (List.map c_id (conversations w)) ->
  bot.clearConversation groupId e w = (Return r, w') ->
  exists b,
    head (bots w) = Some b
    /\ stored_turns w' (sk_user (socket w)) (b_id b) (selected_group groupId) = []
    /\ (forall u b' g,
          (u, b', g) <> (sk_user (socket w), b_id b, selected_group groupId) ->
          stored_turns w' u b' g = stored_turns w u b' g)
    /\ List.map c_id (conversations w') = List.map c_id (conversations w)
    /\ messages w' = messages w.
Proof.
  intros Hnd Hrun.
  destruct (clearConversation_returned _ _ _ _ _ Hrun) as (_ & b & Hb & Hc & Hm & _).
  exists b. split; [exact Hb|].
  set (uid := sk_user (socket w)) in *. set (grp := selected_group groupId) in *.
  destruct (findOne (bot.of_triple uid (b_id b) grp) (conversations w)) as [c|] eqn:Hf.
  - destruct (findOne_Some _ _ _ Hf) as (Hin & Hp).
    apply of_triple_true in Hp. destruct Hp as (Hcu & Hcb & Hcg).
    rewrite (save_as_map c_id _ _ Hnd) in Hc. cbn [bot.with_messages c_id] in Hc.
    set (f := fun x => if String.eqb (c_id x) (c_id c)
                       then bot.with_messages [] (now e) c else x) in Hc.
    assert (Hpf : forall u b' g x, In x (conversations w) ->
              bot.of_triple u b' g (f x) = bot.of_triple u b' g x).
    { intros u b' g x Hx. unfold f. destruct (String.eqb (c_id x) (c_id c)) eqn:He; [|reflexivity].
      apply String.eqb_eq in He. rewrite (unique_id c_id _ x c Hnd Hx Hin He). reflexivity. }
    split_and!.
    + unfold stored_turns. rewrite Hc, (findOne_map _ f) by (apply Hpf). rewrite Hf.
      cbn. unfold f. rewrite String.eqb_refl. reflexivity.
    + intros u b' g Hne. unfold stored_turns. rewrite Hc, (findOne_map _ f) by (apply Hpf).
      destruct (findOne (bot.of_triple u b' g) (conversations w)) as [x|] eqn:Hx; [|reflexivity].
      cbn. destruct (findOne_Some _ _ _ Hx) as (Hxin & Hxp).
      unfold f. destruct (String.eqb (c_id x) (c_id c)) eqn:He; [|reflexivity].
      apply String.eqb_eq in He. rewrite (unique_id c_id _ x c Hnd Hxin Hin He) in Hxp.
      apply of_triple_true in Hxp. destruct Hxp as (? & ? & ?). exfalso. apply Hne. congruence.
    + rewrite Hc. rewrite map_map. apply map_ext. intros x. unfold f.
      destruct (String.eqb (c_id x) (c_id c)) eqn:He; [|reflexivity].
      apply String.eqb_eq in He. symmetry. exact He.
    + exact Hm.
  - split_and!.
    + unfold stored_turns. rewrite Hc, Hf. reflexivity.
    + intros u b' g _. unfold stored_turns. rewrite Hc. reflexivity.
    + rewrite Hc. reflexivity.
    + exact Hm.
Qed.

(** [u1] clears her private conversation. *)
Lemma ann_clears_her_private_conversation :
  exists r w',
    bot.clearConversation None Scenario.normal (Sample.chatting 10) = (Return r, w')
    /\ stored_turns w' "u1" "bot1" None = []
    /\ List.map c_id (conversations w') = ["conv1"].
Proof.
  assert (exists r w',
            bot.clearConversation None Scenario.normal (Sample.chatting 10) = (Return r, w'))
    as (r & w' & Hrun) by (vm_compute; eexists; eexists; reflexivity).
  assert (Hnd : List.NoDup (List.map c_id (conversations (Sample.chatting 10))))
    by (repeat (constructor; [simpl; intuition discriminate|]); constructor).
  destruct (clearConversation_empties_one_conversation None Scenario.normal
              (Sample.chatting 10) r w' Hnd Hrun) as (b & Hb & He & _ & Hids & _).
  change (head (bots (Sample.chatting 10))) with (Some (Sample.robot 10)) in Hb.
  injection Hb as <-.
  exists r, w'. split_and!; [exact Hrun|exact He|exact Hids].
Defined.

(** ** A relay that completes *)

Lemma findOne_save_found {A} (id : A -> ObjectId) (p : A -> bool) c c' l :
  findOne p l = Some c -> p c' = true -> id c' = id c ->
  findOne p (save id c' l) = Some c'.
Proof.
  intros Hf Hp Hid. unfold save, findOne in *. rewrite Hid.
  induction l as [|a l IH]; simpl in *; [discriminate|].
  destruct (String.eqb (id a) (id c)) eqn:He; simpl.
  - rewrite Hp. reflexivity.
  - destruct (p a) eqn:Ha.
    + injection Hf as ->. rewrite String.eqb_refl in He. discriminate He.
    + apply IH. exact Hf.
Qed.

Lemma forallb_drop {A} (p : A -> bool) n l :
  forallb p l = true -> forallb p (drop n l) = true.
Proof.
  revert n. induction l as [|a l IH]; intros n; [destruct n; trivial|].
  destruct n; [trivial|]. simpl. intros H. apply andb_true_iff in H. apply IH. tauto.
Qed.

Lemma keep_recent_valid n ms : valid_turns ms -> valid_turns (bot.keep_recent n ms).
Proof.
  unfold valid_turns, bot.keep_recent, JS.slice. destruct (_ >? _); [|trivial].
  apply forallb_drop.
Qed.

(** The private relay when the completion call succeeds with a text. *)
Lemma sendMessageToBot_completes e w content b fs answer :
  available e ->
  JS.truthy content = true ->
  findOne b_enabled (bots w) = Some b ->
  JS.truthy (sk_user (socket w)) = true ->
  JS.truthy (b_id b) = true ->
  valid_turns (stored_turns w (sk_user (socket w)) (b_id b) None) ->
  chat_outcome (axios_post e (relay_request e w b (sk_user (socket w)) None content))
    = (fs, inl answer) ->
  JS.truthy answer = true ->
  exists w',
    bot.sendMessageToBot content e w = (Return (newObjectId e "Message"), w')
    /\ events w' = events w
         ++ stream_events (sk_user (socket w)) (newObjectId e "tempMessageId") (b_id b) None fs
         ++ [botMessageComplete (sk_user (socket w)) (newObjectId e "tempMessageId")
               {| v_id := newObjectId e "Message"; v_from_id := b_id b;
                  v_from_username := b_name b; v_from_avatar := b_avatar b;
                  v_from_tag := "bot"; v_to := sk_user (socket w); v_type := "text";
                  v_content := answer; v_createTime := now e |}]
    /\ messages w' = messages w
         ++ [{| m_id := newObjectId e "Message"; m_from := b_id b;
                m_to := sk_user (socket w); m_type := "text"; m_content := answer;
                m_createTime := now e |}]
    /\ stored_turns w' (sk_user (socket w)) (b_id b) None
       = bot.keep_recent (maxHistory (b_config b) * 2)
           (stored_turns w (sk_user (socket w)) (b_id b) None ++ exchange e content answer).
Proof.
  intros Hav Hc Hb Hu Hbid Hvalid Hout Hans.
  unfold bot.sendMessageToBot.
  unfold relay_request in Hout. unfold stored_turns in *.
  mrun Hav. rewrite Hb. cbn beta iota. mrun Hav.
  destruct (findOne _ (conversations w)) as [c|] eqn:Hfind.
  - mrun Hav. rewrite try_catch_bind.
    match goal with |- context [llmService.chat ?m ?c _ e ?w0] =>
      destruct (chat_streaming m c
        (fun chunk => botMessageStream (sk_user (socket w)) (newObjectId e "tempMessageId") chunk (b_id b) None)
        e w0 eq_refl) as (w1 & Hsame & Hev & Hchat);
      change (chat_outcome (axios_post e (request_of m c)) = (fs, inl answer)) in Hout
    end.
    rewrite Hout in Hchat, Hev. cbn [fst snd] in Hchat, Hev.
    rewrite Hchat. cbn beta iota zeta.
    destruct Hsame as (?&?&?&?&Hms&?&?&Hcv&?&?&?&?).
    unfold try_catch, bot.Conversation_save. mrun Hav.
    match goal with |- context [ConversationSchema_accepts ?cv] =>
      assert (Hacc : ConversationSchema_accepts cv = true) end.
    { destruct (findOne_Some _ _ _ Hfind) as (_ & Hp). apply of_triple_true in Hp.
      destruct Hp as (Hcu & Hcb & _).
      unfold ConversationSchema_accepts. cbn [bot.with_messages bot.push c_user c_bot c_messages].
      rewrite Hcu, Hcb, Hu, Hbid. cbn [andb].
      apply keep_recent_valid. unfold valid_turns. rewrite <- app_assoc, forallb_app.
      rewrite Hvalid. cbn. rewrite Hc, Hans. reflexivity. }
    rewrite Hacc. unfold bot.Message_create. mrun Hav. unfold ret. cbn beta iota.
    eexists. split; [reflexivity|]. cbn -[save findOne bot.keep_recent].
    rewrite Hev, Hms, Hcv. split_and!.
    + rewrite <- app_assoc. reflexivity.
    + reflexivity.
    + erewrite findOne_save_found; [| exact Hfind | |reflexivity].
      * cbn. rewrite <- app_assoc. reflexivity.
      * destruct (findOne_Some _ _ _ Hfind) as (_ & Hp). exact Hp.
  - unfold bot.Conversation_create. mrun Hav.
    unfold ConversationSchema_accepts at 1. cbn [c_user c_bot c_messages forallb].
    rewrite Hu, Hbid. cbn [andb]. mrun Hav. rewrite try_catch_bind.
    match goal with |- context [llmService.chat ?m ?c _ e ?w0] =>
      destruct (chat_streaming m c
        (fun chunk => botMessageStream (sk_user (socket w)) (newObjectId e "tempMessageId") chunk (b_id b) None)
        e w0 eq_refl) as (w1 & Hsame & Hev & Hchat);
      change (chat_outcome (axios_post e (request_of m c)) = (fs, inl answer)) in Hout
    end.
    rewrite Hout in Hchat, Hev. cbn [fst snd] in Hchat, Hev.
    rewrite Hchat. cbn beta iota zeta.
    destruct Hsame as (?&?&?&?&Hms&?&?&Hcv&?&?&?&?).
    unfold try_catch, bot.Conversation_save. mrun Hav.
    match goal with |- context [ConversationSchema_accepts ?cv] =>
      assert (Hacc : ConversationSchema_accepts cv = true) end.
    { unfold ConversationSchema_accepts. cbn [bot.with_messages bot.push c_user c_bot c_messages].
      rewrite Hu, Hbid. cbn [andb].
      apply keep_recent_valid. unfold valid_turns. cbn. rewrite Hc, Hans. reflexivity. }
    rewrite Hacc. unfold bot.Message_create. mrun Hav. unfold ret. cbn beta iota.
    eexists. split; [reflexivity|]. cbn -[save findOne bot.keep_recent].
    rewrite Hev, Hms, Hcv. cbn -[save findOne bot.keep_recent]. split_and!.
    + rewrite <- app_assoc. reflexivity.
    + reflexivity.
    + match goal with |- context [findOne ?p (save c_id ?c' (conversations w ++ [?c0]))] =>
        rewrite (findOne_save_found c_id p c0 c' (conversations w ++ [c0])) end.
      * reflexivity.
      * rewrite (findOne_app_None _ _ _ Hfind). unfold findOne, bot.of_triple. cbn.
        rewrite !String.eqb_refl. reflexivity.
      * unfold bot.of_triple. cbn. rewrite !String.eqb_refl. reflexivity.
      * reflexivity.
Qed.

(** The group relay when the completion call succeeds with a text. *)
Lemma mentionBotInGroup_completes e w groupId content g b group1 fs answer :
  available e ->
  isValid groupId = true ->
  JS.truthy content = true ->
  findOne (fun g => String.eqb (g_id g) groupId) (groups w) = Some g ->
  existsb (fun m => String.eqb m (sk_user (socket w))) (g_members g) = true ->
  findOne b_enabled (bots w) = Some b ->
  bot.match_mention (b_name b) content = Some group1 ->
  JS.truthy (JS.trim group1) = true ->
  JS.truthy (sk_user (socket w)) = true ->
  JS.truthy (b_id b) = true ->
  valid_turns (stored_turns w (sk_user (socket w)) (b_id b) (Some groupId)) ->
  chat_outcome (axios_post e
    (relay_request e w b (sk_user (socket w)) (Some groupId) (JS.trim group1)))
    = (fs, inl answer) ->
  JS.truthy answer = true ->
  exists w',
    bot.mentionBotInGroup groupId content e w = (Return (newObjectId e "Message"), w')
    /\ events w' = events w
         ++ stream_events groupId (newObjectId e "tempMessageId") (b_id b) (Some groupId) fs
         ++ [botMessageComplete groupId (newObjectId e "tempMessageId")
               {| v_id := newObjectId e "Message"; v_from_id := b_id b;
                  v_from_username := b_name b; v_from_avatar := b_avatar b;
                  v_from_tag := "bot"; v_to := groupId; v_type := "text";
                  v_content := "@" +:+ addressed_as w (sk_user (socket w)) +:+ " " +:+ answer;
                  v_createTime := now e |}]
    /\ messages w' = messages w
         ++ [{| m_id := newObjectId e "Message"; m_from := b_id b;
                m_to := groupId; m_type := "text";
                m_content := "@" +:+ addressed_as w (sk_user (socket w)) +:+ " " +:+ answer;
                m_createTime := now e |}]
    /\ stored_turns w' (sk_user (socket w)) (b_id b) (Some groupId)
       = bot.keep_recent (maxHistory (b_config b) * 2)
           (stored_turns w (sk_user (socket w)) (b_id b) (Some groupId)
            ++ exchange e (JS.trim group1) answer).
Proof.
  intros Hav Hv Hc Hg Hm Hb Hmatch Hc1 Hu Hbid Hvalid Hout Hans.
  unfold bot.mentionBotInGroup.
  unfold relay_request in Hout. unfold stored_turns, addressed_as in *.
  mrun Hav. rewrite Hg. cbn beta iota. mrun Hav. rewrite Hb. cbn beta iota.
  rewrite Hmatch. cbn beta iota. mrun Hav.
  destruct (findOne _ (conversations w)) as [c|] eqn:Hfind.
  - mrun Hav. rewrite try_catch_bind.
    match goal with |- context [llmService.chat ?m ?c _ e ?w0] =>
      destruct (chat_streaming m c
        (fun chunk => botMessageStream groupId (newObjectId e "tempMessageId") chunk (b_id b) (Some groupId))
        e w0 eq_refl) as (w1 & Hsame & Hev & Hchat);
      change (chat_outcome (axios_post e (request_of m c)) = (fs, inl answer)) in Hout
    end.
    rewrite Hout in Hchat, Hev. cbn [fst snd] in Hchat, Hev.
    rewrite Hchat. cbn beta iota zeta.
    destruct Hsame as (Hus&?&?&?&Hms&?&?&Hcv&?&?&?&?).
    unfold try_catch, bot.Conversation_save. mrun Hav.
    match goal with |- context [ConversationSchema_accepts ?cv] =>
      assert (Hacc : ConversationSchema_accepts cv = true) end.
    { destruct (findOne_Some _ _ _ Hfind) as (_ & Hp). apply of_triple_true in Hp.
      destruct Hp as (Hcu & Hcb & _).
      unfold ConversationSchema_accepts. cbn [bot.with_messages bot.push c_user c_bot c_messages].
      rewrite Hcu, Hcb, Hu, Hbid. cbn [andb].
      apply keep_recent_valid. unfold valid_turns. rewrite <- app_assoc, forallb_app.
      rewrite Hvalid. cbn. rewrite Hc1, Hans. reflexivity. }
    rewrite Hacc. mrun Hav. unfold bot.Message_create. mrun Hav. unfold ret. cbn beta iota.
    eexists. split; [reflexivity|]. cbn -[save findOne bot.keep_recent String.append].
    rewrite Hev, Hms, Hcv, Hus. split_and!.
    + rewrite <- app_assoc. reflexivity.
    + reflexivity.
    + erewrite findOne_save_found; [| exact Hfind | |reflexivity].
      * cbn. rewrite <- app_assoc. reflexivity.
      * destruct (findOne_Some _ _ _ Hfind) as (_ & Hp). exact Hp.
  - unfold bot.Conversation_create. mrun Hav.
    unfold ConversationSchema_accepts at 1. cbn [c_user c_bot c_messages forallb].
    rewrite Hu, Hbid. cbn [andb]. mrun Hav. rewrite try_catch_bind.
    match goal with |- context [llmService.chat ?m ?c _ e ?w0] =>
      destruct (chat_streaming m c
        (fun chunk => botMessageStream groupId (newObjectId e "tempMessageId") chunk (b_id b) (Some groupId))
        e w0 eq_refl) as (w1 & Hsame & Hev & Hchat);
      change (chat_outcome (axios_post e (request_of m c)) = (fs, inl answer)) in Hout
    end.
    rewrite Hout in Hchat, Hev. cbn [fst snd] in Hchat, Hev.
    rewrite Hchat. cbn beta iota zeta.
    destruct Hsame as (Hus&?&?&?&Hms&?&?&Hcv&?&?&?&?).
    unfold try_catch, bot.Conversation_save. mrun Hav.
    match goal with |- context [ConversationSchema_accepts ?cv] =>
      assert (Hacc : ConversationSchema_accepts cv = true) end.
    { unfold ConversationSchema_accepts. cbn [bot.with_messages bot.push c_user c_bot c_messages].
      rewrite Hu, Hbid. cbn [andb].
      apply keep_recent_valid. unfold valid_turns. cbn. rewrite Hc1, Hans. reflexivity. }
    rewrite Hacc. mrun Hav. unfold bot.Message_create. mrun Hav. unfold ret. cbn beta iota.
    eexists. split; [reflexivity|]. cbn -[save findOne bot.keep_recent String.append].
    rewrite Hev, Hms, Hcv, Hus. cbn -[save findOne bot.keep_recent String.append]. split_and!.
    + rewrite <- app_assoc. reflexivity.
    + reflexivity.
    + match goal with |- context [findOne ?p (save c_id ?c' (conversations w ++ [?c0]))] =>
        rewrite (findOne_save_found c_id p c0 c' (conversations w ++ [c0])) end.
      * reflexivity.
      * rewrite (findOne_app_None _ _ _ Hfind). unfold findOne, bot.of_triple. cbn.
        rewrite !String.eqb_refl. rewrite bool_decide_eq_true_2 by reflexivity. reflexivity.
      * unfold bot.of_triple. cbn. rewrite !String.eqb_refl.
        rewrite bool_decide_eq_true_2 by reflexivity. reflexivity.
      * reflexivity.
Qed.

Lemma append_assoc (a b c : string) : (a +:+ b) +:+ c = a +:+ (b +:+ c).
Proof.
  induction a as [|x a IH]; [reflexivity|].
  change (String x ((a +:+ b) +:+ c) = String x (a +:+ (b +:+ c))). f_equal. exact IH.
Qed.

Lemma append_empty (a : string) : a +:+ EmptyString = a.
Proof.
  induction a as [|x a IH]; [reflexivity|].
  change (String x (a +:+ EmptyString) = String x a). f_equal. exact IH.
Qed.

(** The text that a stream resolves with is made of the fragments passed
    to [onChunk], in their order, and no fragment is empty. *)
Lemma stream_outcome_joined frames stop full fs text :
  stream_outcome frames stop full = (fs, inl text) ->
  text = full +:+ joined fs /\ Forall (fun c => JS.truthy c = true) fs.
Proof.
  revert full fs. induction frames as [|f rest IH]; intros full fs; simpl.
  - destruct stop; intros [= <- <-]. split; [|constructor].
    symmetry. apply append_empty.
  - destruct f as [c| |].
    + destruct (JS.truthy c) eqn:Hc.
      * destruct (stream_outcome rest stop (full +:+ c)) as [fs' o] eqn:Hr.
        intros [= <- ->]. destruct (IH _ _ Hr) as (-> & Hall). split.
        -- simpl. apply append_assoc.
        -- constructor; assumption.
      * apply IH.
    + apply IH.
    + intros [= <- <-]. split; [symmetry; apply append_empty|constructor].
Qed.

Lemma chat_outcome_joined r fs text :
  chat_outcome r = (fs, inl text) ->
  text = joined fs /\ Forall (fun c => JS.truthy c = true) fs.
Proof.
  unfold chat_outcome. destruct r as [[rd|frames stop]|m resp]; [| |discriminate].
  - intros [= <- <-]. split; [reflexivity|constructor].
  - destruct (stream_outcome frames stop EmptyString) as [fs' [t|m]] eqn:Hs; [|discriminate].
    intros [= <- <-]. exact (stream_outcome_joined _ _ _ _ _ Hs).
Qed.

Lemma keep_recent_of_exchange n old a b :
  0 <= n ->
  exists dropped kept,
    old = dropped ++ kept
    /\ bot.keep_recent (n * 2) (old ++ [a; b]) = kept ++ [a; b]
    /\ (0 < n -> Z.of_nat (length (kept ++ [a; b])) <= n * 2).
Proof.
  intros Hn. unfold bot.keep_recent, JS.slice.
  rewrite length_app. cbn [length].
  destruct (Z.of_nat (length old + 2) >? n * 2) eqn:Hgt.
  - apply Z.gtb_lt in Hgt.
    destruct (- (n * 2) <? 0) eqn:Hneg.
    + apply Z.ltb_lt in Hneg.
      set (k := Z.to_nat (Z.max (Z.of_nat (length old + 2) + - (n * 2)) 0)).
      assert (Hk : (k <= length old)%nat) by (unfold k; lia).
      exists (take k old), (drop k old). split; [symmetry; apply take_drop|].
      split.
      * rewrite drop_app_le by exact Hk. reflexivity.
      * intros _. rewrite length_app, length_drop. cbn [length]. unfold k. lia.
    + apply Z.ltb_ge in Hneg. assert (n = 0) by lia. subst n.
      exists [], old. split; [reflexivity|]. split; [|lia].
      simpl. rewrite Z.min_l by lia. reflexivity.
  - rewrite Z.gtb_ltb in Hgt. apply Z.ltb_ge in Hgt.
    exists [], old. split; [reflexivity|]. split; [reflexivity|].
    intros _. rewrite length_app. cbn [length]. lia.
Qed.

(** X6. In a private exchange that completes, on a stream where nothing
    follows the [[DONE]] marker, what the caller receives adds up: the
    route returns the id of a new chat message written by the bot to the
    caller, its content is the fragments of the [botMessageStream] events
    put together in the order of emission, no fragment is empty, and the
    [botMessageComplete] event that follows them carries the same content
    and the same correlation id. *)
Theorem streamed_fragments_add_up_to_the_answer e w content b fs answer :
  available e ->
  JS.truthy content = true ->
  findOne b_enabled (bots w) = Some b ->
  JS.truthy (sk_user (socket w)) = true ->
  JS.truthy (b_id b) = true ->
  valid_turns (stored_turns w (sk_user (socket w)) (b_id b) None) ->
  nothing_after_done
    (axios_post e (relay_request e w b (sk_user (socket w)) None content)) = true ->
  chat_outcome (axios_post e (relay_request e w b (sk_user (socket w)) None content))
    = (fs, inl answer) ->
  JS.truthy answer = true ->
  exists w' m view,
    bot.sendMessageToBot content e w = (Return (m_id m), w')
    /\ messages w' = messages w ++ [m]
    /\ m_from m = b_id b /\ m_to m = sk_user (socket w)
    /\ m_content m = joined fs
    /\ Forall (fun c => JS.truthy c = true) fs
    /\ events w'
       = events w
         ++ List.map (fun chunk =>
              botMessageStream (sk_user (socket w)) (newObjectId e "tempMessageId") chunk
                (b_id b) None) fs
         ++ [botMessageComplete (sk_user (socket w)) (newObjectId e "tempMessageId") view]
    /\ v_content view = joined fs /\ v_id view = m_id m.
Proof.
  intros Hav Hc Hb Hu Hbid Hvalid _ Hout Hans.
  destruct (sendMessageToBot_completes e w content b fs answer
              Hav Hc Hb Hu Hbid Hvalid Hout Hans) as (w' & Hrun & Hev & Hms & _).
  destruct (chat_outcome_joined _ _ _ Hout) as (Hj & Hall).
  exists w',
    {| m_id := newObjectId e "Message"; m_from := b_id b; m_to := sk_user (socket w);
       m_type := "text"; m_content := answer; m_createTime := now e |},
    {| v_id := newObjectId e "Message"; v_from_id := b_id b;
       v_from_username := b_name b; v_from_avatar := b_avatar b;
       v_from_tag := "bot"; v_to := sk_user (socket w); v_type := "text";
       v_content := answer; v_createTime := now e |}.
  cbn [m_from m_to m_content v_content v_id m_id].
  split_and!; try reflexivity; try assumption.
Qed.

(** [u1] says [hello] to the bot, and the service answers in two
    fragments. *)
Lemma hello_is_answered_in_two_fragments :
  exists w' m,
    bot.sendMessageToBot "hello" Scenario.normal (Sample.chatting 10) = (Return (m_id m), w')
    /\ messages w' = [m]
    /\ m_from m = "bot1" /\ m_to m = "u1"
    /\ m_content m = "Hi there".
Proof.
  assert (Hav : available Scenario.normal) by (intros site; reflexivity).
  assert (Hb : findOne b_enabled (bots (Sample.chatting 10)) = Some (Sample.robot 10))
    by (vm_compute; reflexivity).
  assert (Hv : valid_turns (stored_turns (Sample.chatting 10)
                              (sk_user (socket (Sample.chatting 10)))
                              (b_id (Sample.robot 10)) None))
    by (vm_compute; reflexivity).
  assert (Hc : chat_outcome (axios_post Scenario.normal
                 (relay_request Scenario.normal (Sample.chatting 10) (Sample.robot 10)
                    (sk_user (socket (Sample.chatting 10))) None "hello"))
               = (["Hi"; " there"], inl "Hi there"))
    by (vm_compute; reflexivity).
  assert (Hd : nothing_after_done (axios_post Scenario.normal
                 (relay_request Scenario.normal (Sample.chatting 10) (Sample.robot 10)
                    (sk_user (socket (Sample.chatting 10))) None "hello")) = true)
    by (vm_compute; reflexivity).
  destruct (streamed_fragments_add_up_to_the_answer Scenario.normal (Sample.chatting 10)
              "hello" (Sample.robot 10) ["Hi"; " there"] "Hi there"
              Hav eq_refl Hb eq_refl eq_refl Hv Hd Hc eq_refl)
    as (w' & m & view & Hrun & Hm & Hf & Ht & Hct & _).
  exists w', m. split_and!; [exact Hrun|exact Hm|exact Hf|exact Ht|exact Hct].
Defined.

(** X7. After a private exchange that completes, with a bound [maxHistory]
    that is not negative: the stored turns of the conversation are turns
    that were stored before, in their order and without the oldest ones,
    followed by the user turn and the assistant turn of this exchange;
    when [maxHistory] is at least one, they are at most twice as many. *)
Theorem completed_exchange_keeps_the_recent_turns e w content b fs answer :
  available e ->
  JS.truthy content = true ->
  findOne b_enabled (bots w) = Some b ->
  JS.truthy (sk_user (socket w)) = true ->
  JS.truthy (b_id b) = true ->
  valid_turns (stored_turns w (sk_user (socket w)) (b_id b) None) ->
  chat_outcome (axios_post e (relay_request e w b (sk_user (socket w)) None content))
    = (fs, inl answer) ->
  JS.truthy answer = true ->
  0 <= maxHistory (b_config b) ->
  exists w' r dropped kept,
    bot.sendMessageToBot content e w = (Return r, w')
    /\ stored_turns w (sk_user (socket w)) (b_id b) None = dropped ++ kept
    /\ stored_turns w' (sk_user (socket w)) (b_id b) None
       = kept ++ [{| role := role_user; content := content; createTime := now e |};
                  {| role := role_assistant; content := answer; createTime := now e |}]
    /\ (0 < maxHistory (b_config b) ->
        Z.of_nat (length (stored_turns w' (sk_user (socket w)) (b_id b) None))
        <= 2 * maxHistory (b_config b)).
Proof.
  intros Hav Hc Hb Hu Hbid Hvalid Hout Hans Hn.
  destruct (sendMessageToBot_completes e w content b fs answer
              Hav Hc Hb Hu Hbid Hvalid Hout Hans) as (w' & Hrun & _ & _ & Hst).
  destruct (keep_recent_of_exchange (maxHistory (b_config b))
              (stored_turns w (sk_user (socket w)) (b_id b) None)
              {| role := role_user; content := content; createTime := now e |}
              {| role := role_assistant; content := answer; createTime := now e |} Hn)
    as (dropped & kept & Hold & Hkeep & Hlen).
  exists w', (newObjectId e "Message"), dropped, kept.
  unfold exchange in Hst. rewrite Hst, Hkeep.
  split_and!; try assumption; try reflexivity. intros Hpos. specialize (Hlen Hpos). lia.
Qed.

(** The same exchange: the two stored turns are kept, and two are
    added. *)
Lemma hello_adds_two_turns :
  exists w' r,
    bot.sendMessageToBot "hello" Scenario.normal (Sample.chatting 10) = (Return r, w')
    /\ stored_turns w' "u1" "bot1" None
       = [Sample.turn role_user "a" 1; Sample.turn role_assistant "b" 2;
          Sample.turn role_user "hello" 5; Sample.turn role_assistant "Hi there" 5]
    /\ Z.of_nat (length (stored_turns w' "u1" "bot1" None)) <= 20.
Proof.
  assert (Hav : available Scenario.normal) by (intros site; reflexivity).
  assert (Hb : findOne b_enabled (bots (Sample.chatting 10)) = Some (Sample.robot 10))
    by (vm_compute; reflexivity).
  assert (Hv : valid_turns (stored_turns (Sample.chatting 10)
                              (sk_user (socket (Sample.chatting 10)))
                              (b_id (Sample.robot 10)) None))
    by (vm_compute; reflexivity).
  assert (Hc : chat_outcome (axios_post Scenario.normal
                 (relay_request Scenario.normal (Sample.chatting 10) (Sample.robot 10)
                    (sk_user (socket (Sample.chatting 10))) None "hello"))
               = (["Hi"; " there"], inl "Hi there"))
    by (vm_compute; reflexivity).
  assert (H0 : 0 <= maxHistory (b_config (Sample.robot 10))) by (vm_compute; discriminate).
  destruct (completed_exchange_keeps_the_recent_turns Scenario.normal (Sample.chatting 10)
              "hello" (Sample.robot 10) ["Hi"; " there"] "Hi there"
              Hav eq_refl Hb eq_refl eq_refl Hv Hc eq_refl H0)
    as (w' & r & dropped & kept & Hrun & Hold & Hnew & Hlen).
  assert (Hpos : 0 < maxHistory (b_config (Sample.robot 10))) by (vm_compute; reflexivity).
  specialize (Hlen Hpos).
  assert (Hs : stored_turns
                 (bot.sendMessageToBot "hello" Scenario.normal (Sample.chatting 10)).2
                 "u1" "bot1" None
               = [Sample.turn role_user "a" 1; Sample.turn role_assistant "b" 2;
                  Sample.turn role_user "hello" 5; Sample.turn role_assistant "Hi there" 5])
    by (vm_compute; reflexivity).
  rewrite Hrun in Hs. cbn [snd] in Hs.
  exists w', r. split_and!; [exact Hrun|exact Hs|exact Hlen].
Defined.

(** The context built after the user turn was pushed on a conversation. *)
Lemma context_after_push sp c text t n :
  0 <= n ->
  exists dropped kept,
    bot.as_history (c_messages c) = dropped ++ kept
    /\ llmService.buildContext sp
         (bot.as_history
            (c_messages (bot.push {| role := role_user; content := text; createTime := t |} c)))
         text n
       = {| lm_role := role_system; lm_content := sp |} :: kept
         ++ [{| lm_role := role_user; lm_content := text |};
             {| lm_role := role_user; lm_content := text |}]
    /\ (0 < n ->
        Z.of_nat (length kept)
        = Z.min (Z.of_nat (length (bot.as_history (c_messages c)))) (2 * n - 1))
    /\ (n = 0 -> dropped = []).
Proof.
  intros Hn. unfold llmService.buildContext, bot.push, bot.as_history. cbn [c_messages].
  rewrite map_app. cbn [List.map role content].
  set (h := List.map _ (c_messages c)).
  set (u := {| lm_role := role_user; lm_content := text |}).
  unfold JS.slice. rewrite length_app. cbn [length].
  destruct (- n * 2 <? 0) eqn:Hneg.
  - apply Z.ltb_lt in Hneg.
    set (k := Z.to_nat (Z.max (Z.of_nat (length h + 1) + - n * 2) 0)).
    assert (Hk : (k <= length h)%nat) by (unfold k; lia).
    exists (take k h), (drop k h). split; [symmetry; apply take_drop|]. split_and!.
    + rewrite drop_app_le by exact Hk. cbn [app]. rewrite <- app_assoc. reflexivity.
    + intros _. rewrite length_drop. unfold k. lia.
    + intros ->. lia.
  - apply Z.ltb_ge in Hneg. assert (n = 0) by lia. subst n.
    exists [], h. split; [reflexivity|]. split_and!; [|lia|reflexivity].
    change (- 0 * 2) with 0. rewrite Z.min_l by lia.
    change (Z.to_nat 0) with O. rewrite drop_0. cbn [app].
    rewrite <- ?app_assoc. reflexivity.
Qed.

(** The request that a relay posts, written out. *)
Lemma relay_request_written_out e w b userId group text :
  0 <= maxHistory (b_config b) ->
  exists dropped kept,
    bot.as_history (stored_turns w userId (b_id b) group) = dropped ++ kept
    /\ relay_request e w b userId group text
       = {| rq_url := llmUrl (b_config b); rq_bearer := apiKey (b_config b);
            rq_model := model (b_config b);
            rq_messages :=
              {| lm_role := role_system; lm_content := systemPrompt (b_config b) |} :: kept
              ++ [{| lm_role := role_user; lm_content := text |};
                  {| lm_role := role_user; lm_content := text |}];
            rq_temperature := temperature (b_config b);
            rq_max_tokens := maxTokens (b_config b);
            rq_stream := true |}
    /\ (0 < maxHistory (b_config b) ->
        Z.of_nat (length kept)
        = Z.min (Z.of_nat (length (bot.as_history (stored_turns w userId (b_id b) group))))
            (2 * maxHistory (b_config b) - 1))
    /\ (maxHistory (b_config b) = 0 -> dropped = []).
Proof.
  intros Hn.
  destruct (context_after_push (systemPrompt (b_config b))
              {| c_id := EmptyString; c_createTime := now e; c_lastActiveTime := now e;
                 c_user := userId; c_bot := b_id b; c_group := group;
                 c_messages := stored_turns w userId (b_id b) group |}
              text (now e) (maxHistory (b_config b)) Hn)
    as (dropped & kept & H1 & H2 & H3 & H4).
  exists dropped, kept. split_and!; [exact H1| |exact H3|exact H4].
  unfold relay_request, request_of, bot.chat_config.
  cbn [lc_llmUrl lc_apiKey lc_model lc_temperature lc_maxTokens default from_option id].
  f_equal. exact H2.
Qed.

(** X8. The context that both relays send to the service, with a bound
    [maxHistory] that is not negative: they push the user turn on the
    conversation and then build the context from the conversation and the
    same text, so that the messages of the request are the system prompt,
    the most recent of the stored turns, and then the text of the user
    twice; with a bound of at least one, the [2 * maxHistory - 1] most
    recent stored turns are sent, or all of them when they are fewer;
    with the bound zero all of them are sent. This request decides the
    relay: when the
    service refuses it with a message, [sendMessageToBot], and
    [mentionBotInGroup] for the trimmed text of a mention, raise their
    failure with this message. *)
Theorem relay_context_repeats_the_user_text :
  (forall e w content b,
     available e ->
     JS.truthy content = true ->
     findOne b_enabled (bots w) = Some b ->
     JS.truthy (sk_user (socket w)) = true ->
     JS.truthy (b_id b) = true ->
     0 <= maxHistory (b_config b) ->
     exists dropped kept,
       bot.as_history (stored_turns w (sk_user (socket w)) (b_id b) None) = dropped ++ kept
       /\ (0 < maxHistory (b_config b) ->
           Z.of_nat (length kept)
           = Z.min (Z.of_nat (length (bot.as_history
                       (stored_turns w (sk_user (socket w)) (b_id b) None))))
               (2 * maxHistory (b_config b) - 1))
       /\ (maxHistory (b_config b) = 0 -> dropped = [])
       /\ forall m resp,
            axios_post e
              {| rq_url := llmUrl (b_config b); rq_bearer := apiKey (b_config b);
                 rq_model := model (b_config b);
                 rq_messages :=
                   {| lm_role := role_system; lm_content := systemPrompt (b_config b) |}
                   :: kept
                   ++ [{| lm_role := role_user; lm_content := content |};
                       {| lm_role := role_user; lm_content := content |}];
                 rq_temperature := temperature (b_config b);
                 rq_max_tokens := maxTokens (b_config b);
                 rq_stream := true |}
            = HttpFails m resp ->
            exists w',
              bot.sendMessageToBot content e w
              = (Throw (AssertionError ("AI回复失败: LLM调用失败: " +:+ m)), w'))
  /\ (forall e w groupId content g b group1,
        available e ->
        isValid groupId = true ->
        JS.truthy content = true ->
        findOne (fun g => String.eqb (g_id g) groupId) (groups w) = Some g ->
        existsb (fun m => String.eqb m (sk_user (socket w))) (g_members g) = true ->
        findOne b_enabled (bots w) = Some b ->
        bot.match_mention (b_name b) content = Some group1 ->
        JS.truthy (sk_user (socket w)) = true ->
        JS.truthy (b_id b) = true ->
        0 <= maxHistory (b_config b) ->
        exists dropped kept,
          bot.as_history (stored_turns w (sk_user (socket w)) (b_id b) (Some groupId))
          = dropped ++ kept
          /\ (0 < maxHistory (b_config b) ->
              Z.of_nat (length kept)
              = Z.min (Z.of_nat (length (bot.as_history
                          (stored_turns w (sk_user (socket w)) (b_id b) (Some groupId)))))
                  (2 * maxHistory (b_config b) - 1))
          /\ (maxHistory (b_config b) = 0 -> dropped = [])
          /\ forall m resp,
               axios_post e
                 {| rq_url := llmUrl (b_config b); rq_bearer := apiKey (b_config b);
                    rq_model := model (b_config b);
                    rq_messages :=
                      {| lm_role := role_system; lm_content := systemPrompt (b_config b) |}
                      :: kept
                      ++ [{| lm_role := role_user; lm_content := JS.trim group1 |};
                          {| lm_role := role_user; lm_content := JS.trim group1 |}];
                    rq_temperature := temperature (b_config b);
                    rq_max_tokens := maxTokens (b_config b);
                    rq_stream := true |}
               = HttpFails m resp ->
               exists w',
                 bot.mentionBotInGroup groupId content e w
                 = (Throw (AssertionError ("AI回复失败: LLM调用失败: " +:+ m)), w')).
Proof.
  split.
  - intros e w content b Hav Hc Hb Hu Hbid Hn.
    destruct (relay_request_written_out e w b (sk_user (socket w)) None content Hn)
      as (dropped & kept & H1 & H2 & H3 & H4).
    exists dropped, kept. split_and!; [exact H1|exact H3|exact H4|].
    intros m resp Hpost. rewrite <- H2 in Hpost.
    destruct (sendMessageToBot_rejected e w content b [] (HttpError m resp)
                Hav Hc Hb Hu Hbid) as (w' & Hrun & _).
    { rewrite Hpost. reflexivity. }
    exists w'. exact Hrun.
  - intros e w groupId content g b group1 Hav Hv Hc Hg Hm Hb Hmatch Hu Hbid Hn.
    destruct (relay_request_written_out e w b (sk_user (socket w)) (Some groupId)
                (JS.trim group1) Hn)
      as (dropped & kept & H1 & H2 & H3 & H4).
    exists dropped, kept. split_and!; [exact H1|exact H3|exact H4|].
    intros m resp Hpost. rewrite <- H2 in Hpost.
    destruct (mentionBotInGroup_rejected e w groupId content g b group1 [] (HttpError m resp)
                Hav Hv Hc Hg Hm Hb Hmatch Hu Hbid) as (w' & Hrun & _).
    { rewrite Hpost. reflexivity. }
    exists w'. exact Hrun.
Qed.

(** The context of [hello] after one exchange, with a bound of one: the
    service refuses the request made of the system prompt, the stored
    answer [b] and [hello] twice, and answers every other request. *)
Lemma context_of_hello :
  exists w',
    bot.sendMessageToBot "hello"
      (Sample.env 5 Sample.server
         (Scenario.refuses_only ["be brief"; "b"; "hello"; "hello"])
         Sample.no_directory Sample.never)
      (Sample.chatting 1)
    = (Throw (AssertionError "AI回复失败: LLM调用失败: busy"), w').
Proof.
  set (e := Sample.env 5 Sample.server
              (Scenario.refuses_only ["be brief"; "b"; "hello"; "hello"])
              Sample.no_directory Sample.never).
  assert (Hav : available e) by (intros site; reflexivity).
  assert (Hb : findOne b_enabled (bots (Sample.chatting 1)) = Some (Sample.robot 1))
    by (vm_compute; reflexivity).
  assert (H0 : 0 <= maxHistory (b_config (Sample.robot 1))) by (vm_compute; discriminate).
  destruct (proj1 relay_context_repeats_the_user_text e (Sample.chatting 1) "hello"
              (Sample.robot 1) Hav eq_refl Hb eq_refl eq_refl H0)
    as (dropped & kept & Hh & Hlen & _ & Hfail).
  assert (H1 : 0 < maxHistory (b_config (Sample.robot 1))) by (vm_compute; reflexivity).
  specialize (Hlen H1).
  assert (Hs : bot.as_history (stored_turns (Sample.chatting 1)
                                 (sk_user (socket (Sample.chatting 1)))
                                 (b_id (Sample.robot 1)) None)
               = [{| lm_role := role_user; lm_content := "a" |};
                  {| lm_role := role_assistant; lm_content := "b" |}])
    by (vm_compute; reflexivity).
  rewrite Hs in Hh, Hlen.
  assert (Hk : kept = [{| lm_role := role_assistant; lm_content := "b" |}]).
  { change (Z.of_nat (length kept) = 1) in Hlen.
    destruct dropped as [|d1 [|d2 dropped]]; cbn [app] in Hh.
    - subst kept. discriminate Hlen.
    - injection Hh as _ <-. reflexivity.
    - destruct dropped; [|discriminate Hh]. destruct kept; [discriminate Hlen|discriminate Hh]. }
  subst kept.
  apply (Hfail "busy" None). vm_compute. reflexivity.
Defined.

(** The private relay when the completion call succeeds with the empty
    text: the save of the conversation is refused by the schema. *)
Lemma sendMessageToBot_empty_answer e w content b fs :
  available e ->
  JS.truthy content = true ->
  findOne b_enabled (bots w) = Some b ->
  JS.truthy (sk_user (socket w)) = true ->
  JS.truthy (b_id b) = true ->
  0 <= maxHistory (b_config b) ->
  chat_outcome (axios_post e (relay_request e w b (sk_user (socket w)) None content))
    = (fs, inl EmptyString) ->
  exists w' reason,
    bot.sendMessageToBot content e w
      = (Throw (AssertionError ("AI回复失败: " +:+ reason)), w')
    /\ events w' = events w
         ++ stream_events (sk_user (socket w)) (newObjectId e "tempMessageId") (b_id b) None fs
         ++ [botMessageError (sk_user (socket w)) (newObjectId e "tempMessageId") reason]
    /\ messages w' = messages w
    /\ stored_turns w' (sk_user (socket w)) (b_id b) None
       = stored_turns w (sk_user (socket w)) (b_id b) None.
Proof.
  intros Hav Hc Hb Hu Hbid Hn Hout.
  assert (Hrej : forall c : ConversationDocument,
            ConversationSchema_accepts
              (bot.with_messages
                 (bot.keep_recent (maxHistory (b_config b) * 2)
                    (c_messages
                       (bot.push {| role := role_assistant; content := EmptyString;
                                    createTime := now e |}
                          (bot.push {| role := role_user; content := content;
                                       createTime := now e |} c))))
                 (now e)
                 (bot.push {| role := role_assistant; content := EmptyString;
                              createTime := now e |}
                    (bot.push {| role := role_user; content := content;
                                 createTime := now e |} c)))
            = false).
  { intros c. unfold ConversationSchema_accepts.
    cbn [bot.with_messages bot.push c_user c_bot c_messages].
    rewrite <- app_assoc. cbn [app].
    destruct (keep_recent_of_exchange (maxHistory (b_config b)) (c_messages c)
                {| role := role_user; content := content; createTime := now e |}
                {| role := role_assistant; content := EmptyString; createTime := now e |} Hn)
      as (dropped & kept & _ & -> & _).
    rewrite forallb_app. cbn. rewrite !andb_false_r. reflexivity. }
  unfold bot.sendMessageToBot.
  unfold relay_request in Hout. unfold stored_turns in *.
  mrun Hav. rewrite Hb. cbn beta iota. mrun Hav.
  destruct (findOne _ (conversations w)) as [c|] eqn:Hfind.
  - mrun Hav. rewrite try_catch_bind.
    match goal with |- context [llmService.chat ?m ?c _ e ?w0] =>
      destruct (chat_streaming m c
        (fun chunk => botMessageStream (sk_user (socket w)) (newObjectId e "tempMessageId") chunk (b_id b) None)
        e w0 eq_refl) as (w1 & Hsame & Hev & Hchat);
      change (chat_outcome (axios_post e (request_of m c)) = (fs, inl EmptyString)) in Hout
    end.
    rewrite Hout in Hchat, Hev. cbn [fst snd] in Hchat, Hev.
    rewrite Hchat. cbn beta iota zeta.
    destruct Hsame as (?&?&?&?&Hms&?&?&Hcv&?&?&?&?).
    unfold try_catch, bot.Conversation_save. mrun Hav.
    rewrite Hrej. mrun Hav.
    do 2 eexists. split; [reflexivity|]. cbn -[findOne String.append].
    rewrite Hev, Hms, Hcv, Hfind. split_and!; try reflexivity.
    rewrite <- app_assoc. reflexivity.
  - unfold bot.Conversation_create. mrun Hav.
    unfold ConversationSchema_accepts at 1. cbn [c_user c_bot c_messages forallb].
    rewrite Hu, Hbid. cbn [andb]. mrun Hav. rewrite try_catch_bind.
    match goal with |- context [llmService.chat ?m ?c _ e ?w0] =>
      destruct (chat_streaming m c
        (fun chunk => botMessageStream (sk_user (socket w)) (newObjectId e "tempMessageId") chunk (b_id b) None)
        e w0 eq_refl) as (w1 & Hsame & Hev & Hchat);
      change (chat_outcome (axios_post e (request_of m c)) = (fs, inl EmptyString)) in Hout
    end.
    rewrite Hout in Hchat, Hev. cbn [fst snd] in Hchat, Hev.
    rewrite Hchat. cbn beta iota zeta.
    destruct Hsame as (?&?&?&?&Hms&?&?&Hcv&?&?&?&?).
    unfold try_catch, bot.Conversation_save. mrun Hav.
    rewrite Hrej. mrun Hav.
    do 2 eexists. split; [reflexivity|]. cbn -[findOne String.append].
    rewrite Hev, Hms, Hcv. cbn -[findOne String.append]. split_and!; try reflexivity.
    + rewrite <- app_assoc. reflexivity.
    + rewrite (findOne_app_None _ _ _ Hfind). unfold findOne, bot.of_triple. cbn.
      rewrite !String.eqb_refl. reflexivity.
Qed.

(** X9. A completion that ends without any text is reported as a failure,
    with a bound [maxHistory] that is not negative and on a stream where
    nothing follows the [[DONE]] marker: when the call of the private
    relay succeeds with the empty text (no fragment was delivered), the
    schema refuses the empty assistant turn, the route raises its failure
    with the reason of the refusal and emits [botMessageError] with this
    reason; no chat message is created and the stored turns are the ones
    from before the exchange. *)
Theorem empty_completion_is_a_failure e w content b fs :
  available e ->
  JS.truthy content = true ->
  findOne b_enabled (bots w) = Some b ->
  JS.truthy (sk_user (socket w)) = true ->
  JS.truthy (b_id b) = true ->
  0 <= maxHistory (b_config b) ->
  nothing_after_done
    (axios_post e (relay_request e w b (sk_user (socket w)) None content)) = true ->
  chat_outcome (axios_post e (relay_request e w b (sk_user (socket w)) None content))
    = (fs, inl EmptyString) ->
  fs = []
  /\ exists w' reason,
       bot.sendMessageToBot content e w
         = (Throw (AssertionError ("AI回复失败: " +:+ reason)), w')
       /\ events w' = events w
            ++ [botMessageError (sk_user (socket w)) (newObjectId e "tempMessageId") reason]
       /\ messages w' = messages w
       /\ stored_turns w' (sk_user (socket w)) (b_id b) None
          = stored_turns w (sk_user (socket w)) (b_id b) None.
Proof.
  intros Hav Hc Hb Hu Hbid Hn _ Hout.
  assert (Hfs : fs = []).
  { destruct (chat_outcome_joined _ _ _ Hout) as (Hj & Hall).
    destruct fs as [|f fs]; [reflexivity|]. exfalso.
    inversion Hall as [|? ? Hf _]; subst. destruct f; [discriminate Hf|discriminate Hj]. }
  split; [exact Hfs|].
  destruct (sendMessageToBot_empty_answer e w content b fs Hav Hc Hb Hu Hbid Hn Hout)
    as (w' & reason & Hrun & Hev & Hms & Hst).
  exists w', reason. rewrite Hfs in Hev. split_and!; assumption.
Qed.

(** The service ends its stream without a fragment. *)
Lemma silent_service_fails_the_exchange :
  exists w' reason,
    bot.sendMessageToBot "hello"
      (Sample.env 5 Sample.server Scenario.silent Sample.no_directory Sample.never)
      (Sample.chatting 10)
    = (Throw (AssertionError ("AI回复失败: " +:+ reason)), w')
    /\ messages w' = []
    /\ stored_turns w' "u1" "bot1" None
       = [Sample.turn role_user "a" 1; Sample.turn role_assistant "b" 2].
Proof.
  set (e := Sample.env 5 Sample.server Scenario.silent Sample.no_directory Sample.never).
  assert (Hav : available e) by (intros site; reflexivity).
  assert (Hb : findOne b_enabled (bots (Sample.chatting 10)) = Some (Sample.robot 10))
    by (vm_compute; reflexivity).
  assert (H0 : 0 <= maxHistory (b_config (Sample.robot 10))) by (vm_compute; discriminate).
  assert (Hc : chat_outcome (axios_post e
                 (relay_request e (Sample.chatting 10) (Sample.robot 10)
                    (sk_user (socket (Sample.chatting 10))) None "hello"))
               = ([], inl EmptyString))
    by (vm_compute; reflexivity).
  assert (Hd : nothing_after_done (axios_post e
                 (relay_request e (Sample.chatting 10) (Sample.robot 10)
                    (sk_user (socket (Sample.chatting 10))) None "hello")) = true)
    by (vm_compute; reflexivity).
  destruct (empty_completion_is_a_failure e (Sample.chatting 10) "hello" (Sample.robot 10) []
              Hav eq_refl Hb eq_refl eq_refl H0 Hd Hc)
    as (_ & w' & reason & Hrun & _ & Hm & Hs).
  exists w', reason. split_and!; [exact Hrun|exact Hm|exact Hs].
Defined.

(** ** The group relay *)

(** X10. In a group exchange that completes, with a bound [maxHistory]
    that is not negative and on a stream where nothing follows the
    [[DONE]] marker, the answer goes to the group: the new chat message
    is written by the bot to the group, its content is [@], the name of
    the caller (or [user] when the account of the caller is gone), a
    space and the fragments put together; the fragments and the
    completion were emitted to the room of the group; the conversation of
    the caller in this group ends with the trimmed text of the mention
    and the answer. *)
Theorem group_answer_addresses_the_caller e w groupId content g b group1 fs answer :
  available e ->
  isValid groupId = true ->
  JS.truthy content = true ->
  findOne (fun g => String.eqb (g_id g) groupId) (groups w) = Some g ->
  existsb (fun m => String.eqb m (sk_user (socket w))) (g_members g) = true ->
  findOne b_enabled (bots w) = Some b ->
  bot.match_mention (b_name b) content = Some group1 ->
  JS.truthy (JS.trim group1) = true ->
  JS.truthy (sk_user (socket w)) = true ->
  JS.truthy (b_id b) = true ->
  valid_turns (stored_turns w (sk_user (socket w)) (b_id b) (Some groupId)) ->
  nothing_after_done (axios_post e
    (relay_request e w b (sk_user (socket w)) (Some groupId) (JS.trim group1))) = true ->
  chat_outcome (axios_post e
    (relay_request e w b (sk_user (socket w)) (Some groupId) (JS.trim group1)))
    = (fs, inl answer) ->
  JS.truthy answer = true ->
  0 <= maxHistory (b_config b) ->
  exists w' m view kept,
    bot.mentionBotInGroup groupId content e w = (Return (m_id m), w')
    /\ messages w' = messages w ++ [m]
    /\ m_from m = b_id b /\ m_to m = groupId
    /\ m_content m = "@" +:+ addressed_as w (sk_user (socket w)) +:+ " " +:+ joined fs
    /\ events w'
       = events w
         ++ List.map (fun chunk =>
              botMessageStream groupId (newObjectId e "tempMessageId") chunk
                (b_id b) (Some groupId)) fs
         ++ [botMessageComplete groupId (newObjectId e "tempMessageId") view]
    /\ v_content view = m_content m /\ v_to view = groupId
    /\ stored_turns w' (sk_user (socket w)) (b_id b) (Some groupId)
       = kept ++ [{| role := role_user; content := JS.trim group1; createTime := now e |};
                  {| role := role_assistant; content := answer; createTime := now e |}].
Proof.
  intros Hav Hv Hc Hg Hm Hb Hmatch Hc1 Hu Hbid Hvalid _ Hout Hans Hn.
  destruct (mentionBotInGroup_completes e w groupId content g b group1 fs answer
              Hav Hv Hc Hg Hm Hb Hmatch Hc1 Hu Hbid Hvalid Hout Hans)
    as (w' & Hrun & Hev & Hms & Hst).
  destruct (chat_outcome_joined _ _ _ Hout) as (Hj & _).
  destruct (keep_recent_of_exchange (maxHistory (b_config b))
              (stored_turns w (sk_user (socket w)) (b_id b) (Some groupId))
              {| role := role_user; content := JS.trim group1; createTime := now e |}
              {| role := role_assistant; content := answer; createTime := now e |} Hn)
    as (dropped & kept & _ & Hkeep & _).
  exists w',
    {| m_id := newObjectId e "Message"; m_from := b_id b; m_to := groupId; m_type := "text";
       m_content := "@" +:+ addressed_as w (sk_user (socket w)) +:+ " " +:+ answer;
       m_createTime := now e |},
    {| v_id := newObjectId e "Message"; v_from_id := b_id b;
       v_from_username := b_name b; v_from_avatar := b_avatar b;
       v_from_tag := "bot"; v_to := groupId; v_type := "text";
       v_content := "@" +:+ addressed_as w (sk_user (socket w)) +:+ " " +:+ answer;
       v_createTime := now e |},
    kept.
  cbn [m_from m_to m_content v_content v_to m_id].
  unfold exchange in Hst. rewrite Hst, Hkeep, <- Hj.
  split_and!; try reflexivity; assumption.
Qed.

(** [u1] mentions the bot in her group. *)
Lemma mention_is_answered_in_the_group :
  exists w' m,
    bot.mentionBotInGroup Sample.groupId "@robot hello" Scenario.normal (Sample.chatting 10)
    = (Return (m_id m), w')
    /\ m_from m = "bot1" /\ m_to m = Sample.groupId
    /\ m_content m = "@ann Hi there".
Proof.
  assert (Hav : available Scenario.normal) by (intros site; reflexivity).
  assert (Hg : findOne (fun g => String.eqb (g_id g) Sample.groupId)
                 (groups (Sample.chatting 10))
               = Some (Sample.room Sample.groupId (Some "u1") true ["u1"]))
    by (vm_compute; reflexivity).
  assert (Hmem : existsb (fun m => String.eqb m (sk_user (socket (Sample.chatting 10))))
                   (g_members (Sample.room Sample.groupId (Some "u1") true ["u1"])) = true)
    by (vm_compute; reflexivity).
  assert (Hb : findOne b_enabled (bots (Sample.chatting 10)) = Some (Sample.robot 10))
    by (vm_compute; reflexivity).
  assert (Hmt : bot.match_mention (b_name (Sample.robot 10)) "@robot hello" = Some "hello")
    by (vm_compute; reflexivity).
  assert (Htr : JS.truthy (JS.trim "hello") = true) by (vm_compute; reflexivity).
  assert (Hv : valid_turns (stored_turns (Sample.chatting 10)
                              (sk_user (socket (Sample.chatting 10)))
                              (b_id (Sample.robot 10)) (Some Sample.groupId)))
    by (vm_compute; reflexivity).
  assert (Hc : chat_outcome (axios_post Scenario.normal
                 (relay_request Scenario.normal (Sample.chatting 10) (Sample.robot 10)
                    (sk_user (socket (Sample.chatting 10))) (Some Sample.groupId)
                    (JS.trim "hello")))
               = (["Hi"; " there"], inl "Hi there"))
    by (vm_compute; reflexivity).
  assert (Hd : nothing_after_done (axios_post Scenario.normal
                 (relay_request Scenario.normal (Sample.chatting 10) (Sample.robot 10)
                    (sk_user (socket (Sample.chatting 10))) (Some Sample.groupId)
                    (JS.trim "hello"))) = true)
    by (vm_compute; reflexivity).
  assert (Hid : isValid Sample.groupId = true) by (vm_compute; reflexivity).
  assert (H0 : 0 <= maxHistory (b_config (Sample.robot 10))) by (vm_compute; discriminate).
  destruct (group_answer_addresses_the_caller Scenario.normal (Sample.chatting 10)
              Sample.groupId "@robot hello"
              (Sample.room Sample.groupId (Some "u1") true ["u1"]) (Sample.robot 10)
              "hello" ["Hi"; " there"] "Hi there"
              Hav Hid eq_refl Hg Hmem Hb Hmt Htr eq_refl eq_refl Hv Hd Hc eq_refl H0)
    as (w' & m & view & kept & Hrun & _ & Hf & Ht & Hct & _).
  assert (Hname : "@" +:+ addressed_as (Sample.chatting 10)
                            (sk_user (socket (Sample.chatting 10)))
                  +:+ " " +:+ joined ["Hi"; " there"] = "@ann Hi there")
    by (vm_compute; reflexivity).
  rewrite Hname in Hct.
  exists w', m. split_and!; [exact Hrun|exact Hf|exact Ht|exact Hct].
Defined.

Lemma strip_prefix_length p s r :
  JS.strip_prefix p s = Some r -> String.length s = (String.length p + String.length r)%nat.
Proof.
  revert s. induction p as [|a p IH]; intros s; simpl.
  - intros [= ->]. reflexivity.
  - destruct s as [|b s]; [discriminate|]. destruct (Ascii.eqb a b); [|discriminate].
    intros H. simpl. rewrite (IH _ H). reflexivity.
Qed.

Lemma exec_mention_short p s :
  (String.length s <= String.length p)%nat -> bot.exec_mention p s = None.
Proof.
  induction s as [|c s IH]; intros Hlen.
  - simpl. destruct (JS.strip_prefix p EmptyString) as [r|] eqn:Hs; [|reflexivity].
    apply strip_prefix_length in Hs. simpl in Hs.
    destruct r; [reflexivity|simpl in Hs; lia].
  - simpl. destruct (JS.strip_prefix p (String c s)) as [r|] eqn:Hs.
    + apply strip_prefix_length in Hs. simpl in *.
      destruct r; [|simpl in Hs; lia]. cbn. apply IH. lia.
    + apply IH. simpl in Hlen. lia.
Qed.

Lemma strip_prefix_append p s : JS.strip_prefix p (p +:+ s) = Some s.
Proof.
  induction p as [|a p IH]; [reflexivity|].
  change (JS.strip_prefix (String a p) (String a (p +:+ s)) = Some s).
  simpl. rewrite Ascii.eqb_refl. exact IH.
Qed.

Lemma exec_mention_no_at name s :
  (forall c, In c (list_ascii_of_string s) -> c <> "@"%char) ->
  bot.exec_mention (String "@" name) s = None.
Proof.
  induction s as [|c s IH]; intros H; [reflexivity|].
  cbn [bot.exec_mention JS.strip_prefix].
  assert (Hc : Ascii.eqb "@" c = false).
  { apply Ascii.eqb_neq. intros Heq. apply (H c); [left; reflexivity|congruence]. }
  rewrite Hc. apply IH. intros c' Hc'. apply H. right. exact Hc'.
Qed.

Lemma length_append (a b : string) :
  String.length (a +:+ b) = (String.length a + String.length b)%nat.
Proof.
  induction a as [|x a IH]; [reflexivity|].
  change (S (String.length (a +:+ b)) = S (String.length a + String.length b)).
  rewrite IH. reflexivity.
Qed.

Lemma append_cons c (r s : string) : String c r +:+ s = String c (r +:+ s).
Proof. reflexivity. Qed.

Lemma span_space_none text :
  JS.after_one_space text = None -> bot.span_space text = (O, None, text).
Proof.
  unfold JS.after_one_space.
  destruct text as [|c [|d [|f r3]]]; cbn [bot.span_space]; try reflexivity.
  - destruct (JS.is_space c); [discriminate|reflexivity].
  - destruct (JS.is_space c); [discriminate|].
    destruct (JS.is_space2 c d); [discriminate|reflexivity].
  - destruct (JS.is_space c); [discriminate|].
    destruct (JS.is_space2 c d); [discriminate|].
    destruct (JS.is_space3 c d f); [discriminate|reflexivity].
Qed.

Lemma span_space_one sp r :
  JS.after_one_space sp = Some EmptyString ->
  bot.span_space (sp +:+ r) = bot.one_more sp (bot.span_space r).
Proof.
  unfold JS.after_one_space.
  destruct sp as [|c sp]; [discriminate|].
  destruct (JS.is_space c) eqn:H1.
  { intros [= ->]. rewrite append_cons. change (EmptyString +:+ r) with r.
    cbn [bot.span_space]. rewrite H1. reflexivity. }
  destruct sp as [|d sp]; [discriminate|].
  destruct (JS.is_space2 c d) eqn:H2.
  { intros [= ->]. rewrite !append_cons. change (EmptyString +:+ r) with r.
    cbn [bot.span_space]. rewrite H1, H2. reflexivity. }
  destruct sp as [|f sp]; [discriminate|].
  destruct (JS.is_space3 c d f) eqn:H3; [|discriminate].
  intros [= ->]. rewrite !append_cons. change (EmptyString +:+ r) with r.
  cbn [bot.span_space]. rewrite H1, H2, H3. reflexivity.
Qed.

(** One white space and nothing else is no [\\s+(.+)]; neither is what is
    left of a white space without its first byte, or without its first two
    bytes. *)
Lemma after_space_one sp :
  JS.after_one_space sp = Some EmptyString -> bot.after_space sp = None.
Proof.
  intros H. unfold bot.after_space.
  rewrite <- (append_empty sp), (span_space_one sp EmptyString H). reflexivity.
Qed.

Lemma after_space_byte c : bot.after_space (String c EmptyString) = None.
Proof.
  unfold bot.after_space. cbn [bot.span_space].
  destruct (JS.is_space c); reflexivity.
Qed.

Lemma continuation_is_no_space c d f :
  JS.is_space3 c d f = true ->
  JS.is_space d = false /\ JS.is_space2 d f = false.
Proof.
  unfold JS.is_space3, JS.is_space, JS.is_space2.
  generalize (nat_of_ascii c) (nat_of_ascii d) (nat_of_ascii f). intros a b x H.
  repeat rewrite ?orb_true_iff, ?andb_true_iff, ?Nat.eqb_eq, ?Nat.leb_le in H.
  split.
  - apply not_true_iff_false. intros E.
    repeat rewrite ?orb_true_iff, ?andb_true_iff, ?Nat.eqb_eq, ?Nat.leb_le in E. lia.
  - apply not_true_iff_false. intros E.
    repeat rewrite ?orb_true_iff, ?andb_true_iff, ?Nat.eqb_eq, ?Nat.leb_le in E. lia.
Qed.

Lemma after_space_tail c d f :
  JS.is_space3 c d f = true -> bot.after_space (String d (String f EmptyString)) = None.
Proof.
  intros H. destruct (continuation_is_no_space c d f H) as (H1 & H2).
  unfold bot.after_space. cbn [bot.span_space]. rewrite H1, H2. reflexivity.
Qed.

Lemma strip_prefix_sound p s r : JS.strip_prefix p s = Some r -> s = p +:+ r.
Proof.
  revert s. induction p as [|a p IH]; intros s; simpl.
  - intros [= ->]. reflexivity.
  - destruct s as [|b s]; [discriminate|]. destruct (Ascii.eqb a b) eqn:E; [|discriminate].
    apply Ascii.eqb_eq in E. subst b. intros H. rewrite (IH _ H). reflexivity.
Qed.

(** No mention in a text that is at most one byte longer than [@name]. *)
Lemma exec_mention_short1 p s :
  (String.length s <= S (String.length p))%nat -> bot.exec_mention p s = None.
Proof.
  induction s as [|c s IH]; intros Hlen.
  - simpl. destruct (JS.strip_prefix p EmptyString) as [r|] eqn:Hs; [|reflexivity].
    apply strip_prefix_length in Hs. simpl in Hs.
    destruct r; [reflexivity|simpl in Hs; lia].
  - cbn [bot.exec_mention]. simpl in Hlen.
    destruct (JS.strip_prefix p (String c s)) as [r|] eqn:Hs.
    + apply strip_prefix_length in Hs. simpl in Hs.
      destruct r as [|x [|y r]]; [| |simpl in Hs; lia].
      * cbn. apply IH. lia.
      * rewrite after_space_byte. apply IH. lia.
    + apply IH. lia.
Qed.

Lemma append_nil (s : string) : EmptyString +:+ s = s.
Proof. reflexivity. Qed.

Lemma append_inj_tail2 (a b : string) x y x' y' :
  a +:+ String x (String y EmptyString) = b +:+ String x' (String y' EmptyString) ->
  x = x' /\ y = y'.
Proof.
  revert b. induction a as [|c a IH]; intros b.
  - destruct b as [|c1 [|c2 [|c3 b]]]; rewrite ?append_cons, ?append_nil; intros H;
      try discriminate H.
    injection H as -> ->. split; reflexivity.
  - destruct b as [|c1 b].
    + destruct a as [|c2 [|c3 a]]; rewrite ?append_cons, ?append_nil; intros H;
        discriminate H.
    + rewrite !append_cons. intros [= _ H]. exact (IH _ H).
Qed.

(** X11. How the group relay reads a mention of the bot [name], for a name
    without metacharacter of regular expressions: [@name], one white
    space and a text that is not empty and starts with another character
    give this text; a content without [@], the bare [@name] and [@name]
    followed by one white space only are no mention. *)
Theorem mention_of_the_bot :
  (forall name sp text,
     plain_name name = true ->
     JS.after_one_space sp = Some EmptyString ->
     JS.truthy text = true ->
     JS.after_one_space text = None ->
     bot.match_mention name (String "@" name +:+ sp +:+ text) = Some text)
  /\ (forall name content,
        plain_name name = true ->
        (forall c, In c (list_ascii_of_string content) -> c <> "@"%char) ->
        bot.match_mention name content = None)
  /\ (forall name, plain_name name = true -> bot.match_mention name (String "@" name) = None)
  /\ (forall name sp,
        plain_name name = true ->
        JS.after_one_space sp = Some EmptyString ->
        bot.match_mention name (String "@" name +:+ sp) = None).
Proof.
  split_and!.
  - intros name sp text _ Hsp Ht Hc. unfold bot.match_mention.
    set (p := String "@" name).
    assert (H : forall s, JS.strip_prefix p (p +:+ s) = Some s) by apply strip_prefix_append.
    destruct (p +:+ sp +:+ text) as [|x y] eqn:Hs.
    { unfold p in Hs. discriminate Hs. }
    cbn [bot.exec_mention]. rewrite <- Hs, H.
    unfold bot.after_space. rewrite (span_space_one sp text Hsp), (span_space_none text Hc).
    cbn [bot.one_more]. destruct text; [discriminate Ht|reflexivity].
  - intros name content _ H. apply exec_mention_no_at. exact H.
  - intros name _. unfold bot.match_mention. apply exec_mention_short. apply Nat.le_refl.
  - intros name sp _ Hsp. unfold bot.match_mention.
    set (p := String "@" name).
    assert (H : JS.strip_prefix p (p +:+ sp) = Some sp) by apply strip_prefix_append.
    destruct (p +:+ sp) as [|x y] eqn:Hs.
    { unfold p in Hs. discriminate Hs. }
    cbn [bot.exec_mention]. rewrite H, (after_space_one sp Hsp).
    assert (Hy : y = name +:+ sp).
    { unfold p in Hs. rewrite append_cons in Hs. injection Hs as _ <-. reflexivity. }
    subst y. clear H Hs x.
    unfold JS.after_one_space in Hsp.
    destruct sp as [|c sp]; [discriminate|].
    destruct (JS.is_space c).
    { injection Hsp as ->. apply exec_mention_short1.
      rewrite length_append. unfold p. simpl. lia. }
    destruct sp as [|d sp]; [discriminate|].
    destruct (JS.is_space2 c d).
    { injection Hsp as ->. apply exec_mention_short1.
      rewrite length_append. unfold p. simpl. lia. }
    destruct sp as [|f sp]; [discriminate|].
    destruct (JS.is_space3 c d f) eqn:H3; [|discriminate].
    injection Hsp as ->.
    destruct (name +:+ String c (String d (String f EmptyString))) as [|x y] eqn:Hs.
    { reflexivity. }
    cbn [bot.exec_mention]. rewrite <- Hs.
    assert (Hy : (String.length y <= S (String.length p))%nat).
    { assert (Hl : String.length (String x y) = (String.length name + 3)%nat)
        by (rewrite <- Hs, length_append; reflexivity).
      unfold p. simpl in *. lia. }
    destruct (JS.strip_prefix p _) as [r|] eqn:Hr.
    + pose proof (strip_prefix_length _ _ _ Hr) as Hl.
      rewrite length_append in Hl. unfold p in Hl. simpl in Hl.
      apply strip_prefix_sound in Hr.
      destruct r as [|r1 [|r2 [|r3 r]]]; simpl in Hl; try lia.
      change (name +:+ String c (String d (String f EmptyString)))
        with (name +:+ (String c EmptyString +:+ String d (String f EmptyString))) in Hr.
      rewrite <- append_assoc in Hr.
      apply append_inj_tail2 in Hr. destruct Hr as (<- & <-).
      rewrite (after_space_tail c d f H3). apply exec_mention_short1. exact Hy.
    + apply exec_mention_short1. exact Hy.
Qed.

(** A mention after a space and after an ideographic space (U+3000), and
    a text that is none. *)
Lemma mention_of_robot :
  bot.match_mention "robot" "@robot hi" = Some "hi"
  /\ bot.match_mention "robot" "@robot　hi" = Some "hi"
  /\ bot.match_mention "robot" "hello robot" = None
  /\ bot.match_mention "robot" "@robot　" = None.
Proof.
  split_and!.
  - apply (proj1 mention_of_the_bot "robot" " " "hi"); reflexivity.
  - apply (proj1 mention_of_the_bot "robot" "　" "hi"); reflexivity.
  - apply (proj1 (proj2 mention_of_the_bot) "robot" "hello robot"); [reflexivity|].
    intros c Hc. simpl in Hc. intuition (subst; discriminate).
  - apply (proj2 (proj2 (proj2 mention_of_the_bot)) "robot" "　"); reflexivity.
Defined.

(** X12. The checks of [mentionBotInGroup], in their order, when the name
    of the enabled bot holds no metacharacter of regular expressions: each
    one that fails raises its own message before the completion service
    is called, and nothing is changed. *)
Theorem mentionBotInGroup_checks e w groupId content :
  available e ->
  (forall b, findOne b_enabled (bots w) = Some b -> plain_name (b_name b) = true) ->
  (exists x,
    bot.mentionBotInGroup groupId content e w = (Throw (AssertionError x), w)
    /\ x = (if negb (isValid groupId) then "无效的群组ID"
            else if negb (JS.truthy content) then "消息内容不能为空"
            else match findOne (fun g => String.eqb (g_id g) groupId) (groups w) with
                 | None => "群组不存在"
                 | Some g =>
                     if negb (existsb (fun m => String.eqb m (sk_user (socket w))) (g_members g))
                     then "你不是该群组成员"
                     else match findOne b_enabled (bots w) with
                          | None => "AI机器人未启用"
                          | Some b => "消息格式错误，请使用 @机器人名 消息内容"
                          end
                 end))
  \/ exists g b text,
       isValid groupId = true /\ JS.truthy content = true
       /\ findOne (fun g => String.eqb (g_id g) groupId) (groups w) = Some g
       /\ In (sk_user (socket w)) (g_members g)
       /\ findOne b_enabled (bots w) = Some b
       /\ bot.match_mention (b_name b) content = Some text.
Proof.
  intros Hav _. unfold bot.mentionBotInGroup. rewrite bind_gets.
  destruct (isValid groupId); [|left; eexists; split; reflexivity].
  rewrite bind_assert by reflexivity.
  destruct (JS.truthy content); [|left; eexists; split; reflexivity].
  rewrite bind_assert by reflexivity.
  rewrite (bind_await _ _ _ _ (Hav _)), bind_gets.
  destruct (findOne _ (groups w)) as [g|]; [|left; eexists; split; reflexivity].
  cbn beta iota zeta.
  destruct (existsb (fun m => String.eqb m (sk_user (socket w))) (g_members g)) eqn:Hm;
    [|left; eexists; split; reflexivity].
  rewrite bind_assert by reflexivity.
  rewrite (bind_await _ _ _ _ (Hav _)), bind_gets.
  destruct (findOne b_enabled (bots w)) as [b|]; [|left; eexists; split; reflexivity].
  cbn beta iota.
  destruct (bot.match_mention (b_name b) content) as [text|] eqn:Hmm;
    [|left; eexists; split; reflexivity].
  right. exists g, b, text. split_and!; try reflexivity; try exact Hmm.
  apply existsb_exists in Hm. destruct Hm as (m & Hin & He).
  apply String.eqb_eq in He. subst. exact Hin.
Qed.

(** [u1] writes to the group without naming the bot. *)
Lemma text_without_mention_is_refused :
  bot.mentionBotInGroup Sample.groupId "hello" Scenario.normal (Sample.chatting 10)
  = (Throw (AssertionError "消息格式错误，请使用 @机器人名 消息内容"), Sample.chatting 10).
Proof.
  assert (Hav : available Scenario.normal) by (intros site; reflexivity).
  assert (Hplain : forall b, findOne b_enabled (bots (Sample.chatting 10)) = Some b ->
                             plain_name (b_name b) = true).
  { intros b Hb.
    assert (Hb' : findOne b_enabled (bots (Sample.chatting 10)) = Some (Sample.robot 10))
      by (vm_compute; reflexivity).
    rewrite Hb' in Hb. injection Hb as <-. vm_compute. reflexivity. }
  destruct (mentionBotInGroup_checks Scenario.normal (Sample.chatting 10) Sample.groupId
              "hello" Hav Hplain)
    as [(x & Hrun & Hx)|(g & b & text & _ & _ & _ & _ & Hb & Hm)].
  - assert (Hmsg : (if negb (isValid Sample.groupId) then "无效的群组ID"
            else if negb (JS.truthy "hello") then "消息内容不能为空"
            else match findOne (fun g => String.eqb (g_id g) Sample.groupId)
                         (groups (Sample.chatting 10)) with
                 | None => "群组不存在"
                 | Some g =>
                     if negb (existsb (fun m => String.eqb m
                                         (sk_user (socket (Sample.chatting 10))))
                                (g_members g))
                     then "你不是该群组成员"
                     else match findOne b_enabled (bots (Sample.chatting 10)) with
                          | None => "AI机器人未启用"
                          | Some b => "消息格式错误，请使用 @机器人名 消息内容"
                          end
                 end) = "消息格式错误，请使用 @机器人名 消息内容")
      by (vm_compute; reflexivity).
    rewrite Hmsg in Hx. rewrite Hx in Hrun. exact Hrun.
  - assert (Hb' : findOne b_enabled (bots (Sample.chatting 10)) = Some (Sample.robot 10))
      by (vm_compute; reflexivity).
    rewrite Hb' in Hb. injection Hb as <-.
    assert (Hn : bot.match_mention (b_name (Sample.robot 10)) "hello" = None)
      by (vm_compute; reflexivity).
    rewrite Hn in Hm. discriminate Hm.
Defined.

(** ** The search filter of the directory *)

Lemma expand_plain replacement before matched after :
  without_char "$" replacement ->
  JS.expand replacement before matched after = replacement.
Proof.
  induction replacement as [|c r IH]; intros H; [reflexivity|].
  assert (Hc : Ascii.eqb c "$" = false).
  { apply Ascii.eqb_neq. apply H. left. reflexivity. }
  assert (Hr : without_char "$" r) by (intros x Hx; apply H; right; exact Hx).
  specialize (IH Hr). destruct r as [|d r']; [reflexivity|].
  cbn [JS.expand]. rewrite Hc. cbn [JS.expand] in IH. rewrite IH. reflexivity.
Qed.

Lemma replace_from_plain p0 p replacement before s :
  without_char p0 s ->
  JS.replace_from (String p0 p) replacement O before s = s.
Proof.
  revert before. induction s as [|c r IH]; intros before H; [reflexivity|].
  assert (Hc : Ascii.eqb p0 c = false).
  { apply Ascii.eqb_neq. intros Heq. apply (H c); [left; reflexivity|congruence]. }
  cbn [JS.replace_from JS.strip_prefix]. rewrite Hc. f_equal. apply IH.
  intros x Hx. apply H. right. exact Hx.
Qed.

Lemma replace_from_skip p replacement q before s :
  JS.replace_from p replacement (String.length q) before (q +:+ s)
  = JS.replace_from p replacement O (before +:+ q) s.
Proof.
  revert before. induction q as [|c q IH]; intros before.
  - rewrite append_empty. reflexivity.
  - change (String c q +:+ s) with (String c (q +:+ s)).
    cbn [String.length]. 
    destruct s as [|x s'] eqn:Hs.
    + cbn [JS.replace_from]. rewrite IH. rewrite append_assoc. reflexivity.
    + cbn [JS.replace_from]. rewrite IH. rewrite append_assoc. reflexivity.
Qed.

Lemma replace_placeholder a b username before :
  without_char "{" a -> without_char "{" b -> without_char "$" username ->
  JS.replace_from "{{username}}" username O before (a +:+ "{{username}}" +:+ b)
  = a +:+ username +:+ b.
Proof.
  intros Ha Hb Hu. revert before. induction a as [|c a IH]; intros before.
  - change (EmptyString +:+ "{{username}}" +:+ b) with (String "{" ("{username}}" +:+ b)).
    cbn [JS.replace_from].
    change (JS.strip_prefix "{{username}}" (String "{" ("{username}}" +:+ b)))
      with (JS.strip_prefix "{{username}}" ("{{username}}" +:+ b)).
    rewrite strip_prefix_append.
    rewrite (expand_plain _ _ _ _ Hu).
    change (String.length "{{username}}" - 1)%nat with (String.length "{username}}").
    rewrite replace_from_skip. rewrite (replace_from_plain _ _ _ _ _ Hb). reflexivity.
  - change (String c a +:+ "{{username}}" +:+ b) with (String c (a +:+ "{{username}}" +:+ b)).
    assert (Hc : Ascii.eqb "{" c = false).
    { apply Ascii.eqb_neq. intros Heq. apply (Ha c); [left; reflexivity|congruence]. }
    cbn [JS.replace_from JS.strip_prefix]. rewrite Hc.
    change (String c a +:+ username +:+ b) with (String c (a +:+ username +:+ b)).
    f_equal. apply IH. intros x Hx. apply Ha. right. exact Hx.
Qed.

(** X13. [formatSearchFilter] puts the user name in the place of the
    placeholder as it is, without escaping any character of it: for a
    template made of a text, the placeholder and a text, where the texts
    hold no brace, and a user name without dollar sign, the filter is the
    first text, the user name and the second text; a template without
    brace is the filter itself. *)
Theorem formatSearchFilter_inserts_the_name_verbatim :
  (forall a b username,
     without_char "{" a -> without_char "{" b -> without_char "$" username ->
     ldap.formatSearchFilter (a +:+ "{{username}}" +:+ b) username = a +:+ username +:+ b)
  /\ (forall template username,
        without_char "{" template ->
        ldap.formatSearchFilter template username = template).
Proof.
  split.
  - intros a b username Ha Hb Hu. unfold ldap.formatSearchFilter, JS.replaceAll.
    apply replace_placeholder; assumption.
  - intros template username H. unfold ldap.formatSearchFilter, JS.replaceAll.
    apply replace_from_plain. exact H.
Qed.

(** The filter of the directory for a name that closes the parenthesis. *)
Lemma filter_of_a_crafted_name :
  ldap.formatSearchFilter "(uid={{username}})" "a)(uid=*" = "(uid=a)(uid=*)".
Proof.
  apply (proj1 formatSearchFilter_inserts_the_name_verbatim "(uid=" ")" "a)(uid=*");
    intros x Hx; simpl in Hx; intuition (subst; discriminate).
Defined.

(** ** The thoughts of an answer *)

Lemma without_char_tail c x s : without_char c (String x s) -> x <> c /\ without_char c s.
Proof.
  intros H. split; [apply H; left; reflexivity|].
  intros y Hy. apply H. right. exact Hy.
Qed.

Lemma split_at_none p s :
  without_char "<" s -> llmService.split_at (String "<" p) s = None.
Proof.
  induction s as [|c s IH]; intros H; [reflexivity|].
  destruct (without_char_tail _ _ _ H) as (Hc & Hs).
  cbn [llmService.split_at JS.strip_prefix].
  replace (Ascii.eqb "<" c) with false
    by (symmetry; apply Ascii.eqb_neq; intros Heq; apply Hc; symmetry; exact Heq).
  rewrite (IH Hs). reflexivity.
Qed.

Lemma split_at_found p a rest :
  without_char "<" a ->
  llmService.split_at (String "<" p) (a +:+ String "<" p +:+ rest) = Some (a, rest).
Proof.
  induction a as [|c a IH]; intros H.
  - change (EmptyString +:+ String "<" p +:+ rest) with (String "<" (p +:+ rest)).
    cbn [llmService.split_at].
    change (String "<" (p +:+ rest)) with (String "<" p +:+ rest).
    rewrite strip_prefix_append. reflexivity.
  - destruct (without_char_tail _ _ _ H) as (Hc & Ha).
    change (String c a +:+ String "<" p +:+ rest)
      with (String c (a +:+ String "<" p +:+ rest)).
    cbn [llmService.split_at JS.strip_prefix].
    replace (Ascii.eqb "<" c) with false
      by (symmetry; apply Ascii.eqb_neq; intros Heq; apply Hc; symmetry; exact Heq).
    rewrite (IH Ha). reflexivity.
Qed.

Lemma think_blocks_plain fuel s :
  without_char "<" s -> llmService.think_blocks fuel s = (s, []).
Proof.
  intros H. destruct fuel as [|f]; [reflexivity|].
  cbn [llmService.think_blocks]. rewrite (split_at_none _ _ H). reflexivity.
Qed.

(** X14. [parseThinkTags] on an answer without tag, on an answer with one
    block of thoughts, and on an answer whose block is not closed (the
    texts hold no [<]): without tag the answer is trimmed; the block is
    taken out of the text, which is what stands before and after it,
    trimmed, and the thoughts are the trimmed inside of the block; a
    block that is not closed stays in the text, and gives no thought. *)
Theorem parseThinkTags_takes_the_block_out :
  (forall content,
     without_char "<" content ->
     llmService.parseThinkTags content = (JS.trim content, []))
  /\ (forall a inner b,
        without_char "<" a -> without_char "<" inner -> without_char "<" b ->
        llmService.parseThinkTags (a +:+ "<think>" +:+ inner +:+ "</think>" +:+ b)
        = (JS.trim (a +:+ b), [JS.trim inner]))
  /\ (forall a rest,
        without_char "<" a -> without_char "<" rest ->
        llmService.parseThinkTags (a +:+ "<think>" +:+ rest)
        = (JS.trim (a +:+ "<think>" +:+ rest), [])).
Proof.
  split_and!.
  - intros content H. unfold llmService.parseThinkTags.
    rewrite (think_blocks_plain _ _ H). reflexivity.
  - intros a inner b Ha Hi Hb. unfold llmService.parseThinkTags.
    set (s := a +:+ "<think>" +:+ inner +:+ "</think>" +:+ b).
    assert (Hlen : (2 <= String.length s)%nat).
    { unfold s. rewrite !length_append. simpl. lia. }
    destruct (String.length s) as [|[|f]]; [lia|lia|].
    unfold s. cbn [llmService.think_blocks].
    rewrite (split_at_found "think>" a _ Ha).
    rewrite (split_at_found "/think>" inner b Hi).
    rewrite (split_at_none _ _ Hb).
    destruct f; reflexivity.
  - intros a rest Ha Hr. unfold llmService.parseThinkTags.
    set (s := a +:+ "<think>" +:+ rest).
    destruct (String.length s) as [|f]; [reflexivity|].
    unfold s. cbn [llmService.think_blocks].
    rewrite (split_at_found "think>" a _ Ha).
    rewrite (split_at_none _ _ Hr). reflexivity.
Qed.

(** An answer with its thoughts. *)
Lemma thoughts_of_an_answer :
  llmService.parseThinkTags "<think> plan </think> Hi there" = ("Hi there", ["plan"]).
Proof.
  assert (H : JS.trim (EmptyString +:+ " Hi there") = "Hi there" /\ JS.trim " plan " = "plan")
    by (split; vm_compute; reflexivity).
  destruct H as (H1 & H2). rewrite <- H1, <- H2.
  apply (proj1 (proj2 parseThinkTags_takes_the_block_out) EmptyString " plan " " Hi there");
    intros x Hx; simpl in Hx; intuition (subst; discriminate).
Defined.

(** ** Friends *)

Lemma find_nil_iff {A} (p : A -> bool) l :
  find p l = [] <-> forall x, In x l -> p x = false.
Proof.
  unfold find. induction l as [|a l IH]; simpl.
  - split; [intros _ x []|reflexivity].
  - destruct (p a) eqn:Ha.
    + split; [discriminate|]. intros H. specialize (H a (or_introl eq_refl)). congruence.
    + rewrite IH. split.
      * intros H x [<-|Hx]; [exact Ha|apply H; exact Hx].
      * intros H x Hx. apply H. right. exact Hx.
Qed.

Lemma deleteOne_none {A} (p : A -> bool) l :
  (forall x, In x l -> p x = false) -> deleteOne p l = l.
Proof.
  induction l as [|a l IH]; intros H; simpl; [reflexivity|].
  rewrite (H a) by (left; reflexivity). f_equal. apply IH.
  intros x Hx. apply H. right. exact Hx.
Qed.

Lemma deleteOne_last {A} (p : A -> bool) l x :
  (forall y, In y l -> p y = false) -> p x = true -> deleteOne p (l ++ [x]) = l.
Proof.
  induction l as [|a l IH]; intros H Hx; simpl.
  - rewrite Hx. reflexivity.
  - rewrite (H a) by (left; reflexivity). f_equal. apply IH; [|exact Hx].
    intros y Hy. apply H. right. exact Hy.
Qed.

Lemma deleteOne_In {A} (p : A -> bool) l x :
  In x l -> p x = false -> In x (deleteOne p l).
Proof.
  induction l as [|a l IH]; simpl; [tauto|].
  intros [<-|Hx] Hp.
  - rewrite Hp. left. reflexivity.
  - destruct (p a); [exact Hx|]. right. apply IH; assumption.
Qed.

Lemma deleteOne_incl {A} (p : A -> bool) l x : In x (deleteOne p l) -> In x l.
Proof.
  induction l as [|a l IH]; simpl; [tauto|].
  destruct (p a); [tauto|]. intros [H|H]; [left; exact H|right; apply IH; exact H].
Qed.

(** A run of [addFriend] that returned. *)
Lemma addFriend_returned userId e w r w' :
  user.addFriend userId e w = (Return r, w') ->
  isValid userId = true
  /\ sk_user (socket w) <> userId
  /\ (exists u, findOne (fun u => String.eqb (u_id u) userId) (users w) = Some u
                /\ user.fr_id r = userId /\ user.fr_username r = u_username u
                /\ user.fr_avatar r = u_avatar u)
  /\ user.fr_from r = sk_user (socket w) /\ user.fr_to r = userId
  /\ find (user.edge (sk_user (socket w)) userId) (friends w) = []
  /\ friends w' = friends w ++ [{| f_from := sk_user (socket w); f_to := userId |}]
  /\ users w' = users w /\ socket w' = socket w /\ groups w' = groups w
  /\ messages w' = messages w /\ sockets w' = sockets w.
Proof.
  unfold user.addFriend. rewrite bind_assert_cases.
  destruct (isValid userId); [|intros [=]].
  rewrite bind_gets, bind_assert_cases.
  destruct (String.eqb (sk_user (socket w)) userId) eqn:Hself; [intros [=]|]. cbn [negb].
  rewrite bind_await_cases. destruct (fault e _); [intros [=]|].
  rewrite bind_gets.
  destruct (findOne _ (users w)) as [u|] eqn:Hu; [|intros [=]]. cbn beta iota.
  destruct (findOne_Some _ _ _ Hu) as (_ & Hid). apply String.eqb_eq in Hid.
  rewrite bind_await_cases. destruct (fault e _); [intros [=]|].
  rewrite bind_gets, bind_assert_cases. rewrite Hid.
  destruct (find _ (friends w)) as [|f fs] eqn:Hf; [|intros [=]]. cbn [length Nat.eqb].
  rewrite bind_await_cases. destruct (fault e _); [intros [=]|].
  cbn zeta. rewrite bind_modify. unfold ret. intros [= <- <-]. cbn.
  apply String.eqb_neq in Hself.
  split_and!; try reflexivity; try assumption.
  exists u. split_and!; reflexivity.
Qed.

(** A run of [deleteFriend]: on an available store it raises for an id
    that is no ObjectId or names no user, and else removes the first
    edge from the caller to the user. *)
Lemma deleteFriend_run userId e w :
  available e ->
  user.deleteFriend userId e w
  = if isValid userId then
      match findOne (fun u => String.eqb (u_id u) userId) (users w) with
      | Some _ =>
          (Return tt,
           set_friends (deleteOne (user.edge (sk_user (socket w)) userId)) w)
      | None => (Throw (AssertionError "用户不存在"), w)
      end
    else (Throw (AssertionError "无效的用户ID"), w).
Proof.
  intros Hav. unfold user.deleteFriend. rewrite bind_assert_cases.
  destruct (isValid userId); [|reflexivity].
  rewrite (bind_await _ _ _ _ (Hav _)), bind_gets.
  destruct (findOne _ (users w)) as [u|] eqn:Hu; [|reflexivity]. cbn beta iota.
  destruct (findOne_Some _ _ _ Hu) as (_ & Hid). apply String.eqb_eq in Hid.
  rewrite bind_gets, (bind_await _ _ _ _ (Hav _)). unfold modify. rewrite Hid. reflexivity.
Qed.

Lemma edge_true from to f :
  user.edge from to f = true <-> f_from f = from /\ f_to f = to.
Proof. unfold user.edge. rewrite andb_true_iff, !String.eqb_eq. tauto. Qed.

(** X15. [addFriend] adds one edge, in one direction, and once, for an id
    in the spelling of the store (twenty-four hexadecimal digits, the
    letters in lower case). After a run that returned: the id is a valid
    ObjectId of a stored user other than the caller; there was no edge
    from the caller to this user, and the friends are the friends from
    before followed by this edge; the edges from this user to the caller
    are the same as before; on an available store a second [addFriend]
    of the same user raises [already friends] and changes nothing. *)
Theorem addFriend_adds_one_edge userId e w r w' :
  canonical_id userId = true ->
  user.addFriend userId e w = (Return r, w') ->
  isValid userId = true
  /\ sk_user (socket w) <> userId
  /\ (exists u, In u (users w) /\ u_id u = userId)
  /\ (forall f, In f (friends w) -> ~ (f_from f = sk_user (socket w) /\ f_to f = userId))
  /\ friends w' = friends w ++ [{| f_from := sk_user (socket w); f_to := userId |}]
  /\ find (user.edge userId (sk_user (socket w))) (friends w')
     = find (user.edge userId (sk_user (socket w))) (friends w)
  /\ (forall e2,
        available e2 ->
        user.addFriend userId e2 w' = (Throw (AssertionError "你们已经是好友了"), w')).
Proof.
  intros _ Hrun.
  destruct (addFriend_returned _ _ _ _ _ Hrun)
    as (Hv & Hself & (u & Hu & _) & _ & _ & Hnone & Hfr & Hus & Hsk & _).
  destruct (findOne_Some _ _ _ Hu) as (Hin & Hid). apply String.eqb_eq in Hid.
  split_and!; try assumption.
  - exists u. split; assumption.
  - intros f Hf Hedge. apply edge_true in Hedge.
    pose proof (proj1 (find_nil_iff _ _) Hnone f Hf). congruence.
  - rewrite Hfr. unfold find. rewrite List.filter_app. cbn [List.filter].
    replace (user.edge userId (sk_user (socket w)) _) with false; [apply app_nil_r|].
    symmetry. apply not_true_is_false. intros Hedge. apply edge_true in Hedge.
    cbn in Hedge. destruct Hedge as (H1 & H2). congruence.
  - intros e2 Hav. unfold user.addFriend.
    rewrite bind_assert by exact Hv. rewrite bind_gets, Hsk.
    apply String.eqb_neq in Hself. rewrite Hself. rewrite bind_assert by reflexivity.
    rewrite (bind_await _ _ _ _ (Hav _)), bind_gets, Hus, Hu. cbn beta iota.
    rewrite (bind_await _ _ _ _ (Hav _)), bind_gets, Hid, Hfr.
    unfold find. rewrite List.filter_app. cbn [List.filter].
    replace (user.edge (sk_user (socket w)) userId _) with true
      by (symmetry; apply edge_true; split; reflexivity).
    rewrite length_app. cbn [length].
    replace (length _ + 1 =? 0)%nat with false
      by (symmetry; apply Nat.eqb_neq; lia).
    reflexivity.
Qed.

(** [ann] adds [bob], who has her as friend already. *)
Lemma ann_adds_bob :
  exists r w',
    user.addFriend Scenario.bob Scenario.normal Scenario.pair = (Return r, w')
    /\ friends w' = [{| f_from := Scenario.bob; f_to := Scenario.ann |};
                     {| f_from := Scenario.ann; f_to := Scenario.bob |}]
    /\ user.addFriend Scenario.bob Scenario.normal w'
       = (Throw (AssertionError "你们已经是好友了"), w').
Proof.
  assert (exists r w',
            user.addFriend Scenario.bob Scenario.normal Scenario.pair = (Return r, w'))
    as (r & w' & Hrun) by (vm_compute; eexists; eexists; reflexivity).
  assert (Hid : canonical_id Scenario.bob = true) by (vm_compute; reflexivity).
  destruct (addFriend_adds_one_edge Scenario.bob Scenario.normal Scenario.pair r w' Hid Hrun)
    as (_ & _ & _ & _ & Hf & _ & Hagain).
  assert (Hav : available Scenario.normal) by (intros site; reflexivity).
  exists r, w'. split_and!; [exact Hrun|exact Hf|exact (Hagain Scenario.normal Hav)].
Defined.

(** X16. [deleteFriend] undoes [addFriend], and is one-way. After an
    [addFriend] that returned, a [deleteFriend] of the same user on an
    available store returns and leaves the friends as they were before
    the [addFriend]. In every run of [deleteFriend] that returned, at
    most one edge is gone, it goes from the caller to the user, and the
    edges from the user to the caller are all kept. *)
Theorem deleteFriend_undoes_addFriend :
  (forall userId e w r w1 e2,
     user.addFriend userId e w = (Return r, w1) ->
     available e2 ->
     exists w2, user.deleteFriend userId e2 w1 = (Return tt, w2)
                /\ friends w2 = friends w)
  /\ (forall userId e w w',
        available e ->
        user.deleteFriend userId e w = (Return tt, w') ->
        (forall f, In f (friends w') -> In f (friends w))
        /\ (forall f, In f (friends w) ->
              ~ (f_from f = sk_user (socket w) /\ f_to f = userId) -> In f (friends w'))
        /\ (length (friends w) <= S (length (friends w')))%nat).
Proof.
  split.
  - intros userId e w r w1 e2 Hrun Hav.
    destruct (addFriend_returned _ _ _ _ _ Hrun)
      as (Hv & Hself & (u & Hu & _) & _ & _ & Hnone & Hfr & Hus & Hsk & _).
    rewrite (deleteFriend_run _ _ _ Hav), Hv, Hus, Hu.
    eexists. split; [reflexivity|]. cbn. rewrite Hfr, Hsk.
    apply deleteOne_last.
    + apply find_nil_iff. exact Hnone.
    + apply edge_true. split; reflexivity.
  - intros userId e w w' Hav. rewrite (deleteFriend_run _ _ _ Hav).
    destruct (isValid userId); [|intros [=]].
    destruct (findOne _ (users w)); [|intros [=]].
    intros [= <-]. cbn. split_and!.
    + intros f. apply deleteOne_incl.
    + intros f Hf Hne. apply deleteOne_In; [exact Hf|].
      apply not_true_is_false. intros He. apply edge_true in He. exact (Hne He).
    + generalize (friends w). intros l. induction l as [|a l IH]; simpl; [lia|].
      destruct (user.edge _ _ a); simpl; lia.
Qed.

(** [ann] adds [bob] and deletes him again: [bob] still has her as
    friend. *)
Lemma ann_adds_and_deletes_bob :
  exists r w1 w2,
    user.addFriend Scenario.bob Scenario.normal Scenario.pair = (Return r, w1)
    /\ user.deleteFriend Scenario.bob Scenario.normal w1 = (Return tt, w2)
    /\ friends w2 = [{| f_from := Scenario.bob; f_to := Scenario.ann |}].
Proof.
  assert (exists r w1,
            user.addFriend Scenario.bob Scenario.normal Scenario.pair = (Return r, w1))
    as (r & w1 & Hrun) by (vm_compute; eexists; eexists; reflexivity).
  assert (Hav : available Scenario.normal) by (intros site; reflexivity).
  destruct (proj1 deleteFriend_undoes_addFriend Scenario.bob Scenario.normal Scenario.pair
              r w1 Scenario.normal Hrun Hav) as (w2 & Hdel & Hf).
  exists r, w1, w2. split_and!; [exact Hrun|exact Hdel|exact Hf].
Defined.

(** ** The name, the password and the avatar of an account *)

Lemma findOne_None {A} (p : A -> bool) l :
  findOne p l = None -> forall x, In x l -> p x = false.
Proof. unfold findOne. intros H x Hx. exact (find_none _ _ H x Hx). Qed.

(** Replacing, in a collection with distinct ids and distinct names, the
    name of one document by a name that no document has keeps the names
    distinct. *)
Lemma rename_keeps_names_distinct (l : list UserDocument) i (x' : UserDocument) :
  List.NoDup (List.map u_id l) ->
  List.NoDup (List.map u_username l) ->
  ~ In (u_username x') (List.map u_username l) ->
  List.NoDup (List.map u_username
    (List.map (fun x => if String.eqb (u_id x) i then x' else x) l)).
Proof.
  induction l as [|a l IH]; simpl; [constructor|].
  intros Hid Hname Hnew.
  inversion Hid as [|? ? Hi Hid']; inversion Hname as [|? ? Hn Hname']; subst.
  assert (Hrest : forall n,
            In n (List.map u_username
                    (List.map (fun x => if String.eqb (u_id x) i then x' else x) l)) ->
            n = u_username x' \/ In n (List.map u_username l)).
  { intros n Hin. apply in_map_iff in Hin. destruct Hin as (y & <- & Hy).
    apply in_map_iff in Hy. destruct Hy as (z & <- & Hz).
    destruct (String.eqb (u_id z) i); [left; reflexivity|right; apply in_map; exact Hz]. }
  destruct (String.eqb (u_id a) i) eqn:He.
  - apply String.eqb_eq in He. constructor.
    + assert (Hsame : List.map (fun x => if String.eqb (u_id x) i then x' else x) l = l).
      { rewrite <- (map_id l) at 2. apply map_ext_in. intros y Hy.
        destruct (String.eqb (u_id y) i) eqn:Hy'; [|reflexivity].
        exfalso. apply String.eqb_eq in Hy'. apply Hi. rewrite He, <- Hy'.
        apply in_map. exact Hy. }
      rewrite Hsame. intros Hin. apply Hnew. right. exact Hin.
    + apply IH; try assumption. intros Hin. apply Hnew. right. exact Hin.
  - constructor.
    + intros Hin. destruct (Hrest _ Hin) as [Heq|Hin'].
      * apply Hnew. left. exact Heq.
      * exact (Hn Hin').
    + apply IH; try assumption. intros Hin. apply Hnew. right. exact Hin.
Qed.

(** The steps of a run that is known to return, up to the next choice. *)
Ltac mreturned :=
  repeat (first [progress mnorm | await_returned | assert_returned]; cbn beta iota zeta).

(** A run of [changeUsername] that returned. *)
Lemma changeUsername_returned username e w r w' :
  user.changeUsername username e w = (Return r, w') ->
  JS.truthy username = true
  /\ findOne (fun u => String.eqb (u_username u) username) (users w) = None
  /\ user_schema_accepts e username = true
  /\ exists self,
       findOne (fun u => String.eqb (u_id u) (sk_user (socket w))) (users w) = Some self
       /\ users w' = save u_id (user.with_username username self) (users w).
Proof.
  unfold user.changeUsername. mreturned.
  destruct (findOne (fun u => String.eqb (u_id u) (sk_user (socket w))) (users w))
    as [self|] eqn:Hself; [|intros [=]].
  mreturned. cbn [user.with_username u_username].
  destruct (user_schema_accepts e username) eqn:Hs; [|intros [=]].
  rewrite bind_modify. unfold ret. intros [= <- <-].
  match goal with H : bool_decide (_ = None) = true |- _ => apply bool_decide_eq_true in H end.
  split_and!; try reflexivity; try assumption. exists self. split; reflexivity.
Qed.

(** X17. [changeUsername] keeps the user names distinct. After a run that
    returned, in a store where the ids and the names of the users are
    distinct: the new name is not empty, the schema accepts it and no
    user had it; the caller is a stored user, who now has the new name
    and is otherwise the same; the ids of the users are the same, the
    other users are the same, and the names are still distinct. *)
Theorem changeUsername_keeps_names_distinct username e w r w' :
  List.NoDup (List.map u_id (users w)) ->
  List.NoDup (List.map u_username (users w)) ->
  user.changeUsername username e w = (Return r, w') ->
  JS.truthy username = true
  /\ user_schema_accepts e username = true
  /\ (forall u, In u (users w) -> u_username u <> username)
  /\ (exists self,
        In self (users w) /\ u_id self = sk_user (socket w)
        /\ In (user.with_username username self) (users w'))
  /\ List.map u_id (users w') = List.map u_id (users w)
  /\ (forall u, In u (users w) -> u_id u <> sk_user (socket w) -> In u (users w'))
  /\ List.NoDup (List.map u_username (users w')).
Proof.
  intros Hid Hname Hrun.
  destruct (changeUsername_returned _ _ _ _ _ Hrun) as (Hn & Hfree & Hs & self & Hself & Hus).
  destruct (findOne_Some _ _ _ Hself) as (Hin & Hsid). apply String.eqb_eq in Hsid.
  assert (Hnot : forall u, In u (users w) -> u_username u <> username).
  { intros u Hu. apply String.eqb_neq. exact (findOne_None _ _ Hfree u Hu). }
  rewrite (save_as_map u_id _ _ Hid) in Hus. cbn [user.with_username u_id] in Hus.
  split_and!; try assumption.
  - exists self. split_and!; try assumption.
    rewrite Hus. apply in_map_iff. exists self. split; [|exact Hin].
    rewrite String.eqb_refl. reflexivity.
  - rewrite Hus, map_map. apply map_ext. intros x.
    destruct (String.eqb (u_id x) (u_id self)) eqn:He; [|reflexivity].
    apply String.eqb_eq in He. symmetry. exact He.
  - intros u Hu Hne. rewrite Hus. apply in_map_iff. exists u. split; [|exact Hu].
    replace (String.eqb (u_id u) (u_id self)) with false; [reflexivity|].
    symmetry. apply String.eqb_neq. congruence.
  - rewrite Hus. apply rename_keeps_names_distinct; try assumption.
    cbn [user.with_username u_username]. intros Hin'. apply in_map_iff in Hin'.
    destruct Hin' as (u & Hu1 & Hu2). exact (Hnot u Hu2 Hu1).
Qed.

Lemma pair_has_distinct_ids : List.NoDup (List.map u_id (users Scenario.pair)).
Proof. repeat (constructor; [simpl; intuition discriminate|]). constructor. Defined.

Lemma pair_has_distinct_names : List.NoDup (List.map u_username (users Scenario.pair)).
Proof. repeat (constructor; [simpl; intuition discriminate|]). constructor. Defined.

(** [ann] takes the name [anna]. *)
Lemma ann_becomes_anna :
  exists r w',
    user.changeUsername "anna" Scenario.normal Scenario.pair = (Return r, w')
    /\ List.map u_id (users w') = [Scenario.ann; Scenario.bob]
    /\ List.NoDup (List.map u_username (users w')).
Proof.
  assert (exists r w',
            user.changeUsername "anna" Scenario.normal Scenario.pair = (Return r, w'))
    as (r & w' & Hrun) by (vm_compute; eexists; eexists; reflexivity).
  destruct (changeUsername_keeps_names_distinct "anna" Scenario.normal Scenario.pair r w'
              pair_has_distinct_ids pair_has_distinct_names Hrun)
    as (_ & _ & _ & _ & Hids & _ & Hnd).
  exists r, w'. split_and!; [exact Hrun|exact Hids|exact Hnd].
Defined.

(** A run of [changePassword] that returned. *)
Lemma changePassword_returned oldPassword newPassword e w r w' :
  user.changePassword oldPassword newPassword e w = (Return r, w') ->
  JS.truthy newPassword = true
  /\ oldPassword <> newPassword
  /\ exists u,
       findOne (fun u => String.eqb (u_id u) (sk_user (socket w))) (users w) = Some u
       /\ u_authProvider u <> Some "ldap"
       /\ compareSync e oldPassword (u_password u) = true
       /\ users w' = save u_id (user.with_password None (hash e newPassword (genSalt e)) u)
                       (users w)
       /\ socket w' = socket w /\ redis w' = redis w /\ groups w' = groups w.
Proof.
  unfold user.changePassword. mreturned.
  destruct (findOne _ (users w)) as [u|] eqn:Hu; [|intros [=]].
  mreturned. unfold user.User_save. mreturned. unfold ret. intros [= <- <-].
  repeat match goal with
         | H : negb _ = true |- _ => apply negb_true_iff in H
         | H : String.eqb _ _ = false |- _ => apply String.eqb_neq in H
         | H : bool_decide _ = false |- _ => apply bool_decide_eq_false in H
         end.
  split_and!; try reflexivity; try assumption.
  exists u. split_and!; try reflexivity; assumption.
Qed.

Lemma save_found {A} (id : A -> ObjectId) d x l :
  List.NoDup (List.map id l) ->
  In x l -> id d = id x -> In d (save id d l).
Proof.
  intros Hnd Hin Hid. rewrite (save_as_map id d l Hnd). apply in_map_iff.
  exists x. split; [|exact Hin]. rewrite Hid, String.eqb_refl. reflexivity.
Qed.

(** ** Login with the local account *)

(** [handleNewUser] without an address: it changes at most the marker
    of the new user in Redis. *)
Lemma handleNewUser_without_address u e w :
  available e ->
  exists w1,
    user.handleNewUser u EmptyString e w = (Return tt, w1)
    /\ same_documents w w1 /\ socket w1 = socket w /\ events w1 = events w
    /\ (forall ip, redis w1 !! NewRegisteredUserIpKey ip = redis w !! NewRegisteredUserIpKey ip).
Proof.
  intros Hav. unfold user.handleNewUser. rewrite bind_ask.
  destruct (now e - u_createTime u <? OneDay).
  - unfold Redis.set. mrun Hav. cbn. eexists. split; [reflexivity|].
    unfold same_documents. cbn. split_and!; try reflexivity.
    intros ip. apply lookup_insert_ne. discriminate.
  - exists w. unfold same_documents. split_and!; reflexivity.
Qed.

(** The login that does not ask the directory, on an available store. *)
Lemma login_local e w d :
  available e ->
  JS.truthy (user.ld_username d) = true ->
  JS.truthy (user.ld_password d) = true ->
  local_only e d ->
  match findOne (fun u => String.eqb (u_username u) (user.ld_username d)) (users w) with
  | None => user.login d e w = (Throw (AssertionError "该用户不存在"), w)
  | Some u =>
      if compareSync e (user.ld_password d) (u_password u)
      then exists s w',
             user.login d e w = (Return s, w')
             /\ user.ss_id s = u_id u
             /\ user.ss_username s = u_username u
             /\ user.ss_authProvider s
                = Some (JS.or_else (default EmptyString (u_authProvider u)) "local")
             /\ user.ss_token s
                = Some (Signed {| tp_user := u_id u;
                                  tp_environment := user.environment (user.ld_env d);
                                  tp_expires := now e + tokenExpiresTime (config e) |}
                          (jwtSecret (config e)))
             /\ sk_user (socket w') = u_id u
             /\ users w' = save u_id (logged_in e w u) (users w)
             /\ groups w' = groups w /\ friends w' = friends w
             /\ (forall ip, redis w' !! NewRegisteredUserIpKey ip
                            = redis w !! NewRegisteredUserIpKey ip)
      else user.login d e w = (Throw (AssertionError "密码错误"), w)
  end.
Proof.
  intros Hav Hn Hp Hlocal.
  assert (Hskip : forall k : option UserDocument * bool -> M user.Session,
    (let* pat :=
       match ldap (config e) with
       | Some cfg =>
           if enable cfg && negb (bool_decide (user.ld_authType d = Some user.auth_local)) then
             let* pat := user.ldap_first cfg (user.ld_username d) (user.ld_password d)
                           (findOne (fun u => String.eqb (u_username u) (user.ld_username d))
                              (users w)) in
             match pat with
             | (user, isLdapAuthenticated, Some err) =>
                 let* _ := logger warn "[login] LDAP authentication failed, fallback to local:"
                             (message_of err) in
                 ret (user, isLdapAuthenticated)
             | (user, isLdapAuthenticated, None) => ret (user, isLdapAuthenticated)
             end
           else ret (findOne (fun u => String.eqb (u_username u) (user.ld_username d))
                       (users w), false)
       | None => ret (findOne (fun u => String.eqb (u_username u) (user.ld_username d))
                        (users w), false)
       end in k pat) e w
    = k (findOne (fun u => String.eqb (u_username u) (user.ld_username d)) (users w), false)
        e w).
  { intros k. unfold local_only in Hlocal. destruct (ldap (config e)) as [cfg|]; [|reflexivity].
    destruct Hlocal as [-> | ->]; [reflexivity|].
    rewrite bool_decide_eq_true_2 by reflexivity. rewrite andb_false_r. reflexivity. }
  unfold user.login. mrun Hav. rewrite Hskip. clear Hskip.
  destruct (findOne _ (users w)) as [u|]; cbn beta iota; [|reflexivity].
  destruct (compareSync e (user.ld_password d) (u_password u)) eqn:Hc; cbn [negb].
  - rewrite bind_assoc, bind_assert by reflexivity.
    destruct (handleNewUser_without_address u e w Hav)
      as (w1 & Hh & (Du & Dg & Df & _) & Dsk & _ & Dr).
    rewrite bind_run, Hh.
    unfold user.User_save, user.load_groups, user.load_friends, user.generateToken,
      user.bind_socket, user.getUserNotificationTokens.
    mrun Hav. rewrite bind_run, forEach_emit. mrun Hav.
    do 2 eexists. split; [reflexivity|]. cbn -[save]. unfold logged_in.
    rewrite Dsk, Du, Dg, Df. split_and!; try reflexivity. exact Dr.
  - rewrite bind_assoc, bind_assert_fails by reflexivity. reflexivity.
Qed.

(** X18. The login with the local account: when the directory is not asked
    (there is none, it is disabled, or the client asks for the local
    account), on an available store and for a name and a password that
    are not empty, the login raises [not found] for a name without
    record and [bad credential] when the comparison with the record
    fails, both without any change; else it returns the session of the
    user with a token for the environment of the client, binds the
    connection to the user, stamps the record with the instant and the
    address, and leaves the counters of registrations by address alone. *)
Theorem login_with_the_local_account e w d :
  available e ->
  JS.truthy (user.ld_username d) = true ->
  JS.truthy (user.ld_password d) = true ->
  local_only e d ->
  match findOne (fun u => String.eqb (u_username u) (user.ld_username d)) (users w) with
  | None => user.login d e w = (Throw (AssertionError "该用户不存在"), w)
  | Some u =>
      if compareSync e (user.ld_password d) (u_password u)
      then exists s w',
             user.login d e w = (Return s, w')
             /\ user.ss_id s = u_id u
             /\ user.ss_username s = u_username u
             /\ user.ss_token s
                = Some (jwt.encode {| tp_user := u_id u;
                                      tp_environment := user.environment (user.ld_env d);
                                      tp_expires := now e + tokenExpiresTime (config e) |}
                          (jwtSecret (config e)))
             /\ sk_user (socket w') = u_id u
             /\ users w'
                = save u_id (user.with_lastLogin (now e) (sk_ip (socket w)) u) (users w)
             /\ (forall ip, redis w' !! NewRegisteredUserIpKey ip
                            = redis w !! NewRegisteredUserIpKey ip)
      else user.login d e w = (Throw (AssertionError "密码错误"), w)
  end.
Proof.
  intros Hav Hn Hp Hlocal. pose proof (login_local e w d Hav Hn Hp Hlocal) as H.
  destruct (findOne _ (users w)) as [u|]; [|exact H].
  destruct (compareSync e _ _); [|exact H].
  destruct H as (s & w' & Hrun & Hid & Hname & _ & Htok & Hsk & Hus & _ & _ & Hr).
  exists s, w'. split_and!; assumption.
Qed.

(** [ann] logs in with her local account. *)
Lemma ann_logs_in_with_her_password :
  exists s w',
    user.login (Sample.signin "ann" "pw") Scenario.normal Sample.social = (Return s, w')
    /\ user.ss_id s = "u1"
    /\ sk_user (socket w') = "u1".
Proof.
  assert (Hav : available Scenario.normal) by (intros site; reflexivity).
  pose proof (login_with_the_local_account Scenario.normal Sample.social
                (Sample.signin "ann" "pw") Hav eq_refl eq_refl I) as H.
  assert (Hf : findOne (fun u => String.eqb (u_username u)
                              (user.ld_username (Sample.signin "ann" "pw")))
                 (users Sample.social) = Some (Sample.member "u1" "ann" 0))
    by (vm_compute; reflexivity).
  rewrite Hf in H.
  assert (Hc : compareSync Scenario.normal (user.ld_password (Sample.signin "ann" "pw"))
                 (u_password (Sample.member "u1" "ann" 0)) = true)
    by (vm_compute; reflexivity).
  rewrite Hc in H. destruct H as (s & w' & Hrun & Hid & _ & _ & Hsk & _).
  exists s, w'. split_and!; [exact Hrun|exact Hid|exact Hsk].
Defined.

(** ** Changing and resetting a password *)

Lemma findOne_unique {A} (key : A -> string) (l : list A) x :
  List.NoDup (List.map key l) -> In x l ->
  findOne (fun y => String.eqb (key y) (key x)) l = Some x.
Proof.
  intros Hnd Hin.
  destruct (findOne_exists (fun y => String.eqb (key y) (key x)) l x Hin (String.eqb_refl _))
    as (y & Hy).
  rewrite Hy. f_equal. destruct (findOne_Some _ _ _ Hy) as (Hyin & He).
  apply String.eqb_eq in He. exact (unique_id key l y x Hnd Hyin Hin He).
Qed.

(** After the password of the user [u] was replaced in the store, a
    login with the local account, the name of [u] and a password that
    [compareSync] accepts against the stored hash returns the session of
    [u]. *)
Lemma login_after_new_password e w w1 u u' d :
  List.NoDup (List.map u_id (users w)) ->
  List.NoDup (List.map u_username (users w)) ->
  In u (users w) ->
  u_id u' = u_id u -> u_username u' = u_username u ->
  users w1 = save u_id u' (users w) ->
  available e ->
  local_only e d ->
  user.ld_username d = u_username u ->
  JS.truthy (u_username u) = true ->
  JS.truthy (user.ld_password d) = true ->
  compareSync e (user.ld_password d) (u_password u') = true ->
  exists s w2, user.login d e w1 = (Return s, w2)
               /\ user.ss_id s = u_id u /\ sk_user (socket w2) = u_id u.
Proof.
  intros Hid Hname Hin Hi Hn Hus Hav Hlocal Hd Hnt Hpt Hc.
  pose proof (login_local e w1 d Hav) as H. rewrite Hd in H.
  specialize (H Hnt Hpt Hlocal).
  assert (Hf : findOne (fun v => String.eqb (u_username v) (u_username u)) (users w1) = Some u').
  { rewrite Hus, (save_as_map u_id _ _ Hid), findOne_map.
    - rewrite (findOne_unique u_username _ u Hname Hin). cbn.
      rewrite Hi, String.eqb_refl. reflexivity.
    - intros x Hx. destruct (String.eqb (u_id x) (u_id u')) eqn:He; [|reflexivity].
      apply String.eqb_eq in He. rewrite Hi in He.
      rewrite (unique_id u_id _ x u Hid Hx Hin He), Hn. reflexivity. }
  rewrite Hf, Hc in H. destruct H as (s & w2 & Hrun & Hsid & _ & _ & _ & Hsk & _).
  exists s, w2. rewrite Hi in Hsid, Hsk. split_and!; assumption.
Qed.

(** X19. [changePassword] replaces the hash of the caller, and nothing else.
    After a run that returned, in a store where ids and names of the
    users are distinct: the caller is a stored user that is no account
    of the directory, the old password was accepted against the stored
    hash, and the new password is not empty and differs from the old one;
    the record of the caller holds the hash of the new password and is
    otherwise the same, its [salt] field included; the other users are
    the same; and a login with the local account, the name of the caller
    and the new password then returns the session of the caller, when
    [compareSync] accepts the new password against the new hash. *)
Theorem changePassword_replaces_the_hash oldPassword newPassword e w r w1 :
  List.NoDup (List.map u_id (users w)) ->
  List.NoDup (List.map u_username (users w)) ->
  user.changePassword oldPassword newPassword e w = (Return r, w1) ->
  JS.truthy newPassword = true
  /\ oldPassword <> newPassword
  /\ exists u u',
       In u (users w) /\ u_id u = sk_user (socket w)
       /\ u_authProvider u <> Some "ldap"
       /\ compareSync e oldPassword (u_password u) = true
       /\ In u' (users w1)
       /\ u_password u' = hash e newPassword (genSalt e)
       /\ u_salt u' = u_salt u /\ u_id u' = u_id u /\ u_username u' = u_username u
       /\ (forall v, In v (users w) -> u_id v <> u_id u -> In v (users w1))
       /\ (forall e2 d,
             available e2 -> local_only e2 d ->
             compareSync e2 newPassword (hash e newPassword (genSalt e)) = true ->
             JS.truthy (u_username u) = true ->
             user.ld_username d = u_username u ->
             user.ld_password d = newPassword ->
             exists s w2, user.login d e2 w1 = (Return s, w2)
                          /\ user.ss_id s = u_id u /\ sk_user (socket w2) = u_id u).
Proof.
  intros Hid Hname Hrun.
  destruct (changePassword_returned _ _ _ _ _ _ Hrun)
    as (Hnew & Hdiff & u & Hu & Hl & Hc & Hus & _).
  destruct (findOne_Some _ _ _ Hu) as (Hin & Huid). apply String.eqb_eq in Huid.
  split; [exact Hnew|]. split; [exact Hdiff|].
  exists u, (user.with_password None (hash e newPassword (genSalt e)) u).
  split_and!; try assumption; try reflexivity.
  - rewrite Hus. apply (save_found u_id _ u); [exact Hid|exact Hin|reflexivity].
  - intros v Hv Hne. rewrite Hus, (save_as_map u_id _ _ Hid). apply in_map_iff.
    exists v. split; [|exact Hv]. cbn [user.with_password u_id].
    replace (String.eqb (u_id v) (u_id u)) with false; [reflexivity|].
    symmetry. apply String.eqb_neq. exact Hne.
  - intros e2 d Hav Hlocal Hcmp Hnt Hdn Hdp.
    apply (login_after_new_password e2 w w1 u
             (user.with_password None (hash e newPassword (genSalt e)) u) d);
      try assumption; try reflexivity.
    + rewrite Hdp. exact Hnew.
    + rewrite Hdp. exact Hcmp.
Qed.

(** [ann] changes her password and logs in with the new one. *)
Lemma ann_changes_her_password :
  exists r w1 s w2,
    user.changePassword "pw" "pw2" Scenario.normal Scenario.pair = (Return r, w1)
    /\ user.login (Sample.signin "ann" "pw2") Scenario.normal w1 = (Return s, w2)
    /\ user.ss_id s = Scenario.ann.
Proof.
  assert (exists r w1,
            user.changePassword "pw" "pw2" Scenario.normal Scenario.pair = (Return r, w1))
    as (r & w1 & Hrun) by (vm_compute; eexists; eexists; reflexivity).
  destruct (changePassword_replaces_the_hash "pw" "pw2" Scenario.normal Scenario.pair r w1
              pair_has_distinct_ids pair_has_distinct_names Hrun)
    as (_ & _ & u & u' & Hin & Hid & _ & _ & _ & _ & _ & _ & Hname & _ & Hlogin).
  assert (Hu : u = Sample.member Scenario.ann "ann" 0).
  { simpl in Hin. destruct Hin as [<-|[<-|[]]]; [reflexivity|discriminate Hid]. }
  subst u.
  assert (Hav : available Scenario.normal) by (intros site; reflexivity).
  assert (Hc : compareSync Scenario.normal "pw2"
                 (hash Scenario.normal "pw2" (genSalt Scenario.normal)) = true)
    by (vm_compute; reflexivity).
  destruct (Hlogin Scenario.normal (Sample.signin "ann" "pw2") Hav I Hc eq_refl eq_refl eq_refl)
    as (s & w2 & Hl & Hs & _).
  exists r, w1, s, w2. split_and!; [exact Hrun|exact Hl|exact Hs].
Defined.

(** A run of [resetUserPassword] that returned. *)
Lemma resetUserPassword_returned username e w r w' :
  user.resetUserPassword username e w = (Return r, w') ->
  r = "helloworld"
  /\ username <> EmptyString
  /\ exists u,
       findOne (fun u => String.eqb (u_username u) username) (users w) = Some u
       /\ u_authProvider u <> Some "ldap"
       /\ users w' = save u_id (user.with_password (Some (genSalt e))
                                  (hash e "helloworld" (genSalt e)) u) (users w).
Proof.
  unfold user.resetUserPassword. mreturned.
  destruct (findOne _ (users w)) as [u|] eqn:Hu; [|intros [=]].
  mreturned. unfold user.User_save. mreturned. unfold ret. intros [= <- <-].
  repeat match goal with
         | H : negb _ = true |- _ => apply negb_true_iff in H
         | H : String.eqb _ _ = false |- _ => apply String.eqb_neq in H
         | H : bool_decide _ = false |- _ => apply bool_decide_eq_false in H
         end.
  split_and!; try reflexivity; try assumption.
  exists u. split_and!; try reflexivity; assumption.
Qed.

(** X20. [resetUserPassword] sets the password [helloworld]. After a run that
    returned, in a store where ids and names of the users are distinct:
    the name is the one of a stored user that is no account of the
    directory; the route returned [helloworld]; the record of the user
    holds a fresh salt and the hash of [helloworld] with this salt and is
    otherwise the same; the other users are the same; and a login with the
    local account, this name and [helloworld] then returns the session of
    the user, when [compareSync] accepts [helloworld] against the new
    hash. An account of the directory is refused, and nothing is changed. *)
Theorem resetUserPassword_sets_helloworld :
  (forall username e w r w1,
     List.NoDup (List.map u_id (users w)) ->
     List.NoDup (List.map u_username (users w)) ->
     user.resetUserPassword username e w = (Return r, w1) ->
     r = "helloworld"
     /\ exists u u',
          In u (users w) /\ u_username u = username
          /\ u_authProvider u <> Some "ldap"
          /\ In u' (users w1)
          /\ u_salt u' = genSalt e
          /\ u_password u' = hash e "helloworld" (genSalt e)
          /\ u_id u' = u_id u /\ u_username u' = u_username u
          /\ (forall v, In v (users w) -> u_id v <> u_id u -> In v (users w1))
          /\ (forall e2 d,
                available e2 -> local_only e2 d ->
                compareSync e2 "helloworld" (hash e "helloworld" (genSalt e)) = true ->
                user.ld_username d = username ->
                user.ld_password d = "helloworld" ->
                exists s w2, user.login d e2 w1 = (Return s, w2)
                             /\ user.ss_id s = u_id u /\ sk_user (socket w2) = u_id u))
  /\ (forall username e w u,
        available e ->
        username <> EmptyString ->
        findOne (fun u => String.eqb (u_username u) username) (users w) = Some u ->
        u_authProvider u = Some "ldap" ->
        user.resetUserPassword username e w
        = (Throw (AssertionError "LDAP 账号不支持重置密码"), w)).
Proof.
  split.
  - intros username e w r w1 Hid Hname Hrun.
    destruct (resetUserPassword_returned _ _ _ _ _ Hrun) as (Hr & Hne & u & Hu & Hl & Hus).
    destruct (findOne_Some _ _ _ Hu) as (Hin & Hun). apply String.eqb_eq in Hun.
    split; [exact Hr|].
    exists u, (user.with_password (Some (genSalt e)) (hash e "helloworld" (genSalt e)) u).
    split_and!; try assumption; try reflexivity.
    + rewrite Hus. apply (save_found u_id _ u); [exact Hid|exact Hin|reflexivity].
    + intros v Hv Hnv. rewrite Hus, (save_as_map u_id _ _ Hid). apply in_map_iff.
      exists v. split; [|exact Hv]. cbn [user.with_password u_id].
      replace (String.eqb (u_id v) (u_id u)) with false; [reflexivity|].
      symmetry. apply String.eqb_neq. exact Hnv.
    + intros e2 d Hav Hlocal Hcmp Hdn Hdp.
      apply (login_after_new_password e2 w w1 u
               (user.with_password (Some (genSalt e)) (hash e "helloworld" (genSalt e)) u) d);
        try assumption; try reflexivity.
      * congruence.
      * rewrite Hun. destruct username; [congruence|reflexivity].
      * rewrite Hdp. reflexivity.
      * rewrite Hdp. exact Hcmp.
  - intros username e w u Hav Hne Hu Hl. unfold user.resetUserPassword.
    apply String.eqb_neq in Hne. rewrite Hne. rewrite bind_assert by reflexivity.
    rewrite (bind_await _ _ _ _ (Hav _)), bind_gets, Hu. cbn beta iota.
    rewrite (bool_decide_eq_true_2 _ Hl). reflexivity.
Qed.

(** The password of [bob] is reset. *)
Lemma bob_gets_helloworld :
  exists r w1 s w2,
    user.resetUserPassword "bob" Scenario.normal Scenario.pair = (Return r, w1)
    /\ r = "helloworld"
    /\ user.login (Sample.signin "bob" "helloworld") Scenario.normal w1 = (Return s, w2)
    /\ user.ss_id s = Scenario.bob.
Proof.
  assert (exists r w1,
            user.resetUserPassword "bob" Scenario.normal Scenario.pair = (Return r, w1))
    as (r & w1 & Hrun) by (vm_compute; eexists; eexists; reflexivity).
  destruct (proj1 resetUserPassword_sets_helloworld "bob" Scenario.normal Scenario.pair r w1
              pair_has_distinct_ids pair_has_distinct_names Hrun)
    as (Hr & u & u' & Hin & Hn & _ & _ & _ & _ & _ & _ & _ & Hlogin).
  assert (Hu : u = Sample.member Scenario.bob "bob" 0).
  { simpl in Hin. destruct Hin as [<-|[<-|[]]]; [discriminate Hn|reflexivity]. }
  subst u.
  assert (Hav : available Scenario.normal) by (intros site; reflexivity).
  assert (Hc : compareSync Scenario.normal "helloworld"
                 (hash Scenario.normal "helloworld" (genSalt Scenario.normal)) = true)
    by (vm_compute; reflexivity).
  destruct (Hlogin Scenario.normal (Sample.signin "bob" "helloworld") Hav I Hc eq_refl eq_refl)
    as (s & w2 & Hl & Hs & _).
  exists r, w1, s, w2. split_and!; [exact Hrun|exact Hr|exact Hl|exact Hs].
Defined.

(** ** The avatar *)

(** X21. [changeAvatar] never stores a blank link and never raises its
    assertion: the avatar it returns is the trimmed link, or the random
    avatar when the link is empty or blank; the only way to raise is a
    rejected update of the store, and then nothing is changed. In a store
    with distinct ids a run that returned has given this avatar to the
    record of the caller, when there is one, and has left the other
    users alone. *)
Theorem changeAvatar_never_stores_a_blank avatar e w :
  let a := if String.eqb (JS.trim avatar) EmptyString
           then getRandomAvatar e else JS.trim avatar in
  (JS.trim avatar <> EmptyString -> a <> EmptyString)
  /\ user.changeAvatar avatar e w
     = (if fault e "changeAvatar/User.updateOne"
        then (Throw (Unavailable "changeAvatar/User.updateOne"), w)
        else (Return a,
              set_users (updateOne (fun u => String.eqb (u_id u) (sk_user (socket w)))
                           (user.with_avatar a)) w))
  /\ (List.NoDup (List.map u_id (users w)) ->
      forall r w',
        user.changeAvatar avatar e w = (Return r, w') ->
        (forall u, In u (users w) -> u_id u = sk_user (socket w) ->
                   In (user.with_avatar r u) (users w'))
        /\ (forall u, In u (users w) -> u_id u <> sk_user (socket w) -> In u (users w'))
        /\ List.map u_id (users w') = List.map u_id (users w)).
Proof.
  intros a.
  assert (Hrun : user.changeAvatar avatar e w
     = (if fault e "changeAvatar/User.updateOne"
        then (Throw (Unavailable "changeAvatar/User.updateOne"), w)
        else (Return a,
              set_users (updateOne (fun u => String.eqb (u_id u) (sk_user (socket w)))
                           (user.with_avatar a)) w))).
  { unfold user.changeAvatar, a. rewrite bind_ask.
    destruct avatar as [|c s]; [cbn; rewrite bind_await_cases; reflexivity|].
    cbn [JS.truthy negb orb].
    destruct (String.eqb (JS.trim (String c s)) EmptyString) eqn:Hb.
    - rewrite bind_ret, bind_gets, bind_await_cases, bind_modify. reflexivity.
    - rewrite bind_assoc.
      assert (Ht : JS.truthy (JS.trim (String c s)) = true).
      { destruct (JS.trim (String c s)); [discriminate Hb|reflexivity]. }
      rewrite bind_assert by exact Ht.
      rewrite bind_ret, bind_gets, bind_await_cases, bind_modify. reflexivity. }
  split_and!.
  - unfold a. intros Hne. apply String.eqb_neq in Hne. rewrite Hne.
    apply String.eqb_neq. exact Hne.
  - exact Hrun.
  - intros Hnd r w'. rewrite Hrun. destruct (fault e _); [intros [=]|].
    intros [= <- <-]. cbn [users set_users].
    assert (Hmap : updateOne (fun u => String.eqb (u_id u) (sk_user (socket w)))
                     (user.with_avatar a) (users w)
                   = List.map (fun u => if String.eqb (u_id u) (sk_user (socket w))
                                        then user.with_avatar a u else u) (users w)).
    { generalize Hnd. generalize (users w). intros l. induction l as [|x l IH]; intros Hl;
        [reflexivity|].
      inversion Hl as [|? ? Hni Hl']; subst. cbn [updateOne List.map].
      destruct (String.eqb (u_id x) (sk_user (socket w))) eqn:He.
      - f_equal. rewrite <- (map_id l) at 1. apply map_ext_in. intros y Hy.
        destruct (String.eqb (u_id y) (sk_user (socket w))) eqn:Hy'; [|reflexivity].
        exfalso. apply String.eqb_eq in He, Hy'. apply Hni. rewrite He, <- Hy'.
        apply in_map. exact Hy.
      - f_equal. apply IH. exact Hl'. }
    rewrite Hmap. split_and!.
    + intros u Hu Hid. apply in_map_iff. exists u. split; [|exact Hu].
      apply String.eqb_eq in Hid. rewrite Hid. reflexivity.
    + intros u Hu Hid. apply in_map_iff. exists u. split; [|exact Hu].
      apply String.eqb_neq in Hid. rewrite Hid. reflexivity.
    + rewrite map_map. apply map_ext. intros u.
      destruct (String.eqb (u_id u) (sk_user (socket w))); reflexivity.
Qed.

(** [ann] sends a blank link. *)
Lemma blank_avatar_is_replaced :
  (user.changeAvatar "   " Scenario.normal Scenario.pair).1 = Return "avatar.png".
Proof.
  rewrite (proj1 (proj2 (changeAvatar_never_stores_a_blank "   " Scenario.normal
                           Scenario.pair))).
  reflexivity.
Defined.

(** ** The addresses and the presence of a user *)

Lemma from_Set_spec seen l :
  List.NoDup (user.from_Set seen l)
  /\ (forall x, In x (user.from_Set seen l) <-> In x l /\ ~ In x seen).
Proof.
  revert seen. induction l as [|a l IH]; intros seen; cbn [user.from_Set].
  - split; [constructor|]. intros x. cbn. tauto.
  - destruct (existsb (String.eqb a) seen) eqn:Hs.
    + apply existsb_eqb_In in Hs. destruct (IH seen) as (Hnd & Hin). split; [exact Hnd|].
      intros x. rewrite Hin. cbn. split; [tauto|].
      intros ([<-|Hx] & Hn); [contradiction|tauto].
    + assert (Hns : ~ In a seen).
      { intros H. apply existsb_eqb_In in H. congruence. }
      destruct (IH (a :: seen)) as (Hnd & Hin). split.
      * constructor; [|exact Hnd]. rewrite Hin. cbn. tauto.
      * intros x. cbn. rewrite Hin. cbn. split.
        -- intros [<-|(Hx & Hn)]; [tauto|tauto].
        -- intros ([<-|Hx] & Hn); [tauto|].
           destruct (String.eqb a x) eqn:He; [apply String.eqb_eq in He; tauto|].
           apply String.eqb_neq in He. right. tauto.
Qed.

(** X22. [getUserIps] lists each address once. A run that returned has
    changed nothing; the id is a valid ObjectId; no address stands twice
    in the result, and an address is in the result exactly when a stored
    connection of the user has it. An empty id and an id that is no
    ObjectId are refused with their own messages. *)
Theorem getUserIps_lists_each_address_once :
  (forall userId e w ips w',
     user.getUserIps userId e w = (Return ips, w') ->
     w' = w /\ isValid userId = true
     /\ List.NoDup ips
     /\ (forall ip, In ip ips
                    <-> exists s, In s (sockets w) /\ s_user s = Some userId /\ s_ip s = ip))
  /\ (forall e w,
        user.getUserIps EmptyString e w = (Throw (AssertionError "userId不能为空"), w))
  /\ (forall userId e w,
        JS.truthy userId = true -> isValid userId = false ->
        user.getUserIps userId e w = (Throw (AssertionError "不合法的userId"), w)).
Proof.
  split_and!.
  - intros userId e w ips w'. unfold user.getUserIps. mreturned. unfold ret.
    intros [= <- <-]. split; [reflexivity|]. split; [first [reflexivity|assumption]|].
    destruct (from_Set_spec []
                (List.map s_ip (find (fun s => bool_decide (s_user s = Some userId)) (sockets w))))
      as (Hnd & Hin).
    split; [exact Hnd|]. intros ip. rewrite Hin. rewrite in_map_iff. split.
    + intros ((s & Hip & Hs) & _). apply find_In in Hs. destruct Hs as (Hs & Hu).
      apply bool_decide_eq_true in Hu. exists s. tauto.
    + intros (s & Hs & Hu & Hip). split; [|intros []]. exists s. split; [exact Hip|].
      apply find_In. split; [exact Hs|]. apply bool_decide_eq_true. exact Hu.
  - intros e w. reflexivity.
  - intros userId e w Ht Hv. unfold user.getUserIps.
    rewrite bind_assert by exact Ht. rewrite Hv. reflexivity.
Qed.

(** The addresses of [ann], who is connected twice from one address. *)
Lemma addresses_of_ann :
  exists ips w',
    user.getUserIps Scenario.ann Scenario.normal Scenario.pair = (Return ips, w')
    /\ w' = Scenario.pair
    /\ List.NoDup ips
    /\ In "1.2.3.4" ips.
Proof.
  assert (exists ips w',
            user.getUserIps Scenario.ann Scenario.normal Scenario.pair = (Return ips, w'))
    as (ips & w' & Hrun) by (vm_compute; eexists; eexists; reflexivity).
  destruct (proj1 getUserIps_lists_each_address_once Scenario.ann Scenario.normal
              Scenario.pair ips w' Hrun) as (Hw & _ & Hnd & Hin).
  exists ips, w'. split_and!; [exact Hrun|exact Hw|exact Hnd|].
  apply Hin. exists (Sample.connection "s1" (Some Scenario.ann)).
  split_and!; [left; reflexivity|reflexivity|reflexivity].
Defined.

Lemma getUserOnlineStatus_hit cache userId en e w :
  JS.truthy userId = true -> isValid userId = true ->
  cache !! userId = Some en -> now e < user.expireTime en ->
  user.getUserOnlineStatus cache userId e w = (Return (user.value en, cache), w).
Proof.
  intros Ht Hv Hc Hfresh. unfold user.getUserOnlineStatus.
  rewrite bind_assert by exact Ht. rewrite bind_assert by exact Hv. rewrite bind_ask.
  cbn zeta. rewrite Hc. apply Z.ltb_lt in Hfresh.
  rewrite Hfresh. reflexivity.
Qed.

(** A run of [getUserOnlineStatus] that returned: it answered from the
    cache, or read the store and put its answer in the cache. *)
Lemma getUserOnlineStatus_returned cache userId e w v cache1 w' :
  user.getUserOnlineStatus cache userId e w = (Return (v, cache1), w') ->
  JS.truthy userId = true /\ isValid userId = true /\ w' = w
  /\ ((exists old, cache !! userId = Some old /\ now e < user.expireTime old
                   /\ v = user.value old /\ cache1 = cache)
      \/ (match cache !! userId with
          | Some old => user.expireTime old <= now e
          | None => True
          end
          /\ v = (0 <? length (find (fun s => bool_decide (s_user s = Some userId))
                                 (sockets w)))%nat
          /\ cache1 = <[userId := {| user.value := v;
                                     user.expireTime := now e + 60000 |}]> cache)).
Proof.
  unfold user.getUserOnlineStatus. mreturned.
  assert (Hmiss :
    (let* _ := await "getUserOnlineStatus/Socket.find" in
     let* sockets := gets (fun w => find (fun s => bool_decide (s_user s = Some userId))
                                      (sockets w)) in
     ret ((0 <? length sockets)%nat,
          <[userId := {| user.value := (0 <? length sockets)%nat;
                         user.expireTime := now e + user.UserOnlineStatusCacheExpireTime |}]>
            cache)) e w = (Return (v, cache1), w') ->
    w' = w
    /\ v = (0 <? length (find (fun s => bool_decide (s_user s = Some userId))
                           (sockets w)))%nat
    /\ cache1 = <[userId := {| user.value := v; user.expireTime := now e + 60000 |}]> cache).
  { mreturned. unfold ret. intros [= <- <- <-]. split_and!; reflexivity. }
  destruct (cache !! userId) as [old|] eqn:Hc.
  - destruct (now e <? user.expireTime old) eqn:Hfresh.
    + unfold ret. intros [= <- <- <-]. apply Z.ltb_lt in Hfresh.
      split_and!; try reflexivity. left. exists old. split_and!; try reflexivity; assumption.
    + intros H. destruct (Hmiss H) as (-> & Hv' & Hc'). apply Z.ltb_ge in Hfresh.
      split_and!; try reflexivity. right. split_and!; assumption.
  - intros H. destruct (Hmiss H) as (-> & Hv' & Hc').
    split_and!; try reflexivity. right. split_and!; trivial.
Qed.

(** X23. The presence of a user is answered from the store and then repeated
    for a minute. A run of [getUserOnlineStatus] that returned has
    changed nothing and has left in the cache an answer for this user
    that is the one it returned and is not expired; when the cache held
    no answer for the user, or an expired one, the answer says whether a
    connection of the user is stored, and it expires one minute later.
    As long as the answer of the cache is not expired, every call for
    this user returns it and leaves the cache alone, whatever the stored
    connections are then and even when the store rejects every
    operation. *)
Theorem online_status_is_repeated_for_a_minute cache userId e w v cache1 w' :
  user.getUserOnlineStatus cache userId e w = (Return (v, cache1), w') ->
  w' = w
  /\ exists en,
       cache1 !! userId = Some en /\ user.value en = v /\ now e < user.expireTime en
       /\ (match cache !! userId with
           | Some old => user.expireTime old <= now e
           | None => True
           end ->
           (v = true <-> exists s, In s (sockets w) /\ s_user s = Some userId)
           /\ user.expireTime en = now e + 60000
           /\ cache1 = <[userId := en]> cache)
       /\ (forall e2 w2,
             now e2 < user.expireTime en ->
             user.getUserOnlineStatus cache1 userId e2 w2 = (Return (v, cache1), w2)).
Proof.
  intros Hrun.
  destruct (getUserOnlineStatus_returned _ _ _ _ _ _ _ Hrun)
    as (Ht & Hv & -> & [(old & Hc & Hfresh & -> & ->)|(Hold & Hval & Hc1)]).
  - split; [reflexivity|]. exists old. split_and!; try assumption; try reflexivity.
    + rewrite Hc. intros Hexp. lia.
    + intros e2 w2 H2. apply (getUserOnlineStatus_hit _ _ old); assumption.
  - split; [reflexivity|].
    exists {| user.value := v; user.expireTime := now e + 60000 |}.
    split_and!.
    + rewrite Hc1. apply lookup_insert_eq.
    + reflexivity.
    + cbn. lia.
    + intros _. split_and!; try reflexivity; try assumption.
      rewrite Hval. destruct (find _ (sockets w)) as [|s l] eqn:Hf; cbn.
      * split; [discriminate|]. intros (s & Hs & Hu).
        pose proof (proj1 (find_nil_iff _ _) Hf s Hs) as Hn. cbn in Hn.
        apply bool_decide_eq_false in Hn. contradiction.
      * split; [|reflexivity]. intros _. exists s.
        assert (Hin : In s (find (fun s => bool_decide (s_user s = Some userId)) (sockets w)))
          by (rewrite Hf; left; reflexivity).
        apply find_In in Hin. destruct Hin as (Hs & Hu).
        apply bool_decide_eq_true in Hu. tauto.
    + intros e2 w2 H2.
      apply (getUserOnlineStatus_hit _ userId
               {| user.value := v; user.expireTime := now e + 60000 |} e2 w2 Ht Hv);
        [rewrite Hc1; apply lookup_insert_eq|exact H2].
Qed.

(** The presence of [ann] is read from the store, and repeated later in
    the same minute by a run in which the store rejects every operation
    and holds no connection. *)
Lemma presence_of_ann_is_cached :
  exists v cache1 w',
    user.getUserOnlineStatus ∅ Scenario.ann Scenario.normal Scenario.pair
    = (Return (v, cache1), w')
    /\ v = true
    /\ user.getUserOnlineStatus cache1 Scenario.ann
         (Sample.env 60004 Sample.server Sample.down Sample.no_directory Scenario.always)
         (Sample.nothing Scenario.admin)
       = (Return (v, cache1), Sample.nothing Scenario.admin).
Proof.
  assert (exists v cache1 w',
            user.getUserOnlineStatus ∅ Scenario.ann Scenario.normal Scenario.pair
            = (Return (v, cache1), w'))
    as (v & cache1 & w' & Hrun) by (vm_compute; eexists; eexists; eexists; reflexivity).
  destruct (online_status_is_repeated_for_a_minute ∅ Scenario.ann Scenario.normal
              Scenario.pair v cache1 w' Hrun) as (_ & en & _ & _ & _ & Hfresh & Hlater).
  destruct (Hfresh I) as (Hv & Hexp & _).
  exists v, cache1, w'. split_and!; [exact Hrun| |].
  - apply Hv. exists (Sample.connection "s1" (Some Scenario.ann)).
    split; [left; reflexivity|reflexivity].
  - apply Hlater. rewrite Hexp. vm_compute. reflexivity.
Defined.

(** ** What a route leaves alone *)

Section Frames.
Context {B : Type} (f : World -> B).

Lemma keeps_ret {A} (a : A) : keeps f (ret a).
Proof. intros e w. reflexivity. Qed.

Lemma keeps_throw {A} x : keeps f (@throw A x).
Proof. intros e w. reflexivity. Qed.

Lemma keeps_ask : keeps f ask.
Proof. intros e w. reflexivity. Qed.

Lemma keeps_gets {A} (g : World -> A) : keeps f (gets g).
Proof. intros e w. reflexivity. Qed.

Lemma keeps_await site : keeps f (await site).
Proof. intros e w. unfold await. destruct (fault e site); reflexivity. Qed.

Lemma keeps_assert b msg : keeps f (assert b msg).
Proof. intros e w. destruct b; reflexivity. Qed.

Lemma keeps_modify g : (forall w, f (g w) = f w) -> keeps f (modify g).
Proof. intros H e w. apply H. Qed.

Lemma keeps_bind {A C} (m : M A) (k : A -> M C) :
  keeps f m -> (forall a, keeps f (k a)) -> keeps f (bind m k).
Proof.
  intros Hm Hk e w. unfold bind. specialize (Hm e w).
  destruct (m e w) as [[a|x] w1]; cbn in *; [|exact Hm].
  rewrite (Hk a e w1). exact Hm.
Qed.

Lemma keeps_try_catch {A} (m : M A) h :
  keeps f m -> (forall x, keeps f (h x)) -> keeps f (try_catch m h).
Proof.
  intros Hm Hh e w. unfold try_catch. specialize (Hm e w).
  destruct (m e w) as [[a|x] w1]; cbn in *; [exact Hm|].
  rewrite (Hh x e w1). exact Hm.
Qed.

Lemma keeps_forEach {A} (xs : list A) body :
  (forall x, keeps f (body x)) -> keeps f (forEach xs body).
Proof.
  intros H. induction xs as [|x xs IH]; cbn [forEach]; [apply keeps_ret|].
  apply keeps_bind; [apply H|intros _; exact IH].
Qed.

Lemma keeps_settle ms first :
  (forall m, In m ms -> keeps f m) -> keeps f (user.settle ms first).
Proof.
  revert first. induction ms as [|m ms IH]; intros first H; cbn [user.settle].
  - apply keeps_ret.
  - intros e w. pose proof (H m (or_introl eq_refl) e w) as Hm.
    destruct (m e w) as [[a|x] w1]; cbn in *.
    + rewrite IH; [exact Hm|]. intros m' Hm'. apply H. right. exact Hm'.
    + rewrite IH; [exact Hm|]. intros m' Hm'. apply H. right. exact Hm'.
Qed.

Lemma keeps_Promise_all ms :
  (forall m, In m ms -> keeps f m) -> keeps f (user.Promise_all ms).
Proof.
  intros H. unfold user.Promise_all. apply keeps_bind; [apply keeps_settle; exact H|].
  intros [x|]; [apply keeps_throw|apply keeps_ret].
Qed.

Lemma keeps_handleStreamResponse frames stop cb full :
  (forall w g, f (set_logs g w) = f w) ->
  (forall c, keeps f (cb c)) ->
  keeps f (llmService.handleStreamResponse frames stop cb full).
Proof.
  intros Hlog Hcb. revert full. induction frames as [|fr rest IH]; intros full;
    cbn [llmService.handleStreamResponse].
  - destruct stop; [apply keeps_ret|].
    apply keeps_bind; [apply keeps_modify; intros w; apply Hlog|intros _; apply keeps_throw].
  - destruct fr as [c| |]; [|apply IH|apply keeps_ret].
    destruct (JS.truthy c); [|apply IH].
    apply keeps_bind; [|intros _; apply IH].
    apply keeps_try_catch; [apply Hcb|intros _; apply keeps_ret].
Qed.

End Frames.

(** One step of the proof that a route keeps a part of the world. *)
Ltac frame_step :=
  first
    [ apply keeps_ret | apply keeps_throw | apply keeps_ask | apply keeps_gets
    | apply keeps_await | apply keeps_assert
    | apply keeps_modify; intros ?; reflexivity
    | apply keeps_bind; [|intros ?]
    | apply keeps_try_catch; [|intros ?]
    | apply keeps_forEach; intros ?
    | match goal with
      | |- keeps _ (match ?x with _ => _ end) => destruct x
      | |- keeps _ (let (_, _) := ?x in _) => destruct x
      end ].

Ltac frame := repeat frame_step.

Lemma deleteUser_keeps {B} (f : World -> B) username :
  (forall w g, f (set_logs g w) = f w) ->
  (forall w g, f (set_events g w) = f w) ->
  (forall w k, (forall ip, k <> NewRegisteredUserIpKey ip) -> k <> DisableRegisterKey ->
               f (set_redis (delete k) w) = f w) ->
  (forall w g, f (set_io_sockets g w) = f w) ->
  (forall w g, f (set_histories g w) = f w) ->
  (forall w g, f (set_messages g w) = f w) ->
  (forall w g, f (set_groups g w) = f w) ->
  (forall w g, f (set_friends g w) = f w) ->
  (forall w g, f (set_sockets g w) = f w) ->
  (forall w g, f (set_notifications g w) = f w) ->
  (forall w g, f (set_users g w) = f w) ->
  keeps f (user.deleteUser username).
Proof.
  intros Hl He Hr Hi Hh Hm Hg Hf Hs Hn Hu.
  unfold user.deleteUser.
  apply keeps_bind; [apply keeps_assert|intros _].
  apply keeps_bind; [apply keeps_await|intros _].
  apply keeps_bind; [apply keeps_gets|intros [u|]]; [|apply keeps_throw].
  apply keeps_bind; [|intros _].
  { apply keeps_try_catch.
    - apply keeps_Promise_all. intros m [<-|[<-|[<-|[]]]]; unfold Redis.del;
        (apply keeps_bind; [apply keeps_await|intros _; apply keeps_modify; intros w; apply Hr];
         discriminate).
    - intros x. apply keeps_modify. intros w. apply Hl. }
  apply keeps_bind; [apply keeps_await|intros _].
  apply keeps_bind; [apply keeps_gets|intros userSockets].
  apply keeps_bind; [|intros _].
  { apply keeps_forEach. intros socketId.
    apply keeps_bind; [apply keeps_gets|intros [|]]; [|apply keeps_ret].
    apply keeps_bind; [apply keeps_modify; intros w; apply He|intros _].
    apply keeps_bind; [apply keeps_modify; intros w; apply He|intros _].
    apply keeps_modify. intros w. apply Hi. }
  apply keeps_bind; [apply keeps_await|intros _].
  apply keeps_bind; [apply keeps_gets|intros authored].
  apply keeps_bind; [|intros _].
  { destruct authored; [apply keeps_ret|].
    apply keeps_bind; [apply keeps_await|intros _].
    apply keeps_bind; [apply keeps_modify; intros w; apply Hh|intros _].
    apply keeps_bind; [apply keeps_await|intros _].
    apply keeps_modify. intros w. apply Hm. }
  apply keeps_bind; [apply keeps_await|intros _].
  apply keeps_bind; [apply keeps_gets|intros joined].
  apply keeps_bind; [|intros _].
  { apply keeps_Promise_all. intros m Hin. apply in_map_iff in Hin.
    destruct Hin as (g & <- & _). unfold user.Group_save.
    apply keeps_bind; [apply keeps_await|intros _]. apply keeps_modify. intros w. apply Hg. }
  apply keeps_bind; [apply keeps_await|intros _].
  apply keeps_bind; [apply keeps_modify; intros w; apply Hf|intros _].
  apply keeps_bind; [apply keeps_await|intros _].
  apply keeps_bind; [apply keeps_modify; intros w; apply Hf|intros _].
  apply keeps_bind; [apply keeps_await|intros _].
  apply keeps_bind; [apply keeps_modify; intros w; apply Hs|intros _].
  apply keeps_bind; [apply keeps_await|intros _].
  apply keeps_bind; [apply keeps_modify; intros w; apply Hn|intros _].
  apply keeps_bind; [apply keeps_await|intros _].
  apply keeps_bind; [apply keeps_modify; intros w; apply Hu|intros _].
  apply keeps_ret.
Qed.

(** X24. What the deletion of a user leaves behind. In every run of
    [deleteUser] or [hardDeleteUser], whether it returns or raises, the
    conversations with the bot are left alone, those of the deleted user
    included, and so are the bots. After a run of [deleteUser] that
    returned: each message written by another user is still stored, also
    when it was sent to the deleted user; the other users are still
    stored; and in Redis only the three keys of the deleted user and
    name may have gone: the counter of registrations of every address is
    the same. *)
Theorem deletion_keeps_conversations_and_received_messages :
  (forall username e w,
     conversations (user.deleteUser username e w).2 = conversations w
     /\ bots (user.deleteUser username e w).2 = bots w)
  /\ (forall userId e w,
        conversations (user.hardDeleteUser userId e w).2 = conversations w
        /\ bots (user.hardDeleteUser userId e w).2 = bots w)
  /\ (forall username e w r w',
        user.deleteUser username e w = (Return r, w') ->
        exists u,
          findOne (fun u => String.eqb (u_username u) username) (users w) = Some u
          /\ (forall m, In m (messages w) -> m_from m <> u_id u -> In m (messages w'))
          /\ (forall v, In v (users w) -> u_id v <> u_id u -> In v (users w'))
          /\ (forall ip, redis w' !! NewRegisteredUserIpKey ip
                         = redis w !! NewRegisteredUserIpKey ip)).
Proof.
  assert (Hc : forall username, keeps conversations (user.deleteUser username))
    by (intros; apply deleteUser_keeps; reflexivity).
  assert (Hb : forall username, keeps bots (user.deleteUser username))
    by (intros; apply deleteUser_keeps; reflexivity).
  split_and!.
  - intros username e w. split; [apply Hc|apply Hb].
  - intros userId e w.
    destruct (hardDeleteUser_run e w userId) as [(x & Hx)|(u & _ & Heq)].
    + rewrite Hx. split; reflexivity.
    + rewrite Heq. split; [apply Hc|apply Hb].
  - intros username e w r w' Hrun.
    destruct (deleteUser_returns _ _ _ _ _ Hrun) as (Hn & u & Hu).
    exists u. split; [exact Hu|].
    destruct (deleteUser_outcome e w username u _ _ Hn Hu Hrun)
      as [(? & ? & _ & _ & H' & _)|(_ & _ & _ & Eu & _ & _ & _ & Em & _)];
      [discriminate H'|].
    split_and!.
    + intros m Hm Hne. rewrite Em. apply deleteMany_In. split; [exact Hm|].
      apply String.eqb_neq. exact Hne.
    + intros v Hv Hne. rewrite Eu. apply deleteOne_In; [exact Hv|].
      apply String.eqb_neq. exact Hne.
    + intros ip.
      assert (Hk : keeps (fun w => redis w !! NewRegisteredUserIpKey ip)
                     (user.deleteUser username)).
      { apply deleteUser_keeps; try reflexivity.
        intros w0 k Hk _. cbn. apply lookup_delete_ne. apply Hk. }
      specialize (Hk e w). rewrite Hrun in Hk. exact Hk.
Qed.

(** An administrator deletes [ann]: the message that [bob] wrote is
    kept. *)
Lemma deletion_of_ann_keeps_the_messages_of_bob :
  exists r w',
    user.deleteUser "ann" Scenario.normal Sample.social = (Return r, w')
    /\ In (Sample.note "m2" "u2" "g1") (messages w')
    /\ conversations w' = conversations Sample.social.
Proof.
  assert (exists r w', user.deleteUser "ann" Scenario.normal Sample.social = (Return r, w'))
    as (r & w' & Hrun) by (vm_compute; eexists; eexists; reflexivity).
  destruct (proj2 (proj2 deletion_keeps_conversations_and_received_messages)
              "ann" Scenario.normal Sample.social r w' Hrun) as (u & Hu & Hm & _).
  assert (Hf : findOne (fun u => String.eqb (u_username u) "ann") (users Sample.social)
               = Some (Sample.member "u1" "ann" 0)) by (vm_compute; reflexivity).
  rewrite Hf in Hu. injection Hu as <-.
  pose proof (proj1 (proj1 deletion_keeps_conversations_and_received_messages
                       "ann" Scenario.normal Sample.social)) as Hc.
  rewrite Hrun in Hc.
  exists r, w'. split_and!; [exact Hrun| |exact Hc].
  apply Hm; [right; left; reflexivity|discriminate].
Defined.

Section BotFrames.
Context {B : Type} (f : World -> B).
Hypothesis Hlogs : forall w g, f (set_logs g w) = f w.
Hypothesis Hevents : forall w g, f (set_events g w) = f w.
Hypothesis Hconversations : forall w g, f (set_conversations g w) = f w.
Hypothesis Hmessages : forall w g, f (set_messages g w) = f w.

Local Ltac bot_frame :=
  repeat (cbn beta zeta;
    first
      [ apply keeps_ret | apply keeps_throw | apply keeps_ask | apply keeps_gets
      | apply keeps_await | apply keeps_assert
      | apply keeps_modify; intros ?;
          first [apply Hlogs | apply Hevents | apply Hconversations | apply Hmessages]
      | apply keeps_bind; [|intros ?]
      | apply keeps_try_catch; [|intros ?]
      | apply keeps_handleStreamResponse; [exact Hlogs|intros ?]
      | match goal with
        | |- keeps _ (match ?x with _ => _ end) => destruct x
        end ]).

Lemma chat_keeps messages config (cb : option (string -> M unit)) :
  (forall c k, cb = Some k -> keeps f (k c)) ->
  keeps f (llmService.chat messages config cb).
Proof.
  intros Hcb. unfold llmService.chat, logger.
  apply keeps_try_catch; [|intros ?; bot_frame].
  cbn beta zeta. apply keeps_bind; [apply keeps_ask|intros e].
  destruct (axios_post e _) as [data|m r]; [|apply keeps_throw].
  destruct (default _ (lc_stream config)); destruct cb as [k|]; bot_frame.
  apply (Hcb _ k eq_refl).
Qed.

Lemma sendMessageToBot_keeps content : keeps f (bot.sendMessageToBot content).
Proof.
  unfold bot.sendMessageToBot, bot.Conversation_create, bot.Conversation_save,
    bot.Message_create, emit, logger.
  bot_frame; try (apply chat_keeps; intros c k [= <-]; unfold emit; bot_frame).
Qed.

Lemma mentionBotInGroup_keeps groupId content :
  keeps f (bot.mentionBotInGroup groupId content).
Proof.
  unfold bot.mentionBotInGroup, bot.Conversation_create, bot.Conversation_save,
    bot.Message_create, emit, logger.
  bot_frame; try (apply chat_keeps; intros c k [= <-]; unfold emit; bot_frame).
Qed.

Lemma clearConversation_keeps groupId : keeps f (bot.clearConversation groupId).
Proof.
  unfold bot.clearConversation, bot.Conversation_save, logger. bot_frame.
Qed.

Lemma testLLMConnection_keeps llmUrl apiKey model :
  keeps f (bot.testLLMConnection llmUrl apiKey model).
Proof.
  unfold bot.testLLMConnection, llmService.testConnection, logger.
  bot_frame; try (apply chat_keeps; intros c k [=]).
Qed.

End BotFrames.

(** X25. The routes of the bot never touch an account: in every run of
    [sendMessageToBot], [mentionBotInGroup], [clearConversation] and
    [testLLMConnection], whether it returns or raises, the users, the
    groups, the friends, the connections, the notifications, the history
    marks and Redis are the same after the run as before; the two relays
    and [clearConversation] leave the configuration of the bots alone as
    well, and [clearConversation] never deletes a chat message. *)
Theorem bot_routes_leave_the_accounts_alone :
  (forall content e w,
     accounts (bot.sendMessageToBot content e w).2 = accounts w
     /\ bots (bot.sendMessageToBot content e w).2 = bots w)
  /\ (forall groupId content e w,
        accounts (bot.mentionBotInGroup groupId content e w).2 = accounts w
        /\ bots (bot.mentionBotInGroup groupId content e w).2 = bots w)
  /\ (forall groupId e w,
        accounts (bot.clearConversation groupId e w).2 = accounts w
        /\ bots (bot.clearConversation groupId e w).2 = bots w
        /\ messages (bot.clearConversation groupId e w).2 = messages w)
  /\ (forall llmUrl apiKey model e w,
        accounts (bot.testLLMConnection llmUrl apiKey model e w).2 = accounts w
        /\ bots (bot.testLLMConnection llmUrl apiKey model e w).2 = bots w
        /\ conversations (bot.testLLMConnection llmUrl apiKey model e w).2 = conversations w).
Proof.
  split_and!.
  - intros content e w. split; apply sendMessageToBot_keeps; reflexivity.
  - intros groupId content e w. split; apply mentionBotInGroup_keeps; reflexivity.
  - intros groupId e w. split_and!; apply clearConversation_keeps; reflexivity.
  - intros llmUrl apiKey model e w. split_and!; apply testLLMConnection_keeps; reflexivity.
Qed.

(** ** The switches of the registration *)

(** The check of the banned names: it never stops the registration; a
    banned name is logged as an error. *)
Lemma banned_check_logged username e w :
  available e ->
  exists w1,
    try_catch
      (let* isBanned := Redis.has "register/Redis.has:banned" (BannedUsernameKey username) in
       assert (negb isBanned) "该用户名已被封禁，无法使用")
      (fun redisError =>
         logger error "[register] Redis error when checking banned username:"
           (message_of redisError)) e w
    = (Return tt, w1)
    /\ same_store w w1 /\ events w1 = events w
    /\ logs w1 = logs w
         ++ (if bool_decide (is_Some (Redis.read (now e) (BannedUsernameKey username) (redis w)))
             then [banned_name_entry] else []).
Proof.
  intros Hav. unfold Redis.has, Redis.get.
  unfold try_catch, bind, await, ask, gets, logger, modify, ret, assert, throw.
  rewrite (Hav _).
  destruct (bool_decide _); cbn.
  - eexists. split; [reflexivity|]. unfold same_store. cbn. split_and!; reflexivity.
  - exists w. split; [reflexivity|]. rewrite app_nil_r.
    split; [apply same_store_refl|]. split; reflexivity.
Qed.

Lemma registration_limit_world ip e w :
  fault e "register/Redis.get:ip" = false ->
  (user.registration_limit ip e w).2 = w.
Proof.
  intros Hf. unfold user.registration_limit, Redis.get.
  unfold try_catch, bind, await, ask, gets, logger, modify, ret, assert, throw.
  rewrite Hf. destruct (Redis.read _ _ _) as [v|]; [|reflexivity].
  destruct (match JS.parseInt _ with Some n => n <? 3 | None => false end); reflexivity.
Qed.

(** A registration that passes every check. *)
Lemma register_passes e w d g :
  available e ->
  registration_open e w ->
  JS.truthy (user.rd_username d) = true ->
  JS.truthy (user.rd_password d) = true ->
  user_schema_accepts e (user.rd_username d) = true ->
  findOne (fun u => String.eqb (u_username u) (user.rd_username d)) (users w) = None ->
  findOne g_isDefault (groups w) = Some g ->
  limit_outcome (sk_ip (socket w)) e w = Return tt ->
  exists s w',
    user.register d e w = (Return (user.Data s), w')
    /\ user.ss_id s = newObjectId e "User"
    /\ user.ss_username s = user.rd_username d
    /\ users w' = users w
         ++ [user.new_user e (user.rd_username d) (genSalt e)
               (hash e (user.rd_password d) (genSalt e)) (sk_ip (socket w)) None]
    /\ logs w' = logs w
         ++ (if bool_decide (is_Some (Redis.read (now e)
                                        (BannedUsernameKey (user.rd_username d)) (redis w)))
             then [banned_name_entry] else []).
Proof.
  intros Hav Hopen Hn Hp Hschema Hfree Hg Hlimit.
  unfold user.register. rewrite bind_ask.
  unfold Redis.get at 1. mrun Hav.
  assert (Hflag : negb (match Redis.read (now e) DisableRegisterKey (redis w) with
                        | Some v => String.eqb v "true"
                        | None => disableRegister (config e)
                        end) = true).
  { unfold registration_open in Hopen.
    destruct (Redis.read (now e) DisableRegisterKey (redis w)) as [v|].
    - apply String.eqb_neq in Hopen. rewrite Hopen. reflexivity.
    - rewrite Hopen. reflexivity. }
  rewrite bind_assert by exact Hflag. mrun Hav.
  destruct (banned_check_logged (user.rd_username d) e w Hav) as (w1 & Hb & S1 & E1 & L1).
  rewrite bind_run, Hb.
  destruct S1 as (Su & Sg & Sf & Ss & Sm & Sh & Sn & Sc & Sb & Sr & Si & Sk).
  mrun Hav. rewrite Su, Hfree. rewrite bind_assert by reflexivity. rewrite bind_gets, Sk.
  destruct (registration_limit_run (sk_ip (socket w)) e w1) as (w2 & S2 & Hl2).
  rewrite (limit_outcome_same _ _ _ _ Sr), Hlimit in Hl2. rewrite bind_run, Hl2.
  assert (L2 : logs w2 = logs w1).
  { pose proof (registration_limit_world (sk_ip (socket w)) e w1 (Hav _)) as Hw.
    rewrite Hl2 in Hw. cbn in Hw. rewrite Hw. reflexivity. }
  destruct S2 as (Tu & Tg & Tf & Ts & Tm & Th & Tn & Tc & Tb & Tr & Ti & Tk).
  mrun Hav. rewrite Tg, Sg, Hg.
  rewrite bind_run.
  match goal with |- context [user.User_create _ ?u] =>
    rewrite (User_create_run _ u _ _ _ (Hav _) Hschema) end.
  unfold user.handleNewUser. rewrite bind_assoc, bind_ask.
  cbn [u_createTime u_id]. rewrite Z.sub_diag. change (0 <? OneDay) with true. cbn iota.
  unfold Redis.set, Redis.get. mrun Hav.
  destruct (JS.truthy (sk_ip (socket w))).
  - mrun Hav. unfold user.Group_save, user.generateToken, user.bind_socket. mrun Hav.
    do 2 eexists. split; [reflexivity|]. cbn.
    rewrite Tu, Su, L2, L1. split_and!; reflexivity.
  - mrun Hav. unfold user.Group_save, user.generateToken, user.bind_socket. mrun Hav.
    do 2 eexists. split; [reflexivity|]. cbn.
    rewrite Tu, Su, L2, L1. split_and!; reflexivity.
Qed.

(** X26. The switch of the registration in Redis overrides the configuration,
    in both directions. When the switch holds [true] the registration is
    refused, also when the configuration allows it; when the switch is
    not set the configuration decides; when the switch holds another
    value the registration is open, also when the configuration disables
    it: a valid attempt then returns the new session. A refused
    registration changes nothing. *)
Theorem redis_switch_overrides_the_configuration :
  (forall d e w,
     fault e "register/Redis.get:disable" = false ->
     Redis.read (now e) DisableRegisterKey (redis w) = Some "true" ->
     user.register d e w
     = (Throw (AssertionError "注册功能已被禁用, 请联系管理员开通账号"), w))
  /\ (forall d e w,
        fault e "register/Redis.get:disable" = false ->
        Redis.read (now e) DisableRegisterKey (redis w) = None ->
        disableRegister (config e) = true ->
        user.register d e w
        = (Throw (AssertionError "注册功能已被禁用, 请联系管理员开通账号"), w))
  /\ (forall d e w v g,
        available e ->
        Redis.read (now e) DisableRegisterKey (redis w) = Some v ->
        v <> "true" ->
        disableRegister (config e) = true ->
        JS.truthy (user.rd_username d) = true ->
        JS.truthy (user.rd_password d) = true ->
        user_schema_accepts e (user.rd_username d) = true ->
        findOne (fun u => String.eqb (u_username u) (user.rd_username d)) (users w) = None ->
        findOne g_isDefault (groups w) = Some g ->
        limit_outcome (sk_ip (socket w)) e w = Return tt ->
        exists s w',
          user.register d e w = (Return (user.Data s), w')
          /\ user.ss_username s = user.rd_username d
          /\ exists u, In u (users w') /\ u_id u = user.ss_id s
                       /\ u_username u = user.rd_username d).
Proof.
  split_and!.
  - intros d e w Hf Hr. unfold user.register. rewrite bind_ask.
    unfold Redis.get at 1. rewrite bind_assoc, (bind_await _ _ _ _ Hf).
    rewrite bind_assoc, bind_ask, bind_gets, Hr. reflexivity.
  - intros d e w Hf Hr Hc. unfold user.register. rewrite bind_ask.
    unfold Redis.get at 1. rewrite bind_assoc, (bind_await _ _ _ _ Hf).
    rewrite bind_assoc, bind_ask, bind_gets, Hr, Hc. reflexivity.
  - intros d e w v g Hav Hr Hv _ Hn Hp Hs Hfree Hg Hl.
    destruct (register_passes e w d g Hav) as (s & w' & Hrun & Hid & Hname & Hus & _);
      try assumption.
    { unfold registration_open. rewrite Hr. exact Hv. }
    exists s, w'. split_and!; try assumption.
    eexists. split; [rewrite Hus; apply in_or_app; right; left; reflexivity|].
    rewrite Hid. split; reflexivity.
Qed.

(** The configuration disables the registration and the switch in Redis
    holds [false]: [ann] registers. *)
Lemma switch_opens_a_closed_server :
  exists s w',
    user.register (Sample.signup "ann")
      (Sample.env 5 Scenario.closed Sample.down Sample.no_directory Sample.never)
      (Scenario.lobby_with DisableRegisterKey "false")
    = (Return (user.Data s), w')
    /\ user.ss_username s = "ann".
Proof.
  set (e := Sample.env 5 Scenario.closed Sample.down Sample.no_directory Sample.never).
  assert (Hav : available e) by (intros site; reflexivity).
  assert (Hr : Redis.read (now e) DisableRegisterKey
                 (redis (Scenario.lobby_with DisableRegisterKey "false")) = Some "false")
    by (vm_compute; reflexivity).
  assert (Hne : "false" <> "true") by discriminate.
  assert (Hf : findOne (fun u => String.eqb (u_username u)
                              (user.rd_username (Sample.signup "ann")))
                 (users (Scenario.lobby_with DisableRegisterKey "false")) = None)
    by (vm_compute; reflexivity).
  assert (Hg : findOne g_isDefault (groups (Scenario.lobby_with DisableRegisterKey "false"))
               = Some (Sample.room "g0" None true []))
    by (vm_compute; reflexivity).
  assert (Hl : limit_outcome (sk_ip (socket (Scenario.lobby_with DisableRegisterKey "false")))
                 e (Scenario.lobby_with DisableRegisterKey "false") = Return tt)
    by (vm_compute; reflexivity).
  destruct (proj2 (proj2 redis_switch_overrides_the_configuration)
              (Sample.signup "ann") e (Scenario.lobby_with DisableRegisterKey "false")
              "false" (Sample.room "g0" None true [])
              Hav Hr Hne eq_refl eq_refl eq_refl eq_refl Hf Hg Hl)
    as (s & w' & Hrun & Hname & _).
  exists s, w'. split; [exact Hrun|exact Hname].
Defined.

(** X27. A banned name does not stop a registration: the assertion on the
    banned names stands in the [try] whose [catch] only logs. When the
    name of a valid attempt is banned in Redis and the other checks pass,
    on an available store, [register] returns the new session, the user
    is created with this name, and the log has gained one error entry
    that says that the name is banned. *)
Theorem banned_name_still_registers e w d g v :
  available e ->
  registration_open e w ->
  JS.truthy (user.rd_username d) = true ->
  JS.truthy (user.rd_password d) = true ->
  user_schema_accepts e (user.rd_username d) = true ->
  findOne (fun u => String.eqb (u_username u) (user.rd_username d)) (users w) = None ->
  findOne g_isDefault (groups w) = Some g ->
  limit_outcome (sk_ip (socket w)) e w = Return tt ->
  Redis.read (now e) (BannedUsernameKey (user.rd_username d)) (redis w) = Some v ->
  exists s w',
    (Redis.has "register/Redis.has:banned" (BannedUsernameKey (user.rd_username d)) e w).1
      = Return true
    /\ user.register d e w = (Return (user.Data s), w')
    /\ user.ss_username s = user.rd_username d
    /\ (exists u, In u (users w') /\ u_id u = user.ss_id s
                  /\ u_username u = user.rd_username d)
    /\ logs w' = logs w ++ [banned_name_entry].
Proof.
  intros Hav Hopen Hn Hp Hs Hfree Hg Hl Hban.
  destruct (register_passes e w d g Hav Hopen Hn Hp Hs Hfree Hg Hl)
    as (s & w' & Hrun & Hid & Hname & Hus & Hlog).
  exists s, w'. split_and!; try assumption.
  - unfold Redis.has, Redis.get. unfold bind, await, ask, gets, ret. rewrite (Hav _), Hban.
    reflexivity.
  - eexists. split; [rewrite Hus; apply in_or_app; right; left; reflexivity|].
    rewrite Hid. split; reflexivity.
  - rewrite Hlog, Hban. rewrite bool_decide_eq_true_2 by eauto. reflexivity.
Qed.

(** The name [ann] is banned in Redis, and [ann] registers. *)
Lemma banned_ann_registers :
  exists s w',
    user.register (Sample.signup "ann") (Sample.at_time 5 "1")
      (Scenario.lobby_with (BannedUsernameKey "ann") "1")
    = (Return (user.Data s), w')
    /\ user.ss_username s = "ann"
    /\ logs w' = [banned_name_entry].
Proof.
  set (w := Scenario.lobby_with (BannedUsernameKey "ann") "1").
  assert (Hav : available (Sample.at_time 5 "1")) by (intros site; reflexivity).
  assert (Ho : registration_open (Sample.at_time 5 "1") w) by (vm_compute; reflexivity).
  assert (Hf : findOne (fun u => String.eqb (u_username u)
                              (user.rd_username (Sample.signup "ann"))) (users w) = None)
    by (vm_compute; reflexivity).
  assert (Hg : findOne g_isDefault (groups w) = Some (Sample.room "g0" None true []))
    by (vm_compute; reflexivity).
  assert (Hl : limit_outcome (sk_ip (socket w)) (Sample.at_time 5 "1") w = Return tt)
    by (vm_compute; reflexivity).
  assert (Hb : Redis.read (now (Sample.at_time 5 "1"))
                 (BannedUsernameKey (user.rd_username (Sample.signup "ann"))) (redis w)
               = Some "1")
    by (vm_compute; reflexivity).
  destruct (banned_name_still_registers (Sample.at_time 5 "1") w (Sample.signup "ann")
              (Sample.room "g0" None true []) "1"
              Hav Ho eq_refl eq_refl eq_refl Hf Hg Hl Hb)
    as (s & w' & _ & Hrun & Hname & _ & Hlog).
  exists s, w'. split_and!; [exact Hrun|exact Hname|exact Hlog].
Defined.

(** ** The account of a registration *)

(** A run of [register] that returned a session: the name and the
    password are not empty, no user had the name, and the new account
    stands last in the store. *)
Lemma register_returned_account e w d s w' :
  user.register d e w = (Return (user.Data s), w') ->
  JS.truthy (user.rd_username d) = true
  /\ JS.truthy (user.rd_password d) = true
  /\ findOne (fun u => String.eqb (u_username u) (user.rd_username d)) (users w) = None
  /\ user.ss_id s = newObjectId e "User"
  /\ user.ss_username s = user.rd_username d
  /\ users w'
     = users w ++ [user.new_user e (user.rd_username d) (genSalt e)
                     (hash e (user.rd_password d) (genSalt e)) (sk_ip (socket w)) None]
  /\ user.ss_token s
     = Some (Signed {| tp_user := newObjectId e "User";
                       tp_environment := user.environment (user.rd_env d);
                       tp_expires := now e + tokenExpiresTime (config e) |}
               (jwtSecret (config e))).
Proof.
  unfold user.register. rewrite bind_ask.
  unfold Redis.get at 1. rewrite bind_assoc. await_returned.
  rewrite bind_assoc, bind_ask, bind_gets.
  assert_returned. assert_returned. assert_returned.
  destruct (banned_check_run (user.rd_username d) e w) as (w1 & Hb & S1).
  rewrite bind_run, Hb.
  destruct S1 as (Su & Sg & Sf & Ss & Sm & Sh & Sn & Sc & Sb & Sr & Si & Sk).
  await_returned. rewrite bind_gets. assert_returned. rewrite bind_gets, Sk.
  destruct (registration_limit_run (sk_ip (socket w)) e w1) as (w2 & S2 & Hl2).
  rewrite bind_run, Hl2. destruct (limit_outcome _ e w1) as [[]|x]; [|intros [=]].
  destruct S2 as (Tu & Tg & Tf & Ts & Tm & Th & Tn & Tc & Tb & Tr & Ti & Tk).
  await_returned. rewrite bind_gets, Tg, Sg.
  destruct (findOne g_isDefault (groups w)) as [g|] eqn:Hg; [|intros [=]].
  rewrite bind_run, User_create_cases.
  destruct (fault e "register/User.create"); [intros [=]|].
  cbn [user.new_user u_username].
  destruct (user_schema_accepts e (user.rd_username d)); [|intros [=]].
  unfold user.handleNewUser. rewrite bind_assoc, bind_ask.
  cbn [u_createTime u_id]. rewrite Z.sub_diag. change (0 <? OneDay) with true. cbn iota.
  unfold Redis.set, Redis.get. mnorm. await_returned. mnorm.
  destruct (JS.truthy (sk_ip (socket w))) eqn:Hip.
  - mnorm. await_returned. mnorm. await_returned. mnorm.
    unfold user.Group_save, user.generateToken, user.bind_socket.
    mnorm. await_returned. mnorm. await_returned.
    rewrite bind_modify. unfold ret. intros [= <- <-]. cbn.
    apply bool_decide_eq_true in Heqb4. rewrite Su in Heqb4. rewrite Tu, Su.
    split_and!; try reflexivity; assumption.
  - mnorm.
    unfold user.Group_save, user.generateToken, user.bind_socket.
    mnorm. await_returned. mnorm. await_returned.
    rewrite bind_modify. unfold ret. intros [= <- <-]. cbn.
    apply bool_decide_eq_true in Heqb4. rewrite Su in Heqb4. rewrite Tu, Su.
    split_and!; try reflexivity; assumption.
Qed.

(** X28. A registered account can log in. After a run of [register] that
    returned a session, a login with the local account, the same name
    and the same password, on an available store, returns the session of
    the new user and binds the connection to it, when [compareSync]
    accepts the password against the hash that [register] stored; a
    login with this name and a password that [compareSync] refuses
    raises [bad credential] and changes nothing. *)
Theorem registered_account_can_log_in d e w s w1 :
  user.register d e w = (Return (user.Data s), w1) ->
  forall e2 d2,
    available e2 -> local_only e2 d2 ->
    user.ld_username d2 = user.rd_username d ->
    JS.truthy (user.ld_password d2) = true ->
    if compareSync e2 (user.ld_password d2) (hash e (user.rd_password d) (genSalt e))
    then exists s2 w2,
           user.login d2 e2 w1 = (Return s2, w2)
           /\ user.ss_id s2 = user.ss_id s
           /\ user.ss_username s2 = user.rd_username d
           /\ sk_user (socket w2) = user.ss_id s
    else user.login d2 e2 w1 = (Throw (AssertionError "密码错误"), w1).
Proof.
  intros Hrun e2 d2 Hav Hlocal Hname Hpw.
  destruct (register_returned_account _ _ _ _ _ Hrun) as (Hn & _ & Hfree & Hid & _ & Hus & _).
  pose proof (login_local e2 w1 d2 Hav) as H. rewrite Hname in H.
  specialize (H Hn Hpw Hlocal).
  rewrite Hus, (findOne_app_None _ _ _ Hfree) in H.
  unfold findOne in H. cbn [List.find user.new_user u_username] in H.
  rewrite String.eqb_refl in H. cbn [u_password u_id] in H.
  destruct (compareSync e2 _ _); [|exact H].
  destruct H as (s2 & w2 & Hl & Hs & Hun & _ & _ & Hsk & _).
  exists s2, w2. rewrite Hid. split_and!; assumption.
Qed.

(** [ann] registers, and logs in with her password. *)
Lemma ann_registers_and_logs_in :
  exists s w1 s2 w2,
    user.register (Sample.signup "ann") (Sample.at_time 1 "1") Sample.lobby
    = (Return (user.Data s), w1)
    /\ user.login (Sample.signin "ann" "pw") Scenario.normal w1 = (Return s2, w2)
    /\ user.ss_id s2 = user.ss_id s.
Proof.
  assert (exists s w1,
            user.register (Sample.signup "ann") (Sample.at_time 1 "1") Sample.lobby
            = (Return (user.Data s), w1)) as (s & w1 & Hrun)
    by (vm_compute; eexists; eexists; reflexivity).
  assert (Hav : available Scenario.normal) by (intros site; reflexivity).
  pose proof (registered_account_can_log_in (Sample.signup "ann") (Sample.at_time 1 "1")
                Sample.lobby s w1 Hrun Scenario.normal (Sample.signin "ann" "pw")
                Hav I eq_refl eq_refl) as H.
  assert (Hc : compareSync Scenario.normal (user.ld_password (Sample.signin "ann" "pw"))
                 (hash (Sample.at_time 1 "1") (user.rd_password (Sample.signup "ann"))
                    (genSalt (Sample.at_time 1 "1"))) = true)
    by (vm_compute; reflexivity).
  rewrite Hc in H. destruct H as (s2 & w2 & Hl & Hid & _).
  exists s, w1, s2, w2. split_and!; [exact Hrun|exact Hl|exact Hid].
Defined.

(** ** The token of a session *)

Lemma signed_token_reopens uid E expires key :
  reopens (Signed {| tp_user := uid; tp_environment := E; tp_expires := expires |} key)
    uid E expires key.
Proof.
  intros e w env Hav Hkey.
  unfold user.loginByToken. cbn [user.td_token user.td_env token_truthy].
  rewrite bind_assert by reflexivity. rewrite bind_ask.
  unfold jwt.decode. rewrite Hkey, String.eqb_refl.
  cbn [tp_expires tp_environment tp_user].
  split_and!.
  - intros Hexp. rewrite bind_assert_fails; [reflexivity|]. apply Z.ltb_ge. exact Hexp.
  - intros Hlive Henv. rewrite bind_assert by (apply Z.ltb_lt; exact Hlive).
    rewrite bind_assert_fails; [reflexivity|]. apply String.eqb_neq. exact Henv.
  - intros Hlive Henv u Hf. rewrite bind_assert by (apply Z.ltb_lt; exact Hlive).
    rewrite bind_assert by (apply String.eqb_eq; exact Henv).
    rewrite (bind_await _ _ _ _ (Hav _)), bind_gets, Hf.
    destruct (findOne_Some _ _ _ Hf) as (_ & Hid). apply String.eqb_eq in Hid.
    destruct (rebind_run u env e w Hav) as (s & w' & Hrun & Hs & Hsk & _).
    exists s, w'. rewrite <- Hid. split_and!; assumption.
Qed.

Lemma stored_after_save {A} (id : A -> ObjectId) d x l :
  In x l -> exists y, findOne (fun y => String.eqb (id y) (id x)) (save id d l) = Some y.
Proof.
  intros Hin.
  assert (Hi : In (id x) (List.map id (save id d l))).
  { rewrite save_ids. apply in_map. exact Hin. }
  apply in_map_iff in Hi. destruct Hi as (y & Hy & Hyin).
  apply (findOne_exists _ _ y Hyin). apply String.eqb_eq. exact Hy.
Qed.

(** X29. The token of a session reopens the session. The token that
    [register] returns, and the one that a login with the local account
    returns, reopen the session of the user for the environment of the
    client until the lifetime of the configuration has passed, on a
    server with the same key; and the user is stored after the run, so
    that [loginByToken] then succeeds. *)
Theorem issued_token_reopens_the_session :
  (forall d e w s w1,
     user.register d e w = (Return (user.Data s), w1) ->
     exists tok u,
       user.ss_token s = Some tok
       /\ findOne (fun u => String.eqb (u_id u) (user.ss_id s)) (users w1) = Some u
       /\ reopens tok (user.ss_id s) (user.environment (user.rd_env d))
            (now e + tokenExpiresTime (config e)) (jwtSecret (config e)))
  /\ (forall d e w s w1,
        available e ->
        JS.truthy (user.ld_username d) = true ->
        JS.truthy (user.ld_password d) = true ->
        local_only e d ->
        user.login d e w = (Return s, w1) ->
        exists tok u,
          user.ss_token s = Some tok
          /\ findOne (fun u => String.eqb (u_id u) (user.ss_id s)) (users w1) = Some u
          /\ reopens tok (user.ss_id s) (user.environment (user.ld_env d))
               (now e + tokenExpiresTime (config e)) (jwtSecret (config e))).
Proof.
  split.
  - intros d e w s w1 Hrun.
    destruct (register_returned_account _ _ _ _ _ Hrun) as (_ & _ & _ & Hid & _ & Hus & Htok).
    assert (Hin : In (user.new_user e (user.rd_username d) (genSalt e)
                        (hash e (user.rd_password d) (genSalt e)) (sk_ip (socket w)) None)
                    (users w1)).
    { rewrite Hus. apply in_or_app. right. left. reflexivity. }
    destruct (findOne_exists (fun u => String.eqb (u_id u) (user.ss_id s)) _ _ Hin) as (u & Hu).
    { rewrite Hid. apply String.eqb_refl. }
    eexists. exists u. split; [exact Htok|]. split; [exact Hu|].
    rewrite Hid. apply signed_token_reopens.
  - intros d e w s w1 Hav Hn Hp Hlocal Hrun.
    pose proof (login_local e w d Hav Hn Hp Hlocal) as H.
    destruct (findOne _ (users w)) as [u|] eqn:Hf; [|congruence].
    destruct (compareSync e _ _); [|congruence].
    destruct H as (s' & w' & Hrun' & Hid & _ & _ & Htok & _ & Hus & _).
    rewrite Hrun in Hrun'. injection Hrun' as <- <-.
    destruct (findOne_Some _ _ _ Hf) as (Hin & _).
    destruct (stored_after_save u_id (logged_in e w u) u (users w) Hin) as (y & Hy).
    eexists. exists y. split; [exact Htok|]. rewrite Hus, Hid. split; [exact Hy|].
    apply signed_token_reopens.
Qed.

(** [ann] registers, and comes back later with her token. *)
Lemma ann_comes_back_with_her_token :
  exists s w1 tok s2 w2,
    user.register (Sample.signup "ann") (Sample.at_time 1 "1") Sample.lobby
    = (Return (user.Data s), w1)
    /\ user.ss_token s = Some tok
    /\ user.loginByToken {| user.td_token := tok; user.td_env := user.rd_env (Sample.signup "ann") |}
         (Sample.at_time 1000 "2") w1
       = (Return (user.Data s2), w2)
    /\ user.ss_id s2 = user.ss_id s.
Proof.
  assert (exists s w1,
            user.register (Sample.signup "ann") (Sample.at_time 1 "1") Sample.lobby
            = (Return (user.Data s), w1)) as (s & w1 & Hrun)
    by (vm_compute; eexists; eexists; reflexivity).
  destruct (proj1 issued_token_reopens_the_session _ _ _ _ _ Hrun) as (tok & u & Htok & Hu & Hre).
  assert (Hav : available (Sample.at_time 1000 "2")) by (intros site; reflexivity).
  destruct (Hre (Sample.at_time 1000 "2") w1 (user.rd_env (Sample.signup "ann")) Hav eq_refl)
    as (_ & _ & Hok).
  assert (Hlive : now (Sample.at_time 1000 "2")
                  < now (Sample.at_time 1 "1")
                    + tokenExpiresTime (config (Sample.at_time 1 "1")))
    by (vm_compute; reflexivity).
  destruct (Hok Hlive eq_refl u Hu) as (s2 & w2 & Hl & Hid & _).
  exists s, w1, tok, s2, w2. split_and!; [exact Hrun|exact Htok|exact Hl|exact Hid].
Defined.
